(** * The MXNet-to-ONNX operator translation rules, and their specification

    A shallow embedding of
    [python/mxnet/contrib/onnx/mx2onnx/_op_translations.py]: the attribute
    parsers, the constant materialisers and the translation rules, followed by
    the properties the specification states about them.

    Conventions.
    - A Python exception is a value of [pyerr]; a call that may raise returns
      a [pyres].
    - The shared initializer list ([kwargs["initializer"]]) is mutated by the
      rules; a rule is a function from the list before the call to an outcome
      and the list after it (the monad [M]).
    - Attribute strings are ASCII; a Python [str] is a [string].
    - Floating values are [spec_float]s (IEEE 754 values of any format);
      what the numpy and onnx libraries compute beyond rounding is a
      parameter (the class [External]). *)

From Stdlib Require Import ZArith String Ascii List Lia Bool.
From Stdlib Require Import Floats.SpecFloat.
From stdpp Require Import gmap strings list pretty.

#[local] Set Warnings "-register-all,-clear-no-such-hyp".

Open Scope string_scope.
Open Scope Z_scope.
Open Scope list_scope.

(** ** Python values and exceptions *)

(** The exceptions that carry no message of this program: the interpreter
    and the libraries raise them. *)
Inductive builtin_error : Type :=
| KeyError
| IndexError
| TypeError
| ValueError
| OverflowError
| SyntaxError
| NameError
| AssertionError.

(** The two exception classes the rules raise with a message of their own. *)
Inductive pyerr : Type :=
| Builtin (e : builtin_error)
| AttributeError (msg : string)
| NotImplementedError (msg : string).
Coercion Builtin : builtin_error >-> pyerr.

Inductive pyres (A : Type) : Type :=
| Ret (a : A)
| Raise (e : pyerr).
Arguments Ret {A} a.
Arguments Raise {A} e.

(** What a library call gives: a value, or one of the built-in exceptions. *)
Definition of_lib {A} (r : builtin_error + A) : pyres A :=
  match r with
  | inr a => Ret a
  | inl e => Raise e
  end.

#[export] Instance pyres_ret : MRet pyres := fun A a => Ret a.
#[export] Instance pyres_bind : MBind pyres := fun A B k r =>
  match r with
  | Ret a => k a
  | Raise e => Raise e
  end.

(** The numpy element types that [onnx.mapping] knows, and a catch-all for
    the others. *)
Inductive np_dtype : Type :=
| Float16 | Float32 | Float64
| Int8 | Int16 | Int32 | Int64
| UInt8 | UInt16 | UInt32 | UInt64
| NpBool | Complex64 | Complex128 | NpObject
| OtherDtype (descr : string).

Inductive num : Type :=
| NInt (z : Z)
| NFloat (f : spec_float).

(** A numpy array; a numpy scalar is an array of shape [()]. *)
Record ndarray : Type := mk_ndarray {
  nd_dtype : np_dtype;
  nd_shape : list Z;
  nd_data : list num
}.

Inductive pyval : Type :=
| PyNone
| PyInt (z : Z)
| PyFloat (f : spec_float)
| PyStr (s : string)
| PyList (l : list pyval)
| PyTuple (l : list pyval)
| PyNp (a : ndarray).

(** ** Strings: the [str] methods the parsers use *)

Definition chars (s : string) : list ascii := list_ascii_of_string s.
Definition str_of (l : list ascii) : string := string_of_list_ascii l.

Definition ascii_eqb (a b : ascii) : bool := Ascii.eqb a b.

Definition is_digit (c : ascii) : bool :=
  let n := N_of_ascii c in ((48 <=? n) && (n <=? 57))%N.

Definition digit_value (c : ascii) : Z := Z.of_N (N_of_ascii c) - 48.

(** [str.strip()] removes the white space at both ends: the ASCII blanks
    (tab, line feed, vertical tab, form feed, carriage return, the four
    separators 28..31 and the space). *)
Definition is_space (c : ascii) : bool :=
  let n := N_of_ascii c in
  (((9 <=? n) && (n <=? 13)) || ((28 <=? n) && (n <=? 32)))%N.

Fixpoint lstrip (l : list ascii) : list ascii :=
  match l with
  | c :: t => if is_space c then lstrip t else l
  | [] => []
  end.

Definition strip_chars (l : list ascii) : list ascii :=
  rev (lstrip (rev (lstrip l))).

Definition strip (s : string) : string := str_of (strip_chars (chars s)).

(** [s.replace(c, "")] for a one-character [c]. *)
Definition remove_char (c : ascii) (l : list ascii) : list ascii :=
  List.filter (fun x => negb (ascii_eqb x c)) l.

(** [s.split(sep)] for a one-character separator: the pieces between the
    separators, at least one piece. *)
Fixpoint split_on (sep : ascii) (l : list ascii) : list (list ascii) :=
  match l with
  | [] => [[]]
  | c :: t =>
      if ascii_eqb c sep then [] :: split_on sep t
      else match split_on sep t with
           | p :: ps => (c :: p) :: ps
           | [] => [[c]]
           end
  end.

(** [str(n)] for an integer. *)
Definition str_of_Z (z : Z) : string := pretty z.

(** [int(s)] for a string, base ten: white space around, an optional sign,
    then digits, where single underscores may separate digits. *)
Fixpoint int_digits (acc : Z) (l : list ascii) : option Z :=
  match l with
  | [] => Some acc
  | c :: t =>
      if is_digit c then int_digits (10 * acc + digit_value c) t
      else if ascii_eqb c "_" then
        match t with
        | d :: t' =>
            if is_digit d then int_digits (10 * acc + digit_value d) t'
            else None
        | [] => None
        end
      else None
  end.

Definition int_unsigned (l : list ascii) : option Z :=
  match l with
  | c :: t => if is_digit c then int_digits (digit_value c) t else None
  | [] => None
  end.

Definition int_of_chars (l : list ascii) : option Z :=
  match strip_chars l with
  | c :: t =>
      if ascii_eqb c "-" then option_map Z.opp (int_unsigned t)
      else if ascii_eqb c "+" then int_unsigned t
      else int_unsigned (c :: t)
  | [] => None
  end.

Definition int_of_string (s : string) : pyres Z :=
  match int_of_chars (chars s) with
  | Some z => Ret z
  | None => Raise ValueError
  end.

(** ** [parse_helper]: the dimension-list parser *)

(** The pattern [\([0-9L|,| ]+\)]: an opening parenthesis, one or more
    characters of the class (digits, [L], [|], [,], space), a closing
    parenthesis. *)
Definition in_tuple_class (c : ascii) : bool :=
  is_digit c || ascii_eqb c "L" || ascii_eqb c "|" || ascii_eqb c ","
  || ascii_eqb c " ".

(** The longest run of class characters at the head of [l], and what
    follows it. *)
Fixpoint class_run (l : list ascii) : nat * list ascii :=
  match l with
  | c :: t =>
      if in_tuple_class c then
        let '(n, rest) := class_run t in (S n, rest)
      else (O, l)
  | [] => (O, [])
  end.

(** A match of the pattern at the head of [l], as its length. The closing
    parenthesis is not in the class, so the greedy [+] can only succeed on
    the longest run: after a shorter one the next character is a class
    character. *)
Definition tuple_re_match_here (l : list ascii) : option nat :=
  match l with
  | c :: t =>
      if ascii_eqb c "(" then
        match class_run t with
        | (S n, d :: _) => if ascii_eqb d ")" then Some (S n + 2)%nat else None
        | _ => None
        end
      else None
  | [] => None
  end.

(** [tuple_re.search(s)]: the leftmost match, as its span [(start, end)]. *)
Fixpoint tuple_re_search_from (i : nat) (l : list ascii) : option (nat * nat) :=
  match tuple_re_match_here l with
  | Some n => Some (i, (i + n)%nat)
  | None =>
      match l with
      | _ :: t => tuple_re_search_from (S i) t
      | [] => None
      end
  end.

Definition tuple_re_search (s : string) : option (nat * nat) :=
  tuple_re_search_from 0 (chars s).

(** [eval] on the strings that reach it, which match the pattern as a whole:
    a parenthesis, then integer literals, names made of [L] and digits, the
    operator [|], commas and spaces, then a parenthesis (Python 3). *)
Inductive token : Type :=
| TLpar | TRpar | TComma | TBar
| TNum (z : Z)
| TName
| TBad.

(** The digits at the head of [l], most significant first, and the rest. *)
Fixpoint digit_run (l : list ascii) : list ascii * list ascii :=
  match l with
  | c :: t =>
      if is_digit c then let '(ds, rest) := digit_run t in (c :: ds, rest)
      else ([], l)
  | [] => ([], [])
  end.

Fixpoint name_run (l : list ascii) : list ascii :=
  match l with
  | c :: t => if is_digit c || ascii_eqb c "L" then name_run t else l
  | [] => []
  end.

(** A decimal literal: no leading zero unless every digit is zero, and no
    letter right after it. *)
Definition number_token (ds rest : list ascii) : token :=
  match rest with
  | c :: _ => if ascii_eqb c "L" then TBad else
      match ds with
      | d :: _ :: _ =>
          if ascii_eqb d "0" && negb (forallb (ascii_eqb "0") ds) then TBad
          else TNum (fold_left (fun a x => 10 * a + digit_value x) ds 0)
      | _ => TNum (fold_left (fun a x => 10 * a + digit_value x) ds 0)
      end
  | [] =>
      match ds with
      | d :: _ :: _ =>
          if ascii_eqb d "0" && negb (forallb (ascii_eqb "0") ds) then TBad
          else TNum (fold_left (fun a x => 10 * a + digit_value x) ds 0)
      | _ => TNum (fold_left (fun a x => 10 * a + digit_value x) ds 0)
      end
  end.

Fixpoint tokenize (fuel : nat) (l : list ascii) : list token :=
  match fuel with
  | O => []
  | S fuel =>
      match l with
      | [] => []
      | c :: t =>
          if ascii_eqb c " " then tokenize fuel t
          else if ascii_eqb c "(" then TLpar :: tokenize fuel t
          else if ascii_eqb c ")" then TRpar :: tokenize fuel t
          else if ascii_eqb c "," then TComma :: tokenize fuel t
          else if ascii_eqb c "|" then TBar :: tokenize fuel t
          else if ascii_eqb c "L" then TName :: tokenize fuel (name_run t)
          else if is_digit c then
            let '(ds, rest) := digit_run l in
            number_token ds rest :: tokenize fuel rest
          else [TBad]
      end
  end.

(** What an expression evaluates to: [None] stands for a [NameError] (a name
    was read; no name is bound in the scope of the call). *)
Definition atom_value (t : token) : option (option Z) :=
  match t with
  | TNum z => Some (Some z)
  | TName => Some None
  | _ => None
  end.

Definition or_values (a b : option Z) : option Z :=
  match a, b with
  | Some x, Some y => Some (Z.lor x y)
  | _, _ => None
  end.

(** [atom ('|' atom)*] at the head of the tokens: its value and the rest;
    [None] when the tokens do not start with such an expression. *)
Fixpoint parse_or_tail (acc : option Z) (ts : list token)
  : option (option Z * list token) :=
  match ts with
  | TBar :: a :: rest =>
      match atom_value a with
      | Some v => parse_or_tail (or_values acc v) rest
      | None => None
      end
  | TBar :: [] => None
  | _ => Some (acc, ts)
  end.

Definition parse_or_expr (ts : list token) : option (option Z * list token) :=
  match ts with
  | a :: rest =>
      match atom_value a with
      | Some v => parse_or_tail v rest
      | None => None
      end
  | [] => None
  end.

(** The expressions after the first one of a parenthesised list, up to the
    closing parenthesis that ends the input: [(',' expr)* [','] ')']. *)
Fixpoint parse_more (fuel : nat) (ts : list token)
  : option (list (option Z)) :=
  match fuel with
  | O => None
  | S fuel =>
      match ts with
      | [TRpar] => Some []
      | [TComma; TRpar] => Some []
      | TComma :: rest =>
          match parse_or_expr rest with
          | Some (v, rest') =>
              match parse_more fuel rest' with
              | Some vs => Some (v :: vs)
              | None => None
              end
          | None => None
          end
      | _ => None
      end
  end.

(** All the values, or [None] when one of them is a [NameError]. *)
Fixpoint all_values (vs : list (option Z)) : option (list Z) :=
  match vs with
  | [] => Some []
  | Some z :: t => option_map (cons z) (all_values t)
  | None :: _ => None
  end.

Definition py_eval_dims (s : string) : pyres pyval :=
  let ts := tokenize (S (String.length s)) (chars s) in
  match ts with
  | [TLpar; TRpar] => Ret (PyTuple [])
  | TLpar :: body =>
      match parse_or_expr body with
      | Some (v, [TRpar]) =>
          match v with
          | Some z => Ret (PyInt z)
          | None => Raise NameError
          end
      | Some (v, rest) =>
          match parse_more (S (List.length rest)) rest with
          | Some vs =>
              match all_values (v :: vs) with
              | Some zs => Ret (PyTuple (map PyInt zs))
              | None => Raise NameError
              end
          | None => Raise SyntaxError
          end
      | None => Raise SyntaxError
      end
  | _ => Raise SyntaxError
  end.

Definition parse_helper (attrs : gmap string string) (attrs_name : string)
    (alt_value : pyval) : pyres pyval :=
  if decide (attrs = ∅) then Ret alt_value
  else
    match attrs !! attrs_name with
    | None => Ret alt_value
    | Some attrs_str =>
        match tuple_re_search attrs_str with
        | Some span =>
            if decide (span = (0%nat, String.length attrs_str)) then
              py_eval_dims attrs_str
            else
              Raise (AttributeError
                       ("Malformed " +:+ attrs_name +:+ " dimensions: "
                        +:+ attrs_str))
        | None => Ret alt_value
        end
    end.


(** ** Lists as Python lists: indexing raises out of range *)

Definition list_get {A} (l : list A) (i : nat) : pyres A :=
  match l !! i with
  | Some x => Ret x
  | None => Raise IndexError
  end.

Definition list_set {A} (l : list A) (i : nat) (x : A) : pyres (list A) :=
  if decide (i < length l)%nat then Ret (<[i:=x]> l) else Raise IndexError.

(** A [for] loop over [l] that threads the state [st] and stops at the first
    exception. *)
Fixpoint for_each {S A} (body : S -> A -> pyres S) (l : list A) (st : S)
  : pyres S :=
  match l with
  | [] => Ret st
  | x :: t => st' ← body st x; for_each body t st'
  end.

(** ** [transform_padding] *)

(** The state of the loop: [onnx_pad_width], [start_index], [end_index]. *)
Definition transform_padding_body (pad_width : list pyval)
    (st : list pyval * nat * nat) (idx : nat)
  : pyres (list pyval * nat * nat) :=
  let '(onnx_pad_width, start_index, end_index) := st in
  v ← list_get pad_width idx;
  if (idx mod 2 =? 0)%nat then
    w ← list_set onnx_pad_width start_index v;
    Ret (w, S start_index, end_index)
  else
    w ← list_set onnx_pad_width end_index v;
    Ret (w, start_index, S end_index).

(** [int(num_pad_values/2)] is the integer half for every length a list can
    have. *)
Definition transform_padding (pad_width : list pyval) : pyres (list pyval) :=
  let num_pad_values := length pad_width in
  let onnx_pad_width := replicate num_pad_values (PyInt 0) in
  st ← for_each (transform_padding_body pad_width) (seq 0 num_pad_values)
       (onnx_pad_width, 0%nat, (num_pad_values / 2)%nat);
  Ret (st.1.1).

(** The elements at the even positions and at the odd positions of a list,
    in order: the layout [[all begins..., all ends...]] in the words of the
    specification. *)
Fixpoint even_index_elements {A} (l : list A) : list A :=
  match l with
  | x :: _ :: t => x :: even_index_elements t
  | [x] => [x]
  | [] => []
  end.

Fixpoint odd_index_elements {A} (l : list A) : list A :=
  match l with
  | _ :: y :: t => y :: odd_index_elements t
  | _ => []
  end.

(** ** [convert_string_to_list] *)

Definition clean_element (val : list ascii) : list ascii :=
  remove_char "]" (remove_char "[" (remove_char "L" (remove_char ")"
    (remove_char "(" (strip_chars val))))).

Definition convert_string_to_list_body (result_list : list pyval)
    (val : list ascii) : pyres (list pyval) :=
  let val := clean_element val in
  if decide (str_of val = "None") then Ret (result_list ++ [PyNone])
  else if negb (bool_decide (str_of val = "")) then
    match int_of_chars val with
    | Some z => Ret (result_list ++ [PyInt z])
    | None => Raise ValueError
    end
  else Ret result_list.

(** [string_val] is [None] when the caller read an absent attribute; [None]
    has no [split]. *)
Definition convert_string_to_list (string_val : option string)
  : pyres (list pyval) :=
  match string_val with
  | None => Raise (AttributeError "'NoneType' object has no attribute 'split'")
  | Some s =>
      for_each convert_string_to_list_body (split_on "," (chars s)) []
  end.

(** ** [get_boolean_attribute_value] *)

Definition get_boolean_attribute_value (attrs : gmap string string)
    (attr_name : string) : Z :=
  match attrs !! attr_name with
  | Some v => if bool_decide (v = "True") || bool_decide (v = "1") then 1 else 0
  | None => 0
  end.

(** ** The target format: tensors, value descriptors and nodes *)

(** [onnx.helper.make_tensor(name, data_type, dims, vals)] keeps what it is
    given; [t_vals] is the Python object passed as [vals]. *)
Record TensorProto : Type := make_tensor {
  t_name : string;
  t_data_type : Z;
  t_dims : list Z;
  t_vals : pyval
}.

(** [onnx.helper.make_tensor_value_info(name, elem_type, shape)]. *)
Record ValueInfoProto : Type := make_tensor_value_info {
  vi_name : string;
  vi_elem_type : Z;
  vi_shape : list Z
}.

Inductive attr_value : Type :=
| AVal (v : pyval)
| ATensor (t : TensorProto).

(** [onnx.helper.make_node(op_type, inputs, outputs, name=..., **attrs)];
    a node made without [name] has the empty name. The attributes are kept
    in the order the source writes them. *)
Record NodeProto : Type := mk_node {
  op_type : string;
  input : list string;
  output : list string;
  name : string;
  attribute : list (string * attr_value)
}.

Definition make_node (op_type : string) (inputs outputs : list string)
    (attrs : list (string * attr_value)) : NodeProto :=
  mk_node op_type inputs outputs "" attrs.

Definition make_named_node (op_type : string) (inputs outputs : list string)
    (name : string) (attrs : list (string * attr_value)) : NodeProto :=
  mk_node op_type inputs outputs name attrs.

(** What a rule returns is a list of nodes and value descriptors. *)
Inductive graph_item : Type :=
| ItemNode (n : NodeProto)
| ItemValue (v : ValueInfoProto).

Definition item_name (i : graph_item) : string :=
  match i with
  | ItemNode n => name n
  | ItemValue v => vi_name v
  end.

(** The element types of [onnx.TensorProto]. *)
Definition FLOAT : Z := 1.
Definition UINT8 : Z := 2.
Definition INT8 : Z := 3.
Definition UINT16 : Z := 4.
Definition INT16 : Z := 5.
Definition INT32 : Z := 6.
Definition INT64 : Z := 7.
Definition STRING : Z := 8.
Definition BOOL : Z := 9.
Definition FLOAT16 : Z := 10.
Definition DOUBLE : Z := 11.
Definition UINT32 : Z := 12.
Definition UINT64 : Z := 13.
Definition COMPLEX64 : Z := 14.
Definition COMPLEX128 : Z := 15.

(** The tables [onnx.mapping.TENSOR_TYPE_TO_NP_TYPE] and
    [onnx.mapping.NP_TYPE_TO_TENSOR_TYPE]; a key that is not in the table is a
    [KeyError]. *)
Definition TENSOR_TYPE_TO_NP_TYPE (t : Z) : pyres np_dtype :=
  match t with
  | 1 => Ret Float32 | 2 => Ret UInt8 | 3 => Ret Int8 | 4 => Ret UInt16
  | 5 => Ret Int16 | 6 => Ret Int32 | 7 => Ret Int64 | 8 => Ret NpObject
  | 9 => Ret NpBool | 10 => Ret Float16 | 11 => Ret Float64
  | 12 => Ret UInt32 | 13 => Ret UInt64 | 14 => Ret Complex64
  | 15 => Ret Complex128
  | _ => Raise KeyError
  end.

Definition NP_TYPE_TO_TENSOR_TYPE (d : np_dtype) : pyres Z :=
  match d with
  | Float32 => Ret FLOAT | UInt8 => Ret UINT8 | Int8 => Ret INT8
  | UInt16 => Ret UINT16 | Int16 => Ret INT16 | Int32 => Ret INT32
  | Int64 => Ret INT64 | NpObject => Ret STRING | NpBool => Ret BOOL
  | Float16 => Ret FLOAT16 | Float64 => Ret DOUBLE | UInt32 => Ret UINT32
  | UInt64 => Ret UINT64 | Complex64 => Ret COMPLEX64
  | Complex128 => Ret COMPLEX128
  | OtherDtype _ => Raise KeyError
  end.

(** [str(dtype)] for a numpy dtype. *)
Definition dtype_name (d : np_dtype) : string :=
  match d with
  | Float16 => "float16" | Float32 => "float32" | Float64 => "float64"
  | Int8 => "int8" | Int16 => "int16" | Int32 => "int32" | Int64 => "int64"
  | UInt8 => "uint8" | UInt16 => "uint16" | UInt32 => "uint32"
  | UInt64 => "uint64" | NpBool => "bool" | Complex64 => "complex64"
  | Complex128 => "complex128" | NpObject => "object"
  | OtherDtype s => s
  end.

Definition canonical_dtype (s : string) : option np_dtype :=
  List.find (fun d => bool_decide (dtype_name d = s))
    [Float16; Float32; Float64; Int8; Int16; Int32; Int64; UInt8; UInt16;
     UInt32; UInt64; NpBool; Complex64; Complex128; NpObject].

(** ** Floating values *)

(** The formats: precision and exponent bound of binary16, binary32 and
    binary64. *)
Definition float_format (d : np_dtype) : option (Z * Z) :=
  match d with
  | Float16 => Some (11, 16)
  | Float32 => Some (24, 128)
  | Float64 => Some (53, 1024)
  | _ => None
  end.

(** Rounding a value to a format, to the nearest with ties to even. *)
Definition SFround (prec emax : Z) (x : spec_float) : spec_float :=
  match x with
  | S754_finite s m e =>
      binary_normalize prec emax (cond_Zopp s (Zpos m)) e s
  | _ => x
  end.

(** A Python [float] is a binary64 value. *)
Definition float_of_Z (z : Z) : spec_float :=
  binary_normalize 53 1024 z 0 false.

Definition SF_inf : spec_float := S754_infinity false.
Definition SF_neg_inf : spec_float := S754_infinity true.

(** [int(f)] for a float: the integer part, towards zero. *)
Definition float_trunc (f : spec_float) : pyres Z :=
  match f with
  | S754_zero _ => Ret 0
  | S754_finite s m e =>
      let a := match e with
               | Zneg p => Z.shiftr (Zpos m) (Zpos p)
               | _ => Z.shiftl (Zpos m) e
               end in
      Ret (cond_Zopp s a)
  | S754_infinity _ => Raise OverflowError
  | S754_nan => Raise ValueError
  end.

(** The bits of a binary16 value, as numpy's [view(np.uint16)] reads them:
    sign, five exponent bits, ten fraction bits. *)
Definition float16_bits (x : spec_float) : Z :=
  let sign (s : bool) := if s then 32768 else 0 in
  match SFround 11 16 x with
  | S754_zero s => sign s
  | S754_infinity s => sign s + 31744
  | S754_nan => 32256
  | S754_finite s m e =>
      if Zpos m <? 1024 then sign s + Zpos m
      else sign s + (e + 25) * 1024 + (Zpos m - 1024)
  end.

(** ** What the libraries compute *)

Inductive np_op : Type := NpMul | NpSub | NpAdd | NpDiv | NpPow.

(** The library functions the translation calls and this development does
    not define: Python's [float] on a string, numpy's dtype names beyond the
    canonical ones, numpy's conversions beyond integers and floats, numpy's
    arithmetic (with its type promotion), onnx's [numpy_helper.to_array],
    and Python's [eval] on an attribute string (the pooling rule calls it
    on the kernel and the stride, whatever they hold). *)
Class External : Type := {
  float_of_string : string -> option spec_float;
  np_dtype_alias : string -> option np_dtype;
  np_cast_other : np_dtype -> pyval -> builtin_error + num;
  np_binop : np_op -> ndarray -> ndarray -> builtin_error + ndarray;
  to_array : TensorProto -> builtin_error + ndarray;
  py_eval : string -> pyres pyval
}.

Section Numpy.
Context `{External}.

(** [float(v)] and [int(v)]. *)
Definition py_float (v : pyval) : pyres spec_float :=
  match v with
  | PyFloat f => Ret f
  | PyInt z => Ret (float_of_Z z)
  | PyStr s =>
      match float_of_string s with
      | Some f => Ret f
      | None => Raise ValueError
      end
  | _ => Raise TypeError
  end.

Definition py_int (v : pyval) : pyres Z :=
  match v with
  | PyInt z => Ret z
  | PyFloat f => float_trunc f
  | PyStr s => int_of_string s
  | _ => Raise TypeError
  end.

(** [np.dtype(s)]. *)
Definition np_dtype_of_string (s : string) : pyres np_dtype :=
  match canonical_dtype s with
  | Some d => Ret d
  | None =>
      match np_dtype_alias s with
      | Some d => Ret d
      | None => Raise TypeError
      end
  end.

(** The conversion of one Python value to an element of type [d]: a float
    format rounds (a Python integer passes through binary64, [None] is not a
    number), [int64] takes the integers of its range. *)
Definition np_cast (d : np_dtype) (v : pyval) : pyres num :=
  match float_format d, v with
  | Some (prec, emax), PyFloat f => Ret (NFloat (SFround prec emax f))
  | Some (prec, emax), PyInt z =>
      Ret (NFloat (SFround prec emax (float_of_Z z)))
  | Some (prec, emax), PyStr s =>
      match float_of_string s with
      | Some f => Ret (NFloat (SFround prec emax f))
      | None => Raise ValueError
      end
  | Some _, PyNone => Ret (NFloat S754_nan)
  | _, _ =>
      match d, v with
      | Int64, PyInt z =>
          if (- 2 ^ 63 <=? z) && (z <? 2 ^ 63) then Ret (NInt z)
          else Raise OverflowError
      | Int64, PyStr s => z ← int_of_string s; Ret (NInt z)
      | _, _ => of_lib (np_cast_other d v)
      end
  end.

(** The [dtype] argument of [np.array] and of [create_tensor]: a name such
    as ['int64'], or a numpy dtype object. *)
Inductive dtype_arg : Type :=
| DtName (s : string)
| DtObj (d : np_dtype).

Definition resolve_dtype (dt : dtype_arg) : pyres np_dtype :=
  match dt with
  | DtName s => np_dtype_of_string s
  | DtObj d => Ret d
  end.

(** [dtype == np.float16]: a dtype object compares equal to the scalar type
    it describes; a string does not. *)
Definition dtype_is_np_float16 (dt : dtype_arg) : bool :=
  match dt with
  | DtObj Float16 => true
  | _ => false
  end.

(** [np.array(l, dtype=dt)] for a flat list. *)
Definition np_array (l : list pyval) (dt : dtype_arg) : pyres ndarray :=
  d ← resolve_dtype dt;
  data ← for_each (fun acc v => x ← np_cast d v; Ret (acc ++ [x])) l [];
  Ret (mk_ndarray d [Z.of_nat (length l)] data).

(** A numpy scalar such as [np.float32(v)] or [np.int64(v)]. *)
Definition np_scalar (d : np_dtype) (v : pyval) : pyres ndarray :=
  x ← np_cast d v;
  Ret (mk_ndarray d [] [x]).

(** [a.view(dtype=np.uint16).flatten().tolist()] for a float16 array. *)
Definition view_uint16_tolist (a : ndarray) : list pyval :=
  map (fun x => match x with
                | NFloat f => PyInt (float16_bits f)
                | NInt z => PyInt z
                end) (nd_data a).

End Numpy.

(** ** The translation context *)

(** A source node: [node["name"]], [node["op"]], [node["inputs"]] (triples
    whose first component is the producer's index) and [node["attrs"]]
    (absent attributes are an empty dictionary). *)
Record mx_node : Type := {
  node_name : string;
  node_op : string;
  node_inputs : list (nat * nat * nat);
  node_attrs : gmap string string
}.

(** The keyword arguments of a rule, but for the initializer list. For an
    operator [kwargs["in_shape"]] is the list of the shapes of the graph
    inputs; for a [null] node that is a graph input the caller passes the
    shape of that input under the same key, which is [input_shape] here.
    [weights] holds the parameters by name, [is_input] tells a graph input
    from a parameter, and [out_shape] is the shape of the node's output. *)
Record kwargs : Type := {
  opset_version : Z;
  in_type : Z;
  in_shape : list (list Z);
  idx : Z;
  proc_nodes : list graph_item;
  index_lookup : list nat;
  is_input : bool;
  weights : gmap string ndarray;
  input_shape : list Z;
  out_shape : list Z
}.

(** A rule runs on the initializer list and leaves it changed, also when it
    raises. *)
Definition M (A : Type) : Type :=
  list TensorProto -> pyres A * list TensorProto.

#[export] Instance M_ret : MRet M := fun A a init => (Ret a, init).
#[export] Instance M_bind : MBind M := fun A B k m init =>
  match m init with
  | (Ret a, init') => k a init'
  | (Raise e, init') => (Raise e, init')
  end.

Definition lift {A} (r : pyres A) : M A := fun init => (r, init).
Definition raise {A} (e : pyerr) : M A := lift (Raise e).
Definition initializer_append (t : TensorProto) : M unit :=
  fun init => (Ret tt, init ++ [t]).
Definition initializer_read : M (list TensorProto) :=
  fun init => (Ret init, init).

(** A list display [[e1, e2, ...]] whose elements are evaluated in order. *)
Fixpoint py_list {A} (l : list (M A)) : M (list A) :=
  match l with
  | [] => mret []
  | m :: t => x ← m; xs ← py_list t; mret (x :: xs)
  end.

Definition get_inputs (node : mx_node) (kw : kwargs)
  : pyres (string * list string * gmap string string) :=
  input_nodes ← for_each (fun acc (ip : nat * nat * nat) =>
      input_node_id ← list_get (index_lookup kw) ip.1.1;
      p ← list_get (proc_nodes kw) input_node_id;
      Ret (acc ++ [item_name p])) (node_inputs node) [];
  Ret (node_name node, input_nodes, node_attrs node).

(** [attrs.get(key, default)]. *)
Definition attrs_get (attrs : gmap string string) (key : string)
    (default : pyval) : pyval :=
  match attrs !! key with
  | Some s => PyStr s
  | None => default
  end.

(** [v == s] for a string literal [s]. *)
Definition py_eq_str (v : pyval) (s : string) : bool :=
  match v with
  | PyStr x => bool_decide (x = s)
  | _ => false
  end.

Section Rules.
Context `{External}.

Definition create_basic_op_node (op_name : string) (node : mx_node)
    (kw : kwargs) : M (list graph_item) :=
  '(name, input_nodes, _) ← lift (get_inputs node kw);
  mret [ItemNode (make_named_node op_name input_nodes [name] name [])].

Definition create_const_scalar_node (input_name : string) (value : ndarray)
  : M graph_item :=
  input_type ← lift (NP_TYPE_TO_TENSOR_TYPE (nd_dtype value));
  let value_node := make_tensor_value_info input_name input_type [] in
  let tensor_node :=
    make_tensor input_name input_type [] (PyTuple [PyNp value]) in
  _ ← initializer_append tensor_node;
  mret (ItemValue value_node).

Definition create_const_node (input_name : string) (value : ndarray)
  : M graph_item :=
  input_type ← lift (NP_TYPE_TO_TENSOR_TYPE (nd_dtype value));
  let input_shape := nd_shape value in
  let value_node := make_tensor_value_info input_name input_type input_shape in
  let tensor_node :=
    make_tensor input_name input_type input_shape (PyNp value) in
  _ ← initializer_append tensor_node;
  mret (ItemValue value_node).

Definition create_tensor (tensor_list : list pyval) (tensor_name : string)
    (dtype : dtype_arg) : M graph_item :=
  tensor_np ← lift (np_array tensor_list dtype);
  data_type ← lift (NP_TYPE_TO_TENSOR_TYPE (nd_dtype tensor_np));
  let dims := nd_shape tensor_np in
  let tensor_node := make_tensor_value_info tensor_name data_type dims in
  let tensor_list :=
    if dtype_is_np_float16 dtype then view_uint16_tolist tensor_np
    else tensor_list in
  _ ← initializer_append
        (make_tensor tensor_name data_type dims (PyList tensor_list));
  mret (ItemValue tensor_node).

End Rules.

(** ** The translation rules *)

Section TranslationRules.
Context `{External}.

(** A node in a list display, and an element [l[i]] read inside one. *)
Definition emit (n : NodeProto) : M graph_item := mret (ItemNode n).
Definition item {A} (l : list A) (i : nat) : M A := lift (list_get l i).

Definition ints (l : list Z) : attr_value := AVal (PyList (map PyInt l)).
Definition int_attr (z : Z) : attr_value := AVal (PyInt z).
Definition float_attr (f : spec_float) : attr_value := AVal (PyFloat f).
Definition str_attr (s : string) : attr_value := AVal (PyStr s).

(** The float literals of the source. *)
Definition SF_zero : spec_float := S754_zero false.
Definition SF_one : spec_float := Eval vm_compute in float_of_Z 1.
Definition SF_half : spec_float :=
  Eval vm_compute in SFdiv 53 1024 (float_of_Z 1) (float_of_Z 2).

(** *** Pad *)

Definition convert_pad (node : mx_node) (kw : kwargs) : M (list graph_item) :=
  let opset_version := opset_version kw in
  '(name, input_nodes, attrs) ← lift (get_inputs node kw);
  mxnet_pad_width ← lift (convert_string_to_list (attrs !! "pad_width"));
  onnx_pad_width ← lift (transform_padding mxnet_pad_width);
  let pad_mode := attrs_get attrs "mode" PyNone in
  pad_value ← lift (np_scalar Float32
                      (attrs_get attrs "constant_value" (PyFloat SF_zero)));
  if 11 <=? opset_version then
    nodes ← py_list [
      (pads ← lift (np_array onnx_pad_width (DtName "int64"));
       create_const_node (name +:+ "_pads") pads)
    ];
    if py_eq_str pad_mode "constant" then
      more ← py_list [
        create_const_scalar_node (name +:+ "_const") pad_value;
        (x ← item input_nodes 0;
         emit (make_named_node "Pad"
                 [x; name +:+ "_pads"; name +:+ "_const"] [name] name
                 [("mode", AVal pad_mode)]))
      ];
      mret (nodes ++ more)
    else
      more ← py_list [
        (x ← item input_nodes 0;
         emit (make_named_node "Pad" [x; name +:+ "_pads"] [name] name
                 [("mode", AVal pad_mode)]))
      ];
      mret (nodes ++ more)
  else
    if py_eq_str pad_mode "constant" then
      mret [ItemNode (make_named_node "Pad" input_nodes [name] name
                        [("mode", str_attr "constant");
                         ("value", AVal (PyNp pad_value));
                         ("pads", AVal (PyList onnx_pad_width))])]
    else
      mret [ItemNode (make_named_node "Pad" input_nodes [name] name
                        [("mode", AVal pad_mode);
                         ("pads", AVal (PyList onnx_pad_width))])].

(** *** dot *)

Definition create_helper_trans_node (node_name input_node : string)
  : NodeProto :=
  make_named_node "Transpose" [input_node] [node_name] node_name [].

(** [nodes.appennd(x)]: a list has no such method; the attribute is looked
    up before the argument is evaluated. *)
Definition list_appennd {A B} (l : list A) (x : M B) : M (list A) :=
  raise (AttributeError "'list' object has no attribute 'appennd'").

Definition convert_dot (node : mx_node) (kw : kwargs) : M (list graph_item) :=
  '(name, input_nodes, attrs) ← lift (get_inputs node kw);
  let trans_a := get_boolean_attribute_value attrs "transpose_a" in
  let trans_b := get_boolean_attribute_value attrs "transpose_b" in
  let nodes : list graph_item := [] in
  let input_nodes : list string := [] in
  '(nodes, input_nodes) ←
    (if decide (trans_a ≠ 0) then
       x ← item input_nodes 0;
       mret (nodes ++ [ItemNode (create_helper_trans_node (name +:+ "_a") x)],
             input_nodes ++ [name +:+ "_a"])
     else
       x ← item input_nodes 0;
       mret (nodes, input_nodes ++ [x]));
  '(nodes, input_nodes) ←
    (if decide (trans_b ≠ 0) then
       x ← item input_nodes 1;
       mret (nodes ++ [ItemNode (create_helper_trans_node (name +:+ "_b") x)],
             input_nodes ++ [name +:+ "_b"])
     else
       x ← item input_nodes 1;
       mret (nodes, input_nodes ++ [x]));
  nodes ← list_appennd nodes
            (emit (make_named_node "MatMul" input_nodes [name] name []));
  mret nodes.

(** *** L2Normalization *)

Definition convert_l2normalization (node : mx_node) (kw : kwargs)
  : M (list graph_item) :=
  '(name, input_nodes, attrs) ← lift (get_inputs node kw);
  let mode := attrs_get attrs "mode" (PyStr "instance") in
  if negb (py_eq_str mode "channel") then
    raise (AttributeError
             "L2Normalization: ONNX currently supports channel mode only")
  else
    mret [ItemNode (make_named_node "LpNormalization" input_nodes [name] name
                      [("axis", int_attr 1)])].

(** *** Dropout *)

Definition convert_dropout (node : mx_node) (kw : kwargs)
  : M (list graph_item) :=
  '(name, input_nodes, attrs) ← lift (get_inputs node kw);
  let opset_version := opset_version kw in
  probability ← lift (py_float (attrs_get attrs "p" (PyFloat SF_half)));
  if 12 <=? opset_version then
    py_list [
      (ratio ← lift (np_scalar Float32 (PyFloat probability));
       create_const_scalar_node (name +:+ "_ratio0") ratio);
      (x ← item input_nodes 0;
       emit (make_named_node "Dropout" [x; name +:+ "_ratio0"] [name] name []))
    ]
  else
    mret [ItemNode (make_named_node "Dropout" input_nodes [name] name
                      [("ratio", float_attr probability)])].

(** *** clip *)

Definition convert_clip (node : mx_node) (kw : kwargs)
  : M (list graph_item) :=
  '(name, input_nodes, attrs) ← lift (get_inputs node kw);
  let opset_version := opset_version kw in
  a_min ← lift (py_float (attrs_get attrs "a_min" (PyFloat SF_neg_inf)));
  a_max ← lift (py_float (attrs_get attrs "a_max" (PyFloat SF_inf)));
  if 11 <=? opset_version then
    py_list [
      (v ← lift (np_scalar Float32 (PyFloat a_min));
       create_const_scalar_node (name +:+ "_min") v);
      (v ← lift (np_scalar Float32 (PyFloat a_max));
       create_const_scalar_node (name +:+ "_max") v);
      (x ← item input_nodes 0;
       emit (make_named_node "Clip"
               [x; name +:+ "_min"; name +:+ "_max"] [name] name []))
    ]
  else
    mret [ItemNode (make_named_node "Clip" input_nodes [name] name
                      [("min", float_attr a_min); ("max", float_attr a_max)])].

(** *** The scalar arithmetic rules *)

(** [numpy_helper.to_array(i) op scalar_value[0]], in the operand order the
    source chooses from the operator and from the node's name. *)
Definition fold_scalar (op_name name : string) (i : TensorProto)
    (scalar : ndarray) : pyres ndarray :=
  if decide (op_name = "Mul") then
    a ← of_lib (to_array i); of_lib (np_binop NpMul a scalar)
  else if decide (op_name = "Sub") then
    if String.prefix "_rminusscalar" name then
      a ← of_lib (to_array i); of_lib (np_binop NpSub scalar a)
    else
      a ← of_lib (to_array i); of_lib (np_binop NpSub a scalar)
  else if decide (op_name = "Add") then
    a ← of_lib (to_array i); of_lib (np_binop NpAdd a scalar)
  else if decide (op_name = "Div") then
    if String.prefix "_rdivscalar" name then
      a ← of_lib (to_array i); of_lib (np_binop NpDiv scalar a)
    else
      a ← of_lib (to_array i); of_lib (np_binop NpDiv a scalar)
  else if decide (op_name = "Pow") then
    a ← of_lib (to_array i); of_lib (np_binop NpPow a scalar)
  else
    (* [new_initializer] is never bound *)
    Raise NameError.

(** The loop over the initializers: the folded constant for the first
    initializer named like the first input, if there is one. *)
Fixpoint scalar_op_loop (op_name name : string) (input_nodes : list string)
    (scalar : ndarray) (initializer : list TensorProto)
  : pyres (option ndarray) :=
  match initializer with
  | [] => Ret None
  | i :: rest =>
      x ← list_get input_nodes 0;
      if decide (t_name i = x) then
        new_initializer ← fold_scalar op_name name i scalar;
        Ret (Some new_initializer)
      else scalar_op_loop op_name name input_nodes scalar rest
  end.

Definition scalar_op_helper (node : mx_node) (op_name : string) (kw : kwargs)
  : M (list graph_item) :=
  '(name, input_nodes, attrs) ← lift (get_inputs node kw);
  let input_type := in_type kw in
  dtype ← lift (TENSOR_TYPE_TO_NP_TYPE input_type);
  scalar_value ← lift (np_array [attrs_get attrs "scalar" (PyInt 1)]
                         (DtObj dtype));
  let scalar_value_0 :=
    mk_ndarray (nd_dtype scalar_value) [] (nd_data scalar_value) in
  initializer ← initializer_read;
  found ← lift (scalar_op_loop op_name name input_nodes scalar_value_0
                  initializer);
  match found with
  | None =>
      let dims := nd_shape scalar_value in
      let scalar_op_name := "scalar_op" +:+ str_of_Z (idx kw) in
      let tensor_node :=
        make_tensor_value_info scalar_op_name input_type dims in
      _ ← initializer_append
            (make_tensor scalar_op_name input_type dims (PyNp scalar_value));
      x ← item input_nodes 0;
      let mul_node :=
        make_named_node op_name [x; scalar_op_name] [name] name [] in
      mret [ItemValue tensor_node; ItemNode mul_node]
  | Some new_initializer =>
      data_type ← lift (NP_TYPE_TO_TENSOR_TYPE (nd_dtype new_initializer));
      let dims := nd_shape new_initializer in
      x ← item input_nodes 0;
      let new_a_node := x +:+ str_of_Z (idx kw) in
      let tensor_node := make_tensor_value_info new_a_node data_type dims in
      _ ← initializer_append
            (make_tensor new_a_node data_type dims (PyNp new_initializer));
      mret [ItemValue tensor_node]
  end.

Definition convert_mul_scalar (node : mx_node) (kw : kwargs) :=
  scalar_op_helper node "Mul" kw.
Definition convert_minus_scalar (node : mx_node) (kw : kwargs) :=
  scalar_op_helper node "Sub" kw.
Definition convert_rminus_scalar (node : mx_node) (kw : kwargs) :=
  scalar_op_helper node "Sub" kw.
Definition convert_add_scalar (node : mx_node) (kw : kwargs) :=
  scalar_op_helper node "Add" kw.
Definition convert_div_scalar (node : mx_node) (kw : kwargs) :=
  scalar_op_helper node "Div" kw.
Definition convert_rdiv_scalar (node : mx_node) (kw : kwargs) :=
  scalar_op_helper node "Div" kw.
Definition convert_pow_scalar (node : mx_node) (kw : kwargs) :=
  scalar_op_helper node "Pow" kw.

(** *** softmax *)

Definition convert_softmax (node : mx_node) (kw : kwargs)
  : M (list graph_item) :=
  '(name, input_nodes, attrs) ← lift (get_inputs node kw);
  axis ← lift (py_int (attrs_get attrs "axis" (PyInt (-1))));
  temperature ←
    lift (match attrs !! "temperature" with
          | None => Ret SF_one
          | Some t => if decide (t = "None") then Ret SF_one
                      else py_float (PyStr t)
          end);
  let use_length := default "None" (attrs !! "use_length") in
  let input_type := in_type kw in
  dtype ← lift (TENSOR_TYPE_TO_NP_TYPE input_type);
  data ← item input_nodes 0;
  nodes ← py_list [
    create_tensor [PyFloat temperature] (name +:+ "_tmp") (DtObj dtype);
    emit (make_node "Div" [data; name +:+ "_tmp"] [name +:+ "_data"] []);
    emit (make_node "Exp" [name +:+ "_data"] [name +:+ "_exp_out"] []);
    emit (make_node "ReduceSum" [name +:+ "_exp_out"] [name +:+ "_rsum_out"]
            [("axes", ints [axis]); ("keepdims", int_attr 1)])
  ];
  if decide (length input_nodes = 1%nat) then
    mret (nodes ++ [
      ItemNode (make_named_node "Div"
                  [name +:+ "_exp_out"; name +:+ "_rsum_out"] [name] name [])
    ])
  else if decide (use_length = "True") then
    length ← item input_nodes 1;
    more ← py_list [
      (* const nodes *)
      create_tensor [PyInt axis] (name +:+ "_axis") (DtName "int64");
      create_tensor [] (name +:+ "_void") (DtName "int64");
      create_tensor [PyInt 0] (name +:+ "_0") (DtName "int64");
      create_tensor [PyInt 1] (name +:+ "_1") (DtName "int64");
      (v ← lift (np_scalar Int64 (PyInt (-1)));
       create_const_scalar_node (name +:+ "_-1_s") v);
      (v ← lift (np_scalar Int64 (PyInt 0));
       create_const_scalar_node (name +:+ "_0_s") v);
      (v ← lift (np_scalar Int64 (PyInt 1));
       create_const_scalar_node (name +:+ "_1_s") v);
      (* cast data type *)
      emit (make_node "Cast" [length] [name +:+ "_length"]
              [("to", int_attr INT64)]);
      emit (make_node "Cast" [name +:+ "_0"] [name +:+ "_0_itype"]
              [("to", int_attr input_type)]);
      emit (make_node "Cast" [name +:+ "_1"] [name +:+ "_1_itype"]
              [("to", int_attr input_type)]);
      (* softmax output *)
      emit (make_node "Div" [name +:+ "_exp_out"; name +:+ "_rsum_out"]
              [name +:+ "_div1_out"] []);
      (* update axis *)
      emit (make_node "Shape" [data] [name +:+ "_shape0_out"] []);
      emit (make_node "Shape" [name +:+ "_shape0_out"] [name +:+ "_in_dim"] []);
      emit (make_node "Add" [name +:+ "_in_dim"; name +:+ "_axis"]
              [name +:+ "_dim+axis"] []);
      emit (make_node "Less" [name +:+ "_axis"; name +:+ "_0_s"]
              [name +:+ "_less0_out"] []);
      emit (make_node "Where"
              [name +:+ "_less0_out"; name +:+ "_dim+axis"; name +:+ "_axis"]
              [name +:+ "_final_axis"] []);
      (* data mask *)
      emit (make_node "Add" [name +:+ "_final_axis"; name +:+ "_1_s"]
              [name +:+ "_final_axis+1"] []);
      emit (make_node "Slice"
              [name +:+ "_shape0_out"; name +:+ "_final_axis";
               name +:+ "_final_axis+1"] [name +:+ "_axis_dim"] []);
      emit (make_node "Reshape" [name +:+ "_axis_dim"; name +:+ "_void"]
              [name +:+ "_axis_dim_s"] []);
      emit (make_node "Range"
              [name +:+ "_0_s"; name +:+ "_axis_dim_s"; name +:+ "_1_s"]
              [name +:+ "_range0_out"] []);
      (* one hot for axis *)
      emit (make_node "Reshape" [name +:+ "_in_dim"; name +:+ "_void"]
              [name +:+ "_in_dim_s"] []);
      emit (make_node "Range"
              [name +:+ "_0_s"; name +:+ "_in_dim_s"; name +:+ "_1_s"]
              [name +:+ "_range1_out"] []);
      emit (make_node "Equal" [name +:+ "_range1_out"; name +:+ "_final_axis"]
              [name +:+ "_equal_out"] []);
      emit (make_node "Cast" [name +:+ "_equal_out"] [name +:+ "_one_hot"]
              [("to", int_attr INT64)]);
      (* reshape data mask for less *)
      emit (make_node "Sub" [name +:+ "_axis_dim_s"; name +:+ "_1_s"]
              [name +:+ "_sub0_out"] []);
      emit (make_node "Mul" [name +:+ "_one_hot"; name +:+ "_sub0_out"]
              [name +:+ "_mul0_out"] []);
      emit (make_node "Add" [name +:+ "_mul0_out"; name +:+ "_1_s"]
              [name +:+ "_add0_out"] []);
      emit (make_node "Reshape" [name +:+ "_range0_out"; name +:+ "_add0_out"]
              [name +:+ "_reshape0_out"] []);
      (* reshape length for less *)
      emit (make_node "Mul" [name +:+ "_one_hot"; name +:+ "_-1_s"]
              [name +:+ "_mul1_out"] []);
      emit (make_node "Add" [name +:+ "_mul1_out"; name +:+ "_1_s"]
              [name +:+ "_add1_out"] []);
      emit (make_node "Sub" [name +:+ "_shape0_out"; name +:+ "_1_s"]
              [name +:+ "_sub1_out"] []);
      emit (make_node "Mul" [name +:+ "_add1_out"; name +:+ "_sub1_out"]
              [name +:+ "_mul2_out"] []);
      emit (make_node "Add" [name +:+ "_mul2_out"; name +:+ "_1_s"]
              [name +:+ "_add2_out"] []);
      emit (make_node "Reshape" [name +:+ "_length"; name +:+ "_add2_out"]
              [name +:+ "_reshape1_out"] []);
      (* mask output *)
      emit (make_node "Less"
              [name +:+ "_reshape0_out"; name +:+ "_reshape1_out"]
              [name +:+ "_less_out"] []);
      emit (make_node "Cast" [name +:+ "_less_out"] [name +:+ "_mask"]
              [("to", int_attr input_type)]);
      emit (make_node "Mul" [name +:+ "_div1_out"; name +:+ "_mask"]
              [name +:+ "_mul3_out"] []);
      emit (make_node "ReduceSum" [name +:+ "_mul3_out"]
              [name +:+ "_rsum1_out"]
              [("axes", ints [axis]); ("keepdims", int_attr 1)]);
      emit (make_node "Equal" [name +:+ "_rsum1_out"; name +:+ "_0_itype"]
              [name +:+ "_equal1_out"] []);
      emit (make_node "Where"
              [name +:+ "_equal1_out"; name +:+ "_1_itype";
               name +:+ "_rsum1_out"] [name +:+ "_where_out"] []);
      emit (make_named_node "Div"
              [name +:+ "_mul3_out"; name +:+ "_where_out"] [name] name [])
    ];
    mret (nodes ++ more)
  else
    raise (NotImplementedError
      "use_length must be true when both data and length are paased in.").

(** *** SliceChannel *)

(** [l[i]] for a Python integer [i]: a negative index counts from the end. *)
Definition list_get_Z {A} (l : list A) (i : Z) : pyres A :=
  let n := Z.of_nat (length l) in
  if (0 <=? i) && (i <? n) then list_get l (Z.to_nat i)
  else if (- n <=? i) && (i <? 0) then list_get l (Z.to_nat (n + i))
  else Raise IndexError.

(** [range(n)] as a list of integers. *)
Definition py_range (n : Z) : list Z := map Z.of_nat (seq 0 (Z.to_nat n)).

Definition convert_slice_channel (node : mx_node) (kw : kwargs)
  : M (list graph_item) :=
  '(name, input_nodes, attrs) ← lift (get_inputs node kw);
  num_outputs ← lift (py_int (attrs_get attrs "num_outputs" PyNone));
  axis ← lift (py_int (attrs_get attrs "axis" (PyInt 1)));
  squeeze_axis ← lift (py_int (attrs_get attrs "squeeze_axis" (PyInt 0)));
  if (squeeze_axis =? 1) && (num_outputs =? 1) then
    mret [ItemNode (make_named_node "Squeeze" input_nodes [name] name
                      [("axes", ints [axis])])]
  else if (squeeze_axis =? 0) && (1 <? num_outputs) then
    in_shape ← item (in_shape kw) 0;
    dim ← lift (list_get_Z in_shape axis);
    let split := dim `div` num_outputs in
    mret [ItemNode (make_named_node "Split" input_nodes
                      (map (fun i => name +:+ "_output" +:+ str_of_Z i)
                           (py_range num_outputs))
                      name
                      [("axis", int_attr axis);
                       ("split", ints (map (fun _ => split)
                                           (py_range num_outputs)))])]
  else
    raise (NotImplementedError
      ("SliceChannel operator with num_outputs>1 and" +:+
       "squeeze_axis true is not implemented.")).

(** *** topk *)

Definition convert_topk (node : mx_node) (kw : kwargs)
  : M (list graph_item) :=
  '(name, input_nodes, attrs) ← lift (get_inputs node kw);
  axis ← lift (py_int (attrs_get attrs "axis" (PyStr "-1")));
  k ← lift (py_int (attrs_get attrs "k" (PyStr "1")));
  let ret_type := attrs !! "ret_typ" in
  let outputs := [name] in
  outputs ←
    (if bool_decide (ret_type = Some "both") then
       mret (outputs ++ [name +:+ "_output1"])
     else
       raise (NotImplementedError
                "ONNX expects both value and indices as output"));
  let opset_version := opset_version kw in
  if 10 <=? opset_version then
    py_list [
      (v ← lift (np_scalar Int64 (PyInt k));
       create_const_scalar_node (name +:+ "_k") v);
      (x ← item input_nodes 0;
       emit (make_named_node "TopK" [x; name +:+ "_k"] outputs name
               [("axis", int_attr axis)]))
    ]
  else
    mret [ItemNode (make_named_node "TopK" input_nodes outputs name
                      [("axis", int_attr axis); ("k", int_attr k)])].

(** *** slice *)

Definition slice_loop_body (st : list pyval * list pyval)
    (entry : nat * pyval) : pyres (list pyval * list pyval) :=
  let '(starts, ends) := st in
  let '(i, s) := entry in
  match s with
  | PyInt z =>
      if z <? 0 then
        Raise (NotImplementedError
                 "slice operator does not support negative steps yet")
      else
        start_i ← list_get starts i;
        starts ← (match start_i with
                  | PyNone => list_set starts i (PyInt 0)
                  | _ => Ret starts
                  end);
        end_i ← list_get ends i;
        ends ← (match end_i with
                | PyNone => list_set ends i (PyInt (2 ^ 63 - 1))
                | _ => Ret ends
                end);
        Ret (starts, ends)
  | _ => Raise TypeError
  end.

Definition is_none (v : pyval) : bool :=
  match v with
  | PyNone => true
  | _ => false
  end.

(** The steps the loop runs on: ones when [step] is empty or a single
    [None], else as many steps as starts, where a [None] step is one. *)
Definition slice_steps (starts steps : list pyval) : pyres (list pyval) :=
  steps ←
    (match steps with
     | [] => Ret (map (fun _ => PyInt 1) starts)
     | [s] => if is_none s then Ret (map (fun _ => PyInt 1) starts)
              else if decide (length steps = length starts) then Ret steps
              else Raise AssertionError
     | _ => if decide (length steps = length starts) then Ret steps
            else Raise AssertionError
     end);
  Ret (map (fun x => if is_none x then PyInt 1 else x) steps).

Definition convert_slice (node : mx_node) (kw : kwargs)
  : M (list graph_item) :=
  '(name, input_nodes, attrs) ← lift (get_inputs node kw);
  starts ← lift (convert_string_to_list (attrs !! "begin"));
  ends ← lift (convert_string_to_list (attrs !! "end"));
  steps ← lift (convert_string_to_list
                  (Some (default "[]" (attrs !! "step"))));
  _ ← (if decide (length starts = length ends) then mret tt
       else raise AssertionError);
  steps ← lift (slice_steps starts steps);
  '(starts, ends) ← lift (for_each slice_loop_body
                            (zip (seq 0 (length steps)) steps)
                            (starts, ends));
  py_list [
    (v ← lift (np_scalar Int64 (PyInt 0));
     create_const_scalar_node (name +:+ "_0_s") v);
    (v ← lift (np_scalar Int64 (PyInt 1));
     create_const_scalar_node (name +:+ "_1_s") v);
    (v ← lift (np_scalar Int64 (PyInt (Z.of_nat (length starts))));
     create_const_scalar_node (name +:+ "_len_s") v);
    emit (make_node "Range"
            [name +:+ "_0_s"; name +:+ "_len_s"; name +:+ "_1_s"]
            [name +:+ "_axes"] []);
    create_tensor starts (name +:+ "_starts") (DtName "int64");
    create_tensor ends (name +:+ "_ends") (DtName "int64");
    create_tensor steps (name +:+ "_steps") (DtName "int64");
    (x ← item input_nodes 0;
     emit (make_named_node "Slice"
             [x; name +:+ "_starts"; name +:+ "_ends"; name +:+ "_axes";
              name +:+ "_steps"] [name] name []))
  ].

(** *** The rules that need opset 11 *)

Definition opset_11_required : pyerr :=
  AttributeError "ONNX opset 11 or greater is required to export this operator".

Definition convert_arange_like (node : mx_node) (kw : kwargs)
  : M (list graph_item) :=
  '(name, input_nodes, attrs) ← lift (get_inputs node kw);
  let opset_version := opset_version kw in
  if opset_version <? 11 then raise opset_11_required
  else
  let input_type := in_type kw in
  dtype ← lift (TENSOR_TYPE_TO_NP_TYPE input_type);
  let axis := attrs_get attrs "axis" (PyStr "None") in
  let start := attrs_get attrs "start" (PyFloat SF_zero) in
  let step := attrs_get attrs "step" (PyFloat SF_one) in
  repeat ← lift (py_int (attrs_get attrs "repeat" (PyInt 1)));
  if negb (repeat =? 1) then
    raise (NotImplementedError
             "arange_like operator with repeat != 1 not yet implemented.")
  else
  nodes ← py_list [
    (v ← lift (np_array [start] (DtObj dtype));
     create_const_scalar_node (name +:+ "_start") v);
    (v ← lift (np_array [step] (DtObj dtype));
     create_const_scalar_node (name +:+ "_step") v);
    (f ← lift (py_float step);
     v ← lift (np_array [PyFloat (SFmul 53 1024 f SF_half)] (DtObj dtype));
     create_const_scalar_node (name +:+ "_half_step") v);
    create_tensor [] (name +:+ "_void") (DtName "int64")
  ];
  if py_eq_str axis "None" then
    (* output will be same shape as input *)
    more ← py_list [
      (x ← item input_nodes 0;
       emit (make_node "Shape" [x] [name +:+ "_shape0_out"] []));
      emit (make_node "ReduceProd" [name +:+ "_shape0_out"]
              [name +:+ "_redprod0_out"] []);
      emit (make_node "Reshape" [name +:+ "_redprod0_out"; name +:+ "_void"]
              [name +:+ "_reshape0_out"] []);
      emit (make_node "Cast" [name +:+ "_reshape0_out"]
              [name +:+ "_cast0_out"] [("to", int_attr input_type)]);
      emit (make_node "Mul" [name +:+ "_cast0_out"; name +:+ "_step"]
              [name +:+ "_mul0_out"] []);
      emit (make_node "Add" [name +:+ "_mul0_out"; name +:+ "_start"]
              [name +:+ "_add1_out"] []);
      emit (make_node "Sub" [name +:+ "_add1_out"; name +:+ "_half_step"]
              [name +:+ "_sub0_out"] []);
      emit (make_node "Range"
              [name +:+ "_start"; name +:+ "_sub0_out"; name +:+ "_step"]
              [name +:+ "_range0_out"] []);
      emit (make_named_node "Reshape"
              [name +:+ "_range0_out"; name +:+ "_shape0_out"] [name] name [])
    ];
    mret (nodes ++ more)
  else
    (* determine shape of axis *)
    more ← py_list [
      (a ← lift (py_int axis);
       create_tensor [PyInt a] (name +:+ "_axis_start") (DtName "int64"));
      (a ← lift (py_int axis);
       create_tensor [PyInt (a + 1)] (name +:+ "_axis_end") (DtName "int64"));
      (x ← item input_nodes 0;
       emit (make_node "Shape" [x] [name +:+ "_shape0_out"] []));
      emit (make_node "Slice"
              [name +:+ "_shape0_out"; name +:+ "_axis_start";
               name +:+ "_axis_end"] [name +:+ "_slice0_out"] []);
      emit (make_node "ReduceProd" [name +:+ "_slice0_out"]
              [name +:+ "_reprod0_out"] []);
      emit (make_node "Reshape" [name +:+ "_reprod0_out"; name +:+ "_void"]
              [name +:+ "_reshape0_out"] []);
      emit (make_node "Cast" [name +:+ "_reshape0_out"]
              [name +:+ "_cast0_out"] [("to", int_attr input_type)]);
      emit (make_node "Mul" [name +:+ "_cast0_out"; name +:+ "_step"]
              [name +:+ "_mul0_out"] []);
      emit (make_node "Add" [name +:+ "_mul0_out"; name +:+ "_start"]
              [name +:+ "_add1_out"] []);
      emit (make_node "Sub" [name +:+ "_add1_out"; name +:+ "_half_step"]
              [name +:+ "_sub0_out"] []);
      emit (make_named_node "Range"
              [name +:+ "_start"; name +:+ "_sub0_out"; name +:+ "_step"]
              [name] name [])
    ];
    mret (nodes ++ more).

(** The double quote, for the messages that hold one. *)
Definition dquote : string := String (ascii_of_nat 34) EmptyString.

Definition convert_contrib_BilinearResize2D (node : mx_node) (kw : kwargs)
  : M (list graph_item) :=
  '(name, input_nodes, attrs) ← lift (get_inputs node kw);
  let opset_version := opset_version kw in
  if opset_version <? 11 then raise opset_11_required
  else
  height ← lift (py_int (attrs_get attrs "height" (PyInt 0)));
  width ← lift (py_int (attrs_get attrs "width" (PyInt 0)));
  scale_height ← lift (py_float (attrs_get attrs "scale_height" (PyInt 0)));
  scale_width ← lift (py_float (attrs_get attrs "scale_width" (PyInt 0)));
  if (height * width =? 0)
     && SFeqb (SFmul 53 1024 scale_height scale_width) SF_zero then
    raise (AttributeError
             "height, width or scale_height, scale_width cannot be 0")
  else
  let mode := attrs_get attrs "mode" (PyStr "size") in
  if negb (py_eq_str mode "size") then
    raise (NotImplementedError
             ("contrib_BilinearResize2D with mode other than " +:+ dquote
              +:+ "size" +:+ dquote
              +:+ " is                                    not supported"))
  else
  nodes ← py_list [
    create_tensor [] (name +:+ "_roi") (DtName "float32")
  ];
  if SFeqb scale_height SF_zero then
    more ← py_list [
      create_tensor [PyInt 0] (name +:+ "_0") (DtName "int64");
      create_tensor [PyInt 2] (name +:+ "_2") (DtName "int64");
      create_tensor [PyInt height; PyInt width] (name +:+ "_h_w")
        (DtName "int64");
      (x ← item input_nodes 0;
       emit (make_node "Shape" [x] [name +:+ "_shape"] []));
      emit (make_node "Slice" [name +:+ "_shape"; name +:+ "_0"; name +:+ "_2"]
              [name +:+ "_shape_01"] []);
      emit (make_node "Concat" [name +:+ "_shape_01"; name +:+ "_h_w"]
              [name +:+ "_new_shape"] [("axis", int_attr 0)]);
      emit (make_node "Cast" [name +:+ "_shape"] [name +:+ "_shape_f"]
              [("to", int_attr FLOAT)]);
      emit (make_node "Cast" [name +:+ "_new_shape"] [name +:+ "_new_shape_f"]
              [("to", int_attr FLOAT)]);
      emit (make_node "Div" [name +:+ "_new_shape_f"; name +:+ "_shape_f"]
              [name +:+ "_scales"] []);
      (x ← item input_nodes 0;
       emit (make_named_node "Resize"
               [x; name +:+ "_roi"; name +:+ "_scales"] [name] name
               [("mode", str_attr "linear");
                ("coordinate_transformation_mode", str_attr "align_corners")]))
    ];
    mret (nodes ++ more)
  else
    more ← py_list [
      create_tensor [PyInt 1; PyInt 1; PyFloat scale_height;
                     PyFloat scale_width]
        (name +:+ "_scales") (DtName "float32");
      (x ← item input_nodes 0;
       emit (make_named_node "Resize"
               [x; name +:+ "_roi"; name +:+ "_scales"] [name] name
               [("mode", str_attr "linear");
                ("coordinate_transformation_mode", str_attr "align_corners")]))
    ];
    mret (nodes ++ more).

Definition convert_arange (node : mx_node) (kw : kwargs)
  : M (list graph_item) :=
  '(name, _, attrs) ← lift (get_inputs node kw);
  let opset_version := opset_version kw in
  if opset_version <? 11 then raise opset_11_required
  else
  let start := attrs_get attrs "start" (PyFloat SF_zero) in
  let stop := attrs_get attrs "stop" PyNone in
  let step := attrs_get attrs "step" (PyFloat SF_one) in
  let dtype := default "float32" (attrs !! "dtype") in
  repeat ← lift (py_int (attrs_get attrs "repeat" (PyInt 1)));
  if negb (repeat =? 1) then
    raise (NotImplementedError
             "arange operator with repeat != 1 not yet implemented.")
  else
  py_list [
    (v ← lift (np_array [start] (DtName dtype));
     create_const_scalar_node (name +:+ "_start") v);
    (v ← lift (np_array [stop] (DtName dtype));
     create_const_scalar_node (name +:+ "_stop") v);
    (v ← lift (np_array [step] (DtName dtype));
     create_const_scalar_node (name +:+ "_step") v);
    emit (make_named_node "Range"
            [name +:+ "_start"; name +:+ "_stop"; name +:+ "_step"]
            [name] name [])
  ].

Definition convert_repeat (node : mx_node) (kw : kwargs)
  : M (list graph_item) :=
  '(name, input_nodes, attrs) ← lift (get_inputs node kw);
  let opset_version := opset_version kw in
  if opset_version <? 11 then raise opset_11_required
  else
  repeats ← lift (py_int (attrs_get attrs "repeats" (PyInt 1)));
  let axis := attrs_get attrs "axis" (PyStr "None") in
  if repeats <=? 0 then
    raise (NotImplementedError
             "repeat operator does not support parameter repeats==0")
  else
  let nodes : list graph_item := [] in
  if py_eq_str axis "None" then
    more ← py_list [
      create_tensor [PyInt repeats] (name +:+ "_rep") (DtName "int64");
      create_tensor [PyInt 1; PyInt repeats] (name +:+ "_repeats")
        (DtName "int64");
      (x ← item input_nodes 0;
       emit (make_node "Shape" [x] [name +:+ "_shape"] []));
      emit (make_node "ReduceProd" [name +:+ "_shape"] [name +:+ "_size"] []);
      (x ← item input_nodes 0;
       emit (make_node "Reshape" [x; name +:+ "_size"] [name +:+ "_flat"] []));
      emit (make_node "Unsqueeze" [name +:+ "_flat"] [name +:+ "_unsqueeze"]
              [("axes", ints [-1])]);
      emit (make_node "Tile" [name +:+ "_unsqueeze"; name +:+ "_repeats"]
              [name +:+ "_tile"] []);
      emit (make_node "Mul" [name +:+ "_size"; name +:+ "_rep"]
              [name +:+ "_new_size"] []);
      emit (make_named_node "Reshape" [name +:+ "_tile"; name +:+ "_new_size"]
              [name] name [])
    ];
    mret (nodes ++ more)
  else
    axis ← lift (py_int axis);
    let repeats := repeats - 1 in
    more ← py_list [
      create_tensor [PyInt repeats] (name +:+ "_repeats") (DtName "int64");
      create_tensor [PyInt 1] (name +:+ "_1") (DtName "int64");
      create_tensor [PyInt 0] (name +:+ "_0") (DtName "int64");
      create_tensor [] (name +:+ "_void") (DtName "int64");
      create_tensor [PyInt axis] (name +:+ "_axis") (DtName "int64");
      (x ← item input_nodes 0;
       emit (make_node "Shape" [x] [name +:+ "_shape"] []));
      emit (make_node "Shape" [name +:+ "_shape"] [name +:+ "_dim"] []);
      emit (make_node "Reshape" [name +:+ "_dim"; name +:+ "_void"]
              [name +:+ "_dim_s"] []);
      emit (make_node "Range" [name +:+ "_0"; name +:+ "_dim_s"; name +:+ "_1"]
              [name +:+ "_range"] [])
    ];
    let nodes := nodes ++ more in
    let nodes :=
      if axis <? 0 then
        nodes ++ [
          ItemNode (make_node "Add" [name +:+ "_axis"; name +:+ "_dim"]
                      [name +:+ "_true_axis"] []);
          ItemNode (make_node "Equal" [name +:+ "_range"; name +:+ "_true_axis"]
                      [name +:+ "_one_hot"] [])
        ]
      else
        nodes ++ [
          ItemNode (make_node "Equal" [name +:+ "_range"; name +:+ "_axis"]
                      [name +:+ "_one_hot"] [])
        ] in
    let nodes := nodes ++ [
      ItemNode (make_node "Cast" [name +:+ "_one_hot"] [name +:+ "_one_hot_int"]
                  [("to", int_attr INT64)]);
      ItemNode (make_node "Mul" [name +:+ "_repeats"; name +:+ "_one_hot_int"]
                  [name +:+ "_mul"] []);
      ItemNode (make_node "Add" [name +:+ "_mul"; name +:+ "_1"]
                  [name +:+ "_add"] []);
      ItemNode (make_node "Concat" [name +:+ "_1"; name +:+ "_add"]
                  [name +:+ "_repeats_tensor"] [("axis", int_attr 0)])
    ] in
    more ←
      (if axis =? -1 then
         py_list [
           emit (make_node "Concat" [name +:+ "_shape"; name +:+ "_1"]
                   [name +:+ "_unsqueeze_shape"] [("axis", int_attr 0)]);
           (x ← item input_nodes 0;
            emit (make_node "Reshape" [x; name +:+ "_unsqueeze_shape"]
                    [name +:+ "_unsqueeze"] []))
         ]
       else
         py_list [
           (x ← item input_nodes 0;
            emit (make_node "Unsqueeze" [x] [name +:+ "_unsqueeze"]
                    [("axes", ints [axis + 1])]))
         ]);
    let nodes := nodes ++ more in
    mret (nodes ++ [
      ItemNode (make_node "Tile"
                  [name +:+ "_unsqueeze"; name +:+ "_repeats_tensor"]
                  [name +:+ "_tile"] []);
      ItemNode (make_node "Mul" [name +:+ "_shape"; name +:+ "_add"]
                  [name +:+ "_new_shape"] []);
      ItemNode (make_named_node "Reshape"
                  [name +:+ "_tile"; name +:+ "_new_shape"] [name] name [])
    ]).

(** *** _greater_scalar *)

Definition convert_greater_scalar (node : mx_node) (kw : kwargs)
  : M (list graph_item) :=
  '(name, input_nodes, attrs) ← lift (get_inputs node kw);
  scalar ← lift (py_float (attrs_get attrs "scalar" PyNone));
  let input_type := in_type kw in
  dtype ← lift (TENSOR_TYPE_TO_NP_TYPE input_type);
  scalar ←
    (if String.prefix "int" (dtype_name dtype) then
       z ← lift (float_trunc scalar); mret (PyInt z)
     else
       match dtype with
       | Float16 =>
           (* when using float16, we must convert it to np.uint16 view first *)
           mret (PyNp (mk_ndarray UInt16 [] [NInt (float16_bits scalar)]))
       | _ => mret (PyFloat scalar)
       end);
  let tensor_value :=
    make_tensor (name +:+ "_scalar") input_type [1] (PyList [scalar]) in
  py_list [
    (x ← item input_nodes 0;
     emit (make_node "Shape" [x] [name +:+ "_shape"] []));
    emit (make_node "ConstantOfShape" [name +:+ "_shape"] [name +:+ "_rhs"]
            [("value", ATensor tensor_value)]);
    (x ← item input_nodes 0;
     emit (make_node "Greater" [x; name +:+ "_rhs"] [name +:+ "_gt"] []));
    emit (make_named_node "Cast" [name +:+ "_gt"] [name] name
            [("to", int_attr input_type)])
  ].

(** ** The registry *)

Definition rule : Type := mx_node -> kwargs -> M (list graph_item).

(** The rules that rename the operator with [create_basic_op_node]: source
    opcode and target operator. *)
Definition direct_renames : list (string * string) :=
  [("tanh", "Tanh"); ("cos", "Cos"); ("sin", "Sin"); ("tan", "Tan");
   ("arccos", "Acos"); ("arcsin", "Asin"); ("arctan", "Atan");
   ("sigmoid", "Sigmoid"); ("relu", "Relu"); ("exp", "Exp");
   ("_copy", "Identity"); ("identity", "ConstantFill");
   ("BlockGrad", "ConstantFill"); ("MakeLoss", "ConstantFill");
   ("Flatten", "Flatten"); ("_maximum", "Max"); ("_minimum", "Min");
   ("elemwise_add", "Add"); ("broadcast_add", "Add");
   ("elemwise_sub", "Sub"); ("broadcast_sub", "Sub");
   ("elemwise_mul", "Mul"); ("broadcast_mul", "Mul");
   ("elemwise_div", "Div"); ("broadcast_div", "Div");
   ("negative", "Neg"); ("abs", "Abs"); ("add_n", "Sum"); ("ceil", "Ceil");
   ("floor", "Floor"); ("log", "Log"); ("reciprocal", "Reciprocal");
   ("_power", "Pow"); ("broadcast_power", "Pow"); ("sqrt", "Sqrt");
   ("shape_array", "Shape"); ("broadcast_lesser", "Less");
   ("broadcast_greater", "Greater"); ("broadcast_equal", "Equal");
   ("broadcast_logical_and", "And"); ("broadcast_logical_or", "Or");
   ("broadcast_logical_xor", "Xor"); ("logical_not", "Not");
   ("size_array", "Size")].

End TranslationRules.

(** ** How the target format reads a lowered operator

    The operator definitions of the target format are not part of the
    translation; what is used of them here: the parameters of [Pad], [Clip],
    [Dropout] and [TopK] are attributes in the older operator sets and
    inputs, after the data input, in the newer ones. *)









(** The nodes among the items of a lowering. *)
Definition nodes_of (items : list graph_item) : list NodeProto :=
  omap (fun i => match i with ItemNode n => Some n | ItemValue _ => None end)
       items.


(** ** Evaluating a lowering on tensors

    Tensors are given by their elements in order. Four operators of the
    target format are evaluated on them as the format defines them: [Cast]
    of integers to a float type, [Equal] and [Div] on floats and [Where] on
    floats, where an operand of one element is broadcast. Every other
    operator, and every other case of these four, is left to a parameter
    [other], so that a statement proved for all [other] holds whatever the
    rest of the operator set computes. *)

Inductive tdata : Type :=
| TFloat (prec emax : Z) (l : list spec_float)
| TInt (l : list Z)
| TBool (l : list bool).

Definition broadcast2 {A B C} (f : A -> B -> C) (a : list A) (b : list B)
  : option (list C) :=
  match a, b with
  | [x], _ => Some (map (f x) b)
  | _, [y] => Some (map (fun x => f x y) a)
  | _, _ =>
      if decide (length a = length b) then Some (zip_with f a b) else None
  end.

Definition attr_int (n : NodeProto) (key : string) : option Z :=
  match List.find (fun e => bool_decide (e.1 = key)) (attribute n) with
  | Some (_, AVal (PyInt z)) => Some z
  | _ => None
  end.

(** An integer as a value of a float format. *)
Definition cast_int (prec emax : Z) (z : Z) : spec_float :=
  binary_normalize prec emax z 0 false.

Definition eval_op (n : NodeProto) (args : list tdata) : option tdata :=
  match args with
  | [TInt l] =>
      if decide (op_type n = "Cast") then
        to ← attr_int n "to";
        match TENSOR_TYPE_TO_NP_TYPE to with
        | Ret d =>
            '(prec, emax) ← float_format d;
            Some (TFloat prec emax (map (cast_int prec emax) l))
        | Raise _ => None
        end
      else None
  | [TFloat prec emax x; TFloat _ _ y] =>
      if decide (op_type n = "Equal") then
        r ← broadcast2 SFeqb x y; Some (TBool r)
      else if decide (op_type n = "Div") then
        r ← broadcast2 (SFdiv prec emax) x y; Some (TFloat prec emax r)
      else None
  | [TBool cs; TFloat prec emax x; TFloat _ _ y] =>
      if decide (op_type n = "Where") then
        cx ← broadcast2 (fun c x => (c, x)) cs x;
        r ← broadcast2 (fun (p : bool * spec_float) y =>
                          if p.1 then p.2 else y) cx y;
        Some (TFloat prec emax r)
      else None
  | _ => None
  end.

Section Evaluation.
Variable other : NodeProto -> list tdata -> option tdata.

(** A node reads its inputs, which must be bound, and binds its output. *)
Definition eval_node (e : gmap string tdata) (n : NodeProto)
  : option (gmap string tdata) :=
  match output n with
  | [o] =>
      args ← mapM (fun i => e !! i) (input n);
      v ← match eval_op n args with
          | Some v => Some v
          | None => other n args
          end;
      Some (<[o := v]> e)
  | _ => None
  end.

Fixpoint eval_nodes (e : gmap string tdata) (ns : list NodeProto)
  : option (gmap string tdata) :=
  match ns with
  | [] => Some e
  | n :: rest => e' ← eval_node e n; eval_nodes e' rest
  end.

End Evaluation.

(** The tensors a graph starts from: those fed to its inputs, and the
    initializers. The values of an initializer are read by its element
    type: integers for [INT64], floats of the format for [FLOAT] and
    [DOUBLE], and for [FLOAT16] the 16-bit patterns the format stores. *)
Definition float16_of_bits (b : Z) : spec_float :=
  let s := Z.testbit b 15 in
  let e := Z.land (Z.shiftr b 10) 31 in
  let m := Z.land b 1023 in
  if e =? 31 then (if m =? 0 then S754_infinity s else S754_nan)
  else if e =? 0 then
    match m with
    | Zpos p => S754_finite s p (-24)
    | _ => S754_zero s
    end
  else
    match 1024 + m with
    | Zpos p => S754_finite s p (e - 25)
    | _ => S754_zero s
    end.

Definition flat_values (v : pyval) : option (list num) :=
  let element (x : pyval) : option (list num) :=
    match x with
    | PyInt z => Some [NInt z]
    | PyFloat f => Some [NFloat f]
    | PyNp a => Some (nd_data a)
    | _ => None
    end in
  match v with
  | PyList l | PyTuple l => @List.concat num <$> mapM element l
  | PyNp a => Some (nd_data a)
  | _ => None
  end.

Definition tensor_of_initializer (t : TensorProto) : option tdata :=
  elements ← flat_values (t_vals t);
  match TENSOR_TYPE_TO_NP_TYPE (t_data_type t) with
  | Ret Int64 =>
      l ← mapM (fun x => match x with NInt z => Some z | NFloat _ => None end)
             elements;
      Some (TInt l)
  | Ret Float16 =>
      l ← mapM (fun x => match x with
                         | NInt b => Some (float16_of_bits b)
                         | NFloat _ => None
                         end) elements;
      Some (TFloat 11 16 l)
  | Ret d =>
      '(prec, emax) ← float_format d;
      Some (TFloat prec emax
              (map (fun x => match x with
                             | NInt z => cast_int prec emax z
                             | NFloat f => SFround prec emax f
                             end) elements))
  | Raise _ => None
  end.

Definition bind_initializer (e : gmap string tdata) (t : TensorProto)
  : gmap string tdata :=
  match tensor_of_initializer t with
  | Some v => <[t_name t := v]> e
  | None => e
  end.

Definition graph_env (inputs : gmap string tdata)
    (initializer : list TensorProto) : gmap string tdata :=
  fold_left bind_initializer initializer inputs.

(** A float that is a zero of either sign. *)
Definition SFis_zero (x : spec_float) : bool :=
  match x with
  | S754_zero _ => true
  | _ => false
  end.

(** ** A small instance of the libraries

    Enough of Python's [float], of numpy and of [numpy_helper] to run the
    rules on examples: decimal literals, integer element types, arithmetic
    on arrays of one float format; it refuses the rest. *)

Definition ref_float_of_chars (l : list ascii) : option spec_float :=
  let l := strip_chars l in
  let '(neg, l) := match l with
                   | c :: t => if ascii_eqb c "-" then (true, t)
                               else if ascii_eqb c "+" then (false, t)
                               else (false, l)
                   | [] => (false, [])
                   end in
  let '(ip, rest) := digit_run l in
  let '(fp, rest) := match rest with
                     | c :: t => if ascii_eqb c "." then digit_run t
                                 else ([], rest)
                     | [] => ([], [])
                     end in
  match ip ++ fp, rest with
  | _ :: _, [] =>
      let n := fold_left (fun a x => 10 * a + digit_value x) (ip ++ fp) 0 in
      match n with
      | Zpos p =>
          Some (SFdiv 53 1024 (S754_finite neg p 0)
                  (S754_finite false (Z.to_pos (10 ^ Z.of_nat (length fp))) 0))
      | _ => Some (S754_zero neg)
      end
  | _, _ => None
  end.

Definition int_range (d : np_dtype) : option (Z * Z) :=
  match d with
  | Int8 => Some (- 2 ^ 7, 2 ^ 7) | Int16 => Some (- 2 ^ 15, 2 ^ 15)
  | Int32 => Some (- 2 ^ 31, 2 ^ 31) | Int64 => Some (- 2 ^ 63, 2 ^ 63)
  | UInt8 => Some (0, 2 ^ 8) | UInt16 => Some (0, 2 ^ 16)
  | UInt32 => Some (0, 2 ^ 32) | UInt64 => Some (0, 2 ^ 64)
  | _ => None
  end.

Definition ref_np_cast_other (d : np_dtype) (v : pyval)
  : builtin_error + num :=
  match int_range d, v with
  | Some (lo, hi), PyInt z =>
      if (lo <=? z) && (z <? hi) then inr (NInt z) else inl OverflowError
  | _, _ => inl TypeError
  end.

Definition ref_float_op (op : np_op) (prec emax : Z)
  : option (spec_float -> spec_float -> spec_float) :=
  match op with
  | NpMul => Some (SFmul prec emax)
  | NpSub => Some (SFsub prec emax)
  | NpAdd => Some (SFadd prec emax)
  | NpDiv => Some (SFdiv prec emax)
  | NpPow => None
  end.

Definition floats_of (a : ndarray) : option (list spec_float) :=
  mapM (fun x => match x with NFloat f => Some f | NInt _ => None end)
       (nd_data a).

Definition ref_np_binop (op : np_op) (a b : ndarray)
  : builtin_error + ndarray :=
  match float_format (nd_dtype a), floats_of a, floats_of b with
  | Some (prec, emax), Some x, Some y =>
      match ref_float_op op prec emax with
      | Some f =>
          if bool_decide (float_format (nd_dtype b) = Some (prec, emax)) then
            match broadcast2 f x y with
            | Some r =>
                inr (mk_ndarray (nd_dtype a)
                       (match nd_shape a with
                        | [] => nd_shape b
                        | s => s
                        end)
                       (map NFloat r))
            | None => inl ValueError
            end
          else inl TypeError
      | None => inl TypeError
      end
  | _, _, _ => inl TypeError
  end.

Definition ref_to_array (t : TensorProto) : builtin_error + ndarray :=
  match TENSOR_TYPE_TO_NP_TYPE (t_data_type t), t_vals t with
  | Ret d, PyNp a => inr (mk_ndarray d (t_dims t) (nd_data a))
  | Ret d, PyTuple [PyNp a] => inr (mk_ndarray d (t_dims t) (nd_data a))
  | Ret d, PyList l =>
      match float_format d,
            mapM (fun v => match v with PyFloat f => Some f | _ => None end) l
      with
      | Some (prec, emax), Some fs =>
          inr (mk_ndarray d (t_dims t)
                 (map (fun f => NFloat (SFround prec emax f)) fs))
      | _, _ => inl TypeError
      end
  | _, _ => inl TypeError
  end.

Definition reference_libraries : External := {|
  float_of_string := fun s => ref_float_of_chars (chars s);
  np_dtype_alias := fun _ => None;
  np_cast_other := ref_np_cast_other;
  np_binop := ref_np_binop;
  to_array := ref_to_array;
  py_eval := py_eval_dims
|}.

(** The same context at another version of the target format. *)
Definition with_opset (kw : kwargs) (v : Z) : kwargs := {|
  opset_version := v;
  in_type := in_type kw;
  in_shape := in_shape kw;
  idx := idx kw;
  proc_nodes := proc_nodes kw;
  index_lookup := index_lookup kw;
  is_input := is_input kw;
  weights := weights kw;
  input_shape := input_shape kw;
  out_shape := out_shape kw
|}.

(** ** Example nodes and contexts *)

(** A context in which node 0 is a graph input named [x] and node 1 one
    named [len], lowered at the given version for the given element type. *)
Definition example_kwargs (opset in_type : Z) : kwargs := {|
  opset_version := opset;
  in_type := in_type;
  in_shape := [[2; 4]];
  idx := 3;
  proc_nodes := [ItemValue (make_tensor_value_info "x" in_type [2; 4]);
                 ItemValue (make_tensor_value_info "len" in_type [2])];
  index_lookup := [0%nat; 1%nat];
  is_input := false;
  weights := ∅;
  input_shape := [2; 4];
  out_shape := [2; 4]
|}.

Definition example_node (name op : string) (inputs : list nat)
    (attrs : list (string * string)) : mx_node := {|
  node_name := name;
  node_op := op;
  node_inputs := map (fun i => (i, 0%nat, 0%nat)) inputs;
  node_attrs := list_to_map attrs
|}.

(** The constant [x = [5.0]] among the initializers. *)
Definition example_constant (v : Z) : TensorProto :=
  make_tensor "x" FLOAT [1] (PyList [PyFloat (float_of_Z v)]).


Definition example_slice_channel : mx_node :=
  example_node "sc" "SliceChannel" [0%nat] [("num_outputs", "2")].

(** A reversed-subtract node [10 - x] of the given name, and the values 5
    and 10 in single precision. *)
Definition example_rminus_scalar (name : string) : mx_node :=
  example_node name "_rminus_scalar" [0%nat] [("scalar", "10")].
Definition float32_5 : spec_float := S754_finite false 10485760 (-21).
Definition float32_10 : spec_float := S754_finite false 10485760 (-20).
Definition float32 (f : spec_float) : ndarray :=
  mk_ndarray Float32 [1] [NFloat f].


(** A range node, a slice node with a negative step and a normalization
    node in instance mode. *)
Definition example_arange : mx_node :=
  example_node "arange0" "_arange" [] [("start", "0"); ("stop", "4")].
Definition example_slice : mx_node :=
  example_node "slice0" "slice" [0%nat]
    [("begin", "(0, 0)"); ("end", "(1, 2)"); ("step", "(1, -1)")].
Definition example_l2normalization : mx_node :=
  example_node "l2norm0" "L2Normalization" [0%nat] [("mode", "instance")].

(** A softmax node with a length input. *)
Definition example_softmax : mx_node :=
  example_node "sm" "softmax" [0%nat; 1%nat]
    [("use_length", "True"); ("axis", "-1")].

(** Tensors to feed the example graph, and a semantics of the operators
    not evaluated here under which each yields one zero, as the sums of a
    row whose valid length is zero do. *)
Definition example_inputs : gmap string tdata :=
  {[ "x" := TFloat 24 128 [float32_5]; "len" := TInt [0] ]}.

Definition all_masked (n : NodeProto) (args : list tdata) : option tdata :=
  Some (TFloat 24 128 [S754_zero false]).

(** A multiplication by the scalar 2, a range of half-precision values, a
    comparison with the scalar 2, and the value 2 in half precision. *)
Definition example_mul_scalar : mx_node :=
  example_node "_mulscalar0" "_mul_scalar" [0%nat] [("scalar", "2")].
Definition example_arange_float16 : mx_node :=
  example_node "arange1" "_arange" []
    [("start", "0"); ("stop", "2"); ("dtype", "float16")].
Definition example_greater_scalar : mx_node :=
  example_node "gt0" "_greater_scalar" [0%nat] [("scalar", "2")].
Definition float16_2 : spec_float := S754_finite false 1024 (-9).

(** ** The vocabulary of the properties *)

(** The invariant of the loop of [transform_padding] after [j] pairs: the
    first [j] begins and the first [j] ends are in place. *)
Definition padding_inv (pad_width : list pyval) (n j : nat)
    (w : list pyval) : Prop :=
  length w = (2 * n)%nat /\
  forall i, (i < j)%nat ->
    w !! i = pad_width !! (2 * i)%nat /\
    w !! (n + i)%nat = pad_width !! (2 * i + 1)%nat.

(** ** The dimension-list parser *)

(** What the pattern describes: a body is one or more characters of the
    class; the value matches as a whole when it is a body in parentheses,
    and somewhere when it has such a substring. *)
Definition dimension_body (body : list ascii) : Prop :=
  body <> [] /\ Forall (fun c => in_tuple_class c = true) body.

Definition matches_whole (s : string) : Prop :=
  exists body,
    chars s = "("%char :: body ++ [")"%char] /\ dimension_body body.

Definition matches_somewhere (s : string) : Prop :=
  exists pre body post,
    chars s = pre ++ "("%char :: body ++ ")"%char :: post /\
    dimension_body body.

(** The message of the malformed-attribute error: it names the key and the
    raw string. *)
Definition malformed_dimensions (key raw : string) : pyerr :=
  AttributeError ("Malformed " +:+ key +:+ " dimensions: " +:+ raw).

(** Which operators a returned list holds. *)
Definition returns_op (op : string) (r : pyres (list graph_item)) : bool :=
  match r with
  | Ret items =>
      existsb (fun n => bool_decide (op_type n = op)) (nodes_of items)
  | Raise _ => false
  end.

(** ** Configurations the target cannot express *)

Definition int_or_none (v : pyval) : Prop :=
  v = PyNone \/ exists z, v = PyInt z.

Definition none_to_one (x : pyval) : pyval :=
  if is_none x then PyInt 1 else x.

Definition negative_steps_error : pyerr :=
  NotImplementedError "slice operator does not support negative steps yet".

Definition channel_mode_error : pyerr :=
  AttributeError "L2Normalization: ONNX currently supports channel mode only".

(** A result whose exception, if any, is a built-in one: it is none of the
    errors the rules raise with a message of their own. *)
Definition builtin_only {A} (r : pyres A) : Prop :=
  forall e, r = Raise e -> exists b : builtin_error, e = Builtin b.

Definition in_int64 (z : Z) : Prop := - 2 ^ 63 <= z < 2 ^ 63.

(** The opcodes of the seven scalar-arithmetic rules. *)
Definition scalar_opcodes : list string :=
  ["_mul_scalar"; "_minus_scalar"; "_rminus_scalar"; "_plus_scalar";
   "_div_scalar"; "_rdiv_scalar"; "_power_scalar"].

(** The output names of the Split node of SliceChannel. *)
Definition slice_channel_outputs (nm : string) (k : Z) : list string :=
  map (fun i => nm +:+ "_output" +:+ str_of_Z i) (py_range k).

(** The naming contract on the last item of a lowering of the node [nm]
    by the rule of [op]: a node named [nm] whose first output is [nm], or
    the Split node of SliceChannel with its numbered outputs; a descriptor
    only for the scalar rules (the constant they folded) and for [null]
    (the descriptor of the graph input or parameter [nm]). *)
Definition named_after (op nm : string) (i : graph_item) : Prop :=
  match i with
  | ItemNode n =>
      name n = nm /\
      (head (output n) = Some nm \/
       (op = "SliceChannel" /\
        exists k, 1 < k /\ output n = slice_channel_outputs nm k))
  | ItemValue v => op ∈ scalar_opcodes \/ (op = "null" /\ vi_name v = nm)
  end.

(** A rule whose returned lists end with an item that satisfies [P], and a
    list element that satisfies [P]. *)
Definition ends_with (P : graph_item -> Prop) (m : M (list graph_item))
  : Prop :=
  forall init items init',
    m init = (Ret items, init') -> exists i, last items = Some i /\ P i.

Definition yields (P : graph_item -> Prop) (m : M graph_item) : Prop :=
  forall init i init', m init = (Ret i, init') -> P i.

Section PropertyVocabulary.
Context `{External}.

(** A computation that never raises the version-requirement error. *)
Definition never_version_error {A} (m : M A) : Prop :=
  forall init, (m init).1 <> Raise opset_11_required.

(** What the specification asks of a rule that needs version 11: when the
    inputs of the node resolve, below 11 it raises the version-requirement
    error at once, with the initializers untouched and no node returned; the
    error is raised at no other version; and from 11 on the lowering is the
    same whatever the version. *)
Definition fails_fast_below_11 (r : rule) : Prop :=
  forall (node : mx_node) (kw : kwargs) (initializer : list TensorProto),
    (forall x, get_inputs node kw = Ret x ->
       (opset_version kw < 11 ->
        r node kw initializer = (Raise opset_11_required, initializer)) /\
       ((r node kw initializer).1 = Raise opset_11_required
        <-> opset_version kw < 11)) /\
    (forall v, 11 <= opset_version kw -> 11 <= v ->
       r node (with_opset kw v) initializer = r node kw initializer).


(** The operators the seven scalar rules pass to the helper. *)
Definition scalar_operators : list string :=
  ["Mul"; "Sub"; "Add"; "Div"; "Pow"].

(** The folded constant, stated apart from the rule: the constant
    combined with the scalar, the scalar being the left operand of a
    subtraction for a node whose name starts with [_rminusscalar] and of a
    division for a node whose name starts with [_rdivscalar]. *)
Definition folded_constant (op_name name : string) (constant scalar : ndarray)
  : builtin_error + ndarray :=
  if decide (op_name = "Sub") then
    if String.prefix "_rminusscalar" name then np_binop NpSub scalar constant
    else np_binop NpSub constant scalar
  else if decide (op_name = "Div") then
    if String.prefix "_rdivscalar" name then np_binop NpDiv scalar constant
    else np_binop NpDiv constant scalar
  else if decide (op_name = "Mul") then np_binop NpMul constant scalar
  else if decide (op_name = "Add") then np_binop NpAdd constant scalar
  else np_binop NpPow constant scalar.

(** The temperature of a softmax node, as its rule reads it: 1 when the
    attribute is absent or is the string [None]. *)
Definition softmax_temperature (attrs : gmap string string)
  : pyres spec_float :=
  match attrs !! "temperature" with
  | None => Ret SF_one
  | Some t => if decide (t = "None") then Ret SF_one else py_float (PyStr t)
  end.

End PropertyVocabulary.

(** The guard of the masked softmax on one element of a sum: the constant
    1 of the float format where the sum equals the constant 0. *)
Definition guarded_sum (prec emax : Z) (s : spec_float) : spec_float :=
  if SFeqb s (cast_int prec emax 0) then cast_int prec emax 1 else s.
(** The name a node's input resolves to: the index lookup gives the
    position of its producer among the processed nodes. *)
Definition input_name (kw : kwargs) (ip : nat * nat * nat) : option string :=
  input_node_id ← index_lookup kw !! ip.1.1;
  p ← proc_nodes kw !! input_node_id;
  Some (item_name p).
(** ** Python's notation for tuples and lists of integers *)

(** [str] of a tuple or of a list whose entries are integers or [None], as
    the attributes of a source node hold them: [(1, 2)], [(1,)], [()],
    [[1, None]]. *)
Definition py_repr_item (x : option Z) : list ascii :=
  match x with
  | Some z => chars (str_of_Z z)
  | None => chars "None"
  end.

Fixpoint py_repr_items (l : list (option Z)) : list ascii :=
  match l with
  | [] => []
  | [x] => py_repr_item x
  | x :: t => py_repr_item x ++ chars ", " ++ py_repr_items t
  end.

Definition py_repr_tuple (l : list (option Z)) : string :=
  str_of match l with
         | [x] => chars "(" ++ py_repr_item x ++ chars ",)"
         | _ => chars "(" ++ py_repr_items l ++ chars ")"
         end.

Definition py_repr_list (l : list (option Z)) : string :=
  str_of (chars "[" ++ py_repr_items l ++ chars "]").

Definition py_of_item (x : option Z) : pyval :=
  match x with
  | Some z => PyInt z
  | None => PyNone
  end.

(** The characters [convert_string_to_list] leaves alone inside an element:
    no white space, no bracket, no [L], no comma. *)
Definition is_kept (c : ascii) : bool :=
  negb (is_space c) &&
  negb (existsb (ascii_eqb c)
          ["("%char; ")"%char; "L"%char; "["%char; "]"%char; ","%char]).
(** ** Further translation rules *)

(** [a in b] for two strings: [a] is a substring of [b]. *)
Fixpoint is_substring (a b : string) : bool :=
  String.prefix a b ||
  match b with
  | String _ t => is_substring a t
  | EmptyString => false
  end.

(** [re.findall(r'\d+', s)]: the maximal runs of digits, from the left. *)
Fixpoint digit_runs_from (run : list ascii) (l : list ascii)
  : list (list ascii) :=
  match l with
  | [] => match run with [] => [] | _ => [run] end
  | c :: t =>
      if is_digit c then digit_runs_from (run ++ [c]) t
      else match run with
           | [] => digit_runs_from [] t
           | _ => run :: digit_runs_from [] t
           end
  end.

Definition digit_runs (s : string) : list (list ascii) :=
  digit_runs_from [] (chars s).

(** [list(v)]: a tuple or a list gives its elements; an integer and [None]
    are not iterable. *)
Definition py_list_of (v : pyval) : pyres (list pyval) :=
  match v with
  | PyTuple l | PyList l => Ret l
  | _ => Raise TypeError
  end.

(** [v != 1] for an element of a parsed list: an integer or [None]. *)
Definition py_ne_int (v : pyval) (z : Z) : bool :=
  match v with
  | PyInt x => negb (x =? z)
  | _ => true
  end.

(** One step of [map(int, re.findall(r'\d+', axes))]: [int] of a run,
    appended to the ones before. *)
Definition perm_body (acc : list pyval) (run : list ascii)
  : pyres (list pyval) :=
  match int_of_chars run with
  | Some z => Ret (acc ++ [PyInt z])
  | None => Raise ValueError
  end.

Section FurtherRules.
Context `{External}.

(** [attrs[key]]. *)
Definition attrs_item (attrs : gmap string string) (key : string)
  : pyres string :=
  match attrs !! key with
  | Some s => Ret s
  | None => Raise KeyError
  end.

(** More float literals of the source. *)
Definition SF_quarter : spec_float :=
  Eval vm_compute in SFdiv 53 1024 (float_of_Z 1) (float_of_Z 4).
Definition SF_sqrt2 : spec_float := S754_finite false 6369051672525773 (-52).

(** *** Activation *)

Definition act_types : list (string * string) :=
  [("tanh", "Tanh"); ("relu", "Relu"); ("sigmoid", "Sigmoid");
   ("softrelu", "Softplus"); ("softsign", "Softsign")].

Definition convert_activation (node : mx_node) (kw : kwargs)
  : M (list graph_item) :=
  '(name, input_nodes, attrs) ← lift (get_inputs node kw);
  act_type ← lift (attrs_item attrs "act_type");
  let act_name := (list_to_map act_types : gmap string string) !! act_type in
  match act_name with
  | Some act_name =>
      if bool_decide (act_name = "") then
        raise (AttributeError
                 ("Activation " +:+ act_type +:+
                  " not implemented or recognized in the converter"))
      else
        mret [ItemNode (make_named_node act_name input_nodes [name] name [])]
  | None =>
      raise (AttributeError
               ("Activation " +:+ act_type +:+
                " not implemented or recognized in the converter"))
  end.

(** *** LeakyReLU *)

Definition leaky_act_name : list (string * string) :=
  [("elu", "Elu"); ("leaky", "LeakyRelu"); ("prelu", "PRelu");
   ("selu", "Selu")].

Definition convert_leakyrelu (node : mx_node) (kw : kwargs)
  : M (list graph_item) :=
  '(name, input_nodes, attrs) ← lift (get_inputs node kw);
  let act_type := default "leaky" (attrs !! "act_type") in
  alpha ← lift (py_float (attrs_get attrs "slope" (PyFloat SF_quarter)));
  let act_name (k : string) : pyres string :=
    match (list_to_map leaky_act_name : gmap string string) !! k with
    | Some v => Ret v
    | None => Raise KeyError
    end in
  if bool_decide (act_type = "prelu") || bool_decide (act_type = "selu") then
    op ← lift (act_name act_type);
    mret [ItemNode (make_named_node op input_nodes [name] name [])]
  else if is_substring act_type "gelu" then
    (* [act_type in ('gelu')]: the parentheses make no tuple *)
    sqrt2 ← lift (np_scalar Float32 (PyFloat SF_sqrt2));
    py_list [
      create_const_scalar_node (name +:+ "_sqrt2") sqrt2;
      (x ← item input_nodes 0;
       emit (make_node "Div" [x; name +:+ "_sqrt2"] [name +:+ "_div0_out"] []));
      emit (make_node "Erf" [name +:+ "_div0_out"] [name +:+ "_erf0_out"] []);
      (v ← lift (np_scalar Float32 (PyFloat SF_one));
       create_const_scalar_node (name +:+ "_one") v);
      (v ← lift (np_scalar Float32 (PyFloat SF_half));
       create_const_scalar_node (name +:+ "_half") v);
      emit (make_node "Add" [name +:+ "_erf0_out"; name +:+ "_one"]
              [name +:+ "_add0_out"] []);
      (x ← item input_nodes 0;
       emit (make_node "Mul" [x; name +:+ "_add0_out"]
               [name +:+ "_mul0_out"] []));
      emit (make_named_node "Mul" [name +:+ "_mul0_out"; name +:+ "_half"]
              [name] name [])
    ]
  else
    op ← lift (act_name act_type);
    mret [ItemNode (make_named_node op input_nodes [name] name
                      [("alpha", float_attr alpha)])].

(** *** _linalg_gemm2 *)

Definition convert_linalg_gemm2 (node : mx_node) (kw : kwargs)
  : M (list graph_item) :=
  '(name, input_nodes, attrs) ← lift (get_inputs node kw);
  alpha ← lift (py_float (attrs_get attrs "alpha" (PyFloat SF_one)));
  let trans_a := get_boolean_attribute_value attrs "transpose_a" in
  let trans_b := get_boolean_attribute_value attrs "transpose_b" in
  let op_name := "transpose" +:+ str_of_Z (idx kw) in
  if SFeqb alpha SF_one && (trans_a =? 0) && (trans_b =? 0) then
    mret [ItemNode (make_named_node "MatMul" input_nodes [name] name [])]
  else if (trans_a =? 1) && (trans_b =? 0) then
    let op_name := "transpose" +:+ str_of_Z (idx kw) in
    let node_name := op_name +:+ "_a" in
    a ← item input_nodes 0;
    let trans_a_node :=
      make_named_node "Transpose" [a] [op_name +:+ "_a"] node_name [] in
    b ← item input_nodes 1;
    let matmul_node :=
      make_named_node "MatMul" [node_name; b] [name] name [] in
    mret [ItemNode trans_a_node; ItemNode matmul_node]
  else if (trans_a =? 0) && (trans_b =? 1) then
    let node_name := op_name +:+ "_b" in
    b ← item input_nodes 1;
    let trans_b_node :=
      make_named_node "Transpose" [b] [op_name +:+ "_b"] node_name [] in
    a ← item input_nodes 0;
    let matmul_node :=
      make_named_node "MatMul" [a; node_name] [name] name [] in
    mret [ItemNode trans_b_node; ItemNode matmul_node]
  else
    let node_name_a := op_name +:+ "_a" in
    a ← item input_nodes 0;
    let trans_a_node :=
      make_named_node "Transpose" [a] [op_name +:+ "_a"] node_name_a [] in
    let node_name_b := op_name +:+ "_b" in
    b ← item input_nodes 1;
    let trans_b_node :=
      make_named_node "Transpose" [b] [op_name +:+ "_b"] node_name_b [] in
    let matmul_node :=
      make_named_node "MatMul" input_nodes [name] name [] in
    mret [ItemNode trans_a_node; ItemNode trans_b_node; ItemNode matmul_node].

(** *** Reshape *)

(** [str(e)] for the exception with the two arguments of the source. *)
Definition reshape_not_supported (val : Z) : pyerr :=
  AttributeError ("('Reshape: Shape value not supported in ONNX', " +:+
                  str_of_Z val +:+ ")").

Definition not_supported_shape : list Z := [-2; -3; -4].

Definition convert_reshape (node : mx_node) (kw : kwargs)
  : M (list graph_item) :=
  '(name, input_nodes, attrs) ← lift (get_inputs node kw);
  let reverse := default "False" (attrs !! "reverse") in
  shape ← lift (attrs_item attrs "shape");
  targ_shape ← lift (convert_string_to_list (Some shape));
  _ ← lift (for_each (fun (_ : unit) (val : pyval) =>
              match val with
              | PyInt z =>
                  if bool_decide (z ∈ not_supported_shape)
                  then Raise (reshape_not_supported z) else Ret tt
              | _ => Ret tt
              end) targ_shape tt);
  nodes ← py_list [
    create_tensor targ_shape (name +:+ "_targ_shape") (DtName "int64")
  ];
  if bool_decide (reverse = "False") then
    more ← py_list [
      (x ← item input_nodes 0;
       emit (make_named_node "Reshape" [x; name +:+ "_targ_shape"] [name]
               name []))
    ];
    mret (nodes ++ more)
  else
    more ← py_list [
      create_tensor [PyInt 0] (name +:+ "_0") (DtName "int64");
      create_tensor [PyInt 1] (name +:+ "_1") (DtName "int64");
      emit (make_node "Shape" [name +:+ "_targ_shape"]
              [name +:+ "_targ_dim"] []);
      (x ← item input_nodes 0;
       emit (make_node "Shape" [x] [name +:+ "_orig_shape"] []));
      emit (make_node "Shape" [name +:+ "_orig_shape"]
              [name +:+ "_orig_dim"] []);
      emit (make_node "Sub" [name +:+ "_targ_dim"; name +:+ "_orig_dim"]
              [name +:+ "_dim_diff"] []);
      emit (make_node "Abs" [name +:+ "_dim_diff"] [name +:+ "_pad_len"] []);
      emit (make_node "Less" [name +:+ "_targ_dim"; name +:+ "_orig_dim"]
              [name +:+ "_targ_less_orig"] []);
      emit (make_node "Less" [name +:+ "_orig_dim"; name +:+ "_targ_dim"]
              [name +:+ "_orig_less_targ"] []);
      emit (make_node "Where"
              [name +:+ "_targ_less_orig"; name +:+ "_pad_len";
               name +:+ "_0"] [name +:+ "_targ_pad_len"] []);
      emit (make_node "Where"
              [name +:+ "_orig_less_targ"; name +:+ "_pad_len";
               name +:+ "_0"] [name +:+ "_orig_pad_len"] []);
      emit (make_node "Concat" [name +:+ "_targ_pad_len"; name +:+ "_0"]
              [name +:+ "_targ_pads"] [("axis", int_attr 0)]);
      emit (make_node "Concat" [name +:+ "_orig_pad_len"; name +:+ "_0"]
              [name +:+ "_orig_pads"] [("axis", int_attr 0)]);
      emit (make_node "Pad"
              [name +:+ "_targ_shape"; name +:+ "_targ_pads"; name +:+ "_1"]
              [name +:+ "_targ_shape_padded"] [("mode", str_attr "constant")]);
      emit (make_node "Pad"
              [name +:+ "_orig_shape"; name +:+ "_orig_pads"; name +:+ "_1"]
              [name +:+ "_orig_shape_padded"] [("mode", str_attr "constant")]);
      emit (make_node "Equal" [name +:+ "_targ_shape_padded"; name +:+ "_0"]
              [name +:+ "_targ_shape_0_mask"] []);
      emit (make_node "Where"
              [name +:+ "_targ_shape_0_mask"; name +:+ "_orig_shape_padded";
               name +:+ "_targ_shape_padded"] [name +:+ "_targ_shape_new"] []);
      emit (make_node "Shape" [name +:+ "_targ_shape_new"]
              [name +:+ "_targ_new_dim"] []);
      emit (make_node "Slice"
              [name +:+ "_targ_shape_new"; name +:+ "_targ_pad_len";
               name +:+ "_targ_new_dim"] [name +:+ "_targ_shape_final"] []);
      (x ← item input_nodes 0;
       emit (make_named_node "Reshape" [x; name +:+ "_targ_shape_final"]
               [name] name []))
    ];
    mret (nodes ++ more).

(** *** squeeze *)

Definition squeeze_missing_axis : pyerr :=
  AttributeError
    ("Squeeze: Missing axis attribute: ONNX currently requires axis to " +:+
     "be specified for squeeze operator").

Definition convert_squeeze (node : mx_node) (kw : kwargs)
  : M (list graph_item) :=
  '(name, input_nodes, attrs) ← lift (get_inputs node kw);
  let axis := attrs !! "axis" in
  match axis with
  | None => raise squeeze_missing_axis
  | Some a =>
      if bool_decide (a = "") then raise squeeze_missing_axis
      else
        axis ← lift (convert_string_to_list (Some a));
        mret [ItemNode (make_named_node "Squeeze" input_nodes [name] name
                          [("axes", AVal (PyList axis))])]
  end.

(** *** stack *)

Definition convert_stack (node : mx_node) (kw : kwargs)
  : M (list graph_item) :=
  '(name, input_nodes, attrs) ← lift (get_inputs node kw);
  axis ← lift (py_int (attrs_get attrs "axis" (PyInt 0)));
  let '(nodes, _) :=
    fold_left (fun (st : list NodeProto * Z) (input_node : string) =>
                 let '(nodes, idx) := st in
                 (nodes ++ [make_node "Unsqueeze" [input_node]
                              [name +:+ "_unsqueeze" +:+ str_of_Z idx]
                              [("axes", ints [axis])]],
                  idx + 1))
              input_nodes ([], 0) in
  let nodes :=
    nodes ++ [make_named_node "Concat"
                (map (fun i => name +:+ "_unsqueeze" +:+ str_of_Z i)
                     (py_range (Z.of_nat (length nodes))))
                [name] name [("axis", int_attr axis)]] in
  mret (map ItemNode nodes).

(** *** _sample_multinomial *)

Definition convert_multinomial (node : mx_node) (kw : kwargs)
  : M (list graph_item) :=
  '(name, input_nodes, attrs) ← lift (get_inputs node kw);
  d ← lift (np_dtype_of_string (default "int32" (attrs !! "dtype")));
  dtype ← lift (NP_TYPE_TO_TENSOR_TYPE d);
  sample_size ←
    lift (convert_string_to_list (Some (default "1" (attrs !! "shape"))));
  if (length sample_size <? 2)%nat then
    sample_size ← lift (list_get_Z sample_size (-1));
    mret [ItemNode (make_named_node "Multinomial" input_nodes [name] name
                      [("dtype", int_attr dtype);
                       ("sample_size", AVal sample_size)])]
  else
    raise (AttributeError "ONNX currently supports integer sample_size only").

(** *** min, max, mean, prod and sum *)

(** The body that [convert_min], [convert_max], [convert_mean] and
    [convert_prod] share: they differ in the operator only. *)
Definition reduce_axes_not_none (op : string) (node : mx_node) (kw : kwargs)
  : M (list graph_item) :=
  '(name, input_nodes, attrs) ← lift (get_inputs node kw);
  let mx_axis := attrs !! "axis" in
  axes ← lift (match mx_axis with
               | Some a => l ← convert_string_to_list (Some a); Ret (Some l)
               | None => Ret None
               end);
  let keepdims := get_boolean_attribute_value attrs "keepdims" in
  match axes with
  | Some axes =>
      mret [ItemNode (make_named_node op input_nodes [name] name
                        [("axes", AVal (PyList axes));
                         ("keepdims", int_attr keepdims)])]
  | None =>
      mret [ItemNode (make_named_node op input_nodes [name] name
                        [("keepdims", int_attr keepdims)])]
  end.

Definition convert_min := reduce_axes_not_none "ReduceMin".
Definition convert_max := reduce_axes_not_none "ReduceMax".
Definition convert_mean := reduce_axes_not_none "ReduceMean".
Definition convert_prod := reduce_axes_not_none "ReduceProd".

Definition convert_sum (node : mx_node) (kw : kwargs)
  : M (list graph_item) :=
  '(name, input_nodes, attrs) ← lift (get_inputs node kw);
  let mx_axis := attrs !! "axis" in
  axes ← lift (match mx_axis with
               | Some a => l ← convert_string_to_list (Some a); Ret (Some l)
               | None => Ret None
               end);
  let keepdims := get_boolean_attribute_value attrs "keepdims" in
  match axes with
  | Some ((_ :: _) as axes) =>
      mret [ItemNode (make_named_node "ReduceSum" input_nodes [name] name
                        [("axes", AVal (PyList axes));
                         ("keepdims", int_attr keepdims)])]
  | _ =>
      mret [ItemNode (make_named_node "ReduceSum" input_nodes [name] name
                        [("keepdims", int_attr keepdims)])]
  end.

(** *** transpose *)

Definition convert_transpose (node : mx_node) (kw : kwargs)
  : M (list graph_item) :=
  '(name, input_nodes, attrs) ← lift (get_inputs node kw);
  match attrs !! "axes" with
  | Some ((String _ _) as axes) =>
      axes ← lift (for_each perm_body (digit_runs axes) []);
      mret [ItemNode (make_named_node "Transpose" input_nodes [name] name
                        [("perm", AVal (PyTuple axes))])]
  | _ =>
      mret [ItemNode (make_named_node "Transpose" input_nodes [name] name [])]
  end.

(** *** log_softmax *)

Definition convert_logsoftmax (node : mx_node) (kw : kwargs)
  : M (list graph_item) :=
  '(name, input_nodes, attrs) ← lift (get_inputs node kw);
  axis ← lift (py_int (attrs_get attrs "axis" (PyInt (-1))));
  let temp := default "None" (attrs !! "temperature") in
  if negb (bool_decide (temp = "None")) then
    raise (AttributeError "LogSoftMax: ONNX supports only temperature=None")
  else
    mret [ItemNode (make_named_node "LogSoftmax" input_nodes [name] name
                      [("axis", int_attr axis)])].

(** *** _contrib_AdaptiveAvgPooling2D *)

Definition adaptive_pool_not_implemented : pyerr :=
  NotImplementedError
    ("_contrib_AdaptiveAvgPooling2D operator with output_size != 1 " +:+
     "                                not yet implemented.").

Definition convert_contrib_AdaptiveAvgPooling2D (node : mx_node)
    (kw : kwargs) : M (list graph_item) :=
  '(name, input_nodes, attrs) ← lift (get_inputs node kw);
  let output_size := default "1" (attrs !! "output_size") in
  output_size ← lift (convert_string_to_list (Some output_size));
  _ ← lift (if (length output_size <=? 2)%nat then
              first ← list_get output_size 0;
              if py_ne_int first 1 then Raise adaptive_pool_not_implemented
              else if (length output_size =? 2)%nat then
                second ← list_get output_size 1;
                if py_ne_int second 1
                then Raise adaptive_pool_not_implemented else Ret tt
              else Ret tt
            else Ret tt);
  py_list [
    (x ← item input_nodes 0;
     emit (make_named_node "GlobalAveragePool" [x] [name] name []))
  ].

(** *** Convolution *)

Definition convert_convolution (node : mx_node) (kw : kwargs)
  : M (list graph_item) :=
  '(name, input_nodes, attrs) ← lift (get_inputs node kw);
  kernel_dims ← lift (v ← parse_helper attrs "kernel" PyNone; py_list_of v);
  stride_dims ←
    lift (v ← parse_helper attrs "stride" (PyList [PyInt 1; PyInt 1]);
          py_list_of v);
  pad_dims ←
    lift (v ← parse_helper attrs "pad" (PyList [PyInt 0; PyInt 0]);
          py_list_of v);
  num_group ← lift (py_int (attrs_get attrs "num_group" (PyInt 1)));
  dilations ←
    lift (v ← parse_helper attrs "dilate" (PyList [PyInt 1; PyInt 1]);
          py_list_of v);
  let pad_dims := pad_dims ++ pad_dims in
  mret [ItemNode (make_named_node "Conv" input_nodes [name] name
                    [("kernel_shape", AVal (PyList kernel_dims));
                     ("strides", AVal (PyList stride_dims));
                     ("dilations", AVal (PyList dilations));
                     ("pads", AVal (PyList pad_dims));
                     ("group", int_attr num_group)])].

(** *** slice_axis *)

Definition convert_slice_axis (node : mx_node) (kw : kwargs)
  : M (list graph_item) :=
  '(name, input_nodes, attrs) ← lift (get_inputs node kw);
  axis ← lift (py_int (attrs_get attrs "axis" PyNone));
  begin ← lift (py_int (attrs_get attrs "begin" PyNone));
  let end_ := attrs !! "end" in
  nodes ← py_list [
    create_tensor [PyInt axis] (name +:+ "_axis") (DtName "int64");
    create_tensor [PyInt begin] (name +:+ "_begin") (DtName "int64")
  ];
  more ←
    (if match end_ with
        | None => true
        | Some e => bool_decide (e = "") || bool_decide (e = "None")
        end
     then
       py_list [
         create_tensor [PyInt (axis + 1)] (name +:+ "_axis_plus_1")
           (DtName "int64");
         (x ← item input_nodes 0;
          emit (make_node "Shape" [x] [name +:+ "_data_shape"] []));
         emit (make_node "Slice"
                 [name +:+ "_data_shape"; name +:+ "_axis";
                  name +:+ "_axis_plus_1"] [name +:+ "_end"] [])
       ]
     else
       py_list [
         (e ← lift (py_int (attrs_get attrs "end" PyNone));
          create_tensor [PyInt e] (name +:+ "_end") (DtName "int64"))
       ]);
  last ← py_list [
    (x ← item input_nodes 0;
     emit (make_named_node "Slice"
             [x; name +:+ "_begin"; name +:+ "_end"; name +:+ "_axis"]
             [name] name []))
  ];
  mret (nodes ++ more ++ last).

End FurtherRules.
(** ** The tokens of a tuple of integers *)

(** What follows the first integer of the tuple Python writes for some
    integers: a comma and an integer for each further entry, then the
    closing tokens [post]. *)
Fixpoint more_tokens (zs : list Z) (post : list token) : list token :=
  match zs with
  | [] => post
  | z :: t => TComma :: TNum z :: more_tokens t post
  end.
(** ** Further example nodes *)

(** Nodes for the further rules: an activation, a LeakyReLU of
    type [elu], a matrix product with both operands transposed, and nodes
    that reshape, squeeze, stack, sample, reduce and transpose. *)
Definition example_activation : mx_node :=
  example_node "act0" "Activation" [0%nat] [("act_type", "relu")].
Definition example_elu : mx_node :=
  example_node "lrelu0" "LeakyReLU" [0%nat] [("act_type", "elu")].
Definition example_gemm2 : mx_node :=
  example_node "gemm0" "_linalg_gemm2" [0%nat; 1%nat]
    [("transpose_a", "True"); ("transpose_b", "True"); ("alpha", "2.0")].
Definition example_reshape : mx_node :=
  example_node "reshape0" "Reshape" [0%nat] [("shape", "(2, -1)")].
Definition example_reshape_special : mx_node :=
  example_node "reshape1" "Reshape" [0%nat] [("shape", "(-3, 4)")].
Definition example_squeeze : mx_node :=
  example_node "squeeze0" "squeeze" [0%nat] [("axis", "(0,)")].
Definition example_stack : mx_node :=
  example_node "stack0" "stack" [0%nat; 1%nat] [("axis", "1")].
Definition example_multinomial : mx_node :=
  example_node "sample0" "_sample_multinomial" [0%nat] [("shape", "(2, 3)")].
Definition example_logsoftmax : mx_node :=
  example_node "lsm0" "log_softmax" [0%nat] [("temperature", "2.0")].
Definition example_adaptive_pool : mx_node :=
  example_node "pool0" "_contrib_AdaptiveAvgPooling2D" [0%nat]
    [("output_size", "(2, 2)")].
Definition example_sum : mx_node :=
  example_node "sum0" "sum" [0%nat] [("axis", "()")].
Definition example_transpose : mx_node :=
  example_node "transpose0" "transpose" [0%nat] [("axes", "(-1, 0)")].

(** A convolution whose padding has a negative entry, a slice along an axis
    without an end, and a softmax with a second input but no
    [use_length]. *)
Definition example_convolution : mx_node :=
  example_node "conv0" "Convolution" [0%nat; 1%nat]
    [("kernel", "(3, 3)"); ("pad", "(-1, 1)")].
Definition example_slice_axis : mx_node :=
  example_node "sa0" "slice_axis" [0%nat]
    [("axis", "1"); ("begin", "0"); ("end", "None")].
Definition example_softmax_no_length : mx_node :=
  example_node "sm1" "softmax" [0%nat; 1%nat] [].
(** ** The remaining translation rules *)

(** [attrs.get(key)] as a condition: the key is present and its value is
    not the empty string. *)
Definition attrs_truthy (attrs : gmap string string) (key : string) : bool :=
  match attrs !! key with
  | Some s => negb (bool_decide (s = ""))
  | None => false
  end.

(** [a, b = l]. *)
Definition unpack2 {A} (l : list A) : pyres (A * A) :=
  match l with
  | [a; b] => Ret (a, b)
  | _ => Raise ValueError
  end.

(** [a + b] and [a - 1] on the values an attribute parser gives. *)
Definition py_add (a b : pyval) : pyres pyval :=
  match a, b with
  | PyInt x, PyInt y => Ret (PyInt (x + y))
  | _, _ => Raise TypeError
  end.

Definition py_pred (a : pyval) : pyres pyval :=
  match a with
  | PyInt x => Ret (PyInt (x - 1))
  | _ => Raise TypeError
  end.

(** [str(v)] for an element of a parsed list: an integer or [None]. *)
Definition py_str (v : pyval) : string :=
  match v with
  | PyInt z => str_of_Z z
  | _ => "None"
  end.

(** [v in (0, 1)] for such an element. *)
Definition py_is_0_or_1 (v : pyval) : bool :=
  match v with
  | PyInt z => (z =? 0) || (z =? 1)
  | _ => false
  end.

(** [l[-2:]]. *)
Definition last_two {A} (l : list A) : list A := drop (length l - 2) l.

(** [l[i] = x] for an integer index, negative from the end. *)
Definition list_set_Z {A} (l : list A) (i : Z) (x : A) : pyres (list A) :=
  let n := Z.of_nat (length l) in
  if (0 <=? i) && (i <? n) then list_set l (Z.to_nat i) x
  else if (- n <=? i) && (i <? 0) then list_set l (Z.to_nat (n + i)) x
  else Raise IndexError.

(** [a.flatten().tolist()]. *)
Definition nd_tolist (a : ndarray) : list pyval :=
  map (fun x => match x with
                | NInt z => PyInt z
                | NFloat f => PyFloat f
                end) (nd_data a).

(** A Python [bool] as an attribute: [True] is the integer 1. *)
Definition bool_attr (b : bool) : attr_value :=
  AVal (PyInt (if b then 1 else 0)).

(** More float literals of the source: 0.9, 0.001, 0.0001, 0.75, 0.2 and
    9.99999975e-06. *)
Definition SF_0_9 : spec_float :=
  Eval vm_compute in SFdiv 53 1024 (float_of_Z 9) (float_of_Z 10).
Definition SF_0_001 : spec_float :=
  Eval vm_compute in SFdiv 53 1024 (float_of_Z 1) (float_of_Z 1000).
Definition SF_0_0001 : spec_float :=
  Eval vm_compute in SFdiv 53 1024 (float_of_Z 1) (float_of_Z 10000).
Definition SF_0_75 : spec_float :=
  Eval vm_compute in SFdiv 53 1024 (float_of_Z 3) (float_of_Z 4).
Definition SF_0_2 : spec_float :=
  Eval vm_compute in SFdiv 53 1024 (float_of_Z 1) (float_of_Z 5).
Definition SF_layer_norm_eps : spec_float :=
  Eval vm_compute in
    SFdiv 53 1024 (float_of_Z 999999975) (float_of_Z (10 ^ 14)).

Section RemainingRules.
Context `{External}.

(** *** null *)

Definition convert_weights_and_inputs (node : mx_node) (kw : kwargs)
  : M (list graph_item) :=
  '(name, _, _) ← lift (get_inputs node kw);
  if negb (is_input kw) then
    np_arr ← lift (match weights kw !! name with
                   | Some a => Ret a
                   | None => Raise KeyError
                   end);
    data_type ← lift (NP_TYPE_TO_TENSOR_TYPE (nd_dtype np_arr));
    let dims := nd_shape np_arr in
    let tensor_node := make_tensor_value_info name data_type dims in
    _ ← initializer_append
          (make_tensor name data_type dims (PyList (nd_tolist np_arr)));
    mret [ItemValue tensor_node]
  else
    let tval_node :=
      make_tensor_value_info name (in_type kw) (input_shape kw) in
    mret [ItemValue tval_node].

(** *** Deconvolution *)

Definition convert_deconvolution (node : mx_node) (kw : kwargs)
  : M (list graph_item) :=
  '(name, inputs, attrs) ← lift (get_inputs node kw);
  kernel_dims ← lift (v ← parse_helper attrs "kernel" PyNone; py_list_of v);
  stride_dims ←
    lift (v ← parse_helper attrs "stride" (PyList [PyInt 1; PyInt 1]);
          py_list_of v);
  pad_dims ←
    lift (v ← parse_helper attrs "pad" (PyList [PyInt 0; PyInt 0]);
          py_list_of v);
  num_group ← lift (py_int (attrs_get attrs "num_group" (PyInt 1)));
  dilations ←
    lift (v ← parse_helper attrs "dilate" (PyList [PyInt 1; PyInt 1]);
          py_list_of v);
  adj_dims ←
    lift (v ← parse_helper attrs "adj" (PyList [PyInt 0; PyInt 0]);
          py_list_of v);
  let pad_dims := pad_dims ++ pad_dims in
  mret [ItemNode (make_named_node "ConvTranspose" inputs [name] name
                    [("kernel_shape", AVal (PyList kernel_dims));
                     ("strides", AVal (PyList stride_dims));
                     ("dilations", AVal (PyList dilations));
                     ("output_padding", AVal (PyList adj_dims));
                     ("pads", AVal (PyList pad_dims));
                     ("group", int_attr num_group)])].

(** *** Crop *)

(** The rule also logs a warning, which leaves no trace in what it
    returns. *)
Definition convert_crop (node : mx_node) (kw : kwargs)
  : M (list graph_item) :=
  '(name, inputs, attrs) ← lift (get_inputs node kw);
  let num_inputs := length inputs in
  '(y, x) ←
    lift (v ← parse_helper attrs "offset" (PyList [PyInt 0; PyInt 0]);
          l ← py_list_of v; unpack2 l);
  '(h, w) ←
    lift (v ← parse_helper attrs "h_w" (PyList [PyInt 0; PyInt 0]);
          l ← py_list_of v; unpack2 l);
  '(h, w) ←
    (if (1 <? num_inputs)%nat then
       lift (unpack2 (map PyInt (last_two (out_shape kw))))
     else mret (h, w));
  x_w ← lift (py_add x w);
  y_h ← lift (py_add y h);
  let border := [x; y; x_w; y_h] in
  input0 ← item inputs 0;
  mret [ItemNode (make_named_node "Crop" [input0] [name] name
                    [("border", AVal (PyList border));
                     ("scale", ints [1; 1])])].

(** *** FullyConnected *)

Definition convert_fully_connected (node : mx_node) (kw : kwargs)
  : M (list graph_item) :=
  '(name, input_nodes, attrs) ← lift (get_inputs node kw);
  let input_type := in_type kw in
  dtype ← lift (TENSOR_TYPE_TO_NP_TYPE input_type);
  let flatten := get_boolean_attribute_value attrs "flatten" in
  let no_bias := get_boolean_attribute_value attrs "no_bias" in
  num_hidden ← lift (py_int (attrs_get attrs "num_hidden" PyNone));
  let nodes : list graph_item := [] in
  more ←
    (if negb (flatten =? 0) then
       py_list [
         (x ← item input_nodes 0;
          emit (make_node "Flatten" [x] [name +:+ "_data_flattened"] []))
       ]
     else
       py_list [
         (x ← item input_nodes 0;
          emit (make_node "Shape" [x] [name +:+ "_orig_shape"] []));
         emit (make_node "Shape" [name +:+ "_orig_shape"] [name +:+ "_dim"]
                 []);
         (x ← item input_nodes 0;
          emit (make_node "Flatten" [x] [name +:+ "_data_flattened"]
                  [("axis", int_attr (-1))]))
       ]);
  let nodes := nodes ++ more in
  weight ← item input_nodes 1;
  let in_nodes := [name +:+ "_data_flattened"; weight] in
  '(nodes, in_nodes) ←
    (if negb (no_bias =? 0) then
       bias ← lift (np_array [PyInt 0] (DtObj dtype));
       bias_node ← create_const_scalar_node (name +:+ "_bias") bias;
       mret (nodes ++ [bias_node], in_nodes ++ [name +:+ "_bias"])
     else
       bias ← item input_nodes 2;
       mret (nodes, in_nodes ++ [bias]));
  more ←
    (if negb (flatten =? 0) then
       py_list [
         emit (make_named_node "Gemm" in_nodes [name] name
                 [("alpha", float_attr SF_one); ("beta", float_attr SF_one);
                  ("transA", int_attr 0); ("transB", int_attr 1)])
       ]
     else
       py_list [
         emit (make_node "Gemm" in_nodes [name +:+ "_gemm"]
                 [("alpha", float_attr SF_one); ("beta", float_attr SF_one);
                  ("transA", int_attr 0); ("transB", int_attr 1)]);
         create_tensor [PyInt 0] (name +:+ "_0") (DtName "int64");
         create_tensor [PyInt 1] (name +:+ "_1") (DtName "int64");
         create_tensor [PyInt num_hidden] (name +:+ "_num_hidden")
           (DtName "int64");
         emit (make_node "Sub" [name +:+ "_dim"; name +:+ "_1"]
                 [name +:+ "dim_minus_1"] []);
         emit (make_node "Slice"
                 [name +:+ "_orig_shape"; name +:+ "_0";
                  name +:+ "dim_minus_1"] [name +:+ "_shape_sliced"] []);
         emit (make_node "Concat"
                 [name +:+ "_shape_sliced"; name +:+ "_num_hidden"]
                 [name +:+ "_shape_new"] [("axis", int_attr 0)]);
         emit (make_named_node "Reshape"
                 [name +:+ "_gemm"; name +:+ "_shape_new"] [name] name [])
       ]);
  mret (nodes ++ more).

(** *** BatchNorm *)

Definition convert_batchnorm (node : mx_node) (kw : kwargs)
  : M (list graph_item) :=
  '(name, input_nodes, attrs) ← lift (get_inputs node kw);
  momentum ← lift (py_float (attrs_get attrs "momentum" (PyFloat SF_0_9)));
  eps ← lift (py_float (attrs_get attrs "eps" (PyFloat SF_0_001)));
  mret [ItemNode (make_named_node "BatchNormalization" input_nodes [name]
                    name
                    [("epsilon", float_attr eps);
                     ("momentum", float_attr momentum)])].

(** *** Pooling *)

Definition pool_types : list (string * string) :=
  [("max", "MaxPool"); ("avg", "AveragePool"); ("lp", "LpPool")].
Definition global_pool_types : list (string * string) :=
  [("max", "GlobalMaxPool"); ("avg", "GlobalAveragePool");
   ("lp", "GlobalLpPool")].

(** [d[key]] for a dictionary of strings. *)
Definition dict_item (d : list (string * string)) (key : string)
  : pyres string :=
  match (list_to_map d : gmap string string) !! key with
  | Some v => Ret v
  | None => Raise KeyError
  end.

(** The warning the rule logs below version 10 leaves no trace in what it
    returns. *)
Definition convert_pooling (node : mx_node) (kw : kwargs)
  : M (list graph_item) :=
  let opset_version := opset_version kw in
  '(name, input_nodes, attrs) ← lift (get_inputs node kw);
  kernel ← lift (s ← attrs_item attrs "kernel"; py_eval s);
  pool_type ←
    lift (if attrs_truthy attrs "pool_type" then attrs_item attrs "pool_type"
          else Ret "max");
  stride ←
    lift (if attrs_truthy attrs "stride"
          then s ← attrs_item attrs "stride"; py_eval s
          else Ret (PyTuple [PyInt 1; PyInt 1]));
  let global_pool := get_boolean_attribute_value attrs "global_pool" in
  let p_value := default "None" (attrs !! "p_value") in
  let pooling_convention := default "valid" (attrs !! "pooling_convention") in
  let ceil_mode := bool_decide (pooling_convention = "full") in
  pad_dims ←
    lift (v ← parse_helper attrs "pad" (PyList [PyInt 0; PyInt 0]);
          py_list_of v);
  let pad_dims := pad_dims ++ pad_dims in
  if bool_decide (pool_type = "lp") && bool_decide (p_value = "None") then
    raise (AttributeError
             "ONNX requires a p value for LpPool and GlobalLpPool")
  else if negb (global_pool =? 0) then
    if bool_decide (pool_type = "lp") then
      op ← lift (dict_item global_pool_types pool_type);
      p ← lift (int_of_string p_value);
      mret [ItemNode (make_named_node op input_nodes [name] name
                        [("p", int_attr p)])]
    else
      op ← lift (dict_item global_pool_types pool_type);
      mret [ItemNode (make_named_node op input_nodes [name] name [])]
  else
    if bool_decide (pool_type = "lp") then
      op ← lift (dict_item pool_types pool_type);
      p ← lift (int_of_string p_value);
      mret [ItemNode (make_named_node op input_nodes [name] name
                        [("p", int_attr p);
                         ("kernel_shape", AVal kernel);
                         ("pads", AVal (PyList pad_dims));
                         ("strides", AVal stride)])]
    else if 10 <=? opset_version then
      op ← lift (dict_item pool_types pool_type);
      mret [ItemNode (make_named_node op input_nodes [name] name
                        [("kernel_shape", AVal kernel);
                         ("pads", AVal (PyList pad_dims));
                         ("strides", AVal stride);
                         ("ceil_mode", bool_attr ceil_mode)])]
    else
      op ← lift (dict_item pool_types pool_type);
      mret [ItemNode (make_named_node op input_nodes [name] name
                        [("kernel_shape", AVal kernel);
                         ("pads", AVal (PyList pad_dims));
                         ("strides", AVal stride)])].

(** *** InstanceNorm *)

Definition convert_instancenorm (node : mx_node) (kw : kwargs)
  : M (list graph_item) :=
  '(name, input_nodes, attrs) ← lift (get_inputs node kw);
  eps ← lift (py_float (attrs_get attrs "eps" (PyFloat SF_0_001)));
  mret [ItemNode (make_named_node "InstanceNormalization" input_nodes [name]
                    name [("epsilon", float_attr eps)])].

(** *** SoftmaxOutput and LogisticRegressionOutput *)

(** [kwargs["proc_nodes"][kwargs["index_lookup"][node["inputs"][0][0]]]]. *)
Definition first_input (node : mx_node) (kw : kwargs) : pyres graph_item :=
  ip ← list_get (node_inputs node) 0;
  input1_idx ← list_get (index_lookup kw) ip.1.1;
  list_get (proc_nodes kw) input1_idx.

Definition convert_softmax_output (node : mx_node) (kw : kwargs)
  : M (list graph_item) :=
  let name := node_name node in
  input1 ← lift (first_input node kw);
  mret [ItemNode (make_named_node "Softmax" [item_name input1] [name] name
                    [("axis", int_attr 1)])].

Definition convert_logistic_regression_output (node : mx_node) (kw : kwargs)
  : M (list graph_item) :=
  let name := node_name node in
  input1 ← lift (first_input node kw);
  mret [ItemNode (make_named_node "Sigmoid" [item_name input1] [name] name
                    [])].

(** *** Concat *)

Definition convert_concat (node : mx_node) (kw : kwargs)
  : M (list graph_item) :=
  '(name, input_nodes, attrs) ← lift (get_inputs node kw);
  axis ← lift (py_int (attrs_get attrs "dim" (PyInt 1)));
  mret [ItemNode (make_named_node "Concat" input_nodes [name] name
                    [("axis", int_attr axis)])].

(** *** LRN *)

Definition convert_lrn (node : mx_node) (kw : kwargs)
  : M (list graph_item) :=
  '(name, input_nodes, attrs) ← lift (get_inputs node kw);
  alpha ← lift (py_float (attrs_get attrs "alpha" (PyFloat SF_0_0001)));
  beta ← lift (py_float (attrs_get attrs "beta" (PyFloat SF_0_75)));
  bias ← lift (py_float (attrs_get attrs "knorm" (PyFloat SF_one)));
  size ← lift (py_int (attrs_get attrs "nsize" PyNone));
  mret [ItemNode (make_named_node "LRN" input_nodes [name] name
                    [("alpha", float_attr alpha); ("beta", float_attr beta);
                     ("bias", float_attr bias); ("size", int_attr size)])].

(** *** argmax and argmin *)

Definition convert_arg (op : string) (node : mx_node) (kw : kwargs)
  : M (list graph_item) :=
  '(name, input_nodes, attrs) ← lift (get_inputs node kw);
  axis ← lift (py_int (attrs_get attrs "axis" PyNone));
  let keepdims := get_boolean_attribute_value attrs "keepdims" in
  mret [ItemNode (make_named_node op input_nodes [name] name
                    [("axis", int_attr axis);
                     ("keepdims", int_attr keepdims)])].

Definition convert_argmax := convert_arg "ArgMax".
Definition convert_argmin := convert_arg "ArgMin".

(** *** Cast *)

(** [np.dtype(None)] is the default type, [float64]. *)
Definition convert_cast (node : mx_node) (kw : kwargs)
  : M (list graph_item) :=
  '(name, input_nodes, attrs) ← lift (get_inputs node kw);
  let dtype := attrs !! "dtype" in
  d ← lift (match dtype with
            | Some s => np_dtype_of_string s
            | None => Ret Float64
            end);
  to_dtype ← lift (NP_TYPE_TO_TENSOR_TYPE d);
  mret [ItemNode (make_named_node "Cast" input_nodes [name] name
                    [("to", int_attr to_dtype)])].

(** *** expand_dims *)

Definition convert_expand_dims (node : mx_node) (kw : kwargs)
  : M (list graph_item) :=
  '(name, input_nodes, attrs) ← lift (get_inputs node kw);
  axis ← lift (py_int (attrs_get attrs "axis" PyNone));
  mret [ItemNode (make_named_node "Unsqueeze" input_nodes [name] name
                    [("axes", ints [axis])])].

(** *** depth_to_space and space_to_depth *)

Definition convert_block (op : string) (node : mx_node) (kw : kwargs)
  : M (list graph_item) :=
  '(name, input_nodes, attrs) ← lift (get_inputs node kw);
  blksize ← lift (py_int (attrs_get attrs "block_size" (PyInt 0)));
  mret [ItemNode (make_named_node op input_nodes [name] name
                    [("blocksize", int_attr blksize)])].

Definition convert_depthtospace := convert_block "DepthToSpace".
Definition convert_spacetodepth := convert_block "SpaceToDepth".

(** *** square *)

Definition convert_square (node : mx_node) (kw : kwargs)
  : M (list graph_item) :=
  '(name, input_nodes, _) ← lift (get_inputs node kw);
  d ← lift (np_dtype_of_string "int64");
  data_type ← lift (NP_TYPE_TO_TENSOR_TYPE d);
  let power2_name := "square_tensor" +:+ str_of_Z (idx kw) in
  let tensor_node := make_tensor_value_info power2_name data_type [1] in
  _ ← initializer_append
        (make_tensor power2_name data_type [1] (PyList [PyInt 2]));
  let input_nodes := input_nodes ++ [power2_name] in
  mret [ItemValue tensor_node;
        ItemNode (make_named_node "Pow" input_nodes [name] name [])].

(** *** hard_sigmoid *)

Definition convert_hardsigmoid (node : mx_node) (kw : kwargs)
  : M (list graph_item) :=
  '(name, input_nodes, attrs) ← lift (get_inputs node kw);
  alpha ← lift (py_float (attrs_get attrs "alpha" (PyFloat SF_0_2)));
  beta ← lift (py_float (attrs_get attrs "beta" (PyFloat SF_half)));
  mret [ItemNode (make_named_node "HardSigmoid" input_nodes [name] name
                    [("alpha", float_attr alpha);
                     ("beta", float_attr beta)])].

(** *** norm *)

Definition convert_norm (node : mx_node) (kw : kwargs)
  : M (list graph_item) :=
  '(name, input_nodes, attrs) ← lift (get_inputs node kw);
  let mx_axis := attrs !! "axis" in
  axes ← lift (match mx_axis with
               | Some ((String _ _) as a) =>
                   l ← convert_string_to_list (Some a); Ret (Some l)
               | _ => Ret None
               end);
  let keepdims := get_boolean_attribute_value attrs "keepdims" in
  ord ← lift (py_int (attrs_get attrs "ord" (PyInt 2)));
  let onnx_op_name := if ord =? 1 then "ReduceL1" else "ReduceL2" in
  match axes with
  | Some ((_ :: _) as axes) =>
      mret [ItemNode (make_named_node onnx_op_name input_nodes [name] name
                        [("axes", AVal (PyList axes));
                         ("keepdims", int_attr keepdims)])]
  | _ =>
      mret [ItemNode (make_named_node onnx_op_name input_nodes [name] name
                        [("keepdims", int_attr keepdims)])]
  end.

(** *** _random_uniform and _random_normal *)

Definition convert_random_uniform (node : mx_node) (kw : kwargs)
  : M (list graph_item) :=
  '(name, input_nodes, attrs) ← lift (get_inputs node kw);
  low ← lift (py_float (attrs_get attrs "low" (PyInt 0)));
  high ← lift (py_float (attrs_get attrs "high" (PyFloat SF_one)));
  shape ←
    lift (convert_string_to_list (Some (default "[]" (attrs !! "shape"))));
  d ← lift (np_dtype_of_string (default "float32" (attrs !! "dtype")));
  dtype ← lift (NP_TYPE_TO_TENSOR_TYPE d);
  mret [ItemNode (make_named_node "RandomUniform" input_nodes [name] name
                    [("low", float_attr low); ("high", float_attr high);
                     ("dtype", int_attr dtype);
                     ("shape", AVal (PyList shape))])].

Definition convert_random_normal (node : mx_node) (kw : kwargs)
  : M (list graph_item) :=
  '(name, input_nodes, attrs) ← lift (get_inputs node kw);
  mean ← lift (py_float (attrs_get attrs "loc" (PyInt 0)));
  scale ← lift (py_float (attrs_get attrs "scale" (PyFloat SF_one)));
  shape ←
    lift (convert_string_to_list (Some (default "[]" (attrs !! "shape"))));
  d ← lift (np_dtype_of_string (default "float32" (attrs !! "dtype")));
  dtype ← lift (NP_TYPE_TO_TENSOR_TYPE d);
  mret [ItemNode (make_named_node "RandomNormal" input_nodes [name] name
                    [("mean", float_attr mean); ("scale", float_attr scale);
                     ("dtype", int_attr dtype);
                     ("shape", AVal (PyList shape))])].

(** *** ROIPooling *)

Definition convert_roipooling (node : mx_node) (kw : kwargs)
  : M (list graph_item) :=
  '(name, input_nodes, attrs) ← lift (get_inputs node kw);
  pooled_shape ← lift (convert_string_to_list (attrs !! "pooled_size"));
  scale ← lift (py_float (attrs_get attrs "spatial_scale" PyNone));
  mret [ItemNode (make_named_node "MaxRoiPool" input_nodes [name] name
                    [("pooled_shape", AVal (PyList pooled_shape));
                     ("spatial_scale", float_attr scale)])].

(** *** tile and broadcast_to *)

(** The two rules differ in the attribute they read, in the name of the
    constant and in the operator. *)
Definition convert_with_shape_tensor (key prefix op : string)
    (node : mx_node) (kw : kwargs) : M (list graph_item) :=
  '(name, input_nodes, attrs) ← lift (get_inputs node kw);
  s ← lift (attrs_item attrs key);
  shape_list ← lift (convert_string_to_list (Some s));
  shape_np ← lift (np_array shape_list (DtName "int64"));
  data_type ← lift (NP_TYPE_TO_TENSOR_TYPE (nd_dtype shape_np));
  let dims := nd_shape shape_np in
  let output_shape_name := prefix +:+ str_of_Z (idx kw) in
  let tensor_node :=
    make_tensor_value_info output_shape_name data_type dims in
  _ ← initializer_append
        (make_tensor output_shape_name data_type dims (PyList shape_list));
  let input_nodes := input_nodes ++ [output_shape_name] in
  mret [ItemValue tensor_node;
        ItemNode (make_named_node op input_nodes [name] name [])].

Definition convert_tile :=
  convert_with_shape_tensor "reps" "reps_attr_tensor" "Tile".
Definition convert_broadcast_to :=
  convert_with_shape_tensor "shape" "expand_attr_tensor" "Expand".

(** *** take and Embedding *)

Definition convert_take (node : mx_node) (kw : kwargs)
  : M (list graph_item) :=
  '(name, input_nodes, attrs) ← lift (get_inputs node kw);
  axis ← lift (py_int (attrs_get attrs "axis" (PyInt 0)));
  mret [ItemNode (make_named_node "Gather" input_nodes [name] name
                    [("axis", int_attr axis)])].

Definition convert_embedding (node : mx_node) (kw : kwargs)
  : M (list graph_item) :=
  '(name, input_nodes, attrs) ← lift (get_inputs node kw);
  axis ← lift (py_int (attrs_get attrs "axis" (PyInt 0)));
  py_list [
    (x ← item input_nodes 0;
     emit (make_node "Cast" [x] [name +:+ "_indices_casted"]
             [("to", int_attr INT64)]));
    (x ← item input_nodes 1;
     emit (make_named_node "Gather" [x; name +:+ "_indices_casted"] [name]
             name [("axis", int_attr axis)]))
  ].

(** *** slice_like *)

(** With [axes] the source builds no list: the two lowerings it had are
    quoted out, so [nodes] is unbound when the rule returns it. Reading the
    axes and printing them raise nothing. *)
Definition convert_slice_like (node : mx_node) (kw : kwargs)
  : M (list graph_item) :=
  '(name, input_nodes, attrs) ← lift (get_inputs node kw);
  let axes := default "None" (attrs !! "axes") in
  let zero := make_tensor (name +:+ "_zero") INT64 [1] (PyList [PyInt 0]) in
  let maxval :=
    make_tensor (name +:+ "_maxval") INT64 [1] (PyList [PyInt (2 ^ 63 - 1)]) in
  if negb (bool_decide (axes = "None")) then
    raise NameError
  else
    py_list [
      (x ← item input_nodes 1;
       emit (make_node "Shape" [x] [name +:+ "_shape"] []));
      emit (make_node "Shape" [name +:+ "_shape"] [name +:+ "_shape2"] []);
      emit (make_node "ConstantOfShape" [name +:+ "_shape2"]
              [name +:+ "_starts"] [("value", ATensor zero)]);
      (x ← item input_nodes 0;
       emit (make_named_node "Slice"
               [x; name +:+ "_starts"; name +:+ "_shape"] [name] name []))
    ].

(** *** zeros_like and ones_like *)

Definition convert_like (suffix : string) (value : Z) (node : mx_node)
    (kw : kwargs) : M (list graph_item) :=
  '(name, input_nodes, _) ← lift (get_inputs node kw);
  let tensor_value :=
    make_tensor (name +:+ suffix) (in_type kw) [1] (PyList [PyInt value]) in
  py_list [
    (x ← item input_nodes 0;
     emit (make_node "Shape" [x] [name +:+ "_shape"] []));
    emit (make_named_node "ConstantOfShape" [name +:+ "_shape"] [name] name
            [("value", ATensor tensor_value)])
  ].

Definition convert_zeros_like := convert_like "_zero" 0.
Definition convert_ones_like := convert_like "_one" 1.

(** *** where *)

Definition convert_where (node : mx_node) (kw : kwargs)
  : M (list graph_item) :=
  '(name, input_nodes, _) ← lift (get_inputs node kw);
  py_list [
    (x ← item input_nodes 0;
     emit (make_node "Cast" [x] [name +:+ "_bool"] [("to", int_attr BOOL)]));
    (x ← item input_nodes 1;
     y ← item input_nodes 2;
     emit (make_named_node "Where" [name +:+ "_bool"; x; y] [name] name []))
  ].

(** *** _maximum_scalar *)

Definition convert_maximum_scalar (node : mx_node) (kw : kwargs)
  : M (list graph_item) :=
  '(name, input_nodes, attrs) ← lift (get_inputs node kw);
  let input_type := in_type kw in
  dtype ← lift (TENSOR_TYPE_TO_NP_TYPE input_type);
  scalar ←
    lift (if is_substring "float" (dtype_name dtype) then
            f ← py_float (attrs_get attrs "scalar" (PyStr "0"));
            Ret (PyFloat f)
          else
            z ← py_int (attrs_get attrs "scalar" (PyStr "0"));
            Ret (PyInt z));
  py_list [
    create_tensor [scalar] (name +:+ "_scalar") (DtObj dtype);
    (x ← item input_nodes 0;
     emit (make_named_node "Max" [x; name +:+ "_scalar"] [name] name []))
  ].

End RemainingRules.
(** ** The remaining translation rules: the long lowerings *)

Section LongRules.
Context `{External}.

(** *** LayerNorm *)

Definition convert_layer_norm (node : mx_node) (kw : kwargs)
  : M (list graph_item) :=
  '(name, input_nodes, attrs) ← lift (get_inputs node kw);
  axes ← lift (py_int (attrs_get attrs "axis" (PyInt (-1))));
  let eps := attrs_get attrs "eps" (PyFloat SF_layer_norm_eps) in
  nodes ← py_list [
    create_tensor [PyInt axes] (name +:+ "_axes") (DtName "int64");
    create_tensor [PyInt (axes + 1)] (name +:+ "_axes+1") (DtName "int64");
    create_tensor [] (name +:+ "_void") (DtName "int64");
    (v ← lift (np_scalar Int64 (PyInt 0));
     create_const_scalar_node (name +:+ "_0_s") v);
    (v ← lift (np_scalar Int64 (PyInt 1));
     create_const_scalar_node (name +:+ "_1_s") v);
    (v ← lift (np_scalar Int64 (PyInt 2));
     create_const_scalar_node (name +:+ "_2_s") v);
    (v ← lift (np_scalar Float32 eps);
     create_const_scalar_node (name +:+ "_eps") v);
    (x ← item input_nodes 0;
     emit (make_node "ReduceMean" [x] [name +:+ "_rm0_out"] [("axes", ints
            [axes])]));
    (x ← item input_nodes 0;
     emit (make_node "Sub" [x; name +:+ "_rm0_out"] [name +:+ "_sub0_out"]
            []));
    emit (make_node "Pow" [name +:+ "_sub0_out"; name +:+ "_2_s"]
            [name +:+ "_pow0_out"] []);
    emit (make_node "ReduceMean" [name +:+ "_pow0_out"] [name +:+ "_rm1_out"]
            [("axes", ints [axes])]);
    emit (make_node "Add" [name +:+ "_rm1_out"; name +:+ "_eps"]
            [name +:+ "_add0_out"] []);
    emit (make_node "Sqrt" [name +:+ "_add0_out"] [name +:+ "_sqrt0_out"] []);
    emit (make_node "Div" [name +:+ "_sub0_out"; name +:+ "_sqrt0_out"]
            [name +:+ "_div0_out"] [])
  ];
  more ←
    (if axes =? -1 then
       py_list [
    (x ← item input_nodes 1;
     emit (make_node "Mul" [name +:+ "_div0_out"; x] [name +:+ "_mul0_out"]
            []));
    (x ← item input_nodes 2;
     emit (make_named_node "Add" [name +:+ "_mul0_out"; x] [name] name []))
       ]
     else
       py_list [
    (x ← item input_nodes 0;
     emit (make_node "Shape" [x] [name +:+ "_shape0_out"] []));
    emit (make_node "Shape" [name +:+ "_shape0_out"] [name +:+ "_in_dim"] []);
    emit (make_node "Reshape" [name +:+ "_in_dim"; name +:+ "_void"]
            [name +:+ "_in_dim_s"] []);
    emit (make_node "Range"
            [name +:+ "_0_s"; name +:+ "_in_dim_s"; name +:+ "_1_s"]
            [name +:+ "_range"] []);
    emit (make_node "Equal" [name +:+ "_range"; name +:+ "_axes"]
            [name +:+ "_equal"] []);
    emit (make_node "Cast" [name +:+ "_equal"] [name +:+ "_one_hot"]
            [("to", int_attr INT64)]);
    emit (make_node "Slice"
            [name +:+ "_shape0_out"; name +:+ "_axes"; name +:+ "_axes+1"]
            [name +:+ "_slice_out"] []);
    emit (make_node "Reshape" [name +:+ "_slice_out"; name +:+ "_void"]
            [name +:+ "_slice_out_s"] []);
    emit (make_node "Sub" [name +:+ "_slice_out_s"; name +:+ "_1_s"]
            [name +:+ "_sub1_out"] []);
    emit (make_node "Mul" [name +:+ "_one_hot"; name +:+ "_sub1_out"]
            [name +:+ "_mul0_out"] []);
    emit (make_node "Add" [name +:+ "_mul0_out"; name +:+ "_1_s"]
            [name +:+ "_add1_out"] []);
    (x ← item input_nodes 1;
     emit (make_node "Reshape" [x; name +:+ "_add1_out"]
            [name +:+ "gamma_exp"] []));
    (x ← item input_nodes 2;
     emit (make_node "Reshape" [x; name +:+ "_add1_out"] [name +:+ "beta_exp"]
            []));
    emit (make_node "Expand" [name +:+ "gamma_exp"; name +:+ "_shape0_out"]
            [name +:+ "gamma_exp1"] []);
    emit (make_node "Expand" [name +:+ "beta_exp"; name +:+ "_shape0_out"]
            [name +:+ "beta_exp1"] []);
    emit (make_node "Mul" [name +:+ "_div0_out"; name +:+ "gamma_exp1"]
            [name +:+ "_mul1_out"] []);
    emit (make_named_node "Add" [name +:+ "_mul1_out"; name +:+ "beta_exp1"]
            [name] name [])
       ]);
  mret (nodes ++ more).

(** *** _contrib_interleaved_matmul_selfatt_qk *)

Definition convert_matmul_selfatt_qk (node : mx_node) (kw : kwargs)
  : M (list graph_item) :=
  '(name, input_nodes, attrs) ← lift (get_inputs node kw);
  heads ← lift (py_int (attrs_get attrs "heads" PyNone));
  py_list [
    create_tensor [PyInt 0] (name +:+ "_0") (DtName "int64");
    create_tensor [PyInt 1] (name +:+ "_1") (DtName "int64");
    create_tensor [PyInt 1] (name +:+ "_1_f") (DtName "float32");
    create_tensor [PyInt 2] (name +:+ "_2") (DtName "int64");
    create_tensor [PyInt 3] (name +:+ "_3") (DtName "int64");
    create_tensor [PyInt heads] (name +:+ "_c") (DtName "int64");
    create_tensor [PyInt 3] (name +:+ "_d") (DtName "int64");
    (x ← item input_nodes 0;
     emit (make_node "Shape" [x] [name +:+ "_data_shape"] []));
    emit (make_node "Slice"
            [name +:+ "_data_shape"; name +:+ "_0"; name +:+ "_1"]
            [name +:+ "_a"] []);
    emit (make_node "Slice"
            [name +:+ "_data_shape"; name +:+ "_1"; name +:+ "_2"]
            [name +:+ "_b"] []);
    emit (make_node "Slice"
            [name +:+ "_data_shape"; name +:+ "_2"; name +:+ "_3"]
            [name +:+ "_cde"] []);
    emit (make_node "Div" [name +:+ "_cde"; name +:+ "_c"] [name +:+ "_de"]
            []);
    emit (make_node "Div" [name +:+ "_de"; name +:+ "_d"] [name +:+ "_e"] []);
    emit (make_node "Cast" [name +:+ "_e"] [name +:+ "_e_f"]
            [("to", int_attr FLOAT)]);
    emit (make_node "Sqrt" [name +:+ "_e_f"] [name +:+ "_sqrt_e"] []);
    emit (make_node "Div" [name +:+ "_1_f"; name +:+ "_sqrt_e"]
            [name +:+ "_1_over_sqrt_e"] []);
    emit (make_node "Mul" [name +:+ "_b"; name +:+ "_c"] [name +:+ "_bc"] []);
    emit (make_node "Concat"
            [name +:+ "_a"; name +:+ "_b"; name +:+ "_c"; name +:+ "_d";
             name +:+ "_e"]
            [name +:+ "_shape0"] [("axis", int_attr 0)]);
    emit (make_node "Concat"
            [name +:+ "_0"; name +:+ "_0"; name +:+ "_0"; name +:+ "_0";
             name +:+ "_0"]
            [name +:+ "_slice_start0"] [("axis", int_attr 0)]);
    emit (make_node "Concat"
            [name +:+ "_a"; name +:+ "_b"; name +:+ "_c"; name +:+ "_1";
             name +:+ "_e"]
            [name +:+ "_slice_end0"] [("axis", int_attr 0)]);
    emit (make_node "Concat"
            [name +:+ "_a"; name +:+ "_b"; name +:+ "_c"; name +:+ "_e"]
            [name +:+ "_shape1"] [("axis", int_attr 0)]);
    emit (make_node "Concat" [name +:+ "_bc"; name +:+ "_a"; name +:+ "_e"]
            [name +:+ "_shape2"] [("axis", int_attr 0)]);
    emit (make_node "Concat"
            [name +:+ "_0"; name +:+ "_0"; name +:+ "_0"; name +:+ "_1";
             name +:+ "_0"]
            [name +:+ "_slice_start1"] [("axis", int_attr 0)]);
    emit (make_node "Concat"
            [name +:+ "_a"; name +:+ "_b"; name +:+ "_c"; name +:+ "_2";
             name +:+ "_e"]
            [name +:+ "_slice_end1"] [("axis", int_attr 0)]);
    (x ← item input_nodes 0;
     emit (make_node "Reshape" [x; name +:+ "_shape0"]
            [name +:+ "_reshape0_out"] []));
    emit (make_node "Slice"
            [name +:+ "_reshape0_out"; name +:+ "_slice_start0";
             name +:+ "_slice_end0"]
            [name +:+ "_slice0_out"] []);
    emit (make_node "Reshape" [name +:+ "_slice0_out"; name +:+ "_shape1"]
            [name +:+ "_reshape1_out"] []);
    emit (make_node "Transpose" [name +:+ "_reshape1_out"]
            [name +:+ "_transpose0_out"] [("perm", AVal (PyTuple
            [PyInt 1; PyInt 2; PyInt 0; PyInt 3]))]);
    emit (make_node "Reshape" [name +:+ "_transpose0_out"; name +:+ "_shape2"]
            [name +:+ "_reshape2_out"] []);
    emit (make_node "Mul"
            [name +:+ "_reshape2_out"; name +:+ "_1_over_sqrt_e"]
            [name +:+ "_mul0_out"] []);
    emit (make_node "Slice"
            [name +:+ "_reshape0_out"; name +:+ "_slice_start1";
             name +:+ "_slice_end1"]
            [name +:+ "_slice1_out"] []);
    emit (make_node "Reshape" [name +:+ "_slice1_out"; name +:+ "_shape1"]
            [name +:+ "_reshape3_out"] []);
    emit (make_node "Transpose" [name +:+ "_reshape3_out"]
            [name +:+ "_transpose1_out"] [("perm", AVal (PyTuple
            [PyInt 1; PyInt 2; PyInt 0; PyInt 3]))]);
    emit (make_node "Reshape" [name +:+ "_transpose1_out"; name +:+ "_shape2"]
            [name +:+ "_reshape4_out"] []);
    emit (make_node "Transpose" [name +:+ "_reshape4_out"]
            [name +:+ "_transpose2_out"] [("perm", AVal (PyTuple
            [PyInt 0; PyInt 2; PyInt 1]))]);
    emit (make_named_node "MatMul"
            [name +:+ "_mul0_out"; name +:+ "_transpose2_out"] [name] name [])
  ].

(** *** _contrib_interleaved_matmul_selfatt_valatt *)

Definition convert_contrib_interleaved_matmul_selfatt_valatt
    (node : mx_node) (kw : kwargs) : M (list graph_item) :=
  '(name, input_nodes, attrs) ← lift (get_inputs node kw);
  qkv ← item input_nodes 0;
  att ← item input_nodes 1;
  num_heads ← lift (py_int (attrs_get attrs "heads" PyNone));
  py_list [
    create_tensor [PyInt num_heads] (name +:+ "_const_num_heads")
            (DtName "int64");
    create_tensor [PyInt 0] (name +:+ "_const_0") (DtName "int64");
    create_tensor [PyInt 1] (name +:+ "_const_1") (DtName "int64");
    create_tensor [PyInt 2] (name +:+ "_const_2") (DtName "int64");
    create_tensor [PyInt 3] (name +:+ "_const_3") (DtName "int64");
    create_tensor [PyInt 4] (name +:+ "_const_4") (DtName "int64");
    create_tensor [PyInt 5] (name +:+ "_const_5") (DtName "int64");
    create_tensor [PyInt 0; PyInt 0; PyInt num_heads; PyInt 3; PyInt (-1)]
            (name +:+ "_reshape0_shape") (DtName "int64");
    create_tensor [PyInt 0; PyInt 0; PyInt 0; PyInt 2; PyInt 0]
            (name +:+ "_slice_start") (DtName "int64");
    create_tensor [PyInt 0; PyInt 0; PyInt 0; PyInt (-1)]
            (name +:+ "_reshape1_shape") (DtName "int64");
    create_tensor [PyInt 0; PyInt 0; PyInt (-1)] (name +:+ "_reshape4_shape")
            (DtName "int64");
    emit (make_node "Shape" [qkv] [name +:+ "_shape_qkv"] []);
    emit (make_node "Slice"
            [name +:+ "_shape_qkv"; name +:+ "_const_0"; name +:+ "_const_1"]
            [name +:+ "_qkv_d0"] []);
    emit (make_node "Slice"
            [name +:+ "_shape_qkv"; name +:+ "_const_1"; name +:+ "_const_2"]
            [name +:+ "_qkv_d1"] []);
    emit (make_node "Slice"
            [name +:+ "_shape_qkv"; name +:+ "_const_2"; name +:+ "_const_3"]
            [name +:+ "_qkv_d2"] []);
    emit (make_node "Mul" [name +:+ "_qkv_d1"; name +:+ "_const_num_heads"]
            [name +:+ "_mul_out"] []);
    emit (make_node "Reshape" [qkv; name +:+ "_reshape0_shape"]
            [name +:+ "_reshape0_output"] []);
    emit (make_node "Shape" [name +:+ "_reshape0_output"]
            [name +:+ "_shape_reshape0"] []);
    emit (make_node "Slice"
            [name +:+ "_shape_reshape0"; name +:+ "_const_4";
             name +:+ "_const_5"]
            [name +:+ "_d4"] []);
    emit (make_node "Concat"
            [name +:+ "_mul_out"; name +:+ "_qkv_d0"; name +:+ "_d4"]
            [name +:+ "_reshape2_shape"] [("axis", int_attr 0)]);
    emit (make_node "Concat"
            [name +:+ "_qkv_d1"; name +:+ "_const_num_heads";
             name +:+ "_qkv_d0"; name +:+ "_d4"]
            [name +:+ "_reshape3_shape"] [("axis", int_attr 0)]);
    emit (make_node "Concat"
            [name +:+ "_qkv_d0"; name +:+ "_qkv_d1"; name +:+ "_qkv_d2";
             name +:+ "_const_3"; name +:+ "_d4"]
            [name +:+ "_slice_end"] [("axis", int_attr 0)]);
    emit (make_node "Slice"
            [name +:+ "_reshape0_output"; name +:+ "_slice_start";
             name +:+ "_slice_end"]
            [name +:+ "_slice_output"] []);
    emit (make_node "Reshape"
            [name +:+ "_slice_output"; name +:+ "_reshape1_shape"]
            [name +:+ "_reshape1_output"] []);
    emit (make_node "Transpose" [name +:+ "_reshape1_output"]
            [name +:+ "_transpose0_output"] [("perm", ints [1; 2; 0; 3])]);
    emit (make_node "Reshape"
            [name +:+ "_transpose0_output"; name +:+ "_reshape2_shape"]
            [name +:+ "_reshape2_output"] []);
    emit (make_node "MatMul" [att; name +:+ "_reshape2_output"]
            [name +:+ "_matmul_output"] []);
    emit (make_node "Reshape"
            [name +:+ "_matmul_output"; name +:+ "_reshape3_shape"]
            [name +:+ "_reshape3_output"] []);
    emit (make_node "Transpose" [name +:+ "_reshape3_output"]
            [name +:+ "_transpose2_output"] [("perm", ints [2; 0; 1; 3])]);
    emit (make_named_node "Reshape"
            [name +:+ "_transpose2_output"; name +:+ "_reshape4_shape"]
            [name] name [])
  ].

(** *** broadcast_axis *)

(** One round of the loop over the axes: the nodes and the name of the
    shape so far. *)
Definition broadcast_axis_body (name : string) (size : list pyval)
    (st : list graph_item * string) (step : nat * pyval)
  : M (list graph_item * string) :=
  let '(nodes, shape_name) := st in
  let '(k, axis) := step in
  let i := Z.of_nat k in
  first ←
    (if negb (py_is_0_or_1 axis) then
       py_list [
         create_tensor [axis] (name +:+ "_" +:+ py_str axis) (DtName "int64")
       ]
     else mret []);
  let nodes := nodes ++ first in
  more ← py_list [
    (s ← lift (list_get size k);
     v ← lift (py_pred s);
     create_tensor [v] (name +:+ "_size_" +:+ str_of_Z i) (DtName "int64"));
    emit (make_node "Equal" [name +:+ "_range"; name +:+ "_" +:+ py_str axis]
            [name +:+ "_equal_" +:+ str_of_Z i] []);
    emit (make_node "Cast" [name +:+ "_equal_" +:+ str_of_Z i]
            [name +:+ "_cast_" +:+ str_of_Z i] [("to", int_attr INT64)]);
    emit (make_node "Mul"
            [name +:+ "_size_" +:+ str_of_Z i;
             name +:+ "_cast_" +:+ str_of_Z i]
            [name +:+ "_mul_" +:+ str_of_Z i] []);
    emit (make_node "Add" [name +:+ "_mul_" +:+ str_of_Z i; name +:+ "_1"]
            [name +:+ "_add_" +:+ str_of_Z i] []);
    emit (make_node "Mul" [name +:+ "_add_" +:+ str_of_Z i; shape_name]
            [name +:+ "_shape_" +:+ str_of_Z (i + 1)] [])
  ];
  let nodes := nodes ++ more in
  let shape_name := name +:+ "_shape_" +:+ str_of_Z (i + 1) in
  mret (nodes, shape_name).

Fixpoint broadcast_axis_loop (name : string) (size : list pyval)
    (steps : list (nat * pyval)) (st : list graph_item * string)
  : M (list graph_item * string) :=
  match steps with
  | [] => mret st
  | step :: rest =>
      st' ← broadcast_axis_body name size st step;
      broadcast_axis_loop name size rest st'
  end.

Definition convert_broadcast_axis (node : mx_node) (kw : kwargs)
  : M (list graph_item) :=
  '(name, input_nodes, attrs) ← lift (get_inputs node kw);
  axis ←
    lift (convert_string_to_list (Some (default "()" (attrs !! "axis"))));
  size ←
    lift (convert_string_to_list (Some (default "()" (attrs !! "size"))));
  if negb (length axis =? length size)%nat then raise AssertionError
  else
  let shape_name := name +:+ "_shape_0" in
  nodes ← py_list [
    create_tensor [PyInt 0] (name +:+ "_0") (DtName "int64");
    create_tensor [PyInt 1] (name +:+ "_1") (DtName "int64");
    create_tensor [] (name +:+ "_void") (DtName "int64");
    (v ← lift (np_scalar Int64 (PyInt 0));
     create_const_scalar_node (name +:+ "_0_s") v);
    (v ← lift (np_scalar Int64 (PyInt 1));
     create_const_scalar_node (name +:+ "_1_s") v);
    (x ← item input_nodes 0;
     emit (make_node "Shape" [x] [shape_name] []));
    emit (make_node "Shape" [shape_name] [name +:+ "_in_dim"] []);
    emit (make_node "Reshape" [name +:+ "_in_dim"; name +:+ "_void"]
            [name +:+ "_in_dim_s"] []);
    emit (make_node "Range"
            [name +:+ "_0_s"; name +:+ "_in_dim_s"; name +:+ "_1_s"]
            [name +:+ "_range"] [])
  ];
  '(nodes, shape_name) ←
    broadcast_axis_loop name size (zip (seq 0 (length axis)) axis)
      (nodes, shape_name);
  more ← py_list [
    (x ← item input_nodes 0;
     emit (make_named_node "Expand" [x; shape_name] [name] name []))
  ];
  mret (nodes ++ more).

(** *** SequenceMask *)

Definition convert_sequencemask (node : mx_node) (kw : kwargs)
  : M (list graph_item) :=
  '(name, input_nodes, attrs) ← lift (get_inputs node kw);
  let use_sequence_length :=
    default "False" (attrs !! "use_sequence_length") in
  mask_val ← lift (py_float (attrs_get attrs "value" (PyStr "0")));
  axis ← lift (py_int (attrs_get attrs "axis" (PyStr "0")));
  if bool_decide (use_sequence_length = "False") then
    py_list [
      (x ← item input_nodes 0;
       emit (make_named_node "Identity" [x] [name] name []))
    ]
  else
  nodes ← py_list [
    create_tensor [] (name +:+ "_void") (DtName "int64");
    create_tensor [PyInt 0] (name +:+ "_0") (DtName "int64");
    create_tensor [PyInt 1] (name +:+ "_1") (DtName "int64");
    create_tensor [PyInt 2] (name +:+ "_2") (DtName "int64");
    (v ← lift (np_scalar Int64 (PyInt 0));
     create_const_scalar_node (name +:+ "_0_s") v);
    (v ← lift (np_scalar Int64 (PyInt 1));
     create_const_scalar_node (name +:+ "_1_s") v);
    (v ← lift (np_scalar Int64 (PyInt 2));
     create_const_scalar_node (name +:+ "_2_s") v);
    create_tensor [PyFloat mask_val] (name +:+ "_mask_val") (DtName "float32");
    (x ← item input_nodes 0;
     emit (make_node "Shape" [x] [name +:+ "_in_shape"] []));
    emit (make_node "Slice"
            [name +:+ "_in_shape"; name +:+ "_0"; name +:+ "_1"]
            [name +:+ "_slice_0"] []);
    emit (make_node "Slice"
            [name +:+ "_in_shape"; name +:+ "_1"; name +:+ "_2"]
            [name +:+ "_slice_1"] []);
    emit (make_node "Concat" [name +:+ "_slice_0"; name +:+ "_1"]
            [name +:+ "_shape_0"] [("axis", int_attr 0)]);
    emit (make_node "Shape" [name +:+ "_in_shape"] [name +:+ "_in_dim"] []);
    emit (make_node "Reshape" [name +:+ "_in_dim"; name +:+ "_void"]
            [name +:+ "_in_dim_s"] []);
    emit (make_node "Range"
            [name +:+ "_0_s"; name +:+ "_in_dim_s"; name +:+ "_1_s"]
            [name +:+ "_range_0"] []);
    emit (make_node "Less" [name +:+ "_range_0"; name +:+ "_2"]
            [name +:+ "_less_0"] []);
    emit (make_node "Where"
            [name +:+ "_less_0"; name +:+ "_in_shape"; name +:+ "_1"]
            [name +:+ "_shape_1"] [])
  ];
  more ←
    (if axis =? 0 then
       py_list [
    emit (make_node "Reshape" [name +:+ "_slice_0"; name +:+ "_void"]
            [name +:+ "_max_len"] []);
    emit (make_node "Range"
            [name +:+ "_0_s"; name +:+ "_max_len"; name +:+ "_1_s"]
            [name +:+ "_range_1"] []);
    emit (make_node "Reshape" [name +:+ "_range_1"; name +:+ "_shape_0"]
            [name +:+ "_reshape_0"] []);
    (x ← item input_nodes 1;
     emit (make_node "Cast" [x] [name +:+ "_cast"] [("to", int_attr INT64)]));
    emit (make_node "Less" [name +:+ "_reshape_0"; name +:+ "_cast"]
            [name +:+ "_less_1"] []);
    emit (make_node "Reshape" [name +:+ "_less_1"; name +:+ "_shape_1"]
            [name +:+ "_reshape_1"] []);
    (x ← item input_nodes 0;
     emit (make_named_node "Where"
            [name +:+ "_reshape_1"; x; name +:+ "_mask_val"] [name] name []))
       ]
     else
       py_list [
    emit (make_node "Reshape" [name +:+ "_slice_1"; name +:+ "_void"]
            [name +:+ "_max_len"] []);
    emit (make_node "Range"
            [name +:+ "_0_s"; name +:+ "_max_len"; name +:+ "_1_s"]
            [name +:+ "_range_1"] []);
    (x ← item input_nodes 1;
     emit (make_node "Reshape" [x; name +:+ "_shape_0"]
            [name +:+ "_reshape_0"] []));
    emit (make_node "Cast" [name +:+ "_reshape_0"] [name +:+ "_cast"]
            [("to", int_attr INT64)]);
    emit (make_node "Less" [name +:+ "_range_1"; name +:+ "_cast"]
            [name +:+ "_less_1"] []);
    emit (make_node "Reshape" [name +:+ "_less_1"; name +:+ "_shape_1"]
            [name +:+ "_reshape_1"] []);
    (x ← item input_nodes 0;
     emit (make_named_node "Where"
            [name +:+ "_reshape_1"; x; name +:+ "_mask_val"] [name] name []))
       ]);
  mret (nodes ++ more).

(** *** reverse *)

Definition convert_reverse (node : mx_node) (kw : kwargs)
  : M (list graph_item) :=
  '(name, input_nodes, attrs) ← lift (get_inputs node kw);
  axis ← lift (py_int (attrs_get attrs "axis" (PyInt 0)));
  (* The transposition needs a known number of dimensions: 10 here. *)
  let perm := py_range 10 in
  perm ← lift (list_set_Z perm 0 axis);
  perm ← lift (list_set_Z perm axis 0);
  py_list [
    create_tensor [PyInt 10] (name +:+ "_10") (DtName "int64");
    create_tensor [PyInt 0] (name +:+ "_0") (DtName "int64");
    create_tensor [PyInt 1] (name +:+ "_1") (DtName "int64");
    create_tensor [PyInt (-1)] (name +:+ "_m1") (DtName "int64");
    create_tensor [PyInt axis] (name +:+ "_axis") (DtName "int64");
    create_tensor [PyInt (axis + 1)] (name +:+ "_axis_p1") (DtName "int64");
    create_tensor [] (name +:+ "_void") (DtName "int64");
    (v ← lift (np_array [PyInt (-1)] (DtName "int64"));
     create_const_scalar_node (name +:+ "_m1_s") v);
    (x ← item input_nodes 0;
     emit (make_node "Shape" [x] [name +:+ "_shape"] []));
    emit (make_node "Shape" [name +:+ "_shape"] [name +:+ "_dim"] []);
    emit (make_node "Sub" [name +:+ "_10"; name +:+ "_dim"] [name +:+ "_sub"]
            []);
    emit (make_node "Concat" [name +:+ "_0"; name +:+ "_sub"]
            [name +:+ "_concat"] [("axis", int_attr 0)]);
    emit (make_node "Pad"
            [name +:+ "_shape"; name +:+ "_concat"; name +:+ "_1"]
            [name +:+ "_shape_10_dim"] []);
    (x ← item input_nodes 0;
     emit (make_node "Reshape" [x; name +:+ "_shape_10_dim"]
            [name +:+ "_data_10_dim"] []));
    emit (make_node "Transpose" [name +:+ "_data_10_dim"] [name +:+ "_data_t"]
            [("perm", ints perm)]);
    emit (make_node "Slice"
            [name +:+ "_shape"; name +:+ "_axis"; name +:+ "_axis_p1"]
            [name +:+ "_axis_len"] []);
    emit (make_node "Sub" [name +:+ "_axis_len"; name +:+ "_1"]
            [name +:+ "_axis_len_m1"] []);
    emit (make_node "Reshape" [name +:+ "_axis_len_m1"; name +:+ "_void"]
            [name +:+ "_axis_len_m1_s"] []);
    emit (make_node "Range"
            [name +:+ "_axis_len_m1_s"; name +:+ "_m1_s"; name +:+ "_m1_s"]
            [name +:+ "_indices"] []);
    emit (make_node "Gather" [name +:+ "_data_t"; name +:+ "_indices"]
            [name +:+ "_gather"] []);
    emit (make_node "Transpose" [name +:+ "_gather"]
            [name +:+ "_data_reversed"] [("perm", ints perm)]);
    emit (make_named_node "Reshape"
            [name +:+ "_data_reversed"; name +:+ "_shape"] [name] name [])
  ].

(** *** _contrib_box_decode *)

Definition convert_contrib_box_decode (node : mx_node) (kw : kwargs)
  : M (list graph_item) :=
  '(name, input_nodes, attrs) ← lift (get_inputs node kw);
  data ← item input_nodes 0;
  anchors ← item input_nodes 1;
  let input_type := in_type kw in
  let fmt := default "center" (attrs !! "format") in
  std0 ← lift (py_float (attrs_get attrs "std0" (PyStr "1.")));
  std1 ← lift (py_float (attrs_get attrs "std1" (PyStr "1.")));
  std2 ← lift (py_float (attrs_get attrs "std2" (PyStr "1.")));
  std3 ← lift (py_float (attrs_get attrs "std3" (PyStr "1.")));
  clip ← lift (py_float (attrs_get attrs "clip" (PyStr "-1.")));
  if negb (bool_decide (fmt = "center") || bool_decide (fmt = "corner")) then
    raise (NotImplementedError "format must be either corner or center.")
  else
  nodes ← py_list [
    create_tensor [PyInt 0] (name +:+ "_0") (DtName "int64");
    create_tensor [PyInt 2] (name +:+ "_2") (DtName "int64");
    create_tensor [PyInt 4] (name +:+ "_4") (DtName "int64");
    create_tensor [PyInt 2] (name +:+ "_2f") (DtName "float32");
    create_tensor [PyFloat clip] (name +:+ "_clip") (DtName "float32");
    create_tensor [PyFloat std0; PyFloat std1; PyFloat std2; PyFloat std3]
            (name +:+ "_std_1d") (DtName "float32");
    create_tensor [PyInt 1; PyInt 4] (name +:+ "_std_shape") (DtName "int64");
    emit (make_node "Cast" [data] [name +:+ "_data"] [("to", int_attr FLOAT)]);
    emit (make_node "Cast" [anchors] [name +:+ "_anchors"]
            [("to", int_attr FLOAT)]);
    emit (make_node "Reshape" [name +:+ "_std_1d"; name +:+ "_std_shape"]
            [name +:+ "_std"] []);
    emit (make_node "Mul" [name +:+ "_data"; name +:+ "_std"]
            [name +:+ "_mul0_out"] []);
    emit (make_node "Slice"
            [name +:+ "_mul0_out"; name +:+ "_0"; name +:+ "_2"; name +:+ "_2"]
            [name +:+ "_data_xy"] []);
    emit (make_node "Slice"
            [name +:+ "_mul0_out"; name +:+ "_2"; name +:+ "_4"; name +:+ "_2"]
            [name +:+ "_data_wh"] [])
  ];
  more ←
    (if bool_decide (fmt = "corner") then
       py_list [
    emit (make_node "Slice"
            [name +:+ "_anchors"; name +:+ "_0"; name +:+ "_2"; name +:+ "_2"]
            [name +:+ "_slice0_out"] []);
    emit (make_node "Slice"
            [name +:+ "_anchors"; name +:+ "_2"; name +:+ "_4"; name +:+ "_2"]
            [name +:+ "_slice1_out"] []);
    emit (make_node "Sub" [name +:+ "_slice1_out"; name +:+ "_slice0_out"]
            [name +:+ "_anchor_wh"] []);
    emit (make_node "Div" [name +:+ "_anchor_wh"; name +:+ "_2f"]
            [name +:+ "_div0_out"] []);
    emit (make_node "Add" [name +:+ "_slice0_out"; name +:+ "_div0_out"]
            [name +:+ "_anchor_xy"] [])
       ]
     else
       py_list [
    emit (make_node "Slice"
            [name +:+ "_anchors"; name +:+ "_0"; name +:+ "_2"; name +:+ "_2"]
            [name +:+ "_anchor_xy"] []);
    emit (make_node "Slice"
            [name +:+ "_anchors"; name +:+ "_2"; name +:+ "_4"; name +:+ "_2"]
            [name +:+ "_anchor_wh"] [])
       ]);
  let nodes := nodes ++ more in
  more ← py_list [
    emit (make_node "Mul" [name +:+ "_data_xy"; name +:+ "_anchor_wh"]
            [name +:+ "_mul1_out"] []);
    emit (make_node "Add" [name +:+ "_mul1_out"; name +:+ "_anchor_xy"]
            [name +:+ "_add0_out"] [])
  ];
  let nodes := nodes ++ more in
  more ←
    (if SFltb SF_zero clip then
       py_list [
    emit (make_node "Less" [name +:+ "_data_wh"; name +:+ "_clip"]
            [name +:+ "_less0_out"] []);
    emit (make_node "Where"
            [name +:+ "_less0_out"; name +:+ "_data_wh"; name +:+ "_clip"]
            [name +:+ "_where0_out"] []);
    emit (make_node "Exp" [name +:+ "_where0_out"] [name +:+ "_exp0_out"] [])
       ]
     else
       py_list [
    emit (make_node "Exp" [name +:+ "_data_wh"] [name +:+ "_exp0_out"] [])
       ]);
  let nodes := nodes ++ more in
  more ← py_list [
    emit (make_node "Mul" [name +:+ "_exp0_out"; name +:+ "_anchor_wh"]
            [name +:+ "_mul2_out"] []);
    emit (make_node "Div" [name +:+ "_mul2_out"; name +:+ "_2f"]
            [name +:+ "_div1_out"] []);
    emit (make_node "Sub" [name +:+ "_add0_out"; name +:+ "_div1_out"]
            [name +:+ "_sub0_out"] []);
    emit (make_node "Add" [name +:+ "_add0_out"; name +:+ "_div1_out"]
            [name +:+ "_add1_out"] []);
    emit (make_node "Concat" [name +:+ "_sub0_out"; name +:+ "_add1_out"]
            [name +:+ "concat0_out"] [("axis", int_attr 2)]);
    emit (make_named_node "Cast" [name +:+ "concat0_out"] [name] name
            [("to", int_attr input_type)])
  ];
  mret (nodes ++ more).

(** *** reshape_like *)

Definition convert_reshape_like (node : mx_node) (kw : kwargs)
  : M (list graph_item) :=
  '(name, input_nodes, attrs) ← lift (get_inputs node kw);
  lhs ← item input_nodes 0;
  rhs ← item input_nodes 1;
  let lhs_begin := default "0" (attrs !! "lhs_begin") in
  let rhs_begin := default "0" (attrs !! "rhs_begin") in
  let lhs_end := default "None" (attrs !! "lhs_end") in
  let rhs_end := default "None" (attrs !! "rhs_end") in
  if bool_decide (lhs_begin = "None") || bool_decide (rhs_begin = "None") then
    raise (NotImplementedError
             "lhs_begin and rhs_begin should not be None.")
  else
  lhs_begin ← lift (int_of_string lhs_begin);
  rhs_begin ← lift (int_of_string rhs_begin);
  (* basic case *)
  if (lhs_begin =? 0) && bool_decide (lhs_end = "None") && (rhs_begin =? 0)
     && bool_decide (rhs_end = "None") then
    py_list [
    emit (make_node "Shape" [rhs] [name +:+ "_shape_rhs"] []);
    emit (make_named_node "Reshape" [lhs; name +:+ "_shape_rhs"] [name] name
            [])
    ]
  else
  nodes ← py_list [
    create_tensor [PyInt 0] (name +:+ "_0") (DtName "int64");
    emit (make_node "Shape" [lhs] [name +:+ "_lhs_shape"] []);
    emit (make_node "Shape" [name +:+ "_lhs_shape"] [name +:+ "_lhs_dim"] []);
    emit (make_node "Shape" [rhs] [name +:+ "_rhs_shape"] []);
    emit (make_node "Shape" [name +:+ "_rhs_shape"] [name +:+ "_rhs_dim"] [])
  ];
  more ←
    (if 0 <=? lhs_begin then
       py_list [
         create_tensor [PyInt lhs_begin] (name +:+ "_lhs_begin")
           (DtName "int64")
       ]
     else
       py_list [
         create_tensor [PyInt lhs_begin] (name +:+ "_lhs_begin_neg")
           (DtName "int64");
         emit (make_node "Add"
                 [name +:+ "_lhs_dim"; name +:+ "_lhs_begin_neg"]
                 [name +:+ "_lhs_begin"] [])
       ]);
  let nodes := nodes ++ more in
  more ←
    (if 0 <=? rhs_begin then
       py_list [
         create_tensor [PyInt rhs_begin] (name +:+ "_rhs_begin")
           (DtName "int64")
       ]
     else
       py_list [
         create_tensor [PyInt rhs_begin] (name +:+ "_rhs_begin_neg")
           (DtName "int64");
         emit (make_node "Add"
                 [name +:+ "_rhs_dim"; name +:+ "_rhs_begin_neg"]
                 [name +:+ "_rhs_begin"] [])
       ]);
  let nodes := nodes ++ more in
  more ←
    (if bool_decide (lhs_end = "None") then
       py_list [
         emit (make_node "Add" [name +:+ "_lhs_dim"; name +:+ "_0"]
                 [name +:+ "_lhs_end"] [])
       ]
     else
       lhs_end ← lift (int_of_string lhs_end);
       if 0 <=? lhs_end then
         py_list [
           create_tensor [PyInt lhs_end] (name +:+ "_lhs_end")
             (DtName "int64")
         ]
       else
         py_list [
           create_tensor [PyInt lhs_end] (name +:+ "_lhs_end_neg")
             (DtName "int64");
           emit (make_node "Add"
                   [name +:+ "_lhs_dim"; name +:+ "_lhs_end_neg"]
                   [name +:+ "_lhs_end"] [])
         ]);
  let nodes := nodes ++ more in
  more ←
    (if bool_decide (rhs_end = "None") then
       py_list [
         emit (make_node "Add" [name +:+ "_rhs_dim"; name +:+ "_0"]
                 [name +:+ "_rhs_end"] [])
       ]
     else
       rhs_end ← lift (int_of_string rhs_end);
       if 0 <=? rhs_end then
         py_list [
           create_tensor [PyInt rhs_end] (name +:+ "_rhs_end")
             (DtName "int64")
         ]
       else
         py_list [
           create_tensor [PyInt rhs_end] (name +:+ "_rhs_end_neg")
             (DtName "int64");
           emit (make_node "Add"
                   [name +:+ "_rhs_dim"; name +:+ "_rhs_end_neg"]
                   [name +:+ "_rhs_end"] [])
         ]);
  let nodes := nodes ++ more in
  more ← py_list [
    emit (make_node "Slice"
            [name +:+ "_lhs_shape"; name +:+ "_0"; name +:+ "_lhs_begin"]
            [name +:+ "_slice0_out"] []);
    emit (make_node "Slice"
            [name +:+ "_rhs_shape"; name +:+ "_rhs_begin"; name +:+ "_rhs_end"]
            [name +:+ "_slice1_out"] []);
    emit (make_node "Concat" [name +:+ "_slice0_out"; name +:+ "_slice1_out"]
            [name +:+ "_concat0_out"] [("axis", int_attr 0)]);
    emit (make_node "Slice"
            [name +:+ "_lhs_shape"; name +:+ "_lhs_end"; name +:+ "_lhs_dim"]
            [name +:+ "_slice2_out"] []);
    emit (make_node "Concat" [name +:+ "_concat0_out"; name +:+ "_slice2_out"]
            [name +:+ "_concat1_out"] [("axis", int_attr 0)]);
    emit (make_named_node "Reshape" [lhs; name +:+ "_concat1_out"] [name] name
            [])
  ];
  mret (nodes ++ more).

End LongRules.
(** ** The registry *)

Section Registry.
Context `{External}.

(** Every rule of the source, under the opcode [mx_op.register] gives it:
    the 44 rules that rename the operator, then the others in the order of
    the source. *)
Definition registered_rules : list (string * rule) :=
  map (fun '(op, onnx_op) =>
         (op, (fun node kw => create_basic_op_node onnx_op node kw) : rule))
      direct_renames
  ++ [("null", convert_weights_and_inputs);
      ("Convolution", convert_convolution);
      ("Deconvolution", convert_deconvolution);
      ("Crop", convert_crop);
      ("FullyConnected", convert_fully_connected);
      ("BatchNorm", convert_batchnorm);
      ("Activation", convert_activation);
      ("Pad", convert_pad);
      ("dot", convert_dot);
      ("_linalg_gemm2", convert_linalg_gemm2);
      ("Pooling", convert_pooling);
      ("InstanceNorm", convert_instancenorm);
      ("LeakyReLU", convert_leakyrelu);
      ("softmax", convert_softmax);
      ("SoftmaxOutput", convert_softmax_output);
      ("LogisticRegressionOutput", convert_logistic_regression_output);
      ("Concat", convert_concat);
      ("transpose", convert_transpose);
      ("LRN", convert_lrn);
      ("L2Normalization", convert_l2normalization);
      ("Dropout", convert_dropout);
      ("clip", convert_clip);
      ("_mul_scalar", convert_mul_scalar);
      ("_minus_scalar", convert_minus_scalar);
      ("_rminus_scalar", convert_rminus_scalar);
      ("_plus_scalar", convert_add_scalar);
      ("_div_scalar", convert_div_scalar);
      ("_rdiv_scalar", convert_rdiv_scalar);
      ("_power_scalar", convert_pow_scalar);
      ("argmax", convert_argmax);
      ("argmin", convert_argmin);
      ("min", convert_min);
      ("max", convert_max);
      ("mean", convert_mean);
      ("prod", convert_prod);
      ("Reshape", convert_reshape);
      ("Cast", convert_cast);
      ("slice_axis", convert_slice_axis);
      ("SliceChannel", convert_slice_channel);
      ("expand_dims", convert_expand_dims);
      ("squeeze", convert_squeeze);
      ("depth_to_space", convert_depthtospace);
      ("space_to_depth", convert_spacetodepth);
      ("square", convert_square);
      ("sum", convert_sum);
      ("hard_sigmoid", convert_hardsigmoid);
      ("log_softmax", convert_logsoftmax);
      ("norm", convert_norm);
      ("_sample_multinomial", convert_multinomial);
      ("_random_uniform", convert_random_uniform);
      ("_random_normal", convert_random_normal);
      ("ROIPooling", convert_roipooling);
      ("tile", convert_tile);
      ("broadcast_to", convert_broadcast_to);
      ("topk", convert_topk);
      ("take", convert_take);
      ("LayerNorm", convert_layer_norm);
      ("_contrib_interleaved_matmul_selfatt_qk", convert_matmul_selfatt_qk);
      ("_contrib_interleaved_matmul_selfatt_valatt",
       convert_contrib_interleaved_matmul_selfatt_valatt);
      ("broadcast_axis", convert_broadcast_axis);
      ("SequenceMask", convert_sequencemask);
      ("Embedding", convert_embedding);
      ("stack", convert_stack);
      ("slice", convert_slice);
      ("slice_like", convert_slice_like);
      ("zeros_like", convert_zeros_like);
      ("ones_like", convert_ones_like);
      ("_contrib_arange_like", convert_arange_like);
      ("_contrib_BilinearResize2D", convert_contrib_BilinearResize2D);
      ("_arange", convert_arange);
      ("reverse", convert_reverse);
      ("repeat", convert_repeat);
      ("_greater_scalar", convert_greater_scalar);
      ("where", convert_where);
      ("_maximum_scalar", convert_maximum_scalar);
      ("_contrib_box_decode", convert_contrib_box_decode);
      ("_contrib_AdaptiveAvgPooling2D", convert_contrib_AdaptiveAvgPooling2D);
      ("reshape_like", convert_reshape_like)].

Definition registry : gmap string rule := list_to_map registered_rules.

End Registry.
(** ** Minimal valid nodes *)

(** For each opcode, the attributes without which its rule raises, with a
    value each, and the number of inputs the rule reads by position
    ([None] when it passes the inputs on as a whole). A minimal node of an
    opcode has these attributes and no other, and that many inputs. *)
Definition minimal_nodes : list (string * (list (string * string) * option nat)) :=
  map (fun '(op, _) => (op, ([], None))) direct_renames
  ++ [("null", ([], None));
      ("Convolution", ([("kernel", "(3, 3)")], None));
      ("Deconvolution", ([("kernel", "(3, 3)")], None));
      ("Crop", ([], Some 1%nat));
      ("FullyConnected", ([("num_hidden", "10")], Some 3%nat));
      ("BatchNorm", ([], None));
      ("Activation", ([("act_type", "relu")], None));
      ("Pad", ([("pad_width", "(0, 0, 0, 0, 1, 1, 1, 1)")], Some 1%nat));
      ("dot", ([], Some 2%nat));
      ("_linalg_gemm2", ([], None));
      ("Pooling", ([("kernel", "(2, 2)")], None));
      ("InstanceNorm", ([], None));
      ("LeakyReLU", ([], None));
      ("softmax", ([], Some 1%nat));
      ("SoftmaxOutput", ([], Some 1%nat));
      ("LogisticRegressionOutput", ([], Some 1%nat));
      ("Concat", ([], None));
      ("transpose", ([], None));
      ("LRN", ([("nsize", "5")], None));
      ("L2Normalization", ([("mode", "channel")], None));
      ("Dropout", ([], Some 1%nat));
      ("clip", ([], Some 1%nat));
      ("_mul_scalar", ([], Some 1%nat));
      ("_minus_scalar", ([], Some 1%nat));
      ("_rminus_scalar", ([], Some 1%nat));
      ("_plus_scalar", ([], Some 1%nat));
      ("_div_scalar", ([], Some 1%nat));
      ("_rdiv_scalar", ([], Some 1%nat));
      ("_power_scalar", ([], Some 1%nat));
      ("argmax", ([("axis", "0")], None));
      ("argmin", ([("axis", "0")], None));
      ("min", ([], None));
      ("max", ([], None));
      ("mean", ([], None));
      ("prod", ([], None));
      ("Reshape", ([("shape", "(2, -1)")], Some 1%nat));
      ("Cast", ([], None));
      ("slice_axis", ([("axis", "1"); ("begin", "0")], Some 1%nat));
      ("SliceChannel", ([("num_outputs", "2")], None));
      ("expand_dims", ([("axis", "0")], None));
      ("squeeze", ([("axis", "(0,)")], None));
      ("depth_to_space", ([], None));
      ("space_to_depth", ([], None));
      ("square", ([], None));
      ("sum", ([], None));
      ("hard_sigmoid", ([], None));
      ("log_softmax", ([], None));
      ("norm", ([], None));
      ("_sample_multinomial", ([], None));
      ("_random_uniform", ([], None));
      ("_random_normal", ([], None));
      ("ROIPooling",
       ([("pooled_size", "(2, 2)"); ("spatial_scale", "0.5")], None));
      ("tile", ([("reps", "(2, 2)")], None));
      ("broadcast_to", ([("shape", "(2, 4)")], None));
      ("topk", ([("ret_typ", "both")], Some 1%nat));
      ("take", ([], None));
      ("LayerNorm", ([], Some 3%nat));
      ("_contrib_interleaved_matmul_selfatt_qk",
       ([("heads", "2")], Some 1%nat));
      ("_contrib_interleaved_matmul_selfatt_valatt",
       ([("heads", "2")], Some 2%nat));
      ("broadcast_axis", ([], Some 1%nat));
      ("SequenceMask", ([], Some 1%nat));
      ("Embedding", ([], Some 2%nat));
      ("stack", ([], None));
      ("slice", ([("begin", "(0, 0)"); ("end", "(1, 2)")], Some 1%nat));
      ("slice_like", ([], Some 2%nat));
      ("zeros_like", ([], Some 1%nat));
      ("ones_like", ([], Some 1%nat));
      ("_contrib_arange_like", ([], Some 1%nat));
      ("_contrib_BilinearResize2D",
       ([("height", "2"); ("width", "2")], Some 1%nat));
      ("_arange", ([], None));
      ("reverse", ([], Some 1%nat));
      ("repeat", ([], Some 1%nat));
      ("_greater_scalar", ([("scalar", "2")], Some 1%nat));
      ("where", ([], Some 3%nat));
      ("_maximum_scalar", ([], Some 1%nat));
      ("_contrib_box_decode", ([], Some 2%nat));
      ("_contrib_AdaptiveAvgPooling2D", ([], Some 1%nat));
      ("reshape_like", ([], Some 2%nat))].

(** The strings the rules hand to [float] on these nodes: the defaults
    ["0"], ["1."] and ["-1."] of the source, and the values ["2"] and
    ["0.5"] of the table. *)
Definition float_literals : list string := ["0"; "1."; "-1."; "2"; "0.5"].

Section MinimalNodes.
Context `{External}.

(** The libraries read the literals of the table: [float] the float
    literals, [eval] the kernel of the pooling node. *)
Definition libraries_read : Prop :=
  (forall s, s ∈ float_literals -> exists f, float_of_string s = Some f) /\
  (exists v, py_eval "(2, 2)" = Ret v).

(** The context of a node: a version from 11 on, inputs of type float, an
    input shape and an output shape of two dimensions or more. *)
Definition valid_context (kw : kwargs) : Prop :=
  11 <= opset_version kw /\
  in_type kw = FLOAT /\
  (exists d0 d1 dims shapes, in_shape kw = (d0 :: d1 :: dims) :: shapes) /\
  (2 <= length (out_shape kw))%nat.

(** A [null] node is a graph input, or a parameter whose array is among the
    weights and has a type the target format knows. *)
Definition known_parameter (node : mx_node) (kw : kwargs) : Prop :=
  is_input kw = true \/
  exists a t, weights kw !! node_name node = Some a /\
              NP_TYPE_TO_TENSOR_TYPE (nd_dtype a) = Ret t.

(** A minimal valid node of [op], in a valid context: its attributes are
    the ones of the table, its inputs resolve and are as many as the
    table says, a [null] node is known, and no initializer bears the name
    of its first input (so that a scalar rule has no constant to fold). *)
Definition minimal_valid (op : string) (node : mx_node) (kw : kwargs)
    (init : list TensorProto) : Prop :=
  exists attrs arity inputs,
    (list_to_map minimal_nodes
       : gmap string (list (string * string) * option nat)) !! op
    = Some (attrs, arity) /\
    node_attrs node = list_to_map attrs /\
    get_inputs node kw = Ret (node_name node, inputs, node_attrs node) /\
    (forall n, arity = Some n -> length inputs = n) /\
    valid_context kw /\
    libraries_read /\
    (op = "null" -> known_parameter node kw) /\
    (forall x, head inputs = Some x ->
       Forall (fun t => t_name t <> x) init).

(** What the naming contract asks of the rule [r] of the opcode [op] on
    the node [node]: whenever it returns, the list ends with an item that
    is named after the node (the descriptor of a [null] node being the
    whole list); a renaming rule returns when the inputs resolve; on a
    minimal valid node every rule but that of [dot] returns, and its list
    ends with a node unless the opcode is [null]; the rule of [dot] never
    returns. *)
Definition rule_contract (op : string) (r : rule) (node : mx_node)
    (kw : kwargs) (init : list TensorProto) : Prop :=
  (forall items init',
     r node kw init = (Ret items, init') ->
     (exists i, last items = Some i /\ named_after op (node_name node) i) /\
     (op = "topk" ->
      exists n, last items = Some (ItemNode n) /\
        output n = [node_name node; node_name node +:+ "_output1"]) /\
     (op = "SliceChannel" ->
      exists n, items = [ItemNode n] /\
        (output n = [node_name node] \/
         exists k, 1 < k /\
           output n = slice_channel_outputs (node_name node) k)) /\
     (op = "null" ->
      exists v, items = [ItemValue v] /\ vi_name v = node_name node)) /\
  (forall onnx_op nm inputs attrs,
     (op, onnx_op) ∈ direct_renames ->
     get_inputs node kw = Ret (nm, inputs, attrs) ->
     r node kw init
     = (Ret [ItemNode (make_named_node onnx_op inputs [nm] nm [])], init)) /\
  (op <> "dot" ->
   minimal_valid op node kw init ->
   exists items init' i,
     r node kw init = (Ret items, init') /\
     last items = Some i /\
     (op <> "null" -> exists n, i = ItemNode n)) /\
  (op = "dot" ->
   forall items init', r node kw init <> (Ret items, init')).

End MinimalNodes.

(** A minimal node of [topk]: the one attribute the rule requires, and one
    input. *)
Definition example_minimal_topk : mx_node :=
  example_node "tk" "topk" [0%nat] [("ret_typ", "both")].

(** A context for the minimal nodes: version 12, one processed input [x]
    of type float and shape 2 by 4, and a graph input for [null]. *)
Definition minimal_kwargs : kwargs := {|
  opset_version := 12;
  in_type := FLOAT;
  in_shape := [[2; 4]];
  idx := 3;
  proc_nodes := [ItemValue (make_tensor_value_info "x" FLOAT [2; 4])];
  index_lookup := [0%nat];
  is_input := true;
  weights := ∅;
  input_shape := [2; 4];
  out_shape := [2; 4]
|}.

(** The minimal node [n] of an opcode, from its entry in the table: each
    input the rule reads is the processed input [x], and a rule that reads
    none by position gets one. *)
Definition minimal_node (op : string) (attrs : list (string * string))
    (arity : option nat) : mx_node :=
  example_node "n" op (replicate (default 1%nat arity) 0%nat) attrs.

(** * Properties *)

(** ** The padding layout *)

Section Padding.
Context {A : Type}.
Implicit Types l : list A.

Lemma even_odd_index_ind (P : list A -> Prop) :
  P [] -> (forall x, P [x]) ->
  (forall x y t, P t -> P (x :: y :: t)) ->
  forall l, P l.
Proof.
  intros Hnil Hone Hstep.
  assert (Hboth : forall l, P l /\ forall x, P (x :: l)).
  { induction l as [|y t [IH1 IH2]]; split; auto. }
  intros l. apply Hboth.
Qed.

Lemma even_index_elements_lookup l (i : nat) :
  even_index_elements l !! i = l !! (2 * i)%nat.
Proof.
  revert i. induction l as [| x | x y t IH] using even_odd_index_ind;
    intros [|i]; try reflexivity.
  simpl. rewrite IH. replace (i + S (i + 0))%nat with (S (2 * i)) by lia.
  reflexivity.
Qed.

Lemma odd_index_elements_lookup l (i : nat) :
  odd_index_elements l !! i = l !! (2 * i + 1)%nat.
Proof.
  revert i. induction l as [| x | x y t IH] using even_odd_index_ind;
    intros [|i]; try reflexivity.
  simpl. rewrite IH.
  replace (i + S (i + 0) + 1)%nat with (S (2 * i + 1)) by lia.
  reflexivity.
Qed.

Lemma even_index_elements_length l (n : nat) :
  length l = (2 * n)%nat -> length (even_index_elements l) = n.
Proof.
  revert n. induction l as [| x | x y t IH] using even_odd_index_ind;
    intros n Hn; simpl in *.
  - lia.
  - lia.
  - destruct n as [|n]; [lia|]. rewrite (IH n); lia.
Qed.

Lemma odd_index_elements_length l (n : nat) :
  length l = (2 * n)%nat -> length (odd_index_elements l) = n.
Proof.
  revert n. induction l as [| x | x y t IH] using even_odd_index_ind;
    intros n Hn; simpl in *.
  - lia.
  - lia.
  - destruct n as [|n]; [lia|]. rewrite (IH n); lia.
Qed.

Lemma even_odd_index_elements_perm l :
  even_index_elements l ++ odd_index_elements l ≡ₚ l.
Proof.
  induction l as [| x | x y t IH] using even_odd_index_ind; simpl.
  - reflexivity.
  - reflexivity.
  - constructor. rewrite <- Permutation_middle. constructor. exact IH.
Qed.

End Padding.

Lemma pyres_bind_Ret {A B} (a : A) (k : A -> pyres B) : (Ret a ≫= k) = k a.
Proof. reflexivity. Qed.

Lemma for_each_app {S B} (body : S -> B -> pyres S) (l1 l2 : list B) st :
  for_each body (l1 ++ l2) st = (st' ← for_each body l1 st; for_each body l2 st').
Proof.
  revert st. induction l1 as [|x l1 IH]; intros st; [reflexivity|].
  cbn [for_each app]. destruct (body st x) as [st'|e]; [|reflexivity].
  rewrite !pyres_bind_Ret. apply IH.
Qed.

Lemma transform_padding_body_even (pad_width : list pyval) w s e idx v :
  pad_width !! idx = Some v -> (idx mod 2 = 0)%nat -> (s < length w)%nat ->
  transform_padding_body pad_width (w, s, e) idx = Ret (<[s := v]> w, S s, e).
Proof.
  intros Hv Hidx Hs. unfold transform_padding_body, list_get, list_set.
  rewrite Hv, pyres_bind_Ret, Hidx.
  destruct (decide (s < length w)%nat); [reflexivity | lia].
Qed.

Lemma transform_padding_body_odd (pad_width : list pyval) w s e idx v :
  pad_width !! idx = Some v -> (idx mod 2 = 1)%nat -> (e < length w)%nat ->
  transform_padding_body pad_width (w, s, e) idx = Ret (<[e := v]> w, s, S e).
Proof.
  intros Hv Hidx He. unfold transform_padding_body, list_get, list_set.
  rewrite Hv, pyres_bind_Ret, Hidx.
  destruct (decide (e < length w)%nat); [reflexivity | lia].
Qed.

Lemma transform_padding_pair (pad_width : list pyval) (n j : nat) w :
  length pad_width = (2 * n)%nat -> (j < n)%nat ->
  padding_inv pad_width n j w ->
  exists w',
    for_each (transform_padding_body pad_width) [(2 * j)%nat; (2 * j + 1)%nat]
      (w, j, (n + j)%nat) = Ret (w', S j, S (n + j)) /\
    padding_inv pad_width n (S j) w'.
Proof.
  intros Hlen Hj [Hw Hinv].
  destruct (lookup_lt_is_Some_2 pad_width (2 * j)) as [v Hv]; [lia|].
  destruct (lookup_lt_is_Some_2 pad_width (2 * j + 1)) as [v' Hv']; [lia|].
  exists (<[(n + j)%nat := v']> (<[j := v]> w)). split.
  - unfold for_each.
    rewrite (transform_padding_body_even _ _ _ _ _ v Hv); [| |lia].
    2:{ rewrite Nat.mul_comm. apply Nat.Div0.mod_mul. }
    rewrite pyres_bind_Ret.
    rewrite (transform_padding_body_odd _ _ _ _ _ v' Hv').
    + reflexivity.
    + rewrite Nat.add_comm, Nat.mul_comm, Nat.Div0.mod_add. reflexivity.
    + rewrite length_insert. lia.
  - split; [rewrite !length_insert; exact Hw|].
    intros i Hi. destruct (decide (i = j)) as [->|Hne].
    + split.
      * rewrite list_lookup_insert_ne by lia.
        rewrite list_lookup_insert_eq by lia. congruence.
      * rewrite list_lookup_insert_eq by (rewrite length_insert; lia).
        congruence.
    + destruct (Hinv i) as [H1 H2]; [lia|]. split.
      * rewrite !list_lookup_insert_ne by lia. exact H1.
      * rewrite !list_lookup_insert_ne by lia. exact H2.
Qed.

Lemma transform_padding_loop (pad_width : list pyval) (n : nat) :
  length pad_width = (2 * n)%nat ->
  forall m j w, (j + m = n)%nat -> padding_inv pad_width n j w ->
  exists w',
    for_each (transform_padding_body pad_width) (seq (2 * j) (2 * m))
      (w, j, (n + j)%nat) = Ret (w', n, (n + n)%nat) /\
    padding_inv pad_width n n w'.
Proof.
  intros Hlen. induction m as [|m IH]; intros j w Hjm Hinv.
  - exists w. replace j with n by lia. split; [reflexivity|].
    replace n with j at 2 by lia. exact Hinv.
  - destruct (transform_padding_pair pad_width n j w Hlen ltac:(lia) Hinv)
      as (w1 & Hrun & Hinv1).
    destruct (IH (S j) w1 ltac:(lia) Hinv1) as (w' & Hrest & Hinv').
    exists w'. split; [|exact Hinv'].
    replace (2 * S m)%nat with (S (S (2 * m))) by lia.
    cbn [seq].
    change (?x :: ?y :: ?t) with ([x; y] ++ t). rewrite for_each_app.
    replace (S (2 * j)) with (2 * j + 1)%nat by lia.
    rewrite Hrun, pyres_bind_Ret.
    replace (S (2 * j + 1)) with (2 * S j)%nat by lia.
    replace (S (n + j)) with (n + S j)%nat by lia.
    exact Hrest.
Qed.

Lemma transform_padding_result (pad_width : list pyval) (n : nat) :
  length pad_width = (2 * n)%nat ->
  transform_padding pad_width =
    Ret (even_index_elements pad_width ++ odd_index_elements pad_width).
Proof.
  intros Hlen. unfold transform_padding.
  assert (Hinv0 : padding_inv pad_width n 0 (replicate (2 * n) (PyInt 0))).
  { split; [apply length_replicate | intros i Hi; lia]. }
  destruct (transform_padding_loop pad_width n Hlen n 0%nat _ ltac:(lia) Hinv0)
    as (w & Hrun & Hw & Hinv).
  rewrite Hlen.
  replace ((2 * n) / 2)%nat with n
    by (symmetry; rewrite Nat.mul_comm; apply Nat.div_mul; lia).
  change (2 * 0)%nat with 0%nat in Hrun.
  replace (n + 0)%nat with n in Hrun by lia.
  rewrite Hrun. cbn. f_equal.
  pose proof (even_index_elements_length pad_width n Hlen) as He.
  pose proof (odd_index_elements_length pad_width n Hlen) as Ho.
  apply list_eq. intros i.
  destruct (decide (i < n)%nat) as [Hi|Hi].
  - rewrite lookup_app_l by lia.
    rewrite even_index_elements_lookup. apply (Hinv i Hi).
  - rewrite lookup_app_r by lia. rewrite He.
    rewrite odd_index_elements_lookup.
    destruct (decide (i < 2 * n)%nat) as [Hi2|Hi2].
    + destruct (Hinv (i - n)%nat) as [_ H2]; [lia|].
      replace (n + (i - n))%nat with i in H2 by lia. exact H2.
    + rewrite !lookup_ge_None_2 by lia. reflexivity.
Qed.

(** C10. For a pad-width list of even length [2n], [transform_padding]
    returns a list of the same length whose first [n] entries are the
    entries at the even positions of the input, in order, and whose last [n]
    entries are those at the odd positions, in order: the interleaved
    (begin, end) pairs become all the begins followed by all the ends, a
    permutation of the input. *)
Theorem transform_padding_begins_then_ends (pad_width : list pyval) (n : nat) :
  length pad_width = (2 * n)%nat ->
  exists onnx_pad_width,
    transform_padding pad_width = Ret onnx_pad_width /\
    length onnx_pad_width = (2 * n)%nat /\
    take n onnx_pad_width = even_index_elements pad_width /\
    drop n onnx_pad_width = odd_index_elements pad_width /\
    onnx_pad_width ≡ₚ pad_width.
Proof.
  intros Hlen.
  pose proof (even_index_elements_length pad_width n Hlen) as He.
  pose proof (odd_index_elements_length pad_width n Hlen) as Ho.
  exists (even_index_elements pad_width ++ odd_index_elements pad_width).
  split; [exact (transform_padding_result pad_width n Hlen)|].
  split; [rewrite length_app; lia|].
  split; [rewrite take_app_length'; [reflexivity | symmetry; exact He]|].
  split; [rewrite drop_app_length'; [reflexivity | symmetry; exact He]|].
  apply even_odd_index_elements_perm.
Qed.

Lemma transform_padding_begins_then_ends_witness :
  exists onnx_pad_width,
    transform_padding [PyInt 1; PyInt 2; PyInt 3; PyInt 4] =
      Ret onnx_pad_width /\
    length onnx_pad_width = (2 * 2)%nat /\
    take 2 onnx_pad_width = [PyInt 1; PyInt 3] /\
    drop 2 onnx_pad_width = [PyInt 2; PyInt 4] /\
    onnx_pad_width ≡ₚ [PyInt 1; PyInt 2; PyInt 3; PyInt 4].
Proof.
  apply (transform_padding_begins_then_ends
           [PyInt 1; PyInt 2; PyInt 3; PyInt 4] 2).
  reflexivity.
Defined.

Lemma class_run_spec (l : list ascii) :
  exists run,
    l = run ++ (class_run l).2 /\
    length run = (class_run l).1 /\
    Forall (fun c => in_tuple_class c = true) run /\
    match (class_run l).2 with
    | c :: _ => in_tuple_class c = false
    | [] => True
    end.
Proof.
  induction l as [|c t (run & Heq & Hlen & Hall & Hnext)].
  - exists []. repeat split; constructor.
  - cbn [class_run]. destruct (in_tuple_class c) eqn:Hc.
    + destruct (class_run t) as [n rest]. cbn in *.
      exists (c :: run). repeat split.
      * cbn. congruence.
      * cbn. congruence.
      * constructor; assumption.
      * exact Hnext.
    + exists []. repeat split; [constructor | exact Hc].
Qed.

Lemma class_run_body (body : list ascii) (d : ascii) (post : list ascii) :
  Forall (fun c => in_tuple_class c = true) body ->
  in_tuple_class d = false ->
  class_run (body ++ d :: post) = (length body, d :: post).
Proof.
  intros Hall Hd. induction Hall as [|c body Hc _ IH].
  - cbn. rewrite Hd. reflexivity.
  - cbn [app class_run]. rewrite Hc, IH. reflexivity.
Qed.

Lemma tuple_re_match_here_spec (l : list ascii) (k : nat) :
  tuple_re_match_here l = Some k <->
  exists body post,
    l = "("%char :: body ++ ")"%char :: post /\ dimension_body body /\
    k = (length body + 2)%nat.
Proof.
  split.
  - destruct l as [|c t]; [discriminate|]. cbn [tuple_re_match_here].
    destruct (ascii_eqb c "(") eqn:Hc; [|discriminate].
    apply Ascii.eqb_eq in Hc. subst c.
    destruct (class_run_spec t) as (run & Heq & Hlen & Hall & _).
    destruct (class_run t) as [[|n] [|d rest]]; try discriminate.
    cbn in *. destruct (ascii_eqb d ")") eqn:Hd; [|discriminate].
    apply Ascii.eqb_eq in Hd. subst d. intros [= <-].
    exists run, rest. split; [congruence|]. split; [|lia].
    split; [|exact Hall]. intros ->. discriminate.
  - intros (body & post & -> & [Hne Hall] & ->).
    cbn [tuple_re_match_here]. rewrite Ascii.eqb_refl.
    rewrite class_run_body by (assumption || reflexivity).
    destruct body as [|b body]; [congruence|]. cbn.
    f_equal; lia.
Qed.

Lemma tuple_re_search_from_start (i : nat) (l : list ascii) a b :
  tuple_re_search_from i l = Some (a, b) -> (i <= a)%nat.
Proof.
  revert i. induction l as [|c t IH]; intros i; cbn [tuple_re_search_from].
  - discriminate.
  - destruct (tuple_re_match_here (c :: t)).
    + intros Heq. inversion Heq. lia.
    + intros Hs. apply IH in Hs. lia.
Qed.

Lemma tuple_re_search_from_none (i : nat) (l : list ascii) :
  tuple_re_search_from i l = None <->
  forall pre body post,
    l = pre ++ "("%char :: body ++ ")"%char :: post -> ~ dimension_body body.
Proof.
  revert i. induction l as [|c t IH]; intros i.
  - split; [|reflexivity]. intros _ [|? pre] body post; discriminate.
  - cbn [tuple_re_search_from].
    destruct (tuple_re_match_here (c :: t)) as [k|] eqn:Hm.
    + split; [discriminate|]. intros Hno. exfalso.
      apply tuple_re_match_here_spec in Hm as (body & post & Heq & Hb & _).
      exact (Hno [] body post Heq Hb).
    + rewrite IH. split.
      * intros Hno [|p pre] body post Heq Hb.
        -- cbn in Heq.
           assert (tuple_re_match_here (c :: t) = Some (length body + 2)%nat)
             as Hyes by (apply tuple_re_match_here_spec; eauto).
           congruence.
        -- injection Heq as -> ->. exact (Hno pre body post eq_refl Hb).
      * intros Hno pre body post -> Hb.
        exact (Hno (c :: pre) body post eq_refl Hb).
Qed.

Lemma tuple_re_search_from_some (i : nat) (l : list ascii) span :
  tuple_re_search_from i l = Some span ->
  exists pre body post,
    l = pre ++ "("%char :: body ++ ")"%char :: post /\ dimension_body body.
Proof.
  destruct (tuple_re_search_from i l) as [sp|] eqn:Hs; [|discriminate].
  intros _. revert i Hs.
  induction l as [|c t IH]; intros i; cbn [tuple_re_search_from].
  - discriminate.
  - destruct (tuple_re_match_here (c :: t)) as [k|] eqn:Hm.
    + intros _.
      apply tuple_re_match_here_spec in Hm as (body & post & Heq & Hb & _).
      exists [], body, post. split; [exact Heq | exact Hb].
    + intros Hs. destruct (IH _ Hs) as (pre & body & post & -> & Hb).
      exists (c :: pre), body, post. split; [reflexivity | exact Hb].
Qed.

Lemma chars_length (s : string) : length (chars s) = String.length s.
Proof.
  induction s as [|c s IH]; [reflexivity|].
  cbn. f_equal. exact IH.
Qed.

Lemma tuple_re_search_whole (s : string) :
  tuple_re_search s = Some (0%nat, String.length s) <-> matches_whole s.
Proof.
  unfold tuple_re_search, matches_whole. rewrite <- chars_length.
  destruct (chars s) as [|c t] eqn:Hs.
  - split; [discriminate|]. intros (body & Heq & _). discriminate.
  - cbn [tuple_re_search_from].
    destruct (tuple_re_match_here (c :: t)) as [k|] eqn:Hm.
    + apply tuple_re_match_here_spec in Hm as (body & post & Heq & Hb & ->).
      rewrite Heq. split.
      * intros Hk. exists body. split; [|exact Hb].
        assert ((0 + (length body + 2))%nat
                = length ("("%char :: body ++ ")"%char :: post)) as Hk'
          by congruence.
        cbn in Hk'. rewrite length_app in Hk'. cbn in Hk'.
        destruct post; [reflexivity | cbn in Hk'; lia].
      * intros (body' & Heq' & [_ Hall']). f_equal. f_equal.
        clear Heq. injection Heq' as Heq.
        destruct Hb as [_ Hall].
        assert (class_run (body' ++ [")"%char]) = (length body', [")"%char]))
          as H1 by (apply class_run_body; [assumption | reflexivity]).
        assert (class_run (body ++ ")"%char :: post)
                = (length body, ")"%char :: post))
          as H2 by (apply class_run_body; [assumption | reflexivity]).
        rewrite <- Heq in H1. rewrite H1 in H2. injection H2 as Hl Hp.
        subst post.
        cbn. rewrite length_app. cbn. lia.
    + split.
      * intros Hsearch. apply tuple_re_search_from_start in Hsearch. lia.
      * intros (body & Heq & Hb). exfalso.
        assert (tuple_re_match_here (c :: t) = Some (length body + 2)%nat)
          as Hyes by (apply tuple_re_match_here_spec; eauto).
        congruence.
Qed.

Lemma tuple_re_search_none (s : string) :
  tuple_re_search s = None <-> ~ matches_somewhere s.
Proof.
  unfold tuple_re_search, matches_somewhere.
  rewrite tuple_re_search_from_none. split.
  - intros Hno (pre & body & post & Heq & Hb). exact (Hno _ _ _ Heq Hb).
  - intros Hno pre body post Heq Hb. apply Hno. eauto.
Qed.

Example parse_helper_pair :
  parse_helper {[ "stride" := "(2, 2)" ]} "stride" PyNone
  = Ret (PyTuple [PyInt 2; PyInt 2]).
Proof. reflexivity. Qed.

Example parse_helper_trailing_text :
  parse_helper {[ "stride" := "(2, 2)x" ]} "stride" PyNone
  = Raise (AttributeError "Malformed stride dimensions: (2, 2)x").
Proof. reflexivity. Qed.

(** ** Running the rules *)

Lemma lift_bind_Ret {A B} (a : A) (k : A -> M B) init :
  (lift (Ret a) ≫= k) init = k a init.
Proof. reflexivity. Qed.

Lemma lift_bind_Raise {A B} (e : pyerr) (k : A -> M B) init :
  (lift (Raise e) ≫= k) init = (Raise e, init).
Proof. reflexivity. Qed.

Lemma M_bind_unfold {A B} (m : M A) (k : A -> M B) init :
  (m ≫= k) init =
  match m init with
  | (Ret a, init') => k a init'
  | (Raise e, init') => (Raise e, init')
  end.
Proof. reflexivity. Qed.

(** [get_inputs] hands back the node's own name and attributes. *)
Lemma get_inputs_name_attrs (node : mx_node) (kw : kwargs) name inputs attrs :
  get_inputs node kw = Ret (name, inputs, attrs) ->
  name = node_name node /\ attrs = node_attrs node.
Proof.
  unfold get_inputs.
  destruct (for_each _ (node_inputs node) []) as [l|e]; cbn; [|discriminate].
  intros [= <- _ <-]. split; reflexivity.
Qed.

(** ** The dot rule *)

Lemma convert_dot_run (node : mx_node) (kw : kwargs)
    (initializer : list TensorProto) :
  convert_dot node kw initializer =
    (match get_inputs node kw with
     | Ret _ => Raise IndexError
     | Raise e => Raise e
     end, initializer).
Proof.
  unfold convert_dot.
  destruct (get_inputs node kw) as [[[name inputs] attrs]|e].
  - rewrite lift_bind_Ret.
    destruct (decide (get_boolean_attribute_value attrs "transpose_a" ≠ 0));
      reflexivity.
  - apply lift_bind_Raise.
Qed.

(** C6. The dot rule empties its working input list before it reads the
    original inputs: the first read, [input_nodes[0]], is out of range for
    every node whose inputs resolve, so the rule raises (an [IndexError], or
    the error of [get_inputs]) and leaves the initializers as they were; it
    returns no node list, and so none that holds a Transpose node. *)
Theorem convert_dot_returns_nothing (node : mx_node) (kw : kwargs)
    (initializer : list TensorProto) :
  convert_dot node kw initializer =
    (match get_inputs node kw with
     | Ret _ => Raise IndexError
     | Raise e => Raise e
     end, initializer) /\
  returns_op "Transpose" (convert_dot node kw initializer).1 = false.
Proof.
  split; [apply convert_dot_run|]. rewrite convert_dot_run.
  destruct (get_inputs node kw); reflexivity.
Qed.

Lemma convert_string_to_list_body_elements acc val l :
  Forall int_or_none acc ->
  convert_string_to_list_body acc val = Ret l -> Forall int_or_none l.
Proof.
  intros Hacc. unfold convert_string_to_list_body.
  destruct (decide _).
  - intros [= <-]. apply Forall_app. split; [exact Hacc|].
    repeat constructor.
  - destruct (negb _).
    + destruct (int_of_chars _) as [z|]; [|discriminate].
      intros [= <-]. apply Forall_app. split; [exact Hacc|].
      constructor; [right; eauto | constructor].
    + intros [= <-]. exact Hacc.
Qed.

Lemma convert_string_to_list_elements string_val l :
  convert_string_to_list string_val = Ret l -> Forall int_or_none l.
Proof.
  destruct string_val as [s|]; [|discriminate]. cbn [convert_string_to_list].
  generalize (split_on "," (chars s)).
  assert (Hnil : Forall int_or_none []) by constructor.
  revert Hnil. generalize (@nil pyval) as acc.
  intros acc Hacc pieces. revert acc Hacc.
  induction pieces as [|p pieces IH]; intros acc Hacc; cbn [for_each].
  - intros [= <-]. exact Hacc.
  - destruct (convert_string_to_list_body acc p) as [acc'|e] eqn:Hbody;
      [|discriminate].
    rewrite pyres_bind_Ret. apply IH.
    exact (convert_string_to_list_body_elements _ _ _ Hacc Hbody).
Qed.

(** The steps the loop sees: absent or null steps are ones. *)
Lemma slice_steps_default (starts steps : list pyval) :
  slice_steps starts [] = Ret (map (fun _ => PyInt 1) starts) /\
  slice_steps starts [PyNone] = Ret (map (fun _ => PyInt 1) starts) /\
  (length steps = length starts -> steps <> [] ->
   slice_steps starts steps = Ret (map none_to_one steps)).
Proof.
  assert (Hones : forall l : list pyval,
            map none_to_one (map (fun _ => PyInt 1) l)
            = map (fun _ => PyInt 1) l).
  { intros l. rewrite map_map. reflexivity. }
  unfold slice_steps. split; [|split].
  - rewrite pyres_bind_Ret. f_equal. apply Hones.
  - cbn [is_none]. rewrite pyres_bind_Ret. f_equal. apply Hones.
  - intros Hlen Hne. destruct steps as [|s [|s' steps]]; [congruence| |].
    + destruct (is_none s) eqn:Hs.
      * rewrite pyres_bind_Ret. f_equal. rewrite Hones.
        destruct s; try discriminate.
        destruct starts as [|? [|? ?]]; try discriminate. reflexivity.
      * destruct (decide _); [|congruence]. reflexivity.
    + destruct (decide _); [|congruence]. reflexivity.
Qed.

Lemma slice_steps_keeps_negative (starts steps steps' : list pyval) z :
  slice_steps starts steps = Ret steps' -> PyInt z ∈ steps -> z < 0 ->
  PyInt z ∈ steps' /\ length steps' = length starts.
Proof.
  intros Hrun Hin Hz.
  assert (Hmap : forall l : list pyval, PyInt z ∈ l ->
            PyInt z ∈ map none_to_one l).
  { intros l Hl. apply list_elem_of_fmap. exists (PyInt z).
    split; [reflexivity | exact Hl]. }
  unfold slice_steps in Hrun.
  destruct steps as [|s [|s' steps]].
  - inversion Hin.
  - apply list_elem_of_singleton in Hin. subst s. cbn [is_none] in Hrun.
    destruct (decide _) as [Hlen|]; [|discriminate].
    injection Hrun as <-. split; [apply (Hmap [PyInt z]); constructor|].
    exact Hlen.
  - destruct (decide _) as [Hlen|]; [|discriminate].
    injection Hrun as <-.
    split; [apply (Hmap (s :: s' :: steps)); exact Hin|].
    change (length (map none_to_one (s :: s' :: steps)) = length starts).
    rewrite length_map. exact Hlen.
Qed.

(** The loop of the slice rule stops at a negative step. *)
Lemma slice_loop_rejects (l : list (nat * pyval)) st i z :
  (i, PyInt z) ∈ l -> z < 0 ->
  exists e, for_each slice_loop_body l st = Raise e.
Proof.
  intros Hin Hz. revert st. induction l as [|x l IH]; intros st.
  - inversion Hin.
  - cbn [for_each]. apply elem_of_cons in Hin as [<-|Hin].
    + destruct st as [starts ends]. cbn [slice_loop_body].
      destruct (z <? 0) eqn:Hneg; [|apply Z.ltb_ge in Hneg; lia].
      eexists. reflexivity.
    + destruct (slice_loop_body st x) as [st'|e]; [|eexists; reflexivity].
      rewrite pyres_bind_Ret. apply (IH Hin).
Qed.

Lemma slice_loop_body_lengths starts ends i s starts' ends' :
  slice_loop_body (starts, ends) (i, s) = Ret (starts', ends') ->
  length starts' = length starts /\ length ends' = length ends.
Proof.
  cbn [slice_loop_body]. destruct s; try discriminate.
  destruct (z <? 0); [discriminate|].
  unfold list_get, list_set.
  destruct (starts !! i) as [start_i|]; [|discriminate].
  rewrite pyres_bind_Ret.
  destruct start_i; destruct (ends !! i) as [[]|];
    repeat case_decide; cbn; try discriminate;
    intros [= <- <-]; rewrite ?length_insert; split; reflexivity.
Qed.

Lemma slice_loop_rejects_exactly (steps : list pyval) (k : nat) starts ends z :
  Forall (fun s => exists n, s = PyInt n) steps ->
  PyInt z ∈ steps -> z < 0 ->
  (k + length steps <= length starts)%nat ->
  (k + length steps <= length ends)%nat ->
  for_each slice_loop_body (zip (seq k (length steps)) steps) (starts, ends)
  = Raise negative_steps_error.
Proof.
  intros Hints Hin Hz. revert k starts ends.
  induction Hints as [|s steps [n ->] Hints IH]; intros k starts ends Hs He.
  - inversion Hin.
  - cbn [length seq zip zip_with for_each].
    destruct (n <? 0) eqn:Hn.
    + cbn [slice_loop_body]. rewrite Hn. reflexivity.
    + apply elem_of_cons in Hin as [Heq|Hin].
      { injection Heq as ->. apply Z.ltb_ge in Hn. lia. }
      destruct (slice_loop_body (starts, ends) (k, PyInt n))
        as [[starts' ends']|e] eqn:Hbody.
      * rewrite pyres_bind_Ret.
        apply slice_loop_body_lengths in Hbody as [Hs' He'].
        cbn [length] in Hs, He.
        apply (IH Hin); lia.
      * exfalso. revert Hbody. cbn [slice_loop_body]. rewrite Hn.
        unfold list_get, list_set. cbn [length] in Hs, He.
        destruct (lookup_lt_is_Some_2 starts k) as [a Ha]; [lia|].
        destruct (lookup_lt_is_Some_2 ends k) as [b Hb]; [lia|].
        rewrite Ha, pyres_bind_Ret.
        destruct (decide (k < length starts)%nat); [|lia].
        destruct (decide (k < length ends)%nat); [|lia].
        destruct a; rewrite ?pyres_bind_Ret, Hb, ?pyres_bind_Ret;
          destruct b; discriminate.
Qed.

Section Rejections.
Context `{External}.

Lemma convert_slice_negative_step (node : mx_node) (kw : kwargs)
    (initializer : list TensorProto) steps z :
  convert_string_to_list (Some (default "[]" (node_attrs node !! "step")))
  = Ret steps ->
  PyInt z ∈ steps -> z < 0 ->
  exists e, convert_slice node kw initializer = (Raise e, initializer).
Proof.
  intros Hsteps Hin Hz. unfold convert_slice.
  destruct (get_inputs node kw) as [[[name inputs] attrs]|e] eqn:Hget;
    [|eexists; apply lift_bind_Raise].
  apply get_inputs_name_attrs in Hget as [-> ->]. rewrite lift_bind_Ret.
  destruct (convert_string_to_list (node_attrs node !! "begin"))
    as [starts|e]; [|eexists; apply lift_bind_Raise].
  rewrite lift_bind_Ret.
  destruct (convert_string_to_list (node_attrs node !! "end"))
    as [ends|e]; [|eexists; apply lift_bind_Raise].
  rewrite lift_bind_Ret, Hsteps, lift_bind_Ret.
  destruct (decide (length starts = length ends)) as [Hlen|];
    [|eexists; reflexivity].
  rewrite M_bind_unfold. cbn [mret M_ret].
  destruct (slice_steps starts steps) as [steps'|e] eqn:Hnorm;
    [|eexists; apply lift_bind_Raise].
  rewrite lift_bind_Ret.
  destruct (slice_steps_keeps_negative _ _ _ _ Hnorm Hin Hz) as [Hin' _].
  apply list_elem_of_lookup in Hin' as [i Hi].
  destruct (slice_loop_rejects (zip (seq 0 (length steps')) steps')
              (starts, ends) i z) as [e He]; [|exact Hz|].
  { apply list_elem_of_lookup. exists i.
    rewrite lookup_zip_with, lookup_seq_lt by (eapply lookup_lt_Some, Hi).
    cbn. rewrite Hi. reflexivity. }
  rewrite He. eexists. apply lift_bind_Raise.
Qed.

Lemma convert_slice_negative_step_error (node : mx_node) (kw : kwargs)
    (initializer : list TensorProto) x starts ends steps z :
  get_inputs node kw = Ret x ->
  convert_string_to_list (node_attrs node !! "begin") = Ret starts ->
  convert_string_to_list (node_attrs node !! "end") = Ret ends ->
  convert_string_to_list (Some (default "[]" (node_attrs node !! "step")))
  = Ret steps ->
  length starts = length ends -> length steps = length starts ->
  PyInt z ∈ steps -> z < 0 ->
  convert_slice node kw initializer = (Raise negative_steps_error, initializer).
Proof.
  intros Hget Hstarts Hends Hsteps Hlen Hlen' Hin Hz. unfold convert_slice.
  destruct x as [[name inputs] attrs].
  rewrite Hget, lift_bind_Ret.
  apply get_inputs_name_attrs in Hget as [-> ->].
  rewrite Hstarts, lift_bind_Ret, Hends, lift_bind_Ret, Hsteps, lift_bind_Ret.
  destruct (decide (length starts = length ends)); [|congruence].
  rewrite M_bind_unfold. cbn [mret M_ret].
  assert (Hne : steps <> []) by (intros ->; inversion Hin).
  destruct (slice_steps_default starts steps) as (_ & _ & Hnorm).
  rewrite (Hnorm Hlen' Hne), lift_bind_Ret.
  rewrite slice_loop_rejects_exactly with (z := z).
  - apply lift_bind_Raise.
  - apply Forall_fmap.
    eapply Forall_impl; [exact (convert_string_to_list_elements _ _ Hsteps)|].
    intros v [->|[n ->]]; cbn; eauto.
  - apply list_elem_of_fmap. exists (PyInt z). split; [reflexivity|exact Hin].
  - exact Hz.
  - rewrite length_map. lia.
  - rewrite length_map. lia.
Qed.

Lemma convert_l2normalization_other_mode (node : mx_node) (kw : kwargs)
    (initializer : list TensorProto) :
  node_attrs node !! "mode" <> Some "channel" ->
  convert_l2normalization node kw initializer =
    (match get_inputs node kw with
     | Ret _ => Raise channel_mode_error
     | Raise e => Raise e
     end, initializer).
Proof.
  intros Hmode. unfold convert_l2normalization.
  destruct (get_inputs node kw) as [[[name inputs] attrs]|e] eqn:Hget;
    [|apply lift_bind_Raise].
  apply get_inputs_name_attrs in Hget as [-> ->]. rewrite lift_bind_Ret.
  unfold attrs_get. destruct (node_attrs node !! "mode") as [m|]; cbn.
  - rewrite bool_decide_eq_false_2 by congruence. reflexivity.
  - reflexivity.
Qed.

(** C8. A configuration the target format cannot express is rejected by
    raising, with no node returned and no initializer appended. A slice node
    whose parsed step list holds a negative entry makes the slice rule raise;
    when its inputs resolve and its begin, end and step lists parse to the
    same length the error is the rule's own "negative steps" error. Steps
    that are absent, or a single null, are replaced by ones, and a null step
    among others by one. An L2Normalization node whose mode is anything but
    ["channel"] (or absent) makes its rule raise: the "channel mode only"
    error when the inputs resolve. *)
Theorem unsupported_configurations_are_rejected (node : mx_node)
    (kw : kwargs) (initializer : list TensorProto) :
  (forall steps z,
     convert_string_to_list (Some (default "[]" (node_attrs node !! "step")))
     = Ret steps ->
     PyInt z ∈ steps -> z < 0 ->
     (exists e, convert_slice node kw initializer = (Raise e, initializer)) /\
     (forall x starts ends,
        get_inputs node kw = Ret x ->
        convert_string_to_list (node_attrs node !! "begin") = Ret starts ->
        convert_string_to_list (node_attrs node !! "end") = Ret ends ->
        length starts = length ends -> length steps = length starts ->
        convert_slice node kw initializer
        = (Raise negative_steps_error, initializer))) /\
  (forall starts steps : list pyval,
     slice_steps starts [] = Ret (map (fun _ => PyInt 1) starts) /\
     slice_steps starts [PyNone] = Ret (map (fun _ => PyInt 1) starts) /\
     (length steps = length starts -> steps <> [] ->
      slice_steps starts steps = Ret (map none_to_one steps))) /\
  (node_attrs node !! "mode" <> Some "channel" ->
     (exists e,
        convert_l2normalization node kw initializer = (Raise e, initializer)) /\
     (forall x, get_inputs node kw = Ret x ->
        convert_l2normalization node kw initializer
        = (Raise channel_mode_error, initializer))).
Proof.
  split; [|split].
  - intros steps z Hsteps Hin Hz. split.
    + exact (convert_slice_negative_step node kw initializer steps z
               Hsteps Hin Hz).
    + intros x starts ends Hget Hstarts Hends Hlen Hlen'.
      exact (convert_slice_negative_step_error node kw initializer x starts
               ends steps z Hget Hstarts Hends Hsteps Hlen Hlen' Hin Hz).
  - intros starts steps. apply slice_steps_default.
  - intros Hmode.
    rewrite (convert_l2normalization_other_mode node kw initializer Hmode).
    split.
    + destruct (get_inputs node kw); eexists; reflexivity.
    + intros x ->. reflexivity.
Qed.

End Rejections.

(** ** The version requirement *)

Lemma builtin_only_Ret {A} (a : A) : builtin_only (Ret a).
Proof. intros e. discriminate. Qed.

Lemma builtin_only_Raise {A} (b : builtin_error) :
  builtin_only (Raise b : pyres A).
Proof. intros e [= <-]. eauto. Qed.

Lemma builtin_only_bind {A B} (r : pyres A) (k : A -> pyres B) :
  builtin_only r -> (forall a, builtin_only (k a)) -> builtin_only (r ≫= k).
Proof.
  intros Hr Hk e. destruct r as [a|e']; cbn.
  - apply Hk.
  - intros [= <-]. apply Hr. reflexivity.
Qed.

Lemma builtin_only_of_lib {A} (r : builtin_error + A) :
  builtin_only (of_lib r).
Proof. destruct r; [apply builtin_only_Raise | apply builtin_only_Ret]. Qed.

Lemma builtin_only_for_each {S B} (body : S -> B -> pyres S) l st :
  (forall st x, builtin_only (body st x)) -> builtin_only (for_each body l st).
Proof.
  intros Hbody. revert st. induction l as [|x l IH]; intros st; cbn [for_each].
  - apply builtin_only_Ret.
  - apply builtin_only_bind; [apply Hbody | exact IH].
Qed.

Lemma builtin_only_list_get {A} (l : list A) i : builtin_only (list_get l i).
Proof.
  unfold list_get. destruct (l !! i);
    [apply builtin_only_Ret | apply builtin_only_Raise].
Qed.

Lemma builtin_only_int_of_string s : builtin_only (int_of_string s).
Proof.
  unfold int_of_string. destruct (int_of_chars _);
    [apply builtin_only_Ret | apply builtin_only_Raise].
Qed.

Lemma builtin_only_float_trunc f : builtin_only (float_trunc f).
Proof.
  destruct f; first [apply builtin_only_Ret | apply builtin_only_Raise].
Qed.

Lemma TENSOR_TYPE_TO_NP_TYPE_error t e :
  TENSOR_TYPE_TO_NP_TYPE t = Raise e -> e = KeyError.
Proof.
  unfold TENSOR_TYPE_TO_NP_TYPE.
  repeat match goal with
         | |- context [match ?p with _ => _ end] => destruct p
         end; congruence.
Qed.

Lemma builtin_only_TENSOR_TYPE_TO_NP_TYPE t :
  builtin_only (TENSOR_TYPE_TO_NP_TYPE t).
Proof. intros e He. apply TENSOR_TYPE_TO_NP_TYPE_error in He. eauto. Qed.

Lemma builtin_only_NP_TYPE_TO_TENSOR_TYPE d :
  builtin_only (NP_TYPE_TO_TENSOR_TYPE d).
Proof.
  destruct d; first [apply builtin_only_Ret | apply builtin_only_Raise].
Qed.

Lemma builtin_only_get_inputs node kw : builtin_only (get_inputs node kw).
Proof.
  unfold get_inputs. apply builtin_only_bind.
  - apply builtin_only_for_each. intros st x.
    apply builtin_only_bind; [apply builtin_only_list_get|]. intros a.
    apply builtin_only_bind; [apply builtin_only_list_get|]. intros p.
    apply builtin_only_Ret.
  - intros a. apply builtin_only_Ret.
Qed.

Section VersionRequirement.
Context `{External}.

Lemma builtin_only_py_int v : builtin_only (py_int v).
Proof.
  destruct v; cbn;
    first [apply builtin_only_Ret | apply builtin_only_Raise
          | apply builtin_only_float_trunc | apply builtin_only_int_of_string].
Qed.

Lemma builtin_only_py_float v : builtin_only (py_float v).
Proof.
  destruct v; cbn;
    try first [apply builtin_only_Ret | apply builtin_only_Raise].
  destruct (float_of_string s);
    [apply builtin_only_Ret | apply builtin_only_Raise].
Qed.

Lemma builtin_only_np_cast d v : builtin_only (np_cast d v).
Proof.
  unfold np_cast.
  destruct (float_format d) as [[prec emax]|].
  - destruct v; try first [apply builtin_only_Ret | apply builtin_only_Raise];
      try (destruct d; try apply builtin_only_of_lib).
    all: try (destruct (float_of_string _);
              [apply builtin_only_Ret | apply builtin_only_Raise]).
    all: try (destruct (_ && _);
              [apply builtin_only_Ret | apply builtin_only_Raise]).
    all: try (apply builtin_only_bind; [apply builtin_only_int_of_string|];
              intros; apply builtin_only_Ret).
  - destruct d; try apply builtin_only_of_lib.
    destruct v; try apply builtin_only_of_lib.
    + destruct (_ && _); [apply builtin_only_Ret | apply builtin_only_Raise].
    + apply builtin_only_bind; [apply builtin_only_int_of_string|].
      intros; apply builtin_only_Ret.
Qed.

Lemma builtin_only_resolve_dtype dt : builtin_only (resolve_dtype dt).
Proof.
  destruct dt as [s|d]; [|apply builtin_only_Ret].
  cbn. unfold np_dtype_of_string. destruct (canonical_dtype s);
    [apply builtin_only_Ret|].
  destruct (np_dtype_alias s);
    [apply builtin_only_Ret | apply builtin_only_Raise].
Qed.

Lemma builtin_only_np_array l dt : builtin_only (np_array l dt).
Proof.
  unfold np_array.
  apply builtin_only_bind; [apply builtin_only_resolve_dtype|]. intros d.
  apply builtin_only_bind; [|intros; apply builtin_only_Ret].
  apply builtin_only_for_each. intros st x.
  apply builtin_only_bind; [apply builtin_only_np_cast|].
  intros; apply builtin_only_Ret.
Qed.

Lemma builtin_only_np_scalar d v : builtin_only (np_scalar d v).
Proof.
  unfold np_scalar. apply builtin_only_bind; [apply builtin_only_np_cast|].
  intros; apply builtin_only_Ret.
Qed.

Lemma nve_lift {A} (r : pyres A) :
  builtin_only r -> never_version_error (lift r).
Proof. intros Hr init Heq. destruct (Hr _ Heq) as [b Hb]. discriminate. Qed.

Lemma nve_ret {A} (a : A) : never_version_error (mret a : M A).
Proof. intros init. discriminate. Qed.

Lemma nve_bind {A B} (m : M A) (k : A -> M B) :
  never_version_error m -> (forall a, never_version_error (k a)) ->
  never_version_error (m ≫= k).
Proof.
  intros Hm Hk init. rewrite M_bind_unfold.
  specialize (Hm init). destruct (m init) as [[a|e] init'].
  - apply Hk.
  - cbn in *. intros [= ->]. apply Hm. reflexivity.
Qed.

Lemma nve_py_list {A} (l : list (M A)) :
  Forall never_version_error l -> never_version_error (py_list l).
Proof.
  induction 1 as [|m l Hm _ IH]; cbn [py_list].
  - apply nve_ret.
  - apply nve_bind; [exact Hm|]. intros x.
    apply nve_bind; [exact IH|]. intros xs. apply nve_ret.
Qed.

Lemma nve_initializer_append t : never_version_error (initializer_append t).
Proof. intros init. discriminate. Qed.

Lemma nve_create_const_scalar_node n v :
  never_version_error (create_const_scalar_node n v).
Proof.
  unfold create_const_scalar_node.
  apply nve_bind; [apply nve_lift, builtin_only_NP_TYPE_TO_TENSOR_TYPE|].
  intros t. apply nve_bind; [apply nve_initializer_append|].
  intros. apply nve_ret.
Qed.

Lemma nve_create_tensor l n dt : never_version_error (create_tensor l n dt).
Proof.
  unfold create_tensor.
  apply nve_bind; [apply nve_lift, builtin_only_np_array|]. intros a.
  apply nve_bind; [apply nve_lift, builtin_only_NP_TYPE_TO_TENSOR_TYPE|].
  intros t. apply nve_bind; [apply nve_initializer_append|].
  intros. apply nve_ret.
Qed.

Lemma nve_raise_not_implemented {A} msg :
  never_version_error (raise (NotImplementedError msg) : M A).
Proof. intros init. discriminate. Qed.

Lemma nve_item {A} (l : list A) i : never_version_error (item l i).
Proof. apply nve_lift, builtin_only_list_get. Qed.

Lemma nve_emit n : never_version_error (emit n).
Proof. apply nve_ret. Qed.

End VersionRequirement.

Create HintDb nve.
#[local] Hint Resolve builtin_only_py_int builtin_only_py_float
  builtin_only_np_array builtin_only_np_scalar builtin_only_get_inputs
  builtin_only_TENSOR_TYPE_TO_NP_TYPE builtin_only_list_get : nve.
#[local] Hint Resolve nve_ret nve_emit nve_item nve_create_tensor
  nve_create_const_scalar_node nve_raise_not_implemented : nve.

(** Walks a rule body: binds, list displays, conditionals. *)
Ltac nve_step :=
  lazymatch goal with
  | |- never_version_error (mret _) => apply nve_ret
  | |- never_version_error (emit _) => apply nve_emit
  | |- never_version_error (item _ _) => apply nve_item
  | |- never_version_error (lift _) => apply nve_lift; auto with nve
  | |- never_version_error (raise (NotImplementedError _)) =>
      apply nve_raise_not_implemented
  | |- never_version_error (create_tensor _ _ _) => apply nve_create_tensor
  | |- never_version_error (create_const_scalar_node _ _) =>
      apply nve_create_const_scalar_node
  | |- never_version_error (py_list _) => apply nve_py_list
  | |- never_version_error (_ ≫= _) => apply nve_bind; [|intros ?]
  | |- never_version_error (if ?c then _ else _) => destruct c
  | |- never_version_error (match ?c with _ => _ end) => destruct c
  | |- never_version_error (let _ := _ in _) => cbv zeta
  | |- Forall never_version_error (_ :: _) => constructor
  | |- Forall never_version_error [] => constructor
  end.

Ltac nve := repeat nve_step.

Section VersionRequirementRules.
Context `{External}.

Lemma get_inputs_with_opset node kw v :
  get_inputs node (with_opset kw v) = get_inputs node kw.
Proof. reflexivity. Qed.

Lemma nve_convert_arange node kw :
  11 <= opset_version kw -> never_version_error (convert_arange node kw).
Proof.
  intros Hv. unfold convert_arange.
  apply nve_bind; [apply nve_lift, builtin_only_get_inputs|].
  intros [[name inputs] attrs].
  destruct (opset_version kw <? 11) eqn:Hlt; [apply Z.ltb_lt in Hlt; lia|].
  nve.
Qed.

Lemma nve_convert_arange_like node kw :
  11 <= opset_version kw -> never_version_error (convert_arange_like node kw).
Proof.
  intros Hv. unfold convert_arange_like.
  apply nve_bind; [apply nve_lift, builtin_only_get_inputs|].
  intros [[name inputs] attrs].
  destruct (opset_version kw <? 11) eqn:Hlt; [apply Z.ltb_lt in Hlt; lia|].
  nve.
Qed.

Lemma nve_convert_contrib_BilinearResize2D node kw :
  11 <= opset_version kw ->
  never_version_error (convert_contrib_BilinearResize2D node kw).
Proof.
  intros Hv. unfold convert_contrib_BilinearResize2D.
  apply nve_bind; [apply nve_lift, builtin_only_get_inputs|].
  intros [[name inputs] attrs].
  destruct (opset_version kw <? 11) eqn:Hlt; [apply Z.ltb_lt in Hlt; lia|].
  nve. intros init. discriminate.
Qed.

Lemma nve_convert_repeat node kw :
  11 <= opset_version kw -> never_version_error (convert_repeat node kw).
Proof.
  intros Hv. unfold convert_repeat.
  apply nve_bind; [apply nve_lift, builtin_only_get_inputs|].
  intros [[name inputs] attrs].
  destruct (opset_version kw <? 11) eqn:Hlt; [apply Z.ltb_lt in Hlt; lia|].
  nve.
Qed.

Ltac fails_fast r nve_lemma unfold_r :=
  let node := fresh "node" in
  let kw := fresh "kw" in
  let init := fresh "init" in
  intros node kw init; split;
  [ let x := fresh "x" in
    let Hget := fresh "Hget" in
    let Hlow := fresh "Hlow" in
    intros x Hget;
    assert (Hlow : opset_version kw < 11 ->
              r node kw init = (Raise opset_11_required, init));
    [ let Hlt := fresh "Hlt" in
      intros Hlt; unfold_r; rewrite Hget, lift_bind_Ret;
      destruct x as [[? ?] ?]; apply Z.ltb_lt in Hlt; cbv zeta;
      rewrite Hlt; reflexivity
    | split; [exact Hlow|]; split;
      [ let Herr := fresh "Herr" in
        intros Herr;
        destruct (Z.lt_ge_cases (opset_version kw) 11) as [|Hge];
        [assumption | exfalso; exact (nve_lemma node kw Hge init Herr)]
      | let Hlt := fresh "Hlt" in
        intros Hlt; rewrite (Hlow Hlt); reflexivity ] ]
  | let v := fresh "v" in
    let Hkw := fresh "Hkw" in
    let Hv := fresh "Hv" in
    let H1 := fresh "H1" in
    let H2 := fresh "H2" in
    intros v Hkw Hv; unfold_r;
    rewrite get_inputs_with_opset, !M_bind_unfold; unfold lift;
    destruct (get_inputs node kw) as [[[? ?] ?]|?]; [|reflexivity];
    cbn [with_opset opset_version]; cbv zeta;
    destruct (opset_version kw <? 11) eqn:H1; [apply Z.ltb_lt in H1; lia|];
    destruct (v <? 11) eqn:H2; [apply Z.ltb_lt in H2; lia|];
    reflexivity ].

(** C7. The range-generation rules ([_arange], [_contrib_arange_like]), the
    interpolation rule ([_contrib_BilinearResize2D]) and the repeat rule
    fail fast: for a node whose inputs resolve, the rule raises the
    version-requirement error if and only if the version of the target
    format is below 11, and then before any initializer is appended and
    with no node returned; from version 11 on it goes on to its lowering,
    which is the same at every such version. *)
Theorem version_requirement_fails_fast :
  fails_fast_below_11 convert_arange /\
  fails_fast_below_11 convert_arange_like /\
  fails_fast_below_11 convert_contrib_BilinearResize2D /\
  fails_fast_below_11 convert_repeat.
Proof.
  split; [|split; [|split]].
  - fails_fast convert_arange nve_convert_arange
      ltac:(unfold convert_arange).
  - fails_fast convert_arange_like nve_convert_arange_like
      ltac:(unfold convert_arange_like).
  - fails_fast convert_contrib_BilinearResize2D
      nve_convert_contrib_BilinearResize2D
      ltac:(unfold convert_contrib_BilinearResize2D).
  - fails_fast convert_repeat nve_convert_repeat
      ltac:(unfold convert_repeat).
Qed.

End VersionRequirementRules.

(** ** Scalar-constant fusion *)

Section ScalarFusion.
Context `{External}.

Lemma fold_scalar_folded_constant op_name name i scalar constant :
  op_name ∈ scalar_operators ->
  to_array i = inr constant ->
  fold_scalar op_name name i scalar
  = of_lib (folded_constant op_name name constant scalar).
Proof.
  intros Hop Hi. unfold fold_scalar, folded_constant. rewrite Hi. cbn [of_lib].
  rewrite !pyres_bind_Ret.
  repeat (apply elem_of_cons in Hop as [->|Hop]); [..|inversion Hop];
    repeat (case_decide; try congruence; try reflexivity);
    destruct (String.prefix _ _); rewrite ?pyres_bind_Ret; reflexivity.
Qed.

Lemma scalar_op_loop_not_found op_name name x rest scalar initializer :
  (forall i, i ∈ initializer -> t_name i <> x) ->
  scalar_op_loop op_name name (x :: rest) scalar initializer = Ret None.
Proof.
  induction initializer as [|i l IH]; intros Hno; [reflexivity|].
  cbn [scalar_op_loop list_get lookup list_lookup]. rewrite pyres_bind_Ret.
  destruct (decide (t_name i = x)) as [Heq|_].
  - exfalso. apply (Hno i); [left | exact Heq].
  - apply IH. intros j Hj. apply Hno. right. exact Hj.
Qed.

Lemma scalar_op_loop_found op_name name x rest scalar pre i post :
  (forall j, j ∈ pre -> t_name j <> x) -> t_name i = x ->
  scalar_op_loop op_name name (x :: rest) scalar (pre ++ i :: post)
  = (new_initializer ← fold_scalar op_name name i scalar;
     Ret (Some new_initializer)).
Proof.
  intros Hpre Hi. induction pre as [|j pre IH]; cbn [app scalar_op_loop].
  - cbn [list_get lookup list_lookup]. rewrite pyres_bind_Ret.
    destruct (decide (t_name i = x)); [reflexivity | congruence].
  - cbn [list_get lookup list_lookup]. rewrite pyres_bind_Ret.
    destruct (decide (t_name j = x)) as [Heq|_].
    + exfalso. apply (Hpre j); [left | exact Heq].
    + apply IH. intros k Hk. apply Hpre. right. exact Hk.
Qed.

(** C1, as the code has it. For a scalar-arithmetic node whose tensor input
    [x] names an initializer, the rule appends exactly one initializer, the
    folded constant, and returns its descriptor and no node; the scalar is
    the left operand of a subtraction (division) exactly when the name of
    the node starts with [_rminusscalar] ([_rdivscalar]). When [x] names no
    initializer, the rule appends one initializer holding the scalar and
    returns its descriptor and a single binary node that takes [x] and that
    initializer. *)
Theorem scalar_op_helper_outcomes (node : mx_node) (op_name : string)
    (kw : kwargs) (initializer : list TensorProto)
    name x rest attrs dtype scalar_value :
  op_name ∈ scalar_operators ->
  get_inputs node kw = Ret (name, x :: rest, attrs) ->
  TENSOR_TYPE_TO_NP_TYPE (in_type kw) = Ret dtype ->
  np_array [attrs_get attrs "scalar" (PyInt 1)] (DtObj dtype)
  = Ret scalar_value ->
  let scalar :=
    mk_ndarray (nd_dtype scalar_value) [] (nd_data scalar_value) in
  (forall pre i post constant folded data_type,
     initializer = pre ++ i :: post ->
     (forall j, j ∈ pre -> t_name j <> x) -> t_name i = x ->
     to_array i = inr constant ->
     folded_constant op_name name constant scalar = inr folded ->
     NP_TYPE_TO_TENSOR_TYPE (nd_dtype folded) = Ret data_type ->
     let new_a_node := x +:+ str_of_Z (idx kw) in
     scalar_op_helper node op_name kw initializer =
       (Ret [ItemValue (make_tensor_value_info new_a_node data_type
                          (nd_shape folded))],
        initializer ++ [make_tensor new_a_node data_type (nd_shape folded)
                          (PyNp folded)])) /\
  ((forall i, i ∈ initializer -> t_name i <> x) ->
     let scalar_op_name := "scalar_op" +:+ str_of_Z (idx kw) in
     scalar_op_helper node op_name kw initializer =
       (Ret [ItemValue (make_tensor_value_info scalar_op_name (in_type kw)
                          (nd_shape scalar_value));
             ItemNode (make_named_node op_name [x; scalar_op_name] [name]
                         name [])],
        initializer ++ [make_tensor scalar_op_name (in_type kw)
                          (nd_shape scalar_value) (PyNp scalar_value)])).
Proof.
  intros Hop Hget Hdtype Hscalar scalar. split.
  - intros pre i post constant folded data_type -> Hpre Hi Hconst Hfold Htype
      new_a_node.
    unfold scalar_op_helper.
    rewrite Hget, lift_bind_Ret, Hdtype, lift_bind_Ret, Hscalar, lift_bind_Ret.
    rewrite M_bind_unfold. cbn [initializer_read].
    rewrite (scalar_op_loop_found _ _ _ _ _ _ _ _ Hpre Hi).
    rewrite (fold_scalar_folded_constant _ _ _ _ _ Hop Hconst).
    fold scalar. rewrite Hfold. cbn [of_lib]. rewrite pyres_bind_Ret.
    rewrite lift_bind_Ret, Htype, lift_bind_Ret.
    reflexivity.
  - intros Hno scalar_op_name. unfold scalar_op_helper.
    rewrite Hget, lift_bind_Ret, Hdtype, lift_bind_Ret, Hscalar, lift_bind_Ret.
    rewrite M_bind_unfold. cbn [initializer_read].
    rewrite (scalar_op_loop_not_found _ _ _ _ _ _ Hno), lift_bind_Ret.
    reflexivity.
Qed.

End ScalarFusion.

(** ** Version branching *)

Lemma append_suffix_inj (s a b : string) : s +:+ a = s +:+ b -> a = b.
Proof.
  induction s as [|c s IH]; cbn; [auto|]. intros [= Heq]. exact (IH Heq).
Qed.





Section VersionBranching.
Context `{External}.

Lemma np_array_int64 (zs : list Z) :
  Forall in_int64 zs ->
  np_array (map PyInt zs) (DtName "int64")
  = Ret (mk_ndarray Int64 [Z.of_nat (length zs)] (map NInt zs)).
Proof.
  intros Hzs. unfold np_array.
  change (resolve_dtype (DtName "int64")) with (Ret Int64 : pyres np_dtype).
  rewrite pyres_bind_Ret.
  assert (Hloop : forall acc,
    for_each (fun acc v => x ← np_cast Int64 v; Ret (acc ++ [x]))
      (map PyInt zs) acc = Ret (acc ++ map NInt zs)).
  { induction Hzs as [|z zs [Hlo Hhi] _ IH]; intros acc; cbn [map for_each].
    - rewrite app_nil_r. reflexivity.
    - cbn [np_cast float_format].
      assert ((- 2 ^ 63 <=? z) && (z <? 2 ^ 63) = true) as ->.
      { apply andb_true_iff. split; [apply Z.leb_le | apply Z.ltb_lt];
          assumption. }
      rewrite !pyres_bind_Ret, IH, <- app_assoc. reflexivity. }
  rewrite Hloop, pyres_bind_Ret, length_map. reflexivity.
Qed.

Lemma np_scalar_float32 (f : spec_float) :
  np_scalar Float32 (PyFloat f)
  = Ret (mk_ndarray Float32 [] [NFloat (SFround 24 128 f)]).
Proof. reflexivity. Qed.


(** *** clip *)


(** *** Dropout *)


(** *** TopK *)



(** *** Pad *)


End VersionBranching.

Section VersionBranchingMain.
Context `{External}.




End VersionBranchingMain.

(** ** The naming contract *)

Section EndsWith.
Context (P : graph_item -> Prop).

Lemma ends_bind {A} (m : M A) (k : A -> M (list graph_item)) :
  (forall a, ends_with P (k a)) -> ends_with P (m ≫= k).
Proof.
  intros Hk init items init'. rewrite M_bind_unfold.
  destruct (m init) as [[a|e] init1]; [apply Hk | discriminate].
Qed.

Lemma ends_get_inputs node kw
    (k : string * list string * gmap string string -> M (list graph_item)) :
  (forall inputs, ends_with P (k (node_name node, inputs, node_attrs node))) ->
  ends_with P (lift (get_inputs node kw) ≫= k).
Proof.
  intros Hk init items init'. rewrite M_bind_unfold. cbn [lift].
  destruct (get_inputs node kw) as [[[nm inputs] attrs]|e] eqn:Hget;
    [|discriminate].
  apply get_inputs_name_attrs in Hget as [-> ->]. apply Hk.
Qed.

Lemma ends_ret (l : list graph_item) i :
  last l = Some i -> P i -> ends_with P (mret l).
Proof. intros Hl Hi init items init' [= <- _]. eauto. Qed.

Lemma ends_raise e : ends_with P (raise e).
Proof. intros init items init'. discriminate. Qed.

Lemma yields_emit n : P (ItemNode n) -> yields P (emit n).
Proof. intros Hn init i init' [= <- _]. exact Hn. Qed.

Lemma yields_bind {A} (m : M A) (k : A -> M graph_item) :
  (forall a, yields P (k a)) -> yields P (m ≫= k).
Proof.
  intros Hk init i init'. rewrite M_bind_unfold.
  destruct (m init) as [[a|e] init1]; [apply Hk | discriminate].
Qed.

Lemma py_list_last (ms : list (M graph_item)) m :
  last ms = Some m -> yields P m -> ends_with P (py_list ms).
Proof.
  intros Hlast Hm. revert Hlast.
  induction ms as [|m1 ms IH]; [discriminate|]. intros Hlast.
  intros init items init'. cbn [py_list]. rewrite M_bind_unfold.
  destruct (m1 init) as [[x|e] init1] eqn:Hm1; [|discriminate].
  rewrite M_bind_unfold.
  destruct (py_list ms init1) as [[xs|e] init2] eqn:Hms; [|discriminate].
  intros [= <- <-]. destruct ms as [|m2 ms].
  - injection Hlast as ->. cbn in Hms. injection Hms as <- <-.
    exists x. split; [reflexivity|]. exact (Hm _ _ _ Hm1).
  - rewrite last_cons_cons in Hlast.
    destruct (IH Hlast _ _ _ Hms) as (i & Hi & HP).
    exists i. split; [|exact HP].
    destruct xs as [|x2 xs]; [discriminate|].
    rewrite last_cons_cons. exact Hi.
Qed.

Lemma ends_ret_bind {A} (a : A) (k : A -> M (list graph_item)) :
  ends_with P (k a) -> ends_with P (mret a ≫= k).
Proof. intros Hk. exact Hk. Qed.

Lemma ends_raise_bind {A} e (k : A -> M (list graph_item)) :
  ends_with P (raise e ≫= k).
Proof. intros init items init'. discriminate. Qed.

Lemma ends_append (nodes : list graph_item) (m : M (list graph_item)) :
  ends_with P m -> ends_with P (more ← m; mret (nodes ++ more)).
Proof.
  intros Hm init items init'. rewrite M_bind_unfold.
  destruct (m init) as [[more|e] init1] eqn:Hrun; [|discriminate].
  intros [= <- <-]. destruct (Hm _ _ _ Hrun) as (i & Hi & HP).
  exists i. split; [|exact HP]. rewrite last_app, Hi. reflexivity.
Qed.

End EndsWith.

(** Walks a rule body down to what it returns. *)
Ltac ends_last :=
  rewrite ?last_app; repeat rewrite last_cons_cons; reflexivity.

Ltac ends_named :=
  cbn [named_after make_named_node name output head];
  split; [reflexivity | left; reflexivity].

Ltac yields_step :=
  lazymatch goal with
  | |- yields _ (emit _) => apply yields_emit; ends_named
  | |- yields _ (_ ≫= _) => apply yields_bind; intros ?
  end.

Ltac ends_step :=
  lazymatch goal with
  | |- ends_with _ (lift (get_inputs _ _) ≫= _) =>
      apply ends_get_inputs; intros ?
  | |- ends_with _ (py_list _ ≫= (fun more => mret (_ ++ more))) =>
      apply ends_append
  | |- ends_with _ ((if ?c then _ else _) ≫= _) => destruct c
  | |- ends_with _ (mret _ ≫= _) => apply ends_ret_bind
  | |- ends_with _ (raise _ ≫= _) => apply ends_raise_bind
  | |- ends_with _ (_ ≫= _) => apply ends_bind; intros ?
  | |- ends_with _ (raise _) => apply ends_raise
  | |- ends_with _ (py_list _) =>
      eapply py_list_last; [ends_last | repeat yields_step]
  | |- ends_with _ (mret _) => eapply ends_ret; [ends_last | ends_named]
  | |- ends_with _ (if ?c then _ else _) => destruct c
  | |- ends_with _ (match ?c with _ => _ end) => destruct c
  | |- ends_with _ (let _ := _ in _) => cbv zeta
  end.

Ltac ends := repeat ends_step.

Section NamingContract.
Context `{External}.

Lemma create_basic_op_node_returns onnx_op node kw init nm inputs attrs :
  get_inputs node kw = Ret (nm, inputs, attrs) ->
  create_basic_op_node onnx_op node kw init
  = (Ret [ItemNode (make_named_node onnx_op inputs [nm] nm [])], init).
Proof.
  intros Hget. unfold create_basic_op_node.
  rewrite Hget, lift_bind_Ret. reflexivity.
Qed.

Lemma ends_create_basic_op_node op onnx_op node kw :
  ends_with (named_after op (node_name node))
    (create_basic_op_node onnx_op node kw).
Proof. unfold create_basic_op_node. ends. Qed.

Lemma ends_convert_pad node kw :
  ends_with (named_after "Pad" (node_name node)) (convert_pad node kw).
Proof. unfold convert_pad. ends. Qed.

Lemma ends_convert_softmax node kw :
  ends_with (named_after "softmax" (node_name node)) (convert_softmax node kw).
Proof. unfold convert_softmax. ends. Qed.

Lemma ends_convert_l2normalization node kw :
  ends_with (named_after "L2Normalization" (node_name node))
    (convert_l2normalization node kw).
Proof. unfold convert_l2normalization. ends. Qed.

Lemma ends_convert_dropout node kw :
  ends_with (named_after "Dropout" (node_name node)) (convert_dropout node kw).
Proof. unfold convert_dropout. ends. Qed.

Lemma ends_convert_clip node kw :
  ends_with (named_after "clip" (node_name node)) (convert_clip node kw).
Proof. unfold convert_clip. ends. Qed.

Lemma ends_convert_topk node kw :
  ends_with (named_after "topk" (node_name node)) (convert_topk node kw).
Proof. unfold convert_topk. ends. Qed.

Lemma ends_convert_slice node kw :
  ends_with (named_after "slice" (node_name node)) (convert_slice node kw).
Proof. unfold convert_slice. ends. Qed.

Lemma ends_convert_arange_like node kw :
  ends_with (named_after "_contrib_arange_like" (node_name node))
    (convert_arange_like node kw).
Proof. unfold convert_arange_like. ends. Qed.

Lemma ends_convert_contrib_BilinearResize2D node kw :
  ends_with (named_after "_contrib_BilinearResize2D" (node_name node))
    (convert_contrib_BilinearResize2D node kw).
Proof. unfold convert_contrib_BilinearResize2D. ends. Qed.

Lemma ends_convert_arange node kw :
  ends_with (named_after "_arange" (node_name node)) (convert_arange node kw).
Proof. unfold convert_arange. ends. Qed.

Lemma ends_convert_repeat node kw :
  ends_with (named_after "repeat" (node_name node)) (convert_repeat node kw).
Proof. unfold convert_repeat. ends. Qed.

Lemma ends_convert_greater_scalar node kw :
  ends_with (named_after "_greater_scalar" (node_name node))
    (convert_greater_scalar node kw).
Proof. unfold convert_greater_scalar. ends. Qed.

Lemma ends_convert_dot op node kw :
  ends_with (named_after op (node_name node)) (convert_dot node kw).
Proof.
  intros init items init'. rewrite convert_dot_run.
  destruct (get_inputs node kw); discriminate.
Qed.

Lemma ends_scalar_op_helper op op_name node kw :
  op ∈ scalar_opcodes ->
  ends_with (named_after op (node_name node)) (scalar_op_helper node op_name kw).
Proof.
  intros Hop. unfold scalar_op_helper.
  apply ends_get_inputs; intros inputs.
  do 4 (apply ends_bind; intros ?).
  lazymatch goal with
  | |- ends_with _ (match ?c with _ => _ end) => destruct c
  end.
  - do 3 (apply ends_bind; intros ?).
    eapply ends_ret; [reflexivity | left; exact Hop].
  - do 2 (apply ends_bind; intros ?). ends.
Qed.

Lemma convert_slice_channel_returns node kw init items init' :
  convert_slice_channel node kw init = (Ret items, init') ->
  exists n,
    items = [ItemNode n] /\ name n = node_name node /\
    (output n = [node_name node] \/
     exists k, 1 < k /\ output n = slice_channel_outputs (node_name node) k).
Proof.
  unfold convert_slice_channel. rewrite M_bind_unfold. cbn [lift].
  destruct (get_inputs node kw) as [[[nm inputs] attrs]|e] eqn:Hget;
    [|discriminate].
  apply get_inputs_name_attrs in Hget as [-> ->].
  repeat (rewrite M_bind_unfold; cbn [lift];
          lazymatch goal with
          | |- context [match ?r with Ret _ => _ | Raise _ => _ end] =>
              destruct r as [?|?]; [|discriminate]
          end).
  destruct (_ && _).
  - intros [= <- _]. eexists. split; [reflexivity|].
    split; [reflexivity | left; reflexivity].
  - destruct ((_ =? 0) && (1 <? _)) eqn:Hk; [|discriminate].
    apply andb_true_iff in Hk as [_ Hk]. apply Z.ltb_lt in Hk.
    rewrite M_bind_unfold. unfold item, lift.
    destruct (list_get (in_shape kw) 0); [|discriminate].
    rewrite M_bind_unfold.
    destruct (list_get_Z _ _); [|discriminate].
    intros [= <- _]. eexists. split; [reflexivity|].
    split; [reflexivity | right; eauto].
Qed.

Lemma ends_convert_slice_channel node kw :
  ends_with (named_after "SliceChannel" (node_name node))
    (convert_slice_channel node kw).
Proof.
  intros init items init' Hrun.
  destruct (convert_slice_channel_returns _ _ _ _ _ Hrun)
    as (n & -> & Hname & Hout).
  exists (ItemNode n). split; [reflexivity|]. split; [exact Hname|].
  destruct Hout as [->|Hk]; [left; reflexivity | right; eauto].
Qed.

Lemma convert_topk_outputs node kw init items init' :
  convert_topk node kw init = (Ret items, init') ->
  exists n,
    last items = Some (ItemNode n) /\
    output n = [node_name node; node_name node +:+ "_output1"].
Proof.
  pose (P := fun i => exists n, i = ItemNode n /\
             output n = [node_name node; node_name node +:+ "_output1"]).
  assert (Hends : ends_with P (convert_topk node kw)).
  { unfold convert_topk. apply ends_get_inputs; intros inputs.
    do 2 (apply ends_bind; intros ?).
    destruct (bool_decide _); [|apply ends_raise_bind].
    apply ends_ret_bind. destruct (10 <=? _).
    - eapply py_list_last; [reflexivity|].
      apply yields_bind; intros ?. apply yields_emit.
      eexists. split; reflexivity.
    - eapply ends_ret; [reflexivity|]. eexists. split; reflexivity. }
  intros Hrun. destruct (Hends _ _ _ Hrun) as (i & Hlast & n & -> & Hout).
  eauto.
Qed.

Lemma direct_renames_lookup (op onnx_op : string) :
  (op, onnx_op) ∈ direct_renames ->
  (list_to_map direct_renames : gmap string string) !! op = Some onnx_op.
Proof.
  apply elem_of_list_to_map_1.
  apply (bool_decide_unpack (NoDup direct_renames.*1)). vm_compute. exact I.
Qed.

End NamingContract.

(** ** The masked softmax: the guarded division *)

Section EvaluationFacts.
Variable other : NodeProto -> list tdata -> option tdata.

Lemma eval_nodes_app e ns1 ns2 :
  eval_nodes other e (ns1 ++ ns2)
  = e1 ← eval_nodes other e ns1; eval_nodes other e1 ns2.
Proof.
  revert e. induction ns1 as [|n ns1 IH]; intros e; [reflexivity|].
  cbn [app eval_nodes]. destruct (eval_node other e n) as [e1|]; cbn.
  - apply IH.
  - reflexivity.
Qed.

Lemma eval_node_frame e n e1 k :
  eval_node other e n = Some e1 -> k ∉ output n -> e1 !! k = e !! k.
Proof.
  unfold eval_node. destruct (output n) as [|o [|]]; try discriminate.
  destruct (mapM _ (input n)) as [args|]; [|discriminate]. cbn.
  destruct (match eval_op n args with Some v => Some v | None => other n args
            end) as [v|]; [|discriminate].
  cbn. intros [= <-] Hk. apply lookup_insert_ne.
  intros ->. apply Hk, list_elem_of_here.
Qed.

Lemma eval_nodes_frame e ns e1 k :
  eval_nodes other e ns = Some e1 ->
  Forall (fun n => k ∉ output n) ns -> e1 !! k = e !! k.
Proof.
  revert e. induction ns as [|n ns IH]; intros e; cbn [eval_nodes].
  - intros [= <-] _. reflexivity.
  - destruct (eval_node other e n) as [e2|] eqn:Hn; [|discriminate]. cbn.
    intros Hns Hk. inversion Hk as [|? ? Hk1 Hk2]; subst.
    rewrite (IH e2 Hns Hk2). exact (eval_node_frame _ _ _ _ Hn Hk1).
Qed.

Lemma eval_node_known e n o args v e1 :
  eval_node other e n = Some e1 ->
  output n = [o] -> mapM (fun i => e !! i) (input n) = Some args ->
  eval_op n args = Some v -> e1 = <[o := v]> e.
Proof.
  unfold eval_node. intros Hn Ho Hargs Hv. rewrite Ho, Hargs in Hn.
  cbn in Hn. rewrite Hv in Hn. cbn in Hn. congruence.
Qed.

End EvaluationFacts.

Lemma broadcast2_one_r {A B C} (f : A -> B -> C) (a : list A) (y : B) :
  broadcast2 f a [y] = Some (map (fun x => f x y) a).
Proof. destruct a as [|x [|x' a]]; reflexivity. Qed.

Lemma broadcast2_same_length {A B C} (f : A -> B -> C) a b :
  length a = length b -> broadcast2 f a b = Some (zip_with f a b).
Proof.
  intros Hlen. destruct a as [|x [|x' a]], b as [|y [|y' b]];
    try discriminate; try reflexivity.
  unfold broadcast2. rewrite decide_True by exact Hlen. reflexivity.
Qed.

Lemma SFeqb_zero (s : spec_float) :
  SFeqb s (S754_zero false) = SFis_zero s.
Proof. destruct s as [[]|[]| |[] m e]; reflexivity. Qed.

Lemma guard_zip (zero one : spec_float) (sums : list spec_float) :
  zip_with (fun (p : bool * spec_float) y => if p.1 then p.2 else y)
    (map (fun c => (c, one)) (map (fun s => SFeqb s zero) sums)) sums
  = map (fun s => if SFeqb s zero then one else s) sums.
Proof.
  induction sums as [|s sums IH]; [reflexivity|]. cbn. rewrite IH.
  reflexivity.
Qed.

Lemma cast_int_0 prec emax : cast_int prec emax 0 = S754_zero false.
Proof. reflexivity. Qed.

Lemma cast_int_1 d prec emax :
  float_format d = Some (prec, emax) ->
  SFis_zero (cast_int prec emax 1) = false.
Proof. destruct d; intros [= <- <-]; vm_compute; reflexivity. Qed.

Lemma graph_env_snoc inputs l t :
  graph_env inputs (l ++ [t]) = bind_initializer (graph_env inputs l) t.
Proof. unfold graph_env. apply fold_left_app. Qed.

Lemma bind_initializer_other e t k :
  t_name t <> k -> bind_initializer e t !! k = e !! k.
Proof.
  intros Hne. unfold bind_initializer.
  destruct (tensor_of_initializer t); [|reflexivity].
  apply lookup_insert_ne. exact Hne.
Qed.

Lemma tensor_of_initializer_ints nm dims zs :
  tensor_of_initializer (make_tensor nm INT64 dims (PyList (map PyInt zs)))
  = Some (TInt zs).
Proof.
  unfold tensor_of_initializer. cbn [t_vals t_data_type flat_values].
  assert (Hflat : forall l,
            mapM (fun x => match x with
                           | PyInt z => Some [NInt z]
                           | PyFloat f => Some [NFloat f]
                           | PyNp a => Some (nd_data a)
                           | _ => None
                           end) (map PyInt l)
            = Some (map (fun z => [NInt z]) l)).
  { induction l as [|z l IH]; [reflexivity|].
    cbn [map mapM]. rewrite IH. reflexivity. }
  rewrite Hflat. cbn [fmap option_fmap option_map mbind option_bind].
  change (TENSOR_TYPE_TO_NP_TYPE INT64) with (Ret Int64 : pyres np_dtype).
  cbv iota.
  assert (Hback : forall l,
            mapM (fun x => match x with
                           | NInt z => Some z
                           | NFloat _ => None
                           end) (concat (map (fun z => [NInt z]) l))
            = Some l).
  { induction l as [|z l IH]; [reflexivity|].
    cbn [map concat app mapM]. rewrite IH. reflexivity. }
  rewrite Hback. reflexivity.
Qed.

Lemma bind_initializer_ints e nm dims zs :
  bind_initializer e (make_tensor nm INT64 dims (PyList (map PyInt zs)))
    !! nm = Some (TInt zs).
Proof.
  unfold bind_initializer. rewrite tensor_of_initializer_ints.
  apply lookup_insert_eq.
Qed.

Section MaskedSoftmax.
Context `{External}.

Lemma py_list_cons {A} (m : M A) t init x init1 xs init2 :
  m init = (Ret x, init1) -> py_list t init1 = (Ret xs, init2) ->
  py_list (m :: t) init = (Ret (x :: xs), init2).
Proof.
  intros Hm Ht. cbn [py_list].
  rewrite M_bind_unfold, Hm, M_bind_unfold, Ht. reflexivity.
Qed.

Lemma create_tensor_int64 zs nm init :
  Forall in_int64 zs ->
  create_tensor (map PyInt zs) nm (DtName "int64") init
  = (Ret (ItemValue (make_tensor_value_info nm INT64
                       [Z.of_nat (length zs)])),
     init ++ [make_tensor nm INT64 [Z.of_nat (length zs)]
                (PyList (map PyInt zs))]).
Proof.
  intros Hzs. unfold create_tensor.
  rewrite (np_array_int64 zs Hzs), lift_bind_Ret. reflexivity.
Qed.

Lemma create_tensor_float t nm d prec emax init :
  float_format d = Some (prec, emax) ->
  exists ty vals,
    ty <> INT64 /\
    create_tensor [PyFloat t] nm (DtObj d) init
    = (Ret (ItemValue (make_tensor_value_info nm ty [1])),
       init ++ [make_tensor nm ty [1] vals]).
Proof.
  destruct d; intros [= <- <-]; eexists _, _;
    (split; [|unfold create_tensor, np_array;
              cbn [resolve_dtype pyres_bind mbind]; reflexivity]);
    discriminate.
Qed.


Lemma append_ne_self (s a : string) : a <> "" -> s +:+ a <> s.
Proof.
  intros Ha. induction s as [|c s IH]; cbn; [exact Ha|].
  intros [= Heq]. exact (IH Heq).
Qed.

Lemma eval_nodes_cons_frame other e n ns e' :
  eval_nodes other e (n :: ns) = Some e' ->
  exists e1,
    eval_nodes other e1 ns = Some e' /\
    forall k, k ∉ output n -> e1 !! k = e !! k.
Proof.
  cbn [eval_nodes]. destruct (eval_node other e n) as [e1|] eqn:Hn;
    [|discriminate].
  cbn. intros Hns. exists e1. split; [exact Hns|].
  intros k Hk. exact (eval_node_frame other _ _ _ _ Hn Hk).
Qed.

Lemma eval_nodes_cons_known other e n ns e' o args v :
  output n = [o] -> mapM (fun i => e !! i) (input n) = Some args ->
  eval_op n args = Some v ->
  eval_nodes other e (n :: ns) = Some e' ->
  eval_nodes other (<[o := v]> e) ns = Some e'.
Proof.
  intros Ho Hargs Hv. cbn [eval_nodes].
  destruct (eval_node other e n) as [e1|] eqn:Hn; [|discriminate].
  rewrite (eval_node_known other _ _ _ _ _ _ Hn Ho Hargs Hv). cbn. auto.
Qed.

Lemma eval_nodes_cons_value other e n ns e' o args v :
  output n = [o] -> mapM (fun i => e !! i) (input n) = Some args ->
  eval_op n args = Some v ->
  eval_nodes other e (n :: ns) = Some e' ->
  exists e1,
    eval_nodes other e1 ns = Some e' /\ e1 !! o = Some v /\
    forall k, k <> o -> e1 !! k = e !! k.
Proof.
  intros Ho Hargs Hv Hns.
  apply (eval_nodes_cons_known other _ _ _ _ _ _ _ Ho Hargs Hv) in Hns.
  eexists. split; [exact Hns|]. split; [apply lookup_insert_eq|].
  intros k Hk. apply lookup_insert_ne. congruence.
Qed.

Ltac suffix_ne :=
  first
    [ apply append_ne_self; discriminate
    | apply not_eq_sym, append_ne_self; discriminate
    | let Heq := fresh in
      intros Heq; apply append_suffix_inj in Heq; discriminate Heq ].

Ltac not_out :=
  cbn [output make_node make_named_node];
  let Hin := fresh in
  intros Hin; apply list_elem_of_singleton in Hin; revert Hin; suffix_ne.

Ltac frame_step Heval :=
  let e1 := fresh "e" in
  let Hfr := fresh "Hfr" in
  apply eval_nodes_cons_frame in Heval as (e1 & Heval & Hfr);
  repeat match goal with
         | Hk : ?e0 !! ?k = Some _ |- _ =>
             lazymatch type of Hfr with
             | forall k', _ -> _ = e0 !! k' =>
                 rewrite <- (Hfr k ltac:(not_out)) in Hk
             end
         end;
  clear Hfr.

Ltac value_step Heval args v Hv :=
  let e1 := fresh "e" in
  let Hfr := fresh "Hfr" in
  eapply (eval_nodes_cons_value _ _ _ _ _ _ args v) in Heval;
  [ | reflexivity
    | cbn [input make_node make_named_node mapM mbind option_bind mret
           option_ret fmap option_fmap option_map];
      repeat match goal with
             | Hk : ?e0 !! ?k = Some _ |- context [?e0 !! ?k] => rewrite Hk
             end;
      reflexivity
    | unfold eval_op; cbn [op_type make_node make_named_node] ];
  [ destruct Heval as (e1 & Heval & Hv & Hfr);
    repeat match goal with
           | Hk : ?e0 !! ?k = Some _ |- _ =>
               lazymatch type of Hfr with
               | forall k', _ -> _ = e0 !! k' =>
                   rewrite <- (Hfr k ltac:(suffix_ne)) in Hk
               end
           end;
    clear Hfr
  | ].

Ltac cast_value Hdtype Hfmt :=
  rewrite decide_True by reflexivity;
  lazymatch type of Hdtype with
  | TENSOR_TYPE_TO_NP_TYPE ?ty = _ => change (attr_int _ "to") with (Some ty)
  end;
  cbn [mbind option_bind]; rewrite Hdtype, Hfmt; reflexivity.

Lemma guarded_sum_nonzero d prec emax (sums : list spec_float) :
  float_format d = Some (prec, emax) ->
  Forall (fun w => SFis_zero w = false) (map (guarded_sum prec emax) sums).
Proof.
  intros Hfmt. apply Forall_forall. intros w Hw.
  apply list_elem_of_fmap in Hw as (s & -> & _). unfold guarded_sum.
  rewrite cast_int_0, SFeqb_zero.
  destruct (SFis_zero s) eqn:Hs; [|exact Hs].
  exact (cast_int_1 d prec emax Hfmt).
Qed.

(** C5. A softmax node with a length input and [use_length] true, of a
    float element type, is lowered to a list of nodes that ends with an
    Equal, a Where and a Div node: the Equal node compares the masked
    re-summation [_rsum1_out] with the constant 0, the Where node takes the
    constant 1 where they are equal and the sum elsewhere, and the final Div
    node divides the masked output by the result [_where_out]. Whatever the
    other operators compute and whatever is fed to the graph, when the nodes
    evaluate and the masked sum is a float tensor, the denominator of the
    final division is that sum with 1 in place of each zero, and exactly
    there; none of its elements is a zero, also where a whole row is masked
    and its sum is zero; and the final division divides by it. *)
Theorem masked_softmax_guards_division (node : mx_node) (kw : kwargs)
    (initializer : list TensorProto) name data length attrs axis temperature
    dtype prec emax :
  get_inputs node kw = Ret (name, [data; length], attrs) ->
  attrs !! "use_length" = Some "True" ->
  py_int (attrs_get attrs "axis" (PyInt (-1))) = Ret axis ->
  in_int64 axis ->
  softmax_temperature attrs = Ret temperature ->
  TENSOR_TYPE_TO_NP_TYPE (in_type kw) = Ret dtype ->
  float_format dtype = Some (prec, emax) ->
  exists items init' front,
    convert_softmax node kw initializer = (Ret items, init') /\
    nodes_of items
    = front ++
      [make_node "Equal" [name +:+ "_rsum1_out"; name +:+ "_0_itype"]
         [name +:+ "_equal1_out"] [];
       make_node "Where"
         [name +:+ "_equal1_out"; name +:+ "_1_itype"; name +:+ "_rsum1_out"]
         [name +:+ "_where_out"] [];
       make_named_node "Div" [name +:+ "_mul3_out"; name +:+ "_where_out"]
         [name] name []] /\
    (forall s,
       guarded_sum prec emax s
       = if SFis_zero s then cast_int prec emax 1 else s) /\
    forall other inputs e',
      eval_nodes other (graph_env inputs init') (nodes_of items) = Some e' ->
      forall p q sums,
        e' !! (name +:+ "_rsum1_out") = Some (TFloat p q sums) ->
        let denominator := map (guarded_sum prec emax) sums in
        e' !! (name +:+ "_where_out") = Some (TFloat prec emax denominator) /\
        Forall (fun w => SFis_zero w = false) denominator /\
        (forall p' q' numerator r,
           e' !! (name +:+ "_mul3_out") = Some (TFloat p' q' numerator) ->
           broadcast2 (SFdiv p' q') numerator denominator = Some r ->
           e' !! name = Some (TFloat p' q' r)).
Proof.
  intros Hget Huse Haxis Hrange Htemp Hdtype Hfmt.
  destruct (create_tensor_float temperature (name +:+ "_tmp") dtype prec emax
              initializer Hfmt) as (ty & vals & Hty & Htmp).
  assert (Haxis' : Forall in_int64 [axis])
    by (constructor; [exact Hrange|constructor]).
  assert (H0 : Forall in_int64 [0])
    by (constructor; [unfold in_int64; lia|constructor]).
  assert (H1 : Forall in_int64 [1])
    by (constructor; [unfold in_int64; lia|constructor]).
  eexists _, _, _. split; [|split; [|split]].
  - unfold convert_softmax.
    rewrite Hget, lift_bind_Ret, Haxis, lift_bind_Ret.
    unfold softmax_temperature in Htemp. rewrite Htemp, lift_bind_Ret.
    cbv zeta. rewrite Hdtype, lift_bind_Ret.
    unfold item.
    change (list_get [data; length] 0) with (Ret data : pyres string).
    rewrite lift_bind_Ret, M_bind_unfold.
    erewrite (py_list_cons _ _ _ _ _ _ _ Htmp) by reflexivity.
    rewrite decide_False by discriminate.
    rewrite Huse. cbn [default]. rewrite decide_True by reflexivity.
    change (list_get [data; length] 1) with (Ret length : pyres string).
    rewrite lift_bind_Ret, M_bind_unfold.
    lazymatch goal with
    | |- match py_list ?l ?i with _ => _ end = _ =>
        eassert (Hmore : py_list l i = (Ret _, _))
    end.
    { repeat (eapply py_list_cons;
              [first [exact (create_tensor_int64 [axis] _ _ Haxis')
                     |exact (create_tensor_int64 [] _ _ (Forall_nil_2 _))
                     |exact (create_tensor_int64 [0] _ _ H0)
                     |exact (create_tensor_int64 [1] _ _ H1)
                     |reflexivity]|]).
      reflexivity. }
    rewrite Hmore. reflexivity.
  - cbn [nodes_of omap list_omap app].
    lazymatch goal with
    | |- ?ns = _ => rewrite <- (take_drop 34 ns) at 1
    end.
    reflexivity.
  - intros s. unfold guarded_sum. rewrite cast_int_0, SFeqb_zero.
    reflexivity.
  - intros other inputs e' Heval p q sums Hsums denominator.
    cbn [nodes_of omap list_omap app] in Heval.
    lazymatch type of Heval with
    | eval_nodes _ ?e _ = _ => set (e0 := e) in Heval
    end.
    assert (K0 : e0 !! (name +:+ "_0") = Some (TInt [0])).
    { subst e0. rewrite !graph_env_snoc.
      rewrite !bind_initializer_other by (cbn [t_name]; suffix_ne).
      apply (bind_initializer_ints _ _ _ [0]). }
    assert (K1 : e0 !! (name +:+ "_1") = Some (TInt [1])).
    { subst e0. rewrite !graph_env_snoc.
      rewrite !bind_initializer_other by (cbn [t_name]; suffix_ne).
      apply (bind_initializer_ints _ _ _ [1]). }
    clearbody e0.
    lazymatch type of Heval with
    | eval_nodes _ _ ?ns = _ =>
        rewrite <- (take_drop 34 ns) in Heval; cbn [take drop] in Heval
    end.
    rewrite eval_nodes_app in Heval.
    lazymatch type of Heval with
    | context [eval_nodes other e0 ?front] =>
        destruct (eval_nodes other e0 front) as [ek|] eqn:Hfront;
          [|discriminate]
    end.
    cbn [mbind option_bind] in Heval.
    do 4 frame_step Hfront.
    value_step Hfront [TInt [0]] (TFloat prec emax [cast_int prec emax 0]) KZ;
      [|cast_value Hdtype Hfmt].
    value_step Hfront [TInt [1]] (TFloat prec emax [cast_int prec emax 1]) KO;
      [|cast_value Hdtype Hfmt].
    repeat frame_step Hfront.
    cbn [eval_nodes] in Hfront. injection Hfront as ->.
    assert (KR : ek !! (name +:+ "_rsum1_out") = Some (TFloat p q sums)).
    { rewrite <- Hsums. symmetry.
      apply (eval_nodes_frame other _ _ _ _ Heval).
      repeat (apply Forall_cons; split; [not_out|]). apply Forall_nil_2. }
    value_step Heval
      [TFloat p q sums; TFloat prec emax [cast_int prec emax 0]]
      (TBool (map (fun s => SFeqb s (cast_int prec emax 0)) sums)) KE.
    2: { rewrite decide_True by reflexivity. rewrite broadcast2_one_r.
         reflexivity. }
    value_step Heval
      [TBool (map (fun s => SFeqb s (cast_int prec emax 0)) sums);
       TFloat prec emax [cast_int prec emax 1]; TFloat p q sums]
      (TFloat prec emax denominator) KW.
    2: { rewrite decide_True by reflexivity. rewrite broadcast2_one_r.
         cbn [mbind option_bind].
         rewrite broadcast2_same_length by (rewrite !length_map; reflexivity).
         rewrite guard_zip. reflexivity. }
    split; [|split].
    + frame_step Heval.
      cbn [eval_nodes] in Heval. injection Heval as ->. exact KW.
    + exact (guarded_sum_nonzero dtype prec emax sums Hfmt).
    + intros p' q' numerator r Hnum Hr.
      lazymatch type of Heval with
      | eval_nodes _ ?e _ = _ =>
          assert (KM : e !! (name +:+ "_mul3_out")
                       = Some (TFloat p' q' numerator))
      end.
      { rewrite <- Hnum. symmetry.
        apply (eval_nodes_frame other _ _ _ _ Heval).
        repeat (apply Forall_cons; split; [not_out|]). apply Forall_nil_2. }
      value_step Heval
        [TFloat p' q' numerator; TFloat prec emax denominator]
        (TFloat p' q' r) KN.
      2: { rewrite decide_False by discriminate.
           rewrite decide_True by reflexivity. rewrite Hr. reflexivity. }
      cbn [eval_nodes] in Heval. injection Heval as ->. exact KN.
Qed.

End MaskedSoftmax.

(** ** Half-precision constants *)

Section Float16Constants.
Context `{External}.

(** [create_tensor] with the dtype [np.float16] stores the bit patterns of
    the rounded values. *)
Lemma create_tensor_float16_view (tensor_list : list pyval)
    (tensor_name : string) (a : ndarray) (fs : list spec_float)
    (initializer : list TensorProto) :
  np_array tensor_list (DtObj Float16) = Ret a ->
  nd_data a = map NFloat fs ->
  create_tensor tensor_list tensor_name (DtObj Float16) initializer
  = (Ret (ItemValue (make_tensor_value_info tensor_name FLOAT16
                       (nd_shape a))),
     initializer ++
     [make_tensor tensor_name FLOAT16 (nd_shape a)
        (PyList (map (fun f => PyInt (float16_bits f)) fs))]).
Proof.
  intros Harray Hdata. unfold create_tensor.
  rewrite Harray, lift_bind_Ret.
  assert (Hd : nd_dtype a = Float16).
  { unfold np_array in Harray. cbn [resolve_dtype] in Harray.
    rewrite pyres_bind_Ret in Harray.
    destruct (for_each _ tensor_list []); [|discriminate].
    cbn in Harray. injection Harray as <-. reflexivity. }
  rewrite Hd. cbn [NP_TYPE_TO_TENSOR_TYPE]. rewrite lift_bind_Ret.
  cbn [dtype_is_np_float16]. unfold view_uint16_tolist.
  rewrite Hdata, map_map. reflexivity.
Qed.

(** The rule of [_greater_scalar] stores the bit pattern of its scalar when
    the input type is float16. *)
Lemma convert_greater_scalar_float16 (node : mx_node) (kw : kwargs)
    (initializer : list TensorProto) name x rest attrs scalar :
  get_inputs node kw = Ret (name, x :: rest, attrs) ->
  py_float (attrs_get attrs "scalar" PyNone) = Ret scalar ->
  in_type kw = FLOAT16 ->
  exists items,
    convert_greater_scalar node kw initializer = (Ret items, initializer) /\
    (attribute <$> nodes_of items !! 1%nat)
    = Some [("value",
             ATensor (make_tensor (name +:+ "_scalar") FLOAT16 [1]
                        (PyList [PyNp (mk_ndarray UInt16 []
                                         [NInt (float16_bits scalar)])])))].
Proof.
  intros Hget Hscalar Htype. eexists. split.
  - unfold convert_greater_scalar.
    rewrite Hget, lift_bind_Ret, Hscalar, lift_bind_Ret, Htype.
    reflexivity.
  - reflexivity.
Qed.

End Float16Constants.
(** ** The padding layout of a list of odd length *)

(** The invariant of the loop of [transform_padding] on a list of length
    [2n+1], after [j] pairs. *)
Lemma transform_padding_odd_pair (pad_width : list pyval) (n j : nat) w :
  length pad_width = (2 * n + 1)%nat -> (j < n)%nat ->
  length w = (2 * n + 1)%nat ->
  (forall i, (i < j)%nat ->
     w !! i = pad_width !! (2 * i)%nat /\
     w !! (n + i)%nat = pad_width !! (2 * i + 1)%nat) ->
  w !! (2 * n)%nat = Some (PyInt 0) ->
  exists w',
    for_each (transform_padding_body pad_width) [(2 * j)%nat; (2 * j + 1)%nat]
      (w, j, (n + j)%nat) = Ret (w', S j, S (n + j)) /\
    length w' = (2 * n + 1)%nat /\
    (forall i, (i < S j)%nat ->
       w' !! i = pad_width !! (2 * i)%nat /\
       w' !! (n + i)%nat = pad_width !! (2 * i + 1)%nat) /\
    w' !! (2 * n)%nat = Some (PyInt 0).
Proof.
  intros Hlen Hj Hw Hinv Hlast.
  destruct (lookup_lt_is_Some_2 pad_width (2 * j)) as [v Hv]; [lia|].
  destruct (lookup_lt_is_Some_2 pad_width (2 * j + 1)) as [v' Hv']; [lia|].
  exists (<[(n + j)%nat := v']> (<[j := v]> w)). split; [|split; [|split]].
  - unfold for_each.
    rewrite (transform_padding_body_even _ _ _ _ _ v Hv); [| |lia].
    2:{ rewrite Nat.mul_comm. apply Nat.Div0.mod_mul. }
    rewrite pyres_bind_Ret.
    rewrite (transform_padding_body_odd _ _ _ _ _ v' Hv').
    + reflexivity.
    + rewrite Nat.add_comm, Nat.mul_comm, Nat.Div0.mod_add. reflexivity.
    + rewrite length_insert. lia.
  - rewrite !length_insert. exact Hw.
  - intros i Hi. destruct (decide (i = j)) as [->|Hne].
    + split.
      * rewrite list_lookup_insert_ne by lia.
        rewrite list_lookup_insert_eq by lia. congruence.
      * rewrite list_lookup_insert_eq by (rewrite length_insert; lia).
        congruence.
    + destruct (Hinv i) as [H1 H2]; [lia|]. split.
      * rewrite !list_lookup_insert_ne by lia. exact H1.
      * rewrite !list_lookup_insert_ne by lia. exact H2.
  - rewrite !list_lookup_insert_ne by lia. exact Hlast.
Qed.

Lemma transform_padding_odd_loop (pad_width : list pyval) (n : nat) :
  length pad_width = (2 * n + 1)%nat ->
  forall m j w, (j + m = n)%nat ->
  length w = (2 * n + 1)%nat ->
  (forall i, (i < j)%nat ->
     w !! i = pad_width !! (2 * i)%nat /\
     w !! (n + i)%nat = pad_width !! (2 * i + 1)%nat) ->
  w !! (2 * n)%nat = Some (PyInt 0) ->
  exists w',
    for_each (transform_padding_body pad_width) (seq (2 * j) (2 * m))
      (w, j, (n + j)%nat) = Ret (w', n, (n + n)%nat) /\
    length w' = (2 * n + 1)%nat /\
    (forall i, (i < n)%nat ->
       w' !! i = pad_width !! (2 * i)%nat /\
       w' !! (n + i)%nat = pad_width !! (2 * i + 1)%nat) /\
    w' !! (2 * n)%nat = Some (PyInt 0).
Proof.
  intros Hlen. induction m as [|m IH]; intros j w Hjm Hw Hinv Hlast.
  - exists w. replace j with n by lia. split; [reflexivity|].
    split; [exact Hw|]. split; [|exact Hlast].
    intros i Hi. apply Hinv. lia.
  - destruct (transform_padding_odd_pair pad_width n j w Hlen ltac:(lia) Hw
                Hinv Hlast) as (w1 & Hrun & Hw1 & Hinv1 & Hlast1).
    destruct (IH (S j) w1 ltac:(lia) Hw1 Hinv1 Hlast1)
      as (w' & Hrest & Hres).
    exists w'. split; [|exact Hres].
    replace (2 * S m)%nat with (S (S (2 * m))) by lia.
    cbn [seq].
    change (?x :: ?y :: ?t) with ([x; y] ++ t). rewrite for_each_app.
    replace (S (2 * j)) with (2 * j + 1)%nat by lia.
    rewrite Hrun, pyres_bind_Ret.
    replace (S (2 * j + 1)) with (2 * S j)%nat by lia.
    replace (S (n + j)) with (n + S j)%nat by lia.
    exact Hrest.
Qed.

(** On a list of odd length [2n+1] the loop raises nothing: the result has
    the same length, holds the [n+1] entries of the even positions first,
    then the entries of the odd positions from the second one on, and ends
    with the 0 it was filled with; the entry at position 1 of the input is
    overwritten. *)
Theorem transform_padding_odd_length (pad_width : list pyval) (n : nat) :
  length pad_width = (2 * n + 1)%nat ->
  exists onnx_pad_width,
    transform_padding pad_width = Ret onnx_pad_width /\
    length onnx_pad_width = (2 * n + 1)%nat /\
    (forall i, (i <= n)%nat ->
       onnx_pad_width !! i = pad_width !! (2 * i)%nat) /\
    (forall j, (1 <= j < n)%nat ->
       onnx_pad_width !! (n + j)%nat = pad_width !! (2 * j + 1)%nat) /\
    ((1 <= n)%nat -> onnx_pad_width !! (2 * n)%nat = Some (PyInt 0)).
Proof.
  intros Hlen. destruct n as [|n].
  - destruct pad_width as [|v [|? ?]]; try discriminate.
    exists [v]. split; [reflexivity|]. split; [reflexivity|].
    split; [|split].
    + intros i Hi. replace i with 0%nat by lia. reflexivity.
    + intros j Hj. lia.
    + lia.
  - set (m := S n) in *. unfold transform_padding. rewrite Hlen.
    assert (Hhalf : ((2 * m + 1) / 2)%nat = m).
    { rewrite Nat.add_comm, Nat.mul_comm, Nat.div_add by lia. reflexivity. }
    rewrite Hhalf.
    replace (2 * m + 1)%nat with (2 * m + 1 + 0)%nat at 1 by lia.
    rewrite (seq_app (2 * m) 1 0), for_each_app.
    destruct (transform_padding_odd_loop pad_width m Hlen m 0%nat
                (replicate (2 * m + 1) (PyInt 0)) ltac:(lia)
                (length_replicate _ _) ltac:(intros i Hi; lia))
      as (w & Hrun & Hw & Hinv & Hlast).
    { apply lookup_replicate_2. lia. }
    change (2 * 0)%nat with 0%nat in Hrun.
    replace (m + 0)%nat with m in Hrun by lia.
    rewrite Hrun, pyres_bind_Ret.
    destruct (lookup_lt_is_Some_2 pad_width (2 * m)) as [v Hv]; [lia|].
    change (seq (0 + 2 * m) 1) with [(2 * m)%nat]. unfold for_each.
    rewrite (transform_padding_body_even _ _ _ _ _ v Hv); [| |lia].
    2:{ rewrite Nat.mul_comm. apply Nat.Div0.mod_mul. }
    rewrite !pyres_bind_Ret. cbn [fst].
    exists (<[m := v]> w). split; [reflexivity|].
    split; [rewrite length_insert; exact Hw|]. split; [|split].
    + intros i Hi. destruct (decide (i = m)) as [->|Hne].
      * rewrite list_lookup_insert_eq by lia. congruence.
      * rewrite list_lookup_insert_ne by lia. apply Hinv. lia.
    + intros j Hj. rewrite list_lookup_insert_ne by lia. apply Hinv. lia.
    + intros _. rewrite list_lookup_insert_ne by lia. exact Hlast.
Qed.

Lemma transform_padding_odd_length_witness :
  exists onnx_pad_width,
    transform_padding [PyInt 1; PyInt 2; PyInt 3; PyInt 4; PyInt 5]
    = Ret onnx_pad_width /\
    length onnx_pad_width = (2 * 2 + 1)%nat /\
    (forall i, (i <= 2)%nat ->
       onnx_pad_width !! i
       = [PyInt 1; PyInt 2; PyInt 3; PyInt 4; PyInt 5] !! (2 * i)%nat) /\
    (forall j, (1 <= j < 2)%nat ->
       onnx_pad_width !! (2 + j)%nat
       = [PyInt 1; PyInt 2; PyInt 3; PyInt 4; PyInt 5] !! (2 * j + 1)%nat) /\
    ((1 <= 2)%nat -> onnx_pad_width !! (2 * 2)%nat = Some (PyInt 0)).
Proof.
  apply (transform_padding_odd_length
           [PyInt 1; PyInt 2; PyInt 3; PyInt 4; PyInt 5] 2).
  reflexivity.
Defined.
(** ** Reading the inputs of a node *)

Lemma list_get_Some {A} (l : list A) (i : nat) (x : A) :
  l !! i = Some x -> list_get l i = Ret x.
Proof. unfold list_get. intros ->. reflexivity. Qed.

Lemma list_get_None {A} (l : list A) (i : nat) :
  l !! i = None -> list_get l i = Raise IndexError.
Proof. unfold list_get. intros ->. reflexivity. Qed.

Lemma get_inputs_loop (kw : kwargs) (ips : list (nat * nat * nat))
    (acc : list string) :
  for_each (fun acc (ip : nat * nat * nat) =>
      input_node_id ← list_get (index_lookup kw) ip.1.1;
      p ← list_get (proc_nodes kw) input_node_id;
      Ret (acc ++ [item_name p])) ips acc
  = match mapM (input_name kw) ips with
    | Some names => Ret (acc ++ names)
    | None => Raise IndexError
    end.
Proof.
  revert acc. induction ips as [|ip ips IH]; intros acc.
  - cbn. rewrite app_nil_r. reflexivity.
  - cbn [for_each mapM].
    destruct (index_lookup kw !! ip.1.1) as [id|] eqn:Hid.
    + rewrite (list_get_Some _ _ _ Hid), pyres_bind_Ret.
      destruct (proc_nodes kw !! id) as [p|] eqn:Hp.
      * rewrite (list_get_Some _ _ _ Hp).
        assert (input_name kw ip = Some (item_name p)) as ->.
        { unfold input_name. rewrite Hid. cbn. rewrite Hp. reflexivity. }
        rewrite !pyres_bind_Ret, IH. cbn.
        destruct (mapM (input_name kw) ips) as [names|]; cbn.
        -- rewrite <- app_assoc. reflexivity.
        -- reflexivity.
      * rewrite (list_get_None _ _ Hp).
        assert (input_name kw ip = None) as ->.
        { unfold input_name. rewrite Hid. cbn. rewrite Hp. reflexivity. }
        reflexivity.
    + rewrite (list_get_None _ _ Hid).
      assert (input_name kw ip = None) as ->.
      { unfold input_name. rewrite Hid. reflexivity. }
      reflexivity.
Qed.

(** [get_inputs] returns the node's own name and attributes and, for each
    input of the node in order, the name of the processed node that the
    index lookup gives for it; it raises an [IndexError], and nothing else,
    exactly when some input has no entry in the lookup or the lookup points
    outside the processed nodes. *)
Theorem get_inputs_resolves (node : mx_node) (kw : kwargs) :
  get_inputs node kw
  = match mapM (input_name kw) (node_inputs node) with
    | Some names => Ret (node_name node, names, node_attrs node)
    | None => Raise IndexError
    end /\
  (forall name names attrs,
     get_inputs node kw = Ret (name, names, attrs) ->
     length names = length (node_inputs node)) /\
  (get_inputs node kw = Raise IndexError <->
   exists ip, ip ∈ node_inputs node /\ input_name kw ip = None).
Proof.
  assert (Heq : get_inputs node kw
    = match mapM (input_name kw) (node_inputs node) with
      | Some names => Ret (node_name node, names, node_attrs node)
      | None => Raise IndexError
      end).
  { unfold get_inputs. rewrite get_inputs_loop.
    destruct (mapM _ _); reflexivity. }
  split; [exact Heq|]. split.
  - intros name names attrs. rewrite Heq.
    destruct (mapM _ _) as [l|] eqn:Hl; [|discriminate].
    intros [= _ <- _]. symmetry.
    exact (Forall2_length _ _ _ (mapM_Some_1 _ _ _ Hl)).
  - rewrite Heq. split.
    + destruct (mapM _ _) as [l|] eqn:Hl; [discriminate|]. intros _.
      apply mapM_None_1 in Hl. apply Exists_exists in Hl as (ip & Hin & Hip).
      exists ip. split; [exact Hin | exact Hip].
    + intros (ip & Hin & Hip).
      destruct (mapM _ _) as [l|] eqn:Hl; [|reflexivity]. exfalso.
      apply mapM_Some_1 in Hl.
      apply list_elem_of_lookup in Hin as [i Hi].
      destruct (Forall2_lookup_l _ _ _ _ _ Hl Hi) as (y & _ & Hy).
      congruence.
Qed.
(** ** Integers and their decimal notation *)

Lemma pretty_N_char_digit (d : N) :
  (d < 10)%N ->
  is_digit (pretty_N_char d) = true /\
  digit_value (pretty_N_char d) = Z.of_N d.
Proof.
  intros Hd.
  assert (d = 0 \/ d = 1 \/ d = 2 \/ d = 3 \/ d = 4 \/ d = 5 \/ d = 6
          \/ d = 7 \/ d = 8 \/ d = 9)%N as Hcases by lia.
  repeat (destruct Hcases as [->|Hcases]; [split; reflexivity|]).
  subst d. split; reflexivity.
Qed.

Lemma int_digits_app (l t : list ascii) (acc : Z) :
  Forall (fun c => is_digit c = true) l ->
  exists v,
    0 <= v /\
    int_digits acc (l ++ t)
    = int_digits (acc * 10 ^ Z.of_nat (length l) + v) t /\
    forall acc', int_digits acc' (l ++ t)
                 = int_digits (acc' * 10 ^ Z.of_nat (length l) + v) t.
Proof.
  intros Hl. revert acc. induction Hl as [|c l Hc Hl IH]; intros acc.
  - exists 0. split; [lia|]. split; intros;
      cbn [app length]; f_equal; change (Z.of_nat 0) with 0; lia.
  - destruct (IH acc) as (v & Hv & _ & Hall).
    exists (digit_value c * 10 ^ Z.of_nat (length l) + v).
    assert (0 <= digit_value c).
    { unfold is_digit in Hc. unfold digit_value.
      apply andb_true_iff in Hc as [Hc _]. apply N.leb_le in Hc. lia. }
    assert (Hstep : forall a,
              int_digits a ((c :: l) ++ t)
              = int_digits
                  (a * 10 ^ Z.of_nat (length (c :: l))
                   + (digit_value c * 10 ^ Z.of_nat (length l) + v)) t).
    { intros a. cbn [app int_digits]. rewrite Hc, Hall. f_equal.
      cbn [length]. rewrite Nat2Z.inj_succ, Z.pow_succ_r by lia. lia. }
    split; [nia|]. split; [apply Hstep | exact Hstep].
Qed.

(** The digits of a positive number, as [pretty] writes them in front of
    what it has written so far. *)
Lemma pretty_N_go_digits (x : N) :
  (0 < x)%N ->
  exists l,
    l <> [] /\ Forall (fun c => is_digit c = true) l /\
    (forall s, chars (pretty_N_go x s) = l ++ chars s) /\
    (forall acc t, int_digits acc (l ++ t)
                   = int_digits (acc * 10 ^ Z.of_nat (length l) + Z.of_N x) t).
Proof.
  induction (N.lt_wf_0 x) as [x _ IH]. intros Hx.
  pose proof (N.mod_lt x 10 ltac:(lia)) as Hmod.
  destruct (pretty_N_char_digit _ Hmod) as [Hdig Hval].
  destruct (decide (x / 10 = 0)%N) as [Hzero|Hpos].
  - exists [pretty_N_char (x mod 10)]. split; [discriminate|].
    split; [repeat constructor; exact Hdig|]. split.
    + intros s. rewrite pretty_N_go_step by exact Hx.
      rewrite Hzero, pretty_N_go_0. reflexivity.
    + intros acc t. cbn [app int_digits length]. rewrite Hdig, Hval.
      f_equal. pose proof (N.div_mod x 10 ltac:(lia)) as Hdm.
      rewrite Hzero, N.mul_0_r, N.add_0_l in Hdm. rewrite <- Hdm.
      change (Z.of_nat 1) with 1. rewrite Z.pow_1_r. lia.
  - destruct (IH (x / 10)%N) as (l & Hne & Hl & Hpre & Hparse).
    { apply N.div_lt; lia. }
    { apply N.neq_0_lt_0. exact Hpos. }
    exists (l ++ [pretty_N_char (x mod 10)]). split; [|split; [|split]].
    + destruct l; discriminate.
    + apply Forall_app. split; [exact Hl|]. repeat constructor. exact Hdig.
    + intros s. rewrite pretty_N_go_step by exact Hx. rewrite Hpre.
      rewrite <- app_assoc. reflexivity.
    + intros acc t. rewrite <- app_assoc, Hparse.
      cbn [app int_digits]. rewrite Hdig, Hval. f_equal.
      rewrite length_app. cbn [length].
      rewrite Nat2Z.inj_add, Z.pow_add_r by lia.
      change (Z.of_nat 1) with 1. rewrite Z.pow_1_r.
      pose proof (N.div_mod x 10 ltac:(lia)) as Hdm.
      remember (x mod 10)%N as b. remember (x / 10)%N as a.
      rewrite Hdm. lia.
Qed.

Lemma int_unsigned_digits (l : list ascii) (v : Z) :
  l <> [] -> Forall (fun c => is_digit c = true) l ->
  (forall acc t, int_digits acc (l ++ t)
                 = int_digits (acc * 10 ^ Z.of_nat (length l) + v) t) ->
  int_unsigned l = Some v.
Proof.
  intros Hne Hl Hparse. destruct l as [|c l]; [congruence|].
  inversion Hl as [|? ? Hc Hl']; subst.
  unfold int_unsigned. rewrite Hc.
  specialize (Hparse 0 []). rewrite app_nil_r in Hparse.
  cbn [int_digits] in Hparse. rewrite Hc in Hparse.
  replace (10 * 0 + digit_value c) with (digit_value c) in Hparse by lia.
  rewrite Hparse. cbn [int_digits]. f_equal; lia.
Qed.

Lemma lstrip_not_space (c : ascii) (l : list ascii) :
  is_space c = false -> lstrip (c :: l) = c :: l.
Proof. intros Hc. cbn. rewrite Hc. reflexivity. Qed.

Lemma is_digit_not_space (c : ascii) : is_digit c = true -> is_space c = false.
Proof.
  unfold is_digit, is_space. intros Hc.
  apply andb_true_iff in Hc as [H1 H2].
  apply N.leb_le in H1. apply N.leb_le in H2.
  apply orb_false_iff. split; apply andb_false_iff.
  - right. apply N.leb_gt. lia.
  - right. apply N.leb_gt. lia.
Qed.

(** White space is stripped at both ends only: a string that begins and
    ends with something else is left as it is. *)
Lemma strip_chars_plain_ends (l : list ascii) (a b : ascii) (m : list ascii) :
  l = a :: m -> last l = Some b ->
  is_space a = false -> is_space b = false -> strip_chars l = l.
Proof.
  intros -> Hlast Ha Hb. unfold strip_chars.
  rewrite (lstrip_not_space _ _ Ha).
  destruct (rev (a :: m)) as [|c r] eqn:Hrev.
  { apply (f_equal (@length _)) in Hrev. rewrite length_rev in Hrev.
    discriminate. }
  assert (c = b) as ->.
  { rewrite <- (rev_involutive (a :: m)) in Hlast. rewrite Hrev in Hlast.
    cbn [rev] in Hlast. rewrite last_snoc in Hlast. congruence. }
  rewrite (lstrip_not_space _ _ Hb), <- Hrev. apply rev_involutive.
Qed.

Lemma strip_chars_digits (l : list ascii) :
  l <> [] -> Forall (fun c => is_digit c = true) l -> strip_chars l = l.
Proof.
  intros Hne Hl. destruct l as [|a m]; [congruence|].
  destruct (last (a :: m)) as [b|] eqn:Hlast.
  - apply (strip_chars_plain_ends _ a b m eq_refl Hlast).
    + apply is_digit_not_space. inversion Hl; assumption.
    + apply is_digit_not_space.
      apply (proj1 (Forall_forall _ _) Hl b).
      apply last_Some_elem_of in Hlast. exact Hlast.
  - apply last_None in Hlast. discriminate.
Qed.

(** [int(str(z)) = z]: the digits [str_of_Z] writes, with the sign in
    front, and [int] reads them back. *)
Lemma str_of_Z_digits (z : Z) :
  exists sign l,
    chars (str_of_Z z) = sign ++ l /\
    (sign = [] /\ 0 <= z \/ sign = ["-"%char] /\ z < 0) /\
    l <> [] /\ Forall (fun c => is_digit c = true) l /\
    int_unsigned l = Some (Z.abs z).
Proof.
  unfold str_of_Z, pretty, pretty_Z. destruct z as [|p|p].
  - exists [], ["0"%char]. split; [reflexivity|]. split; [left; split; [reflexivity|lia]|].
    split; [discriminate|]. split; [repeat constructor|reflexivity].
  - destruct (pretty_N_go_digits (Npos p) ltac:(lia))
      as (l & Hne & Hl & Hpre & Hparse).
    exists [], l. unfold pretty, pretty_positive, pretty, pretty_N.
    rewrite decide_False by discriminate. rewrite Hpre, app_nil_r.
    split; [reflexivity|]. split; [left; split; [reflexivity|lia]|].
    split; [exact Hne|]. split; [exact Hl|].
    exact (int_unsigned_digits l _ Hne Hl Hparse).
  - destruct (pretty_N_go_digits (Npos p) ltac:(lia))
      as (l & Hne & Hl & Hpre & Hparse).
    exists ["-"%char], l. unfold pretty, pretty_positive, pretty, pretty_N.
    rewrite decide_False by discriminate.
    change (chars ("-" +:+ ?s)) with ("-"%char :: chars s).
    rewrite Hpre, app_nil_r.
    split; [reflexivity|]. split; [right; split; [reflexivity|lia]|].
    split; [exact Hne|]. split; [exact Hl|].
    exact (int_unsigned_digits l _ Hne Hl Hparse).
Qed.
Lemma chars_str_of (l : list ascii) : chars (str_of l) = l.
Proof. apply list_ascii_of_string_of_list_ascii. Qed.

Lemma str_of_chars (s : string) : str_of (chars s) = s.
Proof. apply string_of_list_ascii_of_string. Qed.

Lemma is_digit_kept (c : ascii) : is_digit c = true -> is_kept c = true.
Proof.
  intros Hc. unfold is_kept. rewrite (is_digit_not_space c Hc). cbn [negb andb].
  unfold is_digit in Hc. apply andb_true_iff in Hc as [H1 H2].
  apply N.leb_le in H1. apply N.leb_le in H2.
  assert (Hne : forall d, (N_of_ascii d < 48 \/ 57 < N_of_ascii d)%N ->
                          ascii_eqb c d = false).
  { intros d Hd. unfold ascii_eqb. apply Ascii.eqb_neq. intros ->. lia. }
  cbn [existsb]. rewrite !Hne by (vm_compute; auto). reflexivity.
Qed.

Lemma int_of_chars_str_of_Z (z : Z) :
  int_of_chars (chars (str_of_Z z)) = Some z.
Proof.
  destruct (str_of_Z_digits z) as (sign & l & -> & Hsign & Hne & Hl & Hint).
  destruct l as [|c l]; [congruence|].
  assert (Hc : is_digit c = true) by (inversion Hl; assumption).
  destruct (last (c :: l)) as [b|] eqn:Hlast;
    [|apply last_None in Hlast; discriminate].
  assert (Hb : is_space b = false).
  { apply is_digit_not_space. apply (proj1 (Forall_forall _ _) Hl b).
    apply last_Some_elem_of. exact Hlast. }
  unfold int_of_chars. destruct Hsign as [[-> Hz]|[-> Hz]].
  - cbn [app].
    rewrite (strip_chars_plain_ends _ c b l eq_refl Hlast
               (is_digit_not_space c Hc) Hb).
    assert (ascii_eqb c "-" = false /\ ascii_eqb c "+" = false) as [-> ->].
    { unfold is_digit in Hc. apply andb_true_iff in Hc as [H1 H2].
      apply N.leb_le in H1. apply N.leb_le in H2.
      split; apply Ascii.eqb_neq; intros ->; vm_compute in H1; congruence. }
    rewrite Hint. f_equal. lia.
  - cbn [app].
    rewrite (strip_chars_plain_ends ("-"%char :: c :: l) "-"%char b (c :: l)
               eq_refl); [|exact Hlast|reflexivity|exact Hb].
    change (ascii_eqb "-" "-") with true. cbv iota.
    rewrite Hint. cbn [option_map]. f_equal. lia.
Qed.

Lemma py_repr_item_kept (x : option Z) :
  py_repr_item x <> [] /\ Forall (fun c => is_kept c = true) (py_repr_item x).
Proof.
  destruct x as [z|]; cbn [py_repr_item].
  - destruct (str_of_Z_digits z) as (sign & l & -> & Hsign & Hne & Hl & _).
    split; [destruct sign, l; try discriminate; congruence|].
    apply Forall_app. split.
    + destruct Hsign as [[-> _]|[-> _]]; repeat constructor.
    + eapply Forall_impl; [exact Hl|]. exact is_digit_kept.
  - split; [discriminate|]. repeat constructor.
Qed.

Lemma kept_ends (r : list ascii) :
  r <> [] -> Forall (fun c => is_kept c = true) r ->
  exists a m b, r = a :: m /\ last r = Some b /\
                is_space a = false /\ is_space b = false.
Proof.
  intros Hne Hr. destruct r as [|a m]; [congruence|].
  destruct (last (a :: m)) as [b|] eqn:Hlast;
    [|apply last_None in Hlast; discriminate].
  exists a, m, b. split; [reflexivity|]. split; [reflexivity|].
  assert (Hsp : forall c, c ∈ a :: m -> is_space c = false).
  { intros c Hc. apply (proj1 (Forall_forall _ _) Hr) in Hc.
    unfold is_kept in Hc. apply andb_true_iff in Hc as [Hc _].
    apply negb_true_iff in Hc. exact Hc. }
  split; apply Hsp; [left | apply last_Some_elem_of; exact Hlast].
Qed.

(** The five replacements of [convert_string_to_list], without the
    stripping. *)
Lemma remove_chars_kept (r : list ascii) :
  Forall (fun c => is_kept c = true) r ->
  remove_char "]" (remove_char "[" (remove_char "L" (remove_char ")"
    (remove_char "(" r)))) = r.
Proof.
  intros Hr.
  assert (Hone : forall d l,
            d ∈ ["("%char; ")"%char; "L"%char; "["%char; "]"%char] ->
            Forall (fun c => is_kept c = true) l -> remove_char d l = l).
  { intros d l Hd Hl. unfold remove_char.
    induction Hl as [|c l Hc Hl IH]; [reflexivity|]. cbn [List.filter].
    assert (ascii_eqb c d = false) as ->.
    { unfold is_kept in Hc. apply andb_true_iff in Hc as [_ Hc].
      apply negb_true_iff in Hc.
      destruct (ascii_eqb c d) eqn:E; [|reflexivity].
      apply Ascii.eqb_eq in E. subst d. exfalso.
      repeat (apply elem_of_cons in Hd as [->|Hd];
              [vm_compute in Hc; discriminate|]).
      inversion Hd. }
    cbn [negb]. rewrite IH. reflexivity. }
  assert (Hin : forall d, d ∈ ["("%char; ")"%char; "L"%char; "["%char;
                                 "]"%char] -> remove_char d r = r)
    by (intros d Hd; exact (Hone d r Hd Hr)).
  rewrite (Hin "("%char), (Hin ")"%char), (Hin "L"%char), (Hin "["%char),
    (Hin "]"%char);
    [reflexivity|..];
    repeat first [apply list_elem_of_here | apply list_elem_of_further].
Qed.

Lemma clean_element_piece (pre r post : list ascii) :
  r <> [] -> Forall (fun c => is_kept c = true) r ->
  pre ∈ [[]; chars "("; chars " "; chars "["] ->
  post ∈ [[]; chars ")"; chars "]"] ->
  clean_element (pre ++ r ++ post) = r.
Proof.
  intros Hne Hr Hpre Hpost.
  destruct (kept_ends r Hne Hr) as (a & m & b & -> & Hlast & Ha & Hb).
  assert (Hstrip : exists pre',
            pre' ∈ [[]; chars "("; chars "["] /\
            strip_chars (pre ++ (a :: m) ++ post) = pre' ++ (a :: m) ++ post).
  { assert (Hplain : forall pre', pre' ∈ [[]; chars "("; chars "["] ->
              strip_chars (pre' ++ (a :: m) ++ post)
              = pre' ++ (a :: m) ++ post).
    { intros pre' Hpre'.
      assert (Hl : exists b', last (pre' ++ (a :: m) ++ post) = Some b' /\
                              is_space b' = false).
      { repeat (apply elem_of_cons in Hpost as [->|Hpost]);
          [..|inversion Hpost].
        - exists b. rewrite app_nil_r, last_app, Hlast. auto.
        - exists ")"%char. rewrite !last_app. auto.
        - exists "]"%char. rewrite !last_app. auto. }
      destruct Hl as (b' & Hl & Hb').
      repeat (apply elem_of_cons in Hpre' as [->|Hpre']);
        [..|inversion Hpre'].
      - exact (strip_chars_plain_ends _ a b' _ eq_refl Hl Ha Hb').
      - exact (strip_chars_plain_ends _ "("%char b' _ eq_refl Hl eq_refl Hb').
      - exact (strip_chars_plain_ends _ "["%char b' _ eq_refl Hl eq_refl Hb'). }
    repeat (apply elem_of_cons in Hpre as [->|Hpre]); [..|inversion Hpre].
    - exists []. split; [left|]. apply Hplain. left.
    - exists (chars "("). split; [right; left|]. apply Hplain. right; left.
    - exists []. split; [left|].
      transitivity (strip_chars ([] ++ (a :: m) ++ post));
        [reflexivity | apply Hplain; left].
    - exists (chars "["). split; [do 2 right; left|].
      apply Hplain. do 2 right; left. }
  destruct Hstrip as (pre' & Hpre' & Hstrip).
  unfold clean_element. rewrite Hstrip. unfold remove_char.
  rewrite !List.filter_app.
  transitivity ([] ++ (a :: m) ++ []);
    [|cbn [app]; rewrite app_nil_r; reflexivity].
  f_equal; [|f_equal].
  - repeat (apply elem_of_cons in Hpre' as [->|Hpre']);
      [..|inversion Hpre']; reflexivity.
  - exact (remove_chars_kept (a :: m) Hr).
  - repeat (apply elem_of_cons in Hpost as [->|Hpost]);
      [..|inversion Hpost]; reflexivity.
Qed.

Lemma split_on_piece (sep : ascii) (p rest : list ascii) :
  Forall (fun c => ascii_eqb c sep = false) p ->
  split_on sep (p ++ sep :: rest) = p :: split_on sep rest.
Proof.
  intros Hp. induction Hp as [|c p Hc Hp IH]; cbn [app split_on].
  - unfold ascii_eqb. rewrite Ascii.eqb_refl. reflexivity.
  - rewrite Hc, IH. reflexivity.
Qed.

Lemma split_on_last (sep : ascii) (p : list ascii) :
  Forall (fun c => ascii_eqb c sep = false) p -> split_on sep p = [p].
Proof.
  intros Hp. induction Hp as [|c p Hc Hp IH]; cbn [split_on]; [reflexivity|].
  rewrite Hc, IH. reflexivity.
Qed.

Lemma kept_no_comma (r : list ascii) :
  Forall (fun c => is_kept c = true) r ->
  Forall (fun c => ascii_eqb c "," = false) r.
Proof.
  intros Hr. eapply Forall_impl; [exact Hr|].
  intros c Hc. unfold is_kept in Hc.
  apply andb_true_iff in Hc as [_ Hc]. apply negb_true_iff in Hc.
  cbn [existsb] in Hc. repeat (apply orb_false_iff in Hc as [? Hc]).
  assumption.
Qed.

Lemma convert_string_to_list_body_item (acc : list pyval) (x : option Z)
    (pre post : list ascii) :
  pre ∈ [[]; chars "("; chars " "; chars "["] ->
  post ∈ [[]; chars ")"; chars "]"] ->
  convert_string_to_list_body acc (pre ++ py_repr_item x ++ post)
  = Ret (acc ++ [py_of_item x]).
Proof.
  intros Hpre Hpost. destruct (py_repr_item_kept x) as [Hne Hkept].
  unfold convert_string_to_list_body.
  rewrite (clean_element_piece pre _ post Hne Hkept Hpre Hpost).
  destruct x as [z|]; cbn [py_repr_item py_of_item].
  - rewrite str_of_chars.
    assert (Hnone : str_of_Z z <> "None").
    { intros Heq. pose proof (int_of_chars_str_of_Z z) as Hint.
      rewrite Heq in Hint. discriminate. }
    assert (Hempty : str_of_Z z <> "").
    { intros Heq. pose proof (int_of_chars_str_of_Z z) as Hint.
      rewrite Heq in Hint. discriminate. }
    rewrite decide_False by exact Hnone.
    rewrite bool_decide_eq_false_2 by exact Hempty. cbn [negb].
    rewrite int_of_chars_str_of_Z. reflexivity.
  - rewrite str_of_chars. rewrite decide_True by reflexivity. reflexivity.
Qed.

Lemma convert_string_to_list_items (l : list (option Z)) (x : option Z)
    (pre post : list ascii) (acc : list pyval) :
  pre ∈ [chars "("; chars " "; chars "["] ->
  post ∈ [chars ")"; chars "]"] ->
  for_each convert_string_to_list_body
    (split_on "," (pre ++ py_repr_items (x :: l) ++ post)) acc
  = Ret (acc ++ map py_of_item (x :: l)).
Proof.
  intros Hpre Hpost. revert x pre acc Hpre.
  induction l as [|y l IH]; intros x pre acc Hpre.
  - cbn [py_repr_items map].
    destruct (py_repr_item_kept x) as [_ Hkept].
    rewrite split_on_last.
    + cbn [for_each]. rewrite convert_string_to_list_body_item.
      * reflexivity.
      * right. exact Hpre.
      * right. exact Hpost.
    + apply Forall_app. split; [|apply Forall_app; split].
      * repeat (apply elem_of_cons in Hpre as [->|Hpre]);
          [..|inversion Hpre]; repeat constructor.
      * exact (kept_no_comma _ Hkept).
      * repeat (apply elem_of_cons in Hpost as [->|Hpost]);
          [..|inversion Hpost]; repeat constructor.
  - change (py_repr_items (x :: y :: l))
      with (py_repr_item x ++ chars ", " ++ py_repr_items (y :: l)).
    destruct (py_repr_item_kept x) as [_ Hkept].
    transitivity
      (for_each convert_string_to_list_body
         (split_on ","
            ((pre ++ py_repr_item x ++ []) ++ ","%char ::
             (chars " " ++ py_repr_items (y :: l) ++ post))) acc).
    { f_equal. f_equal. rewrite app_nil_r, <- !app_assoc. reflexivity. }
    rewrite split_on_piece.
    + cbn [for_each]. rewrite convert_string_to_list_body_item.
      * rewrite pyres_bind_Ret, IH.
        -- cbn [map]. rewrite <- app_assoc. reflexivity.
        -- right. left.
      * right. exact Hpre.
      * left.
    + apply Forall_app. split; [|apply Forall_app; split].
      * repeat (apply elem_of_cons in Hpre as [->|Hpre]);
          [..|inversion Hpre]; repeat constructor.
      * exact (kept_no_comma _ Hkept).
      * constructor.
Qed.

Lemma convert_string_to_list_repr (l : list (option Z)) :
  convert_string_to_list (Some (py_repr_tuple l)) = Ret (map py_of_item l) /\
  convert_string_to_list (Some (py_repr_list l)) = Ret (map py_of_item l).
Proof.
  unfold convert_string_to_list, py_repr_tuple, py_repr_list.
  rewrite !chars_str_of. split.
  - destruct l as [|x [|y l]].
    + reflexivity.
    + destruct (py_repr_item_kept x) as [_ Hkept].
      transitivity
        (for_each convert_string_to_list_body
           (split_on "," ((chars "(" ++ py_repr_item x ++ []) ++
                          ","%char :: chars ")")) []).
      { f_equal. f_equal. rewrite app_nil_r, <- !app_assoc. reflexivity. }
      rewrite split_on_piece.
      * cbn [for_each]. rewrite convert_string_to_list_body_item.
        -- reflexivity.
        -- right. left.
        -- left.
      * apply Forall_app. split; [repeat constructor|].
        apply Forall_app. split; [exact (kept_no_comma _ Hkept)|constructor].
    + apply (convert_string_to_list_items (y :: l) x).
      * left.
      * left.
  - destruct l as [|x l].
    + reflexivity.
    + apply (convert_string_to_list_items l x).
      * do 2 right. left.
      * right. left.
Qed.

(** [convert_string_to_list] reads back what Python writes for a tuple or
    a list of integers and [None]s: [(1, 2)], the one-element tuple [(5,)]
    with its trailing comma, the empty [()], and [[1, None]]. *)
Theorem convert_string_to_list_reads_repr (l : list (option Z)) :
  convert_string_to_list (Some (py_repr_tuple l)) = Ret (map py_of_item l) /\
  convert_string_to_list (Some (py_repr_list l)) = Ret (map py_of_item l).
Proof. exact (convert_string_to_list_repr l). Qed.
(** ** Further rules: activations *)

Section ActivationRules.
Context `{External}.

(** The rule of [Activation] knows five activation types, which it lowers
    to one node of the matching operator, named after the source node; for
    any other type it raises an [AttributeError] that names the type, and a
    node without [act_type] raises a [KeyError]. The initializers are left
    as they were. *)
Theorem convert_activation_outcomes (node : mx_node) (kw : kwargs)
    (initializer : list TensorProto) name input_nodes attrs :
  get_inputs node kw = Ret (name, input_nodes, attrs) ->
  (attrs !! "act_type" = None ->
   convert_activation node kw initializer = (Raise KeyError, initializer)) /\
  (forall act_type, attrs !! "act_type" = Some act_type ->
     (forall act_name, (act_type, act_name) ∈ act_types ->
        convert_activation node kw initializer
        = (Ret [ItemNode (make_named_node act_name input_nodes [name] name
                            [])], initializer)) /\
     (act_type ∉ act_types.*1 ->
        convert_activation node kw initializer
        = (Raise (AttributeError
                    ("Activation " +:+ act_type +:+
                     " not implemented or recognized in the converter")),
           initializer))).
Proof.
  intros Hget. unfold convert_activation. rewrite Hget, lift_bind_Ret.
  unfold attrs_item. split.
  - intros ->. reflexivity.
  - intros act_type ->. rewrite lift_bind_Ret. split.
    + intros act_name Hin.
      assert (Hlook : (list_to_map act_types : gmap string string)
                        !! act_type = Some act_name).
      { apply elem_of_list_to_map_1; [|exact Hin].
        apply (bool_decide_unpack (NoDup act_types.*1)). vm_compute. exact I. }
      rewrite Hlook.
      repeat (apply elem_of_cons in Hin as [[= -> ->]|Hin]);
        [..|inversion Hin]; reflexivity.
    + intros Hnot.
      rewrite (not_elem_of_list_to_map_1 _ _ Hnot). reflexivity.
Qed.

(** The rule of [LeakyReLU] never emits an [Elu] node: the activation type
    [elu] is a substring of [gelu], so it takes the branch of the error
    function, whose nodes are Div, Erf, Add, Mul and Mul. *)
Theorem convert_leakyrelu_never_emits_elu (node : mx_node) (kw : kwargs)
    (initializer : list TensorProto) :
  returns_op "Elu" (convert_leakyrelu node kw initializer).1 = false /\
  (forall name x rest attrs alpha,
     get_inputs node kw = Ret (name, x :: rest, attrs) ->
     attrs !! "act_type" = Some "elu" ->
     py_float (attrs_get attrs "slope" (PyFloat SF_quarter)) = Ret alpha ->
     exists items init',
       convert_leakyrelu node kw initializer = (Ret items, init') /\
       map op_type (nodes_of items) = ["Div"; "Erf"; "Add"; "Mul"; "Mul"] /\
       map t_name (drop (length initializer) init')
       = [name +:+ "_sqrt2"; name +:+ "_one"; name +:+ "_half"]).
Proof.
  split.
  - unfold convert_leakyrelu. rewrite M_bind_unfold. cbn [lift].
    destruct (get_inputs node kw) as [[[name inputs] attrs]|e];
      [|reflexivity].
    rewrite M_bind_unfold. cbn [lift].
    destruct (py_float _) as [alpha|e]; [|reflexivity].
    set (act_type := default "leaky" (attrs !! "act_type")).
    destruct (bool_decide (act_type = "prelu") || bool_decide (act_type = "selu"))
      eqn:Hfirst.
    + apply orb_true_iff in Hfirst as [Heq|Heq];
        apply bool_decide_eq_true in Heq; rewrite Heq; reflexivity.
    + destruct (is_substring act_type "gelu") eqn:Hsub.
      * destruct inputs as [|x rest]; reflexivity.
      * rewrite M_bind_unfold. cbn [lift].
        destruct ((list_to_map leaky_act_name : gmap string string)
                    !! act_type) as [op|] eqn:Hop; [|reflexivity].
        apply elem_of_list_to_map_2 in Hop.
        repeat (apply elem_of_cons in Hop as [[= Ha ->]|Hop]);
          [..|inversion Hop]; try reflexivity.
        rewrite Ha in Hsub. discriminate Hsub.
  - intros name x rest attrs alpha Hget Hact Halpha.
    unfold convert_leakyrelu.
    rewrite Hget, lift_bind_Ret, Halpha, lift_bind_Ret, Hact.
    eexists _, _. split; [reflexivity|]. split; [reflexivity|].
    cbn [default]. rewrite <- !app_assoc, drop_app_length. reflexivity.
Qed.

End ActivationRules.
(** ** Further rules: matrix product, reshape and squeeze *)

Section ShapeRules.
Context `{External}.

(** The rule of [_linalg_gemm2] on a node with two inputs [a] and [b]:
    the list ends with a MatMul node named after the source node, and no
    node carries an attribute, so the factor [alpha] is dropped. With only
    [transpose_a] set the product reads the transposed [a], with only
    [transpose_b] set the transposed [b]; in every other case, also when
    both are set, it reads [a] and [b] themselves. *)
Theorem convert_linalg_gemm2_product (node : mx_node) (kw : kwargs)
    (initializer : list TensorProto) name a b attrs alpha :
  get_inputs node kw = Ret (name, [a; b], attrs) ->
  py_float (attrs_get attrs "alpha" (PyFloat SF_one)) = Ret alpha ->
  let trans_a := get_boolean_attribute_value attrs "transpose_a" in
  let trans_b := get_boolean_attribute_value attrs "transpose_b" in
  let op_name := "transpose" +:+ str_of_Z (idx kw) in
  exists items,
    convert_linalg_gemm2 node kw initializer = (Ret items, initializer) /\
    Forall (fun n => attribute n = []) (nodes_of items) /\
    last items
    = Some (ItemNode
              (make_named_node "MatMul"
                 (if (trans_a =? 1) && (trans_b =? 0)
                  then [op_name +:+ "_a"; b]
                  else if (trans_a =? 0) && (trans_b =? 1)
                  then [a; op_name +:+ "_b"]
                  else [a; b])
                 [name] name [])) /\
    (trans_a = 1 -> trans_b = 1 ->
     items
     = [ItemNode (make_named_node "Transpose" [a] [op_name +:+ "_a"]
                    (op_name +:+ "_a") []);
        ItemNode (make_named_node "Transpose" [b] [op_name +:+ "_b"]
                    (op_name +:+ "_b") []);
        ItemNode (make_named_node "MatMul" [a; b] [name] name [])]).
Proof.
  intros Hget Halpha trans_a trans_b op_name.
  unfold convert_linalg_gemm2.
  rewrite Hget, lift_bind_Ret, Halpha, lift_bind_Ret.
  fold trans_a trans_b op_name.
  assert (Ha : trans_a = 0 \/ trans_a = 1).
  { unfold trans_a, get_boolean_attribute_value.
    destruct (attrs !! "transpose_a"); [destruct (_ || _)|]; auto. }
  assert (Hb : trans_b = 0 \/ trans_b = 1).
  { unfold trans_b, get_boolean_attribute_value.
    destruct (attrs !! "transpose_b"); [destruct (_ || _)|]; auto. }
  destruct Ha as [-> | ->], Hb as [-> | ->];
    destruct (SFeqb alpha SF_one);
    (eexists; split; [reflexivity|]; split; [repeat constructor|];
     split; [reflexivity|]; intros; (discriminate || reflexivity)).
Qed.

(** The rule of [Reshape] refuses the target shape values -2, -3 and -4:
    if one occurs, it raises an [AttributeError] that carries one of them
    and nothing is appended to the initializers. A target shape of other
    integers is stored as an [int64] constant, and without [reverse] the
    rule returns one Reshape node that takes it. *)
Theorem convert_reshape_outcomes (node : mx_node) (kw : kwargs)
    (initializer : list TensorProto) name x rest attrs shape zs :
  get_inputs node kw = Ret (name, x :: rest, attrs) ->
  attrs !! "shape" = Some shape ->
  convert_string_to_list (Some shape) = Ret (map PyInt zs) ->
  ((exists z, z ∈ zs /\ z ∈ not_supported_shape) ->
   exists z, z ∈ zs /\ z ∈ not_supported_shape /\
     convert_reshape node kw initializer
     = (Raise (reshape_not_supported z), initializer)) /\
  ((forall z, z ∈ zs -> z ∉ not_supported_shape) ->
   Forall in_int64 zs ->
   default "False" (attrs !! "reverse") = "False" ->
   convert_reshape node kw initializer
   = (Ret [ItemValue (make_tensor_value_info (name +:+ "_targ_shape") INT64
                        [Z.of_nat (length zs)]);
           ItemNode (make_named_node "Reshape"
                       [x; name +:+ "_targ_shape"] [name] name [])],
      initializer ++
      [make_tensor (name +:+ "_targ_shape") INT64 [Z.of_nat (length zs)]
         (PyList (map PyInt zs))])).
Proof.
  intros Hget Hshape Hparse.
  set (check := fun (_ : unit) (val : pyval) =>
         match val with
         | PyInt z =>
             if bool_decide (z ∈ not_supported_shape)
             then Raise (reshape_not_supported z) else Ret tt
         | _ => Ret tt
         end).
  assert (Hcheck : forall l,
            (forall z, z ∈ l -> z ∉ not_supported_shape) /\
            for_each check (map PyInt l) tt = Ret tt \/
            exists z, z ∈ l /\ z ∈ not_supported_shape /\
              for_each check (map PyInt l) tt
              = Raise (reshape_not_supported z)).
  { induction l as [|z l IH].
    - left. split; [intros z Hz; inversion Hz | reflexivity].
    - cbn [map for_each].
      change (check tt (PyInt z))
        with (if bool_decide (z ∈ not_supported_shape)
              then Raise (reshape_not_supported z) else Ret tt).
      destruct (bool_decide (z ∈ not_supported_shape)) eqn:Hz.
      + right. exists z. apply bool_decide_eq_true in Hz.
        split; [left|]. split; [exact Hz | reflexivity].
      + apply bool_decide_eq_false in Hz. rewrite pyres_bind_Ret.
        destruct IH as [[Hall Hrun]|(z' & Hin & Hbad & Hrun)].
        * left. split; [|exact Hrun].
          intros z' Hz'. apply elem_of_cons in Hz' as [->|Hz'];
            [exact Hz | exact (Hall z' Hz')].
        * right. exists z'. split; [right; exact Hin|].
          split; [exact Hbad | exact Hrun]. }
  unfold convert_reshape, attrs_item.
  rewrite Hget, lift_bind_Ret, Hshape, lift_bind_Ret, Hparse, lift_bind_Ret.
  fold check. split.
  - intros (z & Hin & Hbad).
    destruct (Hcheck zs) as [[Hall _]|(z' & Hin' & Hbad' & Hfail)].
    + exfalso. exact (Hall z Hin Hbad).
    + exists z'. split; [exact Hin'|]. split; [exact Hbad'|].
      rewrite Hfail. reflexivity.
  - intros Hall Hrange Hrev.
    destruct (Hcheck zs) as [[_ Hok]|(z' & Hin' & Hbad' & _)].
    + rewrite Hok, lift_bind_Ret, M_bind_unfold.
      cbn [py_list]. rewrite M_bind_unfold.
      rewrite (create_tensor_int64 zs _ _ Hrange).
      rewrite Hrev. reflexivity.
    + exfalso. exact (Hall z' Hin' Hbad').
Qed.

End ShapeRules.
(** ** Further rules: squeeze, stack and the samplers *)

Section AxisRules.
Context `{External}.

(** The rule of [squeeze] requires the axis: without the attribute, or
    with an empty one, it raises its own [AttributeError]; with the tuple
    that Python writes for a list of axes it returns one Squeeze node that
    holds these axes. *)
Theorem convert_squeeze_requires_axis (node : mx_node) (kw : kwargs)
    (initializer : list TensorProto) name input_nodes attrs :
  get_inputs node kw = Ret (name, input_nodes, attrs) ->
  ((attrs !! "axis" = None \/ attrs !! "axis" = Some "") ->
   convert_squeeze node kw initializer
   = (Raise squeeze_missing_axis, initializer)) /\
  (forall axes : list (option Z),
     attrs !! "axis" = Some (py_repr_tuple axes) ->
     convert_squeeze node kw initializer
     = (Ret [ItemNode (make_named_node "Squeeze" input_nodes [name] name
                         [("axes", AVal (PyList (map py_of_item axes)))])],
        initializer)).
Proof.
  intros Hget. unfold convert_squeeze. rewrite Hget, lift_bind_Ret. split.
  - intros [-> | ->]; reflexivity.
  - intros axes ->.
    assert (Hne : py_repr_tuple axes <> "").
    { unfold py_repr_tuple. destruct axes as [|? [|? ?]]; discriminate. }
    rewrite bool_decide_eq_false_2 by exact Hne.
    rewrite (proj1 (convert_string_to_list_repr axes)), lift_bind_Ret.
    reflexivity.
Qed.

End AxisRules.
Section StackRule.
Context `{External}.

Lemma convert_stack_loop (name : string) (axis : Z) (inputs : list string)
    (nodes : list NodeProto) (k : nat) :
  fold_left (fun (st : list NodeProto * Z) (input_node : string) =>
               let '(nodes, idx) := st in
               (nodes ++ [make_node "Unsqueeze" [input_node]
                            [name +:+ "_unsqueeze" +:+ str_of_Z idx]
                            [("axes", ints [axis])]],
                idx + 1))
            inputs (nodes, Z.of_nat k)
  = (nodes ++
     imap (fun i input_node =>
             make_node "Unsqueeze" [input_node]
               [name +:+ "_unsqueeze" +:+ str_of_Z (Z.of_nat (k + i))]
               [("axes", ints [axis])]) inputs,
     Z.of_nat (k + length inputs)).
Proof.
  revert nodes k. induction inputs as [|x inputs IH]; intros nodes k.
  - cbn. rewrite app_nil_r, Nat.add_0_r. reflexivity.
  - cbn [fold_left imap length].
    replace (Z.of_nat k + 1) with (Z.of_nat (S k)) by lia.
    rewrite IH, <- app_assoc. cbn [app]. f_equal.
    + f_equal. rewrite Nat.add_0_r. f_equal.
      apply imap_ext. intros i y _. cbn.
      replace (S (k + i))%nat with (k + S i)%nat by lia. reflexivity.
    + f_equal. lia.
Qed.

(** The rule of [stack], for any number of inputs: one Unsqueeze node per
    input, in order, whose output is numbered by the position of the input,
    then a Concat node named after the source node that takes exactly these
    outputs, in the same order. *)
Theorem convert_stack_nodes (node : mx_node) (kw : kwargs)
    (initializer : list TensorProto) name input_nodes attrs axis :
  get_inputs node kw = Ret (name, input_nodes, attrs) ->
  py_int (attrs_get attrs "axis" (PyInt 0)) = Ret axis ->
  let unsqueeze (i : nat) (input_node : string) :=
    make_node "Unsqueeze" [input_node]
      [name +:+ "_unsqueeze" +:+ str_of_Z (Z.of_nat i)]
      [("axes", ints [axis])] in
  let nodes := imap unsqueeze input_nodes in
  convert_stack node kw initializer
  = (Ret (map ItemNode
            (nodes ++
             [make_named_node "Concat" (flat_map output nodes) [name] name
                [("axis", int_attr axis)]])),
     initializer) /\
  length nodes = length input_nodes.
Proof.
  intros Hget Haxis unsqueeze nodes. split; [|apply length_imap].
  unfold convert_stack. rewrite Hget, lift_bind_Ret, Haxis, lift_bind_Ret.
  pose proof (convert_stack_loop name axis input_nodes [] 0) as Hloop.
  change (Z.of_nat 0) with 0 in Hloop. rewrite Hloop. clear Hloop.
  cbn [app Nat.add].
  fold unsqueeze. fold nodes.
  assert (Hout : forall (l : list string) (k : nat),
            map (fun i => name +:+ "_unsqueeze" +:+ str_of_Z i)
                (map Z.of_nat (seq k (length l)))
            = flat_map output
                (imap (fun i => unsqueeze (k + i)%nat) l)).
  { induction l as [|x l IH]; intros k; [reflexivity|].
    cbn [length seq map imap flat_map output make_node app].
    unfold unsqueeze at 1. cbn [output make_node app].
    rewrite Nat.add_0_r. f_equal. rewrite (IH (S k)). f_equal.
    apply imap_ext. intros i y _. cbn.
    replace (S (k + i))%nat with (k + S i)%nat by lia. reflexivity. }
  unfold py_range. rewrite Nat2Z.id.
  replace (length nodes) with (length input_nodes)
    by (symmetry; apply length_imap).
  rewrite (Hout input_nodes 0%nat). reflexivity.
Qed.

End StackRule.
Section RejectingRules.
Context `{External}.

(** The rule of [_sample_multinomial] takes a sample size of one entry
    only: a shape of two or more entries raises its [AttributeError], an
    empty one an [IndexError], and a single entry becomes the [sample_size]
    of the Multinomial node. *)
Theorem convert_multinomial_sample_size (node : mx_node) (kw : kwargs)
    (initializer : list TensorProto) name input_nodes attrs d dtype
    sample_size :
  get_inputs node kw = Ret (name, input_nodes, attrs) ->
  np_dtype_of_string (default "int32" (attrs !! "dtype")) = Ret d ->
  NP_TYPE_TO_TENSOR_TYPE d = Ret dtype ->
  convert_string_to_list (Some (default "1" (attrs !! "shape")))
  = Ret sample_size ->
  convert_multinomial node kw initializer
  = (match sample_size with
     | [] => Raise IndexError
     | [size] =>
         Ret [ItemNode (make_named_node "Multinomial" input_nodes [name] name
                          [("dtype", int_attr dtype);
                           ("sample_size", AVal size)])]
     | _ :: _ :: _ =>
         Raise (AttributeError
                  "ONNX currently supports integer sample_size only")
     end, initializer).
Proof.
  intros Hget Hd Hdtype Hsize. unfold convert_multinomial.
  rewrite Hget, lift_bind_Ret, Hd, lift_bind_Ret, Hdtype, lift_bind_Ret,
    Hsize, lift_bind_Ret.
  destruct sample_size as [|size [|size' rest]]; reflexivity.
Qed.

(** The rule of [log_softmax] refuses a temperature: any value of the
    attribute but the string [None] raises its [AttributeError]; otherwise
    it returns one LogSoftmax node on the axis of the source node, -1 by
    default. *)
Theorem convert_logsoftmax_temperature (node : mx_node) (kw : kwargs)
    (initializer : list TensorProto) name input_nodes attrs axis :
  get_inputs node kw = Ret (name, input_nodes, attrs) ->
  py_int (attrs_get attrs "axis" (PyInt (-1))) = Ret axis ->
  (forall temp, attrs !! "temperature" = Some temp -> temp <> "None" ->
     convert_logsoftmax node kw initializer
     = (Raise (AttributeError
                 "LogSoftMax: ONNX supports only temperature=None"),
        initializer)) /\
  ((attrs !! "temperature" = None \/ attrs !! "temperature" = Some "None") ->
   convert_logsoftmax node kw initializer
   = (Ret [ItemNode (make_named_node "LogSoftmax" input_nodes [name] name
                       [("axis", int_attr axis)])], initializer)).
Proof.
  intros Hget Haxis. unfold convert_logsoftmax.
  rewrite Hget, lift_bind_Ret, Haxis, lift_bind_Ret. split.
  - intros temp -> Hne. cbn [default].
    rewrite bool_decide_eq_false_2 by exact Hne. reflexivity.
  - intros [-> | ->]; reflexivity.
Qed.

(** The rule of [_contrib_AdaptiveAvgPooling2D] accepts the output sizes
    [1] and [1, 1], for which it returns a GlobalAveragePool node; it raises
    its [NotImplementedError] for any other size of one or two entries, and
    an [IndexError] for an empty one. A size of three or more entries is
    not looked at: the rule returns the GlobalAveragePool node whatever the
    entries are. *)
Theorem convert_contrib_AdaptiveAvgPooling2D_output_size (node : mx_node)
    (kw : kwargs) (initializer : list TensorProto) name x rest attrs
    output_size :
  get_inputs node kw = Ret (name, x :: rest, attrs) ->
  convert_string_to_list (Some (default "1" (attrs !! "output_size")))
  = Ret output_size ->
  let pooled :=
    Ret [ItemNode (make_named_node "GlobalAveragePool" [x] [name] name [])] in
  convert_contrib_AdaptiveAvgPooling2D node kw initializer
  = (match output_size with
     | [] => Raise IndexError
     | [h] =>
         if py_ne_int h 1 then Raise adaptive_pool_not_implemented
         else pooled
     | [h; w] =>
         if py_ne_int h 1 || py_ne_int w 1
         then Raise adaptive_pool_not_implemented else pooled
     | _ :: _ :: _ :: _ => pooled
     end, initializer).
Proof.
  intros Hget Hsize pooled. unfold convert_contrib_AdaptiveAvgPooling2D.
  rewrite Hget, lift_bind_Ret, Hsize, lift_bind_Ret.
  destruct output_size as [|h [|w [|d more]]]; try reflexivity.
  - cbn. destruct (py_ne_int h 1); reflexivity.
  - cbn. destruct (py_ne_int h 1); [reflexivity|].
    destruct (py_ne_int w 1); reflexivity.
Qed.

(** The reductions. Without the [axis] attribute the rules of [min],
    [max], [mean], [prod] and [sum] return a node without [axes]; with the
    tuple Python writes for some axes they return a node that holds these
    axes. For the empty tuple [()] the first four pass an empty list of
    axes, while the rule of [sum] leaves the attribute out. *)
Theorem reduce_rules_axes (node : mx_node) (kw : kwargs)
    (initializer : list TensorProto) name input_nodes attrs :
  get_inputs node kw = Ret (name, input_nodes, attrs) ->
  let keepdims := get_boolean_attribute_value attrs "keepdims" in
  let reduce op (axes : option (list pyval)) :=
    (Ret [ItemNode (make_named_node op input_nodes [name] name
                      (match axes with
                       | Some l => [("axes", AVal (PyList l))]
                       | None => []
                       end ++ [("keepdims", int_attr keepdims)]))],
     initializer) in
  (attrs !! "axis" = None ->
   convert_min node kw initializer = reduce "ReduceMin" None /\
   convert_max node kw initializer = reduce "ReduceMax" None /\
   convert_mean node kw initializer = reduce "ReduceMean" None /\
   convert_prod node kw initializer = reduce "ReduceProd" None /\
   convert_sum node kw initializer = reduce "ReduceSum" None) /\
  (forall axes : list (option Z),
     attrs !! "axis" = Some (py_repr_tuple axes) ->
     let l := map py_of_item axes in
     convert_min node kw initializer = reduce "ReduceMin" (Some l) /\
     convert_max node kw initializer = reduce "ReduceMax" (Some l) /\
     convert_mean node kw initializer = reduce "ReduceMean" (Some l) /\
     convert_prod node kw initializer = reduce "ReduceProd" (Some l) /\
     convert_sum node kw initializer
     = reduce "ReduceSum" (match axes with [] => None | _ => Some l end)).
Proof.
  intros Hget keepdims reduce.
  unfold convert_min, convert_max, convert_mean, convert_prod,
    reduce_axes_not_none, convert_sum.
  rewrite Hget, !lift_bind_Ret. split.
  - intros ->. repeat split; reflexivity.
  - intros axes Haxis. cbv zeta. rewrite Haxis.
    rewrite (proj1 (convert_string_to_list_repr axes)).
    repeat split; try reflexivity.
    destruct axes as [|a axes]; [reflexivity|].
    subst reduce. cbn [map]. reflexivity.
Qed.

End RejectingRules.
Lemma is_digit_not_sign (c : ascii) :
  is_digit c = true -> ascii_eqb c "-" = false /\ ascii_eqb c "+" = false.
Proof.
  intros Hc. unfold is_digit in Hc. apply andb_true_iff in Hc as [H1 H2].
  apply N.leb_le in H1. apply N.leb_le in H2.
  split; apply Ascii.eqb_neq; intros ->; vm_compute in H1; congruence.
Qed.

Lemma int_of_chars_digits (l : list ascii) (v : Z) :
  l <> [] -> Forall (fun c => is_digit c = true) l ->
  int_unsigned l = Some v -> int_of_chars l = Some v.
Proof.
  intros Hne Hl Hint. unfold int_of_chars.
  rewrite (strip_chars_digits l Hne Hl).
  destruct l as [|c l]; [congruence|].
  assert (Hc : is_digit c = true) by (inversion Hl; assumption).
  destruct (is_digit_not_sign c Hc) as [-> ->]. exact Hint.
Qed.

Lemma digit_runs_from_digits (run l t : list ascii) :
  Forall (fun c => is_digit c = true) l ->
  digit_runs_from run (l ++ t) = digit_runs_from (run ++ l) t.
Proof.
  intros Hl. revert run.
  induction Hl as [|c l Hc Hl IH]; intros run; cbn [app digit_runs_from].
  - rewrite app_nil_r. reflexivity.
  - rewrite Hc, IH, <- app_assoc. reflexivity.
Qed.

(** A run of digits that a character other than a digit ends. *)
Lemma digit_runs_from_run (l : list ascii) (c : ascii) (t : list ascii) :
  l <> [] -> Forall (fun c => is_digit c = true) l -> is_digit c = false ->
  digit_runs_from [] (l ++ c :: t) = l :: digit_runs_from [] t.
Proof.
  intros Hne Hl Hc. rewrite (digit_runs_from_digits [] l _ Hl).
  cbn [app digit_runs_from]. rewrite Hc.
  destruct l; [congruence|reflexivity].
Qed.

(** One entry of a tuple, with a sign or without, gives one run: the digits
    of its absolute value. *)
Lemma digit_runs_item (z : Z) (c : ascii) (t : list ascii) :
  is_digit c = false ->
  exists l, int_of_chars l = Some (Z.abs z) /\
    digit_runs_from [] (chars (str_of_Z z) ++ c :: t)
    = l :: digit_runs_from [] t.
Proof.
  intros Hc.
  destruct (str_of_Z_digits z) as (sign & l & -> & Hsign & Hne & Hl & Hint).
  exists l. split; [apply int_of_chars_digits; assumption|].
  rewrite <- app_assoc.
  destruct Hsign as [[-> _]|[-> _]]; cbn [app digit_runs_from is_digit];
    [|change (is_digit "-") with false; cbv iota];
    apply digit_runs_from_run; assumption.
Qed.

Lemma perm_body_Some (acc : list pyval) (run : list ascii) (z : Z) :
  int_of_chars run = Some z -> perm_body acc run = Ret (acc ++ [PyInt z]).
Proof. intros Hint. unfold perm_body. rewrite Hint. reflexivity. Qed.

Lemma transpose_runs (zs : list Z) (z : Z) (post : list ascii)
    (acc : list pyval) :
  post ∈ [chars ")"; chars ",)"] ->
  for_each perm_body
    (digit_runs_from [] (py_repr_items (map Some (z :: zs)) ++ post)) acc
  = Ret (acc ++ map (fun x => PyInt (Z.abs x)) (z :: zs)).
Proof.
  intros Hpost. revert z acc.
  induction zs as [|y zs IH]; intros z acc.
  - cbn [map py_repr_items py_repr_item].
    assert (exists c t, post = c :: t /\ is_digit c = false /\
                        digit_runs_from [] t = []) as (c & t & -> & Hc & Ht).
    { apply elem_of_cons in Hpost as [->| Hpost].
      - exists ")"%char, []. repeat split; reflexivity.
      - apply list_elem_of_singleton in Hpost as ->.
        exists ","%char, [")"%char]. repeat split; reflexivity. }
    destruct (digit_runs_item z c t Hc) as (l & Hint & ->).
    rewrite Ht. cbn [for_each]. rewrite (perm_body_Some _ _ _ Hint).
    reflexivity.
  - change (py_repr_items (map Some (z :: y :: zs)))
      with (py_repr_item (Some z) ++ chars ", " ++
            py_repr_items (map Some (y :: zs))).
    cbn [py_repr_item]. rewrite <- !app_assoc.
    change (chars ", " ++ ?r) with (","%char :: " "%char :: r).
    destruct (digit_runs_item z ","
                (" "%char :: py_repr_items (map Some (y :: zs)) ++ post)
                eq_refl) as (l & Hint & ->).
    cbn [for_each]. rewrite (perm_body_Some _ _ _ Hint).
    change (digit_runs_from [] (" "%char :: ?r)) with (digit_runs_from [] r).
    rewrite pyres_bind_Ret, IH.
    rewrite <- app_assoc. reflexivity.
Qed.

Section TransposeRule.
Context `{External}.

(** The rule of [transpose] reads the axes with [re.findall(r'\d+')], which
    drops the signs: for the tuple Python writes for the axes [zs], the
    permutation of the Transpose node holds the absolute values of [zs].
    Without the attribute, or with an empty one, the node has no [perm]. *)
Theorem convert_transpose_drops_signs (node : mx_node) (kw : kwargs)
    (initializer : list TensorProto) name input_nodes attrs :
  get_inputs node kw = Ret (name, input_nodes, attrs) ->
  (forall zs : list Z,
     attrs !! "axes" = Some (py_repr_tuple (map Some zs)) ->
     convert_transpose node kw initializer
     = (Ret [ItemNode (make_named_node "Transpose" input_nodes [name] name
                         [("perm",
                           AVal (PyTuple (map (fun z => PyInt (Z.abs z))
                                            zs)))])],
        initializer)) /\
  (attrs !! "axes" = None \/ attrs !! "axes" = Some "" ->
   convert_transpose node kw initializer
   = (Ret [ItemNode (make_named_node "Transpose" input_nodes [name] name [])],
      initializer)).
Proof.
  intros Hget. unfold convert_transpose. rewrite Hget, lift_bind_Ret. split.
  - intros zs ->.
    assert (Hruns :
      for_each perm_body (digit_runs (py_repr_tuple (map Some zs))) []
      = Ret (map (fun z => PyInt (Z.abs z)) zs)).
    { unfold digit_runs, py_repr_tuple. rewrite chars_str_of.
      destruct zs as [|z [|y zs]].
      - reflexivity.
      - change (chars "(" ++ ?r) with ("("%char :: r).
        change (digit_runs_from [] ("("%char :: ?r))
          with (digit_runs_from [] r).
        apply (transpose_runs [] z (chars ",)") []).
        apply list_elem_of_further, list_elem_of_here.
      - change (chars "(" ++ ?r) with ("("%char :: r).
        change (digit_runs_from [] ("("%char :: ?r))
          with (digit_runs_from [] r).
        apply (transpose_runs (y :: zs) z (chars ")") []).
        apply list_elem_of_here. }
    destruct (py_repr_tuple (map Some zs)) as [|c s] eqn:Hrepr.
    { exfalso. apply (f_equal chars) in Hrepr. unfold py_repr_tuple in Hrepr.
      rewrite chars_str_of in Hrepr.
      destruct zs as [|z [|y zs]]; discriminate. }
    rewrite Hruns. reflexivity.
  - intros [-> | ->]; reflexivity.
Qed.

End TransposeRule.
Lemma pretty_N_go_head (x : N) :
  (0 < x)%N ->
  forall s, exists c t,
    chars (pretty_N_go x s) = c :: t /\ c <> "0"%char.
Proof.
  induction (N.lt_wf_0 x) as [x _ IH]. intros Hx s.
  rewrite pretty_N_go_step by exact Hx.
  destruct (decide (x / 10 = 0)%N) as [Hzero|Hpos].
  - rewrite Hzero, pretty_N_go_0.
    exists (pretty_N_char (x mod 10)), (chars s). split; [reflexivity|].
    intros Hc.
    pose proof (N.mod_lt x 10 ltac:(lia)) as Hmod.
    apply (pretty_N_char_inj (x mod 10) 0 Hmod ltac:(lia)) in Hc.
    pose proof (N.div_mod x 10 ltac:(lia)) as Hdm.
    rewrite Hzero, Hc in Hdm. lia.
  - apply IH.
    + apply N.div_lt; lia.
    + apply N.neq_0_lt_0. exact Hpos.
Qed.

Lemma int_digits_fold (l : list ascii) (acc : Z) :
  Forall (fun c => is_digit c = true) l ->
  int_digits acc l
  = Some (fold_left (fun a x => 10 * a + digit_value x) l acc).
Proof.
  intros Hl. revert acc.
  induction Hl as [|c l Hc Hl IH]; intros acc; cbn [int_digits fold_left].
  - reflexivity.
  - rewrite Hc. apply IH.
Qed.

(** [str] of a natural number: digits without a leading zero, whose value
    is the number. *)
Lemma str_of_Z_nonneg (z : Z) :
  0 <= z ->
  exists l,
    chars (str_of_Z z) = l /\ l <> [] /\
    Forall (fun c => is_digit c = true) l /\
    fold_left (fun a x => 10 * a + digit_value x) l 0 = z /\
    (forall d a b, l = d :: a :: b -> d <> "0"%char).
Proof.
  intros Hz.
  destruct (str_of_Z_digits z) as (sign & l & Hchars & Hsign & Hne & Hl & Hint).
  destruct Hsign as [[-> _]|[_ Hneg]]; [|lia]. cbn [app] in Hchars.
  exists l. split; [exact Hchars|]. split; [exact Hne|].
  split; [exact Hl|]. split.
  - destruct l as [|c t]; [congruence|]. cbn [int_unsigned] in Hint.
    inversion Hl as [|? ? Hc Ht]; subst. rewrite Hc in Hint.
    rewrite (int_digits_fold t _ Ht) in Hint.
    cbn [fold_left]. change (10 * 0 + digit_value c) with (digit_value c).
    injection Hint as ->. lia.
  - intros d a b ->. destruct z as [|p|p]; [discriminate| |lia].
    unfold str_of_Z, pretty, pretty_Z, pretty, pretty_positive, pretty,
      pretty_N in Hchars.
    rewrite decide_False in Hchars by discriminate.
    destruct (pretty_N_go_head (Npos p) ltac:(lia) "") as (c & t & Hc & Hc0).
    rewrite Hc in Hchars. injection Hchars as -> _. exact Hc0.
Qed.

Lemma digit_run_app (l : list ascii) (c : ascii) (r : list ascii) :
  Forall (fun c => is_digit c = true) l -> is_digit c = false ->
  digit_run (l ++ c :: r) = (l, c :: r).
Proof.
  intros Hl Hc. induction Hl as [|d l Hd Hl IH]; cbn [app digit_run].
  - rewrite Hc. reflexivity.
  - rewrite Hd, IH. reflexivity.
Qed.

Lemma number_token_plain (l : list ascii) (c : ascii) (r : list ascii) :
  (forall d a b, l = d :: a :: b -> d <> "0"%char) ->
  ascii_eqb c "L" = false ->
  number_token l (c :: r)
  = TNum (fold_left (fun a x => 10 * a + digit_value x) l 0).
Proof.
  intros Hhead Hc. unfold number_token. rewrite Hc.
  destruct l as [|d [|a b]]; try reflexivity.
  assert (Hd : ascii_eqb d "0" = false).
  { apply Ascii.eqb_neq. exact (Hhead d a b eq_refl). }
  rewrite Hd. reflexivity.
Qed.

(** The tokenizer on the digits of a natural number that a comma or a
    parenthesis follows. *)
Lemma tokenize_number (z : Z) (c : ascii) (r : list ascii) (fuel : nat) :
  0 <= z -> is_digit c = false -> ascii_eqb c "L" = false ->
  tokenize (S fuel) (chars (str_of_Z z) ++ c :: r)
  = TNum z :: tokenize fuel (c :: r).
Proof.
  intros Hz Hc HL.
  destruct (str_of_Z_nonneg z Hz) as (l & -> & Hne & Hl & Hval & Hhead).
  destruct l as [|d l]; [congruence|].
  assert (Hd : is_digit d = true) by (inversion Hl; assumption).
  change ((d :: l) ++ c :: r) with (d :: (l ++ c :: r)).
  cbn [tokenize].
  assert (ascii_eqb d " " = false /\ ascii_eqb d "(" = false /\
          ascii_eqb d ")" = false /\ ascii_eqb d "," = false /\
          ascii_eqb d "|" = false /\ ascii_eqb d "L" = false)
    as (-> & -> & -> & -> & -> & ->).
  { unfold is_digit in Hd. apply andb_true_iff in Hd as [H1 H2].
    apply N.leb_le in H1. apply N.leb_le in H2.
    repeat split; apply Ascii.eqb_neq; intros ->;
      vm_compute in H1; vm_compute in H2; congruence. }
  rewrite Hd.
  change (d :: (l ++ c :: r)) with ((d :: l) ++ c :: r).
  rewrite (digit_run_app (d :: l) c r Hl Hc).
  rewrite (number_token_plain (d :: l) c r Hhead HL), Hval. reflexivity.
Qed.
Lemma py_repr_items_cons (x : option Z) (l : list (option Z)) :
  py_repr_items (x :: l)
  = py_repr_item x ++
    match l with [] => [] | _ => chars ", " ++ py_repr_items l end.
Proof. destruct l; cbn [py_repr_items]; [rewrite app_nil_r|]; reflexivity. Qed.

(** The closing characters of a tuple, and their tokens. *)
Lemma tokenize_close (post : list ascii) (fuel : nat) :
  post ∈ [chars ")"; chars ",)"] -> (length post < fuel)%nat ->
  exists c r ts,
    post = c :: r /\ is_digit c = false /\ ascii_eqb c "L" = false /\
    tokenize fuel post = ts /\ ts ∈ [[TRpar]; [TComma; TRpar]] /\
    (ts = [TRpar] <-> post = chars ")").
Proof.
  intros Hpost Hfuel. apply elem_of_cons in Hpost as [->| Hpost].
  - exists ")"%char, [], [TRpar]. cbn in Hfuel.
    destruct fuel as [|[|fuel]]; try lia.
    repeat split; try reflexivity. apply list_elem_of_here.
  - apply list_elem_of_singleton in Hpost as ->.
    exists ","%char, [")"%char], [TComma; TRpar]. cbn in Hfuel.
    destruct fuel as [|[|[|fuel]]]; try lia.
    repeat split; try reflexivity; try discriminate.
    apply list_elem_of_further, list_elem_of_here.
Qed.

Lemma tokenize_items (zs : list Z) (z : Z) (post : list ascii) (fuel : nat) :
  Forall (fun z => 0 <= z) (z :: zs) ->
  post ∈ [chars ")"; chars ",)"] ->
  (length (py_repr_items (map Some (z :: zs)) ++ post) < fuel)%nat ->
  exists ts,
    tokenize fuel (py_repr_items (map Some (z :: zs)) ++ post)
    = TNum z :: more_tokens zs ts /\
    ts ∈ [[TRpar]; [TComma; TRpar]] /\
    (ts = [TRpar] <-> post = chars ")").
Proof.
  intros Hzs Hpost. revert z fuel Hzs.
  induction zs as [|y zs IH]; intros z fuel Hzs Hfuel.
  - cbn [map py_repr_items py_repr_item] in *.
    inversion Hzs as [|? ? Hz _]; subst.
    rewrite length_app in Hfuel.
    destruct fuel as [|fuel]; [lia|].
    assert (Hlen : (length post < fuel)%nat).
    { destruct (str_of_Z_nonneg z Hz) as (l & Hl & Hne & _).
      rewrite Hl in Hfuel. destruct l; [congruence|]. cbn in Hfuel. lia. }
    destruct (tokenize_close post fuel Hpost Hlen)
      as (c & r & ts & -> & Hc & HL & Htok & Hts & Hiff).
    exists ts. rewrite (tokenize_number z c r fuel Hz Hc HL), Htok.
    repeat split; [exact Hts|apply Hiff|apply Hiff].
  - inversion Hzs as [|? ? Hz Hrest]; subst.
    change (map Some (z :: y :: zs)) with (Some z :: map Some (y :: zs)) in *.
    rewrite py_repr_items_cons in *.
    change (map Some (y :: zs)) with (Some y :: map Some zs) in *.
    cbv iota in *.
    change (Some y :: map Some zs) with (map Some (y :: zs)) in *.
    cbn [py_repr_item] in *. rewrite <- !app_assoc in *.
    change (chars ", " ++ ?r) with (","%char :: " "%char :: r) in *.
    rewrite length_app in Hfuel. cbn [length] in Hfuel.
    assert (Hdigits : (0 < length (chars (str_of_Z z)))%nat).
    { destruct (str_of_Z_nonneg z Hz) as (l & -> & Hne & _).
      destruct l; [congruence|cbn; lia]. }
    destruct fuel as [|[|[|fuel]]]; try lia.
    rewrite (tokenize_number z "," _ _ Hz eq_refl eq_refl).
    change (tokenize (S (S fuel)) (","%char :: " "%char :: ?r))
      with (TComma :: tokenize fuel r).
    destruct (IH y fuel Hrest ltac:(lia)) as (ts & -> & Hts & Hiff).
    exists ts. repeat split; [exact Hts|apply Hiff|apply Hiff].
Qed.

Lemma parse_or_expr_number (z : Z) (zs : list Z) (ts : list token) :
  ts ∈ [[TRpar]; [TComma; TRpar]] ->
  parse_or_expr (TNum z :: more_tokens zs ts)
  = Some (Some z, more_tokens zs ts).
Proof.
  intros Hts. cbn [parse_or_expr atom_value].
  destruct zs as [|y zs]; [|reflexivity]. cbn [more_tokens].
  apply elem_of_cons in Hts as [->| Hts]; [reflexivity|].
  apply list_elem_of_singleton in Hts as ->. reflexivity.
Qed.

Lemma parse_more_tokens (zs : list Z) (ts : list token) (fuel : nat) :
  ts ∈ [[TRpar]; [TComma; TRpar]] ->
  (length (more_tokens zs ts) < fuel)%nat ->
  parse_more fuel (more_tokens zs ts) = Some (map Some zs).
Proof.
  intros Hts. revert fuel.
  induction zs as [|y zs IH]; intros fuel Hfuel.
  - cbn [more_tokens] in *. destruct fuel as [|fuel]; [lia|].
    apply elem_of_cons in Hts as [->| Hts]; [reflexivity|].
    apply list_elem_of_singleton in Hts as ->. reflexivity.
  - cbn [more_tokens length] in Hfuel. destruct fuel as [|fuel]; [lia|].
    change (more_tokens (y :: zs) ts)
      with (TComma :: TNum y :: more_tokens zs ts).
    change (parse_more (S fuel) (TComma :: TNum y :: more_tokens zs ts))
      with (match parse_or_expr (TNum y :: more_tokens zs ts) with
            | Some (v, rest') =>
                match parse_more fuel rest' with
                | Some vs => Some (v :: vs)
                | None => None
                end
            | None => None
            end).
    rewrite (parse_or_expr_number y zs ts Hts), IH by lia. reflexivity.
Qed.

Lemma all_values_Some (zs : list Z) : all_values (map Some zs) = Some zs.
Proof.
  induction zs as [|z zs IH]; [reflexivity|].
  cbn [map all_values]. rewrite IH. reflexivity.
Qed.

(** [eval] reads the tuple Python writes for some natural numbers back. *)
Lemma py_eval_dims_repr (zs : list Z) :
  zs <> [] -> Forall (fun z => 0 <= z) zs ->
  py_eval_dims (py_repr_tuple (map Some zs)) = Ret (PyTuple (map PyInt zs)).
Proof.
  intros Hne Hzs. destruct zs as [|z zs]; [congruence|].
  unfold py_eval_dims. rewrite <- chars_length.
  assert (Hshape : exists post,
            post ∈ [chars ")"; chars ",)"] /\
            (post = chars ")" -> zs <> []) /\
            chars (py_repr_tuple (map Some (z :: zs)))
            = "("%char :: py_repr_items (map Some (z :: zs)) ++ post).
  { unfold py_repr_tuple. rewrite chars_str_of. destruct zs as [|y zs].
    - exists (chars ",)"). split; [apply list_elem_of_further, list_elem_of_here|].
      split; [discriminate|reflexivity].
    - exists (chars ")"). split; [apply list_elem_of_here|].
      split; [discriminate|reflexivity]. }
  destruct Hshape as (post & Hpost & Hsingle & ->).
  cbn [length].
  change (tokenize (S (S ?n)) ("("%char :: ?r)) with (TLpar :: tokenize (S n) r).
  destruct (tokenize_items zs z post _ Hzs Hpost (Nat.lt_succ_diag_r _))
    as (ts & -> & Hts & Hiff).
  cbv iota.
  rewrite (parse_or_expr_number z zs ts Hts).
  pose proof (parse_more_tokens zs ts _ Hts (Nat.lt_succ_diag_r _)) as Hmore.
  destruct (more_tokens zs ts) as [|t1 rest] eqn:Hmt.
  { destruct zs; cbn in Hmt; [|discriminate]. subst ts.
    apply elem_of_cons in Hts as [Hts| Hts]; [discriminate|].
    apply list_elem_of_singleton in Hts. discriminate. }
  assert (Hnot : t1 :: rest <> [TRpar]).
  { intros Heq. destruct zs as [|y zs]; cbn in Hmt; [|congruence].
    subst ts. apply Hiff in Heq. apply Hsingle in Heq. congruence. }
  assert (Hgo :
    match parse_more (S (length (t1 :: rest))) (t1 :: rest) with
    | Some vs =>
        match all_values (Some z :: vs) with
        | Some zs => Ret (PyTuple (map PyInt zs))
        | None => Raise NameError
        end
    | None => Raise SyntaxError
    end = Ret (PyTuple (map PyInt (z :: zs)))).
  { rewrite Hmore. cbn [all_values]. rewrite all_values_Some. reflexivity. }
  destruct t1; try exact Hgo.
  destruct rest; [congruence|exact Hgo].
Qed.
Lemma is_kept_not_paren (c : ascii) :
  is_kept c = true -> ascii_eqb c "(" = false /\ ascii_eqb c ")" = false.
Proof.
  unfold is_kept. intros Hc. apply andb_true_iff in Hc as [_ Hc].
  apply negb_true_iff in Hc. cbn [existsb] in Hc.
  apply orb_false_iff in Hc as [H1 Hc].
  apply orb_false_iff in Hc as [H2 _]. split; assumption.
Qed.

Lemma py_repr_items_no_paren (l : list (option Z)) :
  Forall (fun c => ascii_eqb c "(" = false /\ ascii_eqb c ")" = false)
    (py_repr_items l).
Proof.
  induction l as [|x l IH]; [constructor|].
  rewrite py_repr_items_cons. apply Forall_app. split.
  - eapply Forall_impl; [exact (proj2 (py_repr_item_kept x))|].
    intros c Hc. apply is_kept_not_paren. exact Hc.
  - destruct l as [|y l]; [constructor|].
    apply Forall_app. split; [|exact IH].
    repeat constructor.
Qed.

Lemma py_repr_items_class (zs : list Z) :
  Forall (fun z => 0 <= z) zs ->
  Forall (fun c => in_tuple_class c = true) (py_repr_items (map Some zs)).
Proof.
  induction 1 as [|z zs Hz Hzs IH]; [constructor|].
  cbn [map]. rewrite py_repr_items_cons. apply Forall_app. split.
  - cbn [py_repr_item].
    destruct (str_of_Z_nonneg z Hz) as (l & -> & _ & Hl & _).
    eapply Forall_impl; [exact Hl|].
    intros c Hc. unfold in_tuple_class. rewrite Hc. reflexivity.
  - destruct zs as [|y zs]; [constructor|].
    apply Forall_app. split; [|exact IH]. repeat constructor.
Qed.

Lemma py_repr_items_minus (zs : list Z) :
  Exists (fun z => z < 0) zs ->
  Exists (fun c => in_tuple_class c = false) (py_repr_items (map Some zs)).
Proof.
  induction 1 as [z zs Hz|z zs Hzs IH]; cbn [map];
    rewrite py_repr_items_cons; apply Exists_app.
  - left. cbn [py_repr_item].
    destruct (str_of_Z_digits z) as (sign & l & -> & Hsign & _).
    destruct Hsign as [[_ Hpos]|[-> _]]; [lia|].
    apply Exists_cons_hd. reflexivity.
  - right. destruct zs as [|y zs]; [inversion Hzs|].
    apply Exists_app. right. exact IH.
Qed.

(** A run of class characters that stops inside [l] does not stop at a
    closing parenthesis when [l] has none. *)
Lemma class_run_stops (l t : list ascii) :
  Exists (fun c => in_tuple_class c = false) l ->
  Forall (fun c => ascii_eqb c ")" = false) l ->
  exists n d r,
    class_run (l ++ t) = (n, d :: r) /\ ascii_eqb d ")" = false.
Proof.
  induction l as [|c l IH]; intros Hex Hall; [inversion Hex|].
  inversion Hall as [|? ? Hc Hl]; subst.
  cbn [app class_run]. destruct (in_tuple_class c) eqn:Hclass.
  - destruct IH as (n & d & r & -> & Hd); [|exact Hl|].
    + inversion Hex as [? ? Hbad|]; subst; [congruence|assumption].
    + exists (S n), d, r. split; [reflexivity|exact Hd].
  - exists O, c, (l ++ t). split; [reflexivity|exact Hc].
Qed.

Lemma tuple_re_search_from_no_paren (l : list ascii) (i : nat) :
  Forall (fun c => ascii_eqb c "(" = false) l ->
  tuple_re_search_from i l = None.
Proof.
  intros Hl. revert i.
  induction Hl as [|c l Hc Hl IH]; intros i; cbn [tuple_re_search_from
    tuple_re_match_here]; [reflexivity|].
  rewrite Hc. apply IH.
Qed.

(** No match of the pattern in a tuple with a negative entry, nor in the
    empty tuple. *)
Lemma tuple_re_search_rejects (zs : list Z) :
  zs = [] \/ Exists (fun z => z < 0) zs ->
  tuple_re_search (py_repr_tuple (map Some zs)) = None.
Proof.
  intros Hzs. unfold tuple_re_search.
  assert (Hshape : exists body,
            chars (py_repr_tuple (map Some zs))
            = "("%char :: body ++ [")"%char] /\
            Forall (fun c => ascii_eqb c "(" = false /\
                             ascii_eqb c ")" = false) body /\
            (zs = [] /\ body = [] \/
             Exists (fun c => in_tuple_class c = false) body)).
  { unfold py_repr_tuple. rewrite chars_str_of.
    destruct Hzs as [->|Hneg].
    - exists []. split; [reflexivity|]. split; [constructor|].
      left. split; reflexivity.
    - pose proof (py_repr_items_no_paren (map Some zs)) as Hno.
      pose proof (py_repr_items_minus zs Hneg) as Hbad.
      destruct zs as [|z [|y zs]]; [inversion Hneg| |].
      + exists (py_repr_item (Some z) ++ [","%char]).
        split; [cbn [map]; rewrite <- app_assoc; reflexivity|]. split.
        * apply Forall_app. split; [exact Hno|repeat constructor].
        * right. apply Exists_app. left. exact Hbad.
      + exists (py_repr_items (map Some (z :: y :: zs))).
        split; [reflexivity|]. split; [exact Hno|right; exact Hbad]. }
  destruct Hshape as (body & -> & Hno & Hbody).
  assert (Hhere : tuple_re_match_here ("("%char :: body ++ [")"%char]) = None).
  { cbn [tuple_re_match_here]. change (ascii_eqb "(" "(") with true.
    cbv iota. destruct Hbody as [[_ ->]|Hbad]; [reflexivity|].
    destruct (class_run_stops body [")"%char] Hbad) as (n & d & r & -> & Hd).
    { eapply Forall_impl; [exact Hno|]. intros c Hc. apply Hc. }
    rewrite Hd. destruct n; reflexivity. }
  cbn [tuple_re_search_from]. rewrite Hhere.
  apply tuple_re_search_from_no_paren. apply Forall_app. split.
  - eapply Forall_impl; [exact Hno|]. intros c Hc. apply Hc.
  - repeat constructor.
Qed.

Lemma matches_whole_repr (zs : list Z) :
  zs <> [] -> Forall (fun z => 0 <= z) zs ->
  matches_whole (py_repr_tuple (map Some zs)).
Proof.
  intros Hne Hzs. unfold matches_whole, py_repr_tuple. rewrite chars_str_of.
  pose proof (py_repr_items_class zs Hzs) as Hclass.
  destruct zs as [|z [|y zs]]; [congruence| |].
  - exists (py_repr_item (Some z) ++ [","%char]).
    split; [cbn [map]; rewrite <- app_assoc; reflexivity|]. split.
    + destruct (py_repr_item (Some z)); discriminate.
    + apply Forall_app. split; [exact Hclass|repeat constructor].
  - exists (py_repr_items (map Some (z :: y :: zs))).
    split; [reflexivity|]. split; [|exact Hclass].
    intros Hnil. apply (f_equal (@length ascii)) in Hnil.
    change (map Some (z :: y :: zs)) with (Some z :: map Some (y :: zs)) in Hnil.
    rewrite py_repr_items_cons in Hnil. cbn [map] in Hnil.
    rewrite !length_app in Hnil. cbn [length chars] in Hnil.
    cbn in Hnil. lia.
Qed.

Lemma parse_helper_repr (attrs : gmap string string) (key : string)
    (alt_value : pyval) (zs : list Z) :
  attrs !! key = Some (py_repr_tuple (map Some zs)) ->
  (zs <> [] -> Forall (fun z => 0 <= z) zs ->
   parse_helper attrs key alt_value = Ret (PyTuple (map PyInt zs))) /\
  (zs = [] \/ Exists (fun z => z < 0) zs ->
   parse_helper attrs key alt_value = Ret alt_value).
Proof.
  intros Hkey. unfold parse_helper.
  rewrite decide_False by (intros ->; rewrite lookup_empty in Hkey; discriminate).
  rewrite Hkey. split.
  - intros Hne Hzs.
    rewrite (proj2 (tuple_re_search_whole _) (matches_whole_repr zs Hne Hzs)).
    rewrite decide_True by reflexivity.
    apply py_eval_dims_repr; assumption.
  - intros Hbad. rewrite (tuple_re_search_rejects zs Hbad). reflexivity.
Qed.

(** The dimension parser reads the tuple Python writes for some natural
    numbers back: [(3, 3)] gives the tuple of 3 and 3, [(3,)] the tuple of
    3. It yields the default, without an error, for the empty tuple [()]
    and for a tuple with a negative entry such as [(-1, 1)], which the
    pattern does not match. *)
Theorem parse_helper_reads_tuples (attrs : gmap string string) (key : string)
    (alt_value : pyval) (zs : list Z) :
  attrs !! key = Some (py_repr_tuple (map Some zs)) ->
  (zs <> [] -> Forall (fun z => 0 <= z) zs ->
   parse_helper attrs key alt_value = Ret (PyTuple (map PyInt zs))) /\
  (zs = [] \/ Exists (fun z => z < 0) zs ->
   parse_helper attrs key alt_value = Ret alt_value).
Proof. exact (parse_helper_repr attrs key alt_value zs). Qed.
(** What [eval] gives on a string: a tuple of integers, a single integer,
    or one of the two errors. *)
Lemma py_eval_dims_outcomes (s : string) :
  (exists zs, py_eval_dims s = Ret (PyTuple (map PyInt zs))) \/
  (exists z, py_eval_dims s = Ret (PyInt z)) \/
  py_eval_dims s = Raise SyntaxError \/
  py_eval_dims s = Raise NameError.
Proof.
  unfold py_eval_dims.
  repeat case_match; subst;
    first [ left; eexists; reflexivity
          | left; exists []; reflexivity
          | right; left; eexists; reflexivity
          | right; right; left; reflexivity
          | right; right; right; reflexivity ].
Qed.

(** C2, as the code has it. When the key is absent the parser returns the
    default. When it is present with the value [s]: if [s] as a whole
    matches the pattern, the parser returns what [eval] gives for [s], which
    is a tuple of integers, a single integer, a [SyntaxError] or a
    [NameError], and never the malformed-attribute error; if some substring
    of [s] matches but [s] as a whole does not, it raises the
    malformed-attribute error naming the key and the raw string; if no
    substring matches (as for the unbalanced ["(1,2"]) it returns the
    default. For the tuple Python writes for some natural numbers the
    result is that tuple; ["(3)"] gives the integer 3, ["(1 2)"] a
    [SyntaxError] and ["(L)"] a [NameError]. *)
Theorem parse_helper_outcomes (attrs : gmap string string) (key : string)
    (alt_value : pyval) :
  (attrs !! key = None -> parse_helper attrs key alt_value = Ret alt_value) /\
  (forall s, attrs !! key = Some s ->
     (matches_whole s /\
      parse_helper attrs key alt_value = py_eval_dims s /\
      ((exists zs,
          parse_helper attrs key alt_value = Ret (PyTuple (map PyInt zs))) \/
       (exists z, parse_helper attrs key alt_value = Ret (PyInt z)) \/
       parse_helper attrs key alt_value = Raise SyntaxError \/
       parse_helper attrs key alt_value = Raise NameError)) \/
     (matches_somewhere s /\ ~ matches_whole s /\
      parse_helper attrs key alt_value = Raise (malformed_dimensions key s)) \/
     (~ matches_somewhere s /\
      parse_helper attrs key alt_value = Ret alt_value)) /\
  (forall zs : list Z,
     attrs !! key = Some (py_repr_tuple (map Some zs)) ->
     zs <> [] -> Forall (fun z => 0 <= z) zs ->
     matches_whole (py_repr_tuple (map Some zs)) /\
     parse_helper attrs key alt_value = Ret (PyTuple (map PyInt zs))) /\
  (matches_whole "(3)" /\
   parse_helper {[ key := "(3)" ]} key alt_value = Ret (PyInt 3)) /\
  (matches_whole "(1 2)" /\
   parse_helper {[ key := "(1 2)" ]} key alt_value = Raise SyntaxError) /\
  (matches_whole "(L)" /\
   parse_helper {[ key := "(L)" ]} key alt_value = Raise NameError).
Proof.
  assert (Hsingle : forall s r,
            tuple_re_search s = Some (0%nat, String.length s) ->
            py_eval_dims s = r ->
            matches_whole s /\
            parse_helper {[ key := s ]} key alt_value = r).
  { intros s r Hsearch Heval. split; [apply tuple_re_search_whole, Hsearch|].
    unfold parse_helper.
    rewrite decide_False by (apply insert_non_empty).
    rewrite lookup_singleton_eq, Hsearch, decide_True by reflexivity.
    exact Heval. }
  split; [|split; [|split; [|split; [|split]]]].
  - unfold parse_helper. intros Hnone.
    destruct (decide (attrs = ∅)); [reflexivity|].
    rewrite Hnone. reflexivity.
  - unfold parse_helper. intros s Hs. destruct (decide (attrs = ∅)) as [->|_].
    { rewrite lookup_empty in Hs. discriminate. }
    rewrite Hs. destruct (tuple_re_search s) as [span|] eqn:Hsearch.
    + destruct (decide (span = (0%nat, String.length s))) as [->|Hspan].
      * left. split; [apply tuple_re_search_whole, Hsearch|].
        split; [reflexivity|]. apply py_eval_dims_outcomes.
      * right. left. split; [|split; [|reflexivity]].
        -- exact (tuple_re_search_from_some _ _ _ Hsearch).
        -- intros Hwhole. apply tuple_re_search_whole in Hwhole. congruence.
    + right. right. split; [|reflexivity].
      apply tuple_re_search_none, Hsearch.
  - intros zs Hkey Hne Hzs. split; [apply matches_whole_repr; assumption|].
    exact (proj1 (parse_helper_repr attrs key alt_value zs Hkey) Hne Hzs).
  - apply Hsingle; reflexivity.
  - apply Hsingle; reflexivity.
  - apply Hsingle; reflexivity.
Qed.

Lemma parse_helper_outcomes_witness :
  parse_helper ∅ "kernel" PyNone = Ret PyNone /\
  (matches_whole "(3, 3)" /\
   parse_helper {[ "kernel" := "(3, 3)" ]} "kernel" PyNone
   = Ret (PyTuple (map PyInt [3; 3]))).
Proof.
  split.
  - apply (proj1 (parse_helper_outcomes ∅ "kernel" PyNone)). reflexivity.
  - apply (proj1 (proj2 (proj2 (parse_helper_outcomes
                                  {[ "kernel" := "(3, 3)" ]} "kernel" PyNone)))
             [3; 3]).
    + reflexivity.
    + discriminate.
    + repeat constructor; lia.
Defined.

(** The unbalanced value ["(1,2"] is present and is not a dimension list,
    and yet the parser raises nothing: it returns the default. *)
Lemma parse_helper_unbalanced_returns_default :
  ({[ "pad" := "(1,2" ]} : gmap string string) !! "pad" = Some "(1,2" /\
  parse_helper {[ "pad" := "(1,2" ]} "pad" (PyList [PyInt 0; PyInt 0])
  = Ret (PyList [PyInt 0; PyInt 0]) /\
  parse_helper {[ "pad" := "(1,2" ]} "pad" (PyList [PyInt 0; PyInt 0])
  <> Raise (malformed_dimensions "pad" "(1,2").
Proof.
  split; [reflexivity|]. split; [reflexivity|]. discriminate.
Qed.
Section ConvolutionRule.
Context `{External}.

(** The rule of [Convolution] needs the [kernel] attribute: without it the
    rule raises a [TypeError]. For a kernel and a padding written as tuples
    of natural numbers, and no other attribute, the Conv node has the kernel
    as [kernel_shape], the padding twice in a row as [pads], and the
    defaults [1, 1] for strides and dilations and 1 for the group. A
    padding with a negative entry is not refused: the node gets the pads
    of the default, four zeros. *)
Theorem convert_convolution_attributes (node : mx_node) (kw : kwargs)
    (initializer : list TensorProto) name input_nodes attrs :
  get_inputs node kw = Ret (name, input_nodes, attrs) ->
  (attrs !! "kernel" = None ->
   convert_convolution node kw initializer = (Raise TypeError, initializer)) /\
  (forall kernel pad : list Z,
     attrs !! "kernel" = Some (py_repr_tuple (map Some kernel)) ->
     kernel <> [] -> Forall (fun z => 0 <= z) kernel ->
     attrs !! "pad" = Some (py_repr_tuple (map Some pad)) ->
     attrs !! "stride" = None -> attrs !! "dilate" = None ->
     attrs !! "num_group" = None ->
     let conv pads :=
       (Ret [ItemNode (make_named_node "Conv" input_nodes [name] name
                         [("kernel_shape", AVal (PyList (map PyInt kernel)));
                          ("strides", AVal (PyList [PyInt 1; PyInt 1]));
                          ("dilations", AVal (PyList [PyInt 1; PyInt 1]));
                          ("pads", AVal (PyList pads));
                          ("group", int_attr 1)])], initializer) in
     (pad <> [] -> Forall (fun z => 0 <= z) pad ->
      convert_convolution node kw initializer
      = conv (map PyInt (pad ++ pad))) /\
     (Exists (fun z => z < 0) pad ->
      convert_convolution node kw initializer
      = conv [PyInt 0; PyInt 0; PyInt 0; PyInt 0])).
Proof.
  intros Hget. unfold convert_convolution. rewrite Hget, lift_bind_Ret. split.
  - intros Hkernel.
    assert (Hparse : parse_helper attrs "kernel" PyNone = Ret PyNone).
    { unfold parse_helper. rewrite Hkernel. destruct (decide _); reflexivity. }
    rewrite Hparse. reflexivity.
  - intros kernel pad Hkernel Hne Hnonneg Hpad Hstride Hdilate Hgroup.
    rewrite (proj1 (parse_helper_repr attrs "kernel" PyNone kernel Hkernel)
               Hne Hnonneg).
    assert (Hdefault : forall key alt, attrs !! key = None ->
              parse_helper attrs key alt = Ret alt).
    { intros key alt Hkey. unfold parse_helper. rewrite Hkey.
      destruct (decide _); reflexivity. }
    rewrite (Hdefault "stride" _ Hstride), (Hdefault "dilate" _ Hdilate).
    unfold attrs_get. rewrite Hgroup.
    split.
    + intros Hpne Hpnonneg.
      rewrite (proj1 (parse_helper_repr attrs "pad" _ pad Hpad) Hpne Hpnonneg).
      rewrite map_app. reflexivity.
    + intros Hneg.
      rewrite (proj2 (parse_helper_repr attrs "pad" _ pad Hpad)
                 (or_intror Hneg)).
      reflexivity.
Qed.

End ConvolutionRule.
Lemma py_int_str_of_Z (attrs : gmap string string) (key : string) (z : Z)
    (default : pyval) :
  attrs !! key = Some (str_of_Z z) ->
  py_int (attrs_get attrs key default) = Ret z.
Proof.
  intros Hkey. unfold attrs_get. rewrite Hkey. cbn [py_int].
  unfold int_of_string. rewrite int_of_chars_str_of_Z. reflexivity.
Qed.

Lemma str_of_Z_not_none (z : Z) : str_of_Z z <> "" /\ str_of_Z z <> "None".
Proof.
  destruct (str_of_Z_digits z) as (sign & l & Hchars & Hsign & Hne & Hl & _).
  split; intros Heq; rewrite Heq in Hchars.
  - destruct sign, l; try discriminate. congruence.
  - destruct Hsign as [[-> _]|[-> _]]; [|discriminate].
    destruct l as [|c l]; [congruence|].
    injection Hchars as <- _. inversion Hl as [|? ? Hc _]; subst.
    discriminate.
Qed.

Section SliceAxisRule.
Context `{External}.

(** The rule of [slice_axis]. The last node is a Slice that reads the data,
    [name_begin], [name_end] and [name_axis]. With an integer [end] the
    rule gives [name_end] as a constant; without one (absent, empty or
    [None]) it computes it as the length of the axis: a Slice of the shape
    of the data, from [axis] to [axis + 1]. Without the [axis] attribute
    the rule raises a [TypeError] and appends nothing. *)
Theorem convert_slice_axis_end (node : mx_node) (kw : kwargs)
    (initializer : list TensorProto) name x rest attrs :
  get_inputs node kw = Ret (name, x :: rest, attrs) ->
  (attrs !! "axis" = None ->
   convert_slice_axis node kw initializer = (Raise TypeError, initializer)) /\
  (forall axis begin : Z,
     attrs !! "axis" = Some (str_of_Z axis) ->
     attrs !! "begin" = Some (str_of_Z begin) ->
     in_int64 axis -> in_int64 begin ->
     let scalar nm := ItemValue (make_tensor_value_info nm INT64 [1]) in
     let constant nm z := make_tensor nm INT64 [1] (PyList [PyInt z]) in
     let slice :=
       ItemNode (make_named_node "Slice"
                   [x; name +:+ "_begin"; name +:+ "_end"; name +:+ "_axis"]
                   [name] name []) in
     (attrs !! "end" = None \/ attrs !! "end" = Some "" \/
      attrs !! "end" = Some "None" ->
      in_int64 (axis + 1) ->
      convert_slice_axis node kw initializer
      = (Ret [scalar (name +:+ "_axis"); scalar (name +:+ "_begin");
              scalar (name +:+ "_axis_plus_1");
              ItemNode (make_node "Shape" [x] [name +:+ "_data_shape"] []);
              ItemNode (make_node "Slice"
                          [name +:+ "_data_shape"; name +:+ "_axis";
                           name +:+ "_axis_plus_1"] [name +:+ "_end"] []);
              slice],
         initializer ++
         [constant (name +:+ "_axis") axis;
          constant (name +:+ "_begin") begin;
          constant (name +:+ "_axis_plus_1") (axis + 1)])) /\
     (forall e : Z,
        attrs !! "end" = Some (str_of_Z e) -> in_int64 e ->
        convert_slice_axis node kw initializer
        = (Ret [scalar (name +:+ "_axis"); scalar (name +:+ "_begin");
                scalar (name +:+ "_end"); slice],
           initializer ++
           [constant (name +:+ "_axis") axis;
            constant (name +:+ "_begin") begin;
            constant (name +:+ "_end") e]))).
Proof.
  intros Hget. unfold convert_slice_axis. rewrite Hget, lift_bind_Ret. split.
  - intros Haxis. unfold attrs_get. rewrite Haxis. reflexivity.
  - intros axis begin Haxis Hbegin Hra Hrb.
    rewrite (py_int_str_of_Z attrs "axis" axis _ Haxis), lift_bind_Ret.
    rewrite (py_int_str_of_Z attrs "begin" begin _ Hbegin), lift_bind_Ret.
    assert (Hone : forall z nm init, in_int64 z ->
              create_tensor [PyInt z] nm (DtName "int64") init
              = (Ret (ItemValue (make_tensor_value_info nm INT64 [1])),
                 init ++ [make_tensor nm INT64 [1] (PyList [PyInt z])])).
    { intros z nm init Hz.
      apply (create_tensor_int64 [z] nm init).
      constructor; [exact Hz|constructor]. }
    rewrite M_bind_unfold.
    rewrite (py_list_cons _ _ _ _ _ _ _ (Hone axis _ _ Hra)
               (py_list_cons _ [] _ _ _ _ _ (Hone begin _ _ Hrb) eq_refl)).
    split.
    + intros Hend Hrp.
      assert (Hnone : match attrs !! "end" with
                      | None => true
                      | Some e => bool_decide (e = "") || bool_decide (e = "None")
                      end = true).
      { destruct Hend as [->|[->| ->]]; reflexivity. }
      rewrite Hnone. rewrite M_bind_unfold.
      cbn [py_list]. rewrite M_bind_unfold.
      rewrite (Hone (axis + 1) _ _ Hrp).
      rewrite <- !app_assoc. reflexivity.
    + intros e Hend Hre. rewrite Hend.
      destruct (str_of_Z_not_none e) as [He1 He2].
      rewrite (bool_decide_eq_false_2 _ He1), (bool_decide_eq_false_2 _ He2).
      cbn [orb]. rewrite M_bind_unfold.
      cbn [py_list]. rewrite M_bind_unfold.
      rewrite (py_int_str_of_Z attrs "end" e _ Hend), lift_bind_Ret.
      rewrite (Hone e _ _ Hre).
      rewrite <- !app_assoc. reflexivity.
Qed.

End SliceAxisRule.
Lemma sum_constant {A} (q : Z) (l : list A) :
  fold_right Z.add 0 (map (fun _ => q) l) = Z.of_nat (length l) * q.
Proof.
  induction l as [|x l IH]; [reflexivity|].
  cbn [map fold_right length]. rewrite IH. lia.
Qed.

Lemma py_range_length (n : Z) : length (py_range n) = Z.to_nat n.
Proof. unfold py_range. rewrite length_map, length_seq. reflexivity. Qed.

Section SplitRule.
Context `{External}.

(** The rule of [SliceChannel] without squeezing. For more than one output
    it returns a Split node with [num_outputs] outputs and as many split
    sizes, each the floor of the dimension divided by [num_outputs]; the
    sizes add up to the dimension exactly when [num_outputs] divides it.
    For a single output the rule raises its [NotImplementedError]. *)
Theorem convert_slice_channel_split (node : mx_node) (kw : kwargs)
    (initializer : list TensorProto) name input_nodes attrs
    (num_outputs axis : Z) :
  get_inputs node kw = Ret (name, input_nodes, attrs) ->
  attrs !! "num_outputs" = Some (str_of_Z num_outputs) ->
  py_int (attrs_get attrs "axis" (PyInt 1)) = Ret axis ->
  attrs !! "squeeze_axis" = None ->
  (forall shape shapes dim,
     1 < num_outputs ->
     in_shape kw = shape :: shapes -> list_get_Z shape axis = Ret dim ->
     let sizes := map (fun _ => dim `div` num_outputs) (py_range num_outputs) in
     convert_slice_channel node kw initializer
     = (Ret [ItemNode (make_named_node "Split" input_nodes
                         (map (fun i => name +:+ "_output" +:+ str_of_Z i)
                            (py_range num_outputs))
                         name
                         [("axis", int_attr axis); ("split", ints sizes)])],
        initializer) /\
     length sizes = Z.to_nat num_outputs /\
     (fold_right Z.add 0 sizes = dim <-> dim `mod` num_outputs = 0)) /\
  (num_outputs <= 1 ->
   convert_slice_channel node kw initializer
   = (Raise (NotImplementedError
               ("SliceChannel operator with num_outputs>1 and" +:+
                "squeeze_axis true is not implemented.")), initializer)).
Proof.
  intros Hget Hnum Haxis Hsqueeze. unfold convert_slice_channel.
  rewrite Hget, lift_bind_Ret.
  rewrite (py_int_str_of_Z attrs "num_outputs" _ _ Hnum), lift_bind_Ret.
  rewrite Haxis, lift_bind_Ret.
  unfold attrs_get. rewrite Hsqueeze. cbn [py_int].
  rewrite lift_bind_Ret. change (0 =? 1) with false.
  change (0 =? 0) with true. cbn [andb]. split.
  - intros shape shapes dim Hmany Hshape Hdim.
    rewrite (proj2 (Z.ltb_lt 1 num_outputs) Hmany).
    rewrite Hshape. unfold item. cbn [list_get lookup list_lookup].
    rewrite lift_bind_Ret, Hdim, lift_bind_Ret.
    split; [reflexivity|]. split.
    + rewrite length_map. apply py_range_length.
    + rewrite sum_constant, py_range_length, Z2Nat.id by lia.
      pose proof (Z.div_mod dim num_outputs ltac:(lia)) as Hdm.
      lia.
  - intros Hone.
    rewrite (proj2 (Z.ltb_ge 1 num_outputs) Hone). reflexivity.
Qed.

End SplitRule.

Section TensorConstants.
Context `{External}.

Lemma np_array_int64_overflow (zs : list Z) :
  Exists (fun z => ~ in_int64 z) zs ->
  np_array (map PyInt zs) (DtName "int64") = Raise OverflowError.
Proof.
  intros Hzs. unfold np_array.
  change (resolve_dtype (DtName "int64")) with (Ret Int64 : pyres np_dtype).
  rewrite pyres_bind_Ret.
  assert (Hloop : forall acc,
    for_each (fun acc v => x ← np_cast Int64 v; Ret (acc ++ [x]))
      (map PyInt zs) acc = Raise OverflowError).
  { induction zs as [|z zs IH]; intros acc; [inversion Hzs|].
    cbn [map for_each np_cast float_format].
    destruct ((- 2 ^ 63 <=? z) && (z <? 2 ^ 63)) eqn:Hz.
    - rewrite !pyres_bind_Ret. apply IH.
      inversion Hzs as [? ? Hbad|]; subst; [|assumption].
      exfalso. apply Hbad. apply andb_true_iff in Hz as [Hlo Hhi].
      apply Z.leb_le in Hlo. apply Z.ltb_lt in Hhi. split; assumption.
    - reflexivity. }
  rewrite Hloop. reflexivity.
Qed.

(** [create_tensor] on a list of integers, with its default element type
    [int64]: when every integer fits 64 bits it appends one tensor to the
    initializer, with the name asked for, one dimension of the length of
    the list and the integers as data, and returns the descriptor of that
    tensor; when one does not fit it raises an [OverflowError] and leaves
    the initializer as it was. *)
Theorem create_tensor_int64_outcomes (zs : list Z) (tensor_name : string)
    (initializer : list TensorProto) :
  (Forall in_int64 zs ->
   create_tensor (map PyInt zs) tensor_name (DtName "int64") initializer
   = (Ret (ItemValue (make_tensor_value_info tensor_name INT64
                        [Z.of_nat (length zs)])),
      initializer ++
      [make_tensor tensor_name INT64 [Z.of_nat (length zs)]
         (PyList (map PyInt zs))])) /\
  (Exists (fun z => ~ in_int64 z) zs ->
   create_tensor (map PyInt zs) tensor_name (DtName "int64") initializer
   = (Raise OverflowError, initializer)).
Proof.
  split.
  - apply create_tensor_int64.
  - intros Hzs. unfold create_tensor.
    rewrite (np_array_int64_overflow zs Hzs). reflexivity.
Qed.

End TensorConstants.
Section SoftmaxRule.
Context `{External}.

(** The rule of [softmax] away from the masked lowering, for a float input
    type and no temperature. With one input it returns the temperature
    constant and four nodes: Div, Exp, ReduceSum on the axis, and the Div
    named after the source node. With two inputs and [use_length] other
    than [True] it raises its [NotImplementedError], and by then the
    temperature constant [name_tmp] is in the initializer. *)
Theorem convert_softmax_without_length (node : mx_node) (kw : kwargs)
    (initializer : list TensorProto) name data rest attrs axis dtype
    prec emax :
  get_inputs node kw = Ret (name, data :: rest, attrs) ->
  py_int (attrs_get attrs "axis" (PyInt (-1))) = Ret axis ->
  attrs !! "temperature" = None ->
  TENSOR_TYPE_TO_NP_TYPE (in_type kw) = Ret dtype ->
  float_format dtype = Some (prec, emax) ->
  exists ty vals,
    let constant := make_tensor (name +:+ "_tmp") ty [1] vals in
    (rest = [] ->
     convert_softmax node kw initializer
     = (Ret [ItemValue (make_tensor_value_info (name +:+ "_tmp") ty [1]);
             ItemNode (make_node "Div" [data; name +:+ "_tmp"]
                         [name +:+ "_data"] []);
             ItemNode (make_node "Exp" [name +:+ "_data"]
                         [name +:+ "_exp_out"] []);
             ItemNode (make_node "ReduceSum" [name +:+ "_exp_out"]
                         [name +:+ "_rsum_out"]
                         [("axes", ints [axis]); ("keepdims", int_attr 1)]);
             ItemNode (make_named_node "Div"
                         [name +:+ "_exp_out"; name +:+ "_rsum_out"]
                         [name] name [])],
        initializer ++ [constant])) /\
    (rest <> [] -> attrs !! "use_length" <> Some "True" ->
     convert_softmax node kw initializer
     = (Raise (NotImplementedError
                 "use_length must be true when both data and length are paased in."),
        initializer ++ [constant])).
Proof.
  intros Hget Haxis Htemp Hdtype Hformat.
  destruct (create_tensor_float SF_one (name +:+ "_tmp") dtype prec emax
              initializer Hformat) as (ty & vals & _ & Htensor).
  exists ty, vals. cbv zeta. unfold convert_softmax.
  rewrite Hget, lift_bind_Ret, Haxis, lift_bind_Ret, Htemp, lift_bind_Ret,
    Hdtype, lift_bind_Ret.
  change (item (data :: rest) 0) with (lift (Ret data)).
  rewrite lift_bind_Ret, M_bind_unfold.
  cbn [py_list]. rewrite M_bind_unfold, Htensor.
  cbn [emit py_list M_bind mbind mret M_ret].
  split.
  - intros ->. reflexivity.
  - intros Hrest Huse.
    destruct rest as [|len rest]; [congruence|].
    destruct (decide (default "None" (attrs !! "use_length") = "True"))
      as [Heq|Hne]; [|reflexivity].
    exfalso. apply Huse.
    destruct (attrs !! "use_length") as [u|]; simpl in Heq;
      [congruence|discriminate].
Qed.

End SoftmaxRule.
(** ** The naming contract: the remaining rules *)

Section NamingOfRules.
Context `{External}.

(** The [null] rule returns one descriptor, which bears the name of the
    node. *)
Lemma ends_convert_weights_and_inputs node kw :
  ends_with (named_after "null" (node_name node))
    (convert_weights_and_inputs node kw).
Proof.
  unfold convert_weights_and_inputs. apply ends_get_inputs; intros inputs.
  destruct (negb (is_input kw)).
  - do 3 (apply ends_bind; intros ?).
    eapply ends_ret; [reflexivity|]. right. split; reflexivity.
  - eapply ends_ret; [reflexivity|]. right. split; reflexivity.
Qed.

Lemma ends_convert_slice_axis op node kw :
  ends_with (named_after op (node_name node)) (convert_slice_axis node kw).
Proof.
  unfold convert_slice_axis. apply ends_get_inputs; intros inputs.
  do 4 (apply ends_bind; intros ?).
  intros init items init'. rewrite M_bind_unfold. cbn [py_list].
  rewrite M_bind_unfold. unfold item, lift.
  destruct (list_get inputs 0) as [x|e]; [|discriminate].
  intros [= <- _]. eexists. rewrite !last_app. split; [reflexivity|].
  split; [reflexivity | left; reflexivity].
Qed.

Lemma ends_convert_stack op node kw :
  ends_with (named_after op (node_name node)) (convert_stack node kw).
Proof.
  unfold convert_stack. apply ends_get_inputs; intros inputs.
  apply ends_bind; intros axis.
  destruct (fold_left _ _ _) as [nodes idx].
  intros init items init' [= <- _]. eexists.
  rewrite map_app, last_app. split; [reflexivity|].
  split; [reflexivity | left; reflexivity].
Qed.

Lemma ends_convert_convolution op node kw :
  ends_with (named_after op (node_name node)) (convert_convolution node kw).
Proof. unfold convert_convolution. ends. Qed.

Lemma ends_convert_deconvolution op node kw :
  ends_with (named_after op (node_name node)) (convert_deconvolution node kw).
Proof. unfold convert_deconvolution. ends. Qed.

Lemma ends_convert_crop op node kw :
  ends_with (named_after op (node_name node)) (convert_crop node kw).
Proof. unfold convert_crop. ends. Qed.

Lemma ends_convert_fully_connected op node kw :
  ends_with (named_after op (node_name node)) (convert_fully_connected node kw).
Proof. unfold convert_fully_connected. ends. Qed.

Lemma ends_convert_batchnorm op node kw :
  ends_with (named_after op (node_name node)) (convert_batchnorm node kw).
Proof. unfold convert_batchnorm. ends. Qed.

Lemma ends_convert_activation op node kw :
  ends_with (named_after op (node_name node)) (convert_activation node kw).
Proof. unfold convert_activation. ends. Qed.

Lemma ends_convert_linalg_gemm2 op node kw :
  ends_with (named_after op (node_name node)) (convert_linalg_gemm2 node kw).
Proof. unfold convert_linalg_gemm2. ends. Qed.

Lemma ends_convert_pooling op node kw :
  ends_with (named_after op (node_name node)) (convert_pooling node kw).
Proof. unfold convert_pooling. ends. Qed.

Lemma ends_convert_instancenorm op node kw :
  ends_with (named_after op (node_name node)) (convert_instancenorm node kw).
Proof. unfold convert_instancenorm. ends. Qed.

Lemma ends_convert_leakyrelu op node kw :
  ends_with (named_after op (node_name node)) (convert_leakyrelu node kw).
Proof. unfold convert_leakyrelu. ends. Qed.

Lemma ends_convert_softmax_output op node kw :
  ends_with (named_after op (node_name node)) (convert_softmax_output node kw).
Proof. unfold convert_softmax_output. ends. Qed.

Lemma ends_convert_logistic_regression_output op node kw :
  ends_with (named_after op (node_name node))
    (convert_logistic_regression_output node kw).
Proof. unfold convert_logistic_regression_output. ends. Qed.

Lemma ends_convert_concat op node kw :
  ends_with (named_after op (node_name node)) (convert_concat node kw).
Proof. unfold convert_concat. ends. Qed.

Lemma ends_convert_transpose op node kw :
  ends_with (named_after op (node_name node)) (convert_transpose node kw).
Proof. unfold convert_transpose. ends. Qed.

Lemma ends_convert_lrn op node kw :
  ends_with (named_after op (node_name node)) (convert_lrn node kw).
Proof. unfold convert_lrn. ends. Qed.

Lemma ends_convert_argmax op node kw :
  ends_with (named_after op (node_name node)) (convert_argmax node kw).
Proof. unfold convert_argmax, convert_arg. ends. Qed.

Lemma ends_convert_argmin op node kw :
  ends_with (named_after op (node_name node)) (convert_argmin node kw).
Proof. unfold convert_argmin, convert_arg. ends. Qed.

Lemma ends_convert_min op node kw :
  ends_with (named_after op (node_name node)) (convert_min node kw).
Proof. unfold convert_min, reduce_axes_not_none. ends. Qed.

Lemma ends_convert_max op node kw :
  ends_with (named_after op (node_name node)) (convert_max node kw).
Proof. unfold convert_max, reduce_axes_not_none. ends. Qed.

Lemma ends_convert_mean op node kw :
  ends_with (named_after op (node_name node)) (convert_mean node kw).
Proof. unfold convert_mean, reduce_axes_not_none. ends. Qed.

Lemma ends_convert_prod op node kw :
  ends_with (named_after op (node_name node)) (convert_prod node kw).
Proof. unfold convert_prod, reduce_axes_not_none. ends. Qed.

Lemma ends_convert_reshape op node kw :
  ends_with (named_after op (node_name node)) (convert_reshape node kw).
Proof. unfold convert_reshape. ends. Qed.

Lemma ends_convert_cast op node kw :
  ends_with (named_after op (node_name node)) (convert_cast node kw).
Proof. unfold convert_cast. ends. Qed.

Lemma ends_convert_expand_dims op node kw :
  ends_with (named_after op (node_name node)) (convert_expand_dims node kw).
Proof. unfold convert_expand_dims. ends. Qed.

Lemma ends_convert_squeeze op node kw :
  ends_with (named_after op (node_name node)) (convert_squeeze node kw).
Proof. unfold convert_squeeze. ends. Qed.

Lemma ends_convert_depthtospace op node kw :
  ends_with (named_after op (node_name node)) (convert_depthtospace node kw).
Proof. unfold convert_depthtospace, convert_block. ends. Qed.

Lemma ends_convert_spacetodepth op node kw :
  ends_with (named_after op (node_name node)) (convert_spacetodepth node kw).
Proof. unfold convert_spacetodepth, convert_block. ends. Qed.

Lemma ends_convert_square op node kw :
  ends_with (named_after op (node_name node)) (convert_square node kw).
Proof. unfold convert_square. ends. Qed.

Lemma ends_convert_sum op node kw :
  ends_with (named_after op (node_name node)) (convert_sum node kw).
Proof. unfold convert_sum. ends. Qed.

Lemma ends_convert_hardsigmoid op node kw :
  ends_with (named_after op (node_name node)) (convert_hardsigmoid node kw).
Proof. unfold convert_hardsigmoid. ends. Qed.

Lemma ends_convert_logsoftmax op node kw :
  ends_with (named_after op (node_name node)) (convert_logsoftmax node kw).
Proof. unfold convert_logsoftmax. ends. Qed.

Lemma ends_convert_norm op node kw :
  ends_with (named_after op (node_name node)) (convert_norm node kw).
Proof. unfold convert_norm. ends. Qed.

Lemma ends_convert_multinomial op node kw :
  ends_with (named_after op (node_name node)) (convert_multinomial node kw).
Proof. unfold convert_multinomial. ends. Qed.

Lemma ends_convert_random_uniform op node kw :
  ends_with (named_after op (node_name node)) (convert_random_uniform node kw).
Proof. unfold convert_random_uniform. ends. Qed.

Lemma ends_convert_random_normal op node kw :
  ends_with (named_after op (node_name node)) (convert_random_normal node kw).
Proof. unfold convert_random_normal. ends. Qed.

Lemma ends_convert_roipooling op node kw :
  ends_with (named_after op (node_name node)) (convert_roipooling node kw).
Proof. unfold convert_roipooling. ends. Qed.

Lemma ends_convert_tile op node kw :
  ends_with (named_after op (node_name node)) (convert_tile node kw).
Proof. unfold convert_tile, convert_with_shape_tensor. ends. Qed.

Lemma ends_convert_broadcast_to op node kw :
  ends_with (named_after op (node_name node)) (convert_broadcast_to node kw).
Proof. unfold convert_broadcast_to, convert_with_shape_tensor. ends. Qed.

Lemma ends_convert_take op node kw :
  ends_with (named_after op (node_name node)) (convert_take node kw).
Proof. unfold convert_take. ends. Qed.

Lemma ends_convert_layer_norm op node kw :
  ends_with (named_after op (node_name node)) (convert_layer_norm node kw).
Proof. unfold convert_layer_norm. ends. Qed.

Lemma ends_convert_matmul_selfatt_qk op node kw :
  ends_with (named_after op (node_name node))
    (convert_matmul_selfatt_qk node kw).
Proof. unfold convert_matmul_selfatt_qk. ends. Qed.

Lemma ends_convert_contrib_interleaved_matmul_selfatt_valatt op node kw :
  ends_with (named_after op (node_name node))
    (convert_contrib_interleaved_matmul_selfatt_valatt node kw).
Proof. unfold convert_contrib_interleaved_matmul_selfatt_valatt. ends. Qed.

Lemma ends_convert_broadcast_axis op node kw :
  ends_with (named_after op (node_name node)) (convert_broadcast_axis node kw).
Proof. unfold convert_broadcast_axis. ends. Qed.

Lemma ends_convert_sequencemask op node kw :
  ends_with (named_after op (node_name node)) (convert_sequencemask node kw).
Proof. unfold convert_sequencemask. ends. Qed.

Lemma ends_convert_embedding op node kw :
  ends_with (named_after op (node_name node)) (convert_embedding node kw).
Proof. unfold convert_embedding. ends. Qed.

Lemma ends_convert_slice_like op node kw :
  ends_with (named_after op (node_name node)) (convert_slice_like node kw).
Proof. unfold convert_slice_like. ends. Qed.

Lemma ends_convert_zeros_like op node kw :
  ends_with (named_after op (node_name node)) (convert_zeros_like node kw).
Proof. unfold convert_zeros_like, convert_like. ends. Qed.

Lemma ends_convert_ones_like op node kw :
  ends_with (named_after op (node_name node)) (convert_ones_like node kw).
Proof. unfold convert_ones_like, convert_like. ends. Qed.

Lemma ends_convert_reverse op node kw :
  ends_with (named_after op (node_name node)) (convert_reverse node kw).
Proof. unfold convert_reverse. ends. Qed.

Lemma ends_convert_where op node kw :
  ends_with (named_after op (node_name node)) (convert_where node kw).
Proof. unfold convert_where. ends. Qed.

Lemma ends_convert_maximum_scalar op node kw :
  ends_with (named_after op (node_name node)) (convert_maximum_scalar node kw).
Proof. unfold convert_maximum_scalar. ends. Qed.

Lemma ends_convert_contrib_box_decode op node kw :
  ends_with (named_after op (node_name node))
    (convert_contrib_box_decode node kw).
Proof. unfold convert_contrib_box_decode. ends. Qed.

Lemma ends_convert_contrib_AdaptiveAvgPooling2D op node kw :
  ends_with (named_after op (node_name node))
    (convert_contrib_AdaptiveAvgPooling2D node kw).
Proof. unfold convert_contrib_AdaptiveAvgPooling2D. ends. Qed.

Lemma ends_convert_reshape_like op node kw :
  ends_with (named_after op (node_name node)) (convert_reshape_like node kw).
Proof. unfold convert_reshape_like. ends. Qed.

End NamingOfRules.

(** ** The rules return on minimal valid nodes *)

Lemma minimal_valid_unpack `{External} op node kw init attrs arity :
  (list_to_map minimal_nodes
     : gmap string (list (string * string) * option nat)) !! op
  = Some (attrs, arity) ->
  minimal_valid op node kw init ->
  exists inputs,
    node_attrs node = list_to_map attrs /\
    get_inputs node kw = Ret (node_name node, inputs, list_to_map attrs) /\
    (forall n, arity = Some n -> length inputs = n) /\
    valid_context kw /\
    libraries_read /\
    (op = "null" -> known_parameter node kw) /\
    (forall x, head inputs = Some x -> Forall (fun t => t_name t <> x) init).
Proof.
  intros Hop (attrs' & arity' & inputs & Hspec & Hattrs & Hget & Hrest).
  rewrite Hop in Hspec. injection Hspec as <- <-.
  exists inputs. rewrite <- Hattrs. tauto.
Qed.

Lemma list_get_Z_second {A} (d0 d1 : A) (dims : list A) :
  list_get_Z (d0 :: d1 :: dims) 1 = Ret d1.
Proof.
  unfold list_get_Z. cbn [length].
  destruct (Z.leb_spec 0 1); [|lia].
  destruct (Z.ltb_spec 1 (Z.of_nat (S (S (length dims))))); [|lia].
  reflexivity.
Qed.

Lemma first_input_returns (node : mx_node) (kw : kwargs) nm x rest attrs :
  get_inputs node kw = Ret (nm, x :: rest, attrs) ->
  exists p, first_input node kw = Ret p.
Proof.
  unfold get_inputs. rewrite get_inputs_loop. unfold first_input.
  destruct (node_inputs node) as [|ip ips].
  - cbn. congruence.
  - cbn [mapM].
    destruct (input_name kw ip) as [y|] eqn:Hy; [|simpl; discriminate].
    intros _. unfold input_name in Hy.
    destruct (index_lookup kw !! ip.1.1) as [id|] eqn:Hid; [|discriminate].
    simpl in Hy.
    destruct (proc_nodes kw !! id) as [p|] eqn:Hp; [|discriminate].
    exists p. unfold list_get. simpl. rewrite Hid. simpl.
    rewrite Hp. reflexivity.
Qed.

(** The float literals of the table, one by one. *)
Ltac literal :=
  unfold float_literals;
  repeat first [apply list_elem_of_here | apply list_elem_of_further].

(** Opens the validity of a node of the opcode [op]: its inputs, its
    context and what the libraries read. *)
Ltac unpack op Hv :=
  eapply (minimal_valid_unpack op) in Hv; [|reflexivity];
  destruct Hv
    as (inputs & Hattrs & Hget & Hlen & Hctx & Hlib & Hnull & Hfold);
  destruct Hctx as (Hopset & Htype & (d0 & d1 & dims & shapes & Hshape)
                    & Hout);
  destruct Hlib as (Hfloat & (ev & Heval));
  destruct (Hfloat "0") as (f0 & Hf0); [literal|];
  destruct (Hfloat "1.") as (f1 & Hf1); [literal|];
  destruct (Hfloat "-1.") as (fm1 & Hfm1); [literal|];
  destruct (Hfloat "2") as (f2 & Hf2); [literal|];
  destruct (Hfloat "0.5") as (f05 & Hf05); [literal|];
  clear Hfloat.

(** Names the inputs, as many as the table says. *)
Ltac split_inputs l Hn :=
  let l' := fresh "inputs" in
  destruct l as [|? l']; simpl in Hn;
  [try discriminate Hn | first [discriminate Hn | split_inputs l' Hn]].

Ltac arity :=
  match goal with
  | Hlen : forall n, Some _ = Some n -> length ?l = n |- _ =>
      let Hn := fresh "Hn" in
      pose proof (Hlen _ eq_refl) as Hn; clear Hlen; split_inputs l Hn
  end.

(** Decides the version tests. *)
Ltac versions :=
  cbn [opset_version];
  repeat match goal with
  | |- context [Z.leb ?a ?b] => destruct (Z.leb_spec a b); try (exfalso; lia)
  | |- context [Z.ltb ?a ?b] => destruct (Z.ltb_spec a b); try (exfalso; lia)
  end.

Ltac known :=
  repeat match goal with
  | Hf : _ = Some _ |- _ => rewrite Hf
  | Hf : _ = Ret _ |- _ => rewrite Hf
  end.

(** Runs the body, with what the libraries read. *)
Ltac run :=
  vm_compute; repeat (progress known; vm_compute);
  eexists _, _; reflexivity.

Ltac lift_step :=
  match goal with
  | |- context [lift ?x ≫= _] =>
      let v := eval vm_compute in x in
      change x with v; rewrite lift_bind_Ret
  end.

Ltac test_step :=
  match goal with
  | |- context [if ?c then _ else _] =>
      let v := eval vm_compute in c in
      change c with v; cbv iota
  end.


Lemma returns_convert_weights_and_inputs `{Ext : External} node kw init :
  minimal_valid "null" node kw init ->
  exists items init',
    convert_weights_and_inputs node kw init = (Ret items, init').
Proof.
  intros Hv. unpack "null" Hv.
  unfold convert_weights_and_inputs. rewrite Hget, lift_bind_Ret.
  destruct (is_input kw) eqn:Hin; cbn [negb].
  - eexists _, _. reflexivity.
  - destruct (Hnull eq_refl) as [Hin'|(a & t & Ha & Ht)]; [congruence|].
    rewrite Ha, lift_bind_Ret, Ht, lift_bind_Ret.
    eexists _, _. reflexivity.
Qed.

Lemma returns_convert_softmax_output `{Ext : External} node kw init :
  minimal_valid "SoftmaxOutput" node kw init ->
  exists items init', convert_softmax_output node kw init = (Ret items, init').
Proof.
  intros Hv. unpack "SoftmaxOutput" Hv. arity.
  destruct (first_input_returns _ _ _ _ _ _ Hget) as [p Hp].
  unfold convert_softmax_output. cbv zeta. rewrite Hp, lift_bind_Ret.
  eexists _, _. reflexivity.
Qed.

Lemma returns_convert_logistic_regression_output `{Ext : External}
    node kw init :
  minimal_valid "LogisticRegressionOutput" node kw init ->
  exists items init',
    convert_logistic_regression_output node kw init = (Ret items, init').
Proof.
  intros Hv. unpack "LogisticRegressionOutput" Hv. arity.
  destruct (first_input_returns _ _ _ _ _ _ Hget) as [p Hp].
  unfold convert_logistic_regression_output. cbv zeta.
  rewrite Hp, lift_bind_Ret.
  eexists _, _. reflexivity.
Qed.

Lemma returns_scalar_op_helper `{Ext : External} op op_name node kw init :
  (list_to_map minimal_nodes
     : gmap string (list (string * string) * option nat)) !! op
  = Some ([], Some 1%nat) ->
  minimal_valid op node kw init ->
  exists v n init',
    scalar_op_helper node op_name kw init
    = (Ret [ItemValue v; ItemNode n], init').
Proof.
  destruct Ext as [fos alias cast binop toarr pyeval].
  intros Hop Hv. eapply (minimal_valid_unpack op) in Hv; [|exact Hop].
  destruct Hv as (inputs & Hattrs & Hget & Hlen & Hctx & Hlib & _ & Hfold).
  destruct Hctx as (Hopset & Htype & _). arity.
  specialize (Hfold _ eq_refl).
  unfold scalar_op_helper. rewrite Hget, lift_bind_Ret. rewrite Htype.
  match goal with |- context [lift (TENSOR_TYPE_TO_NP_TYPE FLOAT) ≫= ?k] =>
    change (lift (TENSOR_TYPE_TO_NP_TYPE FLOAT) ≫= k) with (k Float32)
  end.
  cbv beta.
  match goal with |- context [lift (@np_array ?I ?l ?d) ≫= ?k] =>
    let v := eval vm_compute in (@np_array I l d) in
    change (@np_array I l d) with v
  end.
  rewrite lift_bind_Ret. cbv zeta.
  rewrite M_bind_unfold. cbn [initializer_read].
  rewrite (scalar_op_loop_not_found _ _ _ _ _ _
             (proj1 (Forall_forall _ _) Hfold)), lift_bind_Ret.
  eexists _, _, _. reflexivity.
Qed.

Lemma returns_convert_slice_channel `{Ext : External} node kw init :
  minimal_valid "SliceChannel" node kw init ->
  exists items init', convert_slice_channel node kw init = (Ret items, init').
Proof.
  destruct Ext as [fos alias cast binop toarr pyeval].
  intros Hv. unpack "SliceChannel" Hv.
  unfold convert_slice_channel. rewrite Hget, lift_bind_Ret, Hshape.
  do 3 lift_step. do 2 test_step.
  unfold item.
  change (list_get ((d0 :: d1 :: dims) :: shapes) 0)
    with (Ret (d0 :: d1 :: dims)).
  rewrite lift_bind_Ret, list_get_Z_second, lift_bind_Ret.
  eexists _, _. reflexivity.
Qed.

Lemma returns_convert_stack `{Ext : External} node kw init :
  minimal_valid "stack" node kw init ->
  exists items init', convert_stack node kw init = (Ret items, init').
Proof.
  destruct Ext as [fos alias cast binop toarr pyeval].
  intros Hv. unpack "stack" Hv.
  unfold convert_stack. rewrite Hget, lift_bind_Ret.
  lift_step.
  match goal with |- context [fold_left ?f ?l ?a] =>
    destruct (fold_left f l a) as [nodes n]
  end.
  eexists _, _. reflexivity.
Qed.

Lemma returns_convert_contrib_box_decode `{Ext : External} node kw init :
  minimal_valid "_contrib_box_decode" node kw init ->
  exists items init',
    convert_contrib_box_decode node kw init = (Ret items, init').
Proof.
  destruct Ext as [fos alias cast binop toarr pyeval].
  intros Hv. unpack "_contrib_box_decode" Hv. arity.
  destruct kw as [o_v i_t i_s ix pn il is_in ws in_sh out_sh]; simpl in *.
  unfold convert_contrib_box_decode; cbv zeta. rewrite Hget, lift_bind_Ret.
  subst. vm_compute. known. vm_compute.
  destruct fm1 as [s1|s1| |s1 m e]; try destruct s1;
    eexists _, _; reflexivity.
Qed.

Lemma returns_convert_convolution `{Ext : External} node kw init :
  minimal_valid "Convolution" node kw init ->
  exists items init', convert_convolution node kw init = (Ret items, init').
Proof.
  destruct Ext as [fos alias cast binop toarr pyeval].
  intros Hv. unpack "Convolution" Hv.
  destruct kw as [o_v i_t i_s ix pn il is_in ws in_sh out_sh]; simpl in *.
  unfold convert_convolution; cbv zeta.
  rewrite Hget, lift_bind_Ret. subst. versions; run.
Qed.

Lemma returns_convert_deconvolution `{Ext : External} node kw init :
  minimal_valid "Deconvolution" node kw init ->
  exists items init', convert_deconvolution node kw init = (Ret items, init').
Proof.
  destruct Ext as [fos alias cast binop toarr pyeval].
  intros Hv. unpack "Deconvolution" Hv.
  destruct kw as [o_v i_t i_s ix pn il is_in ws in_sh out_sh]; simpl in *.
  unfold convert_deconvolution; cbv zeta.
  rewrite Hget, lift_bind_Ret. subst. versions; run.
Qed.

Lemma returns_convert_crop `{Ext : External} node kw init :
  minimal_valid "Crop" node kw init ->
  exists items init', convert_crop node kw init = (Ret items, init').
Proof.
  destruct Ext as [fos alias cast binop toarr pyeval].
  intros Hv. unpack "Crop" Hv. arity.
  destruct kw as [o_v i_t i_s ix pn il is_in ws in_sh out_sh]; simpl in *.
  unfold convert_crop; cbv zeta.
  rewrite Hget, lift_bind_Ret. subst. versions; run.
Qed.

Lemma returns_convert_fully_connected `{Ext : External} node kw init :
  minimal_valid "FullyConnected" node kw init ->
  exists items init',
    convert_fully_connected node kw init = (Ret items, init').
Proof.
  destruct Ext as [fos alias cast binop toarr pyeval].
  intros Hv. unpack "FullyConnected" Hv. arity.
  destruct kw as [o_v i_t i_s ix pn il is_in ws in_sh out_sh]; simpl in *.
  unfold convert_fully_connected; cbv zeta.
  rewrite Hget, lift_bind_Ret. subst. versions; run.
Qed.

Lemma returns_convert_batchnorm `{Ext : External} node kw init :
  minimal_valid "BatchNorm" node kw init ->
  exists items init', convert_batchnorm node kw init = (Ret items, init').
Proof.
  destruct Ext as [fos alias cast binop toarr pyeval].
  intros Hv. unpack "BatchNorm" Hv.
  destruct kw as [o_v i_t i_s ix pn il is_in ws in_sh out_sh]; simpl in *.
  unfold convert_batchnorm; cbv zeta.
  rewrite Hget, lift_bind_Ret. subst. versions; run.
Qed.

Lemma returns_convert_activation `{Ext : External} node kw init :
  minimal_valid "Activation" node kw init ->
  exists items init', convert_activation node kw init = (Ret items, init').
Proof.
  destruct Ext as [fos alias cast binop toarr pyeval].
  intros Hv. unpack "Activation" Hv.
  destruct kw as [o_v i_t i_s ix pn il is_in ws in_sh out_sh]; simpl in *.
  unfold convert_activation; cbv zeta.
  rewrite Hget, lift_bind_Ret. subst. versions; run.
Qed.

Lemma returns_convert_pad `{Ext : External} node kw init :
  minimal_valid "Pad" node kw init ->
  exists items init', convert_pad node kw init = (Ret items, init').
Proof.
  destruct Ext as [fos alias cast binop toarr pyeval].
  intros Hv. unpack "Pad" Hv. arity.
  destruct kw as [o_v i_t i_s ix pn il is_in ws in_sh out_sh]; simpl in *.
  unfold convert_pad; cbv zeta.
  rewrite Hget, lift_bind_Ret. subst. versions; run.
Qed.

Lemma returns_convert_linalg_gemm2 `{Ext : External} node kw init :
  minimal_valid "_linalg_gemm2" node kw init ->
  exists items init', convert_linalg_gemm2 node kw init = (Ret items, init').
Proof.
  destruct Ext as [fos alias cast binop toarr pyeval].
  intros Hv. unpack "_linalg_gemm2" Hv.
  destruct kw as [o_v i_t i_s ix pn il is_in ws in_sh out_sh]; simpl in *.
  unfold convert_linalg_gemm2; cbv zeta.
  rewrite Hget, lift_bind_Ret. subst. versions; run.
Qed.

Lemma returns_convert_pooling `{Ext : External} node kw init :
  minimal_valid "Pooling" node kw init ->
  exists items init', convert_pooling node kw init = (Ret items, init').
Proof.
  destruct Ext as [fos alias cast binop toarr pyeval].
  intros Hv. unpack "Pooling" Hv.
  destruct kw as [o_v i_t i_s ix pn il is_in ws in_sh out_sh]; simpl in *.
  unfold convert_pooling; cbv zeta.
  rewrite Hget, lift_bind_Ret. subst. versions; run.
Qed.

Lemma returns_convert_instancenorm `{Ext : External} node kw init :
  minimal_valid "InstanceNorm" node kw init ->
  exists items init', convert_instancenorm node kw init = (Ret items, init').
Proof.
  destruct Ext as [fos alias cast binop toarr pyeval].
  intros Hv. unpack "InstanceNorm" Hv.
  destruct kw as [o_v i_t i_s ix pn il is_in ws in_sh out_sh]; simpl in *.
  unfold convert_instancenorm; cbv zeta.
  rewrite Hget, lift_bind_Ret. subst. versions; run.
Qed.

Lemma returns_convert_leakyrelu `{Ext : External} node kw init :
  minimal_valid "LeakyReLU" node kw init ->
  exists items init', convert_leakyrelu node kw init = (Ret items, init').
Proof.
  destruct Ext as [fos alias cast binop toarr pyeval].
  intros Hv. unpack "LeakyReLU" Hv.
  destruct kw as [o_v i_t i_s ix pn il is_in ws in_sh out_sh]; simpl in *.
  unfold convert_leakyrelu; cbv zeta.
  rewrite Hget, lift_bind_Ret. subst. versions; run.
Qed.

Lemma returns_convert_softmax `{Ext : External} node kw init :
  minimal_valid "softmax" node kw init ->
  exists items init', convert_softmax node kw init = (Ret items, init').
Proof.
  destruct Ext as [fos alias cast binop toarr pyeval].
  intros Hv. unpack "softmax" Hv. arity.
  destruct kw as [o_v i_t i_s ix pn il is_in ws in_sh out_sh]; simpl in *.
  unfold convert_softmax; cbv zeta.
  rewrite Hget, lift_bind_Ret. subst. versions; run.
Qed.

Lemma returns_convert_concat `{Ext : External} node kw init :
  minimal_valid "Concat" node kw init ->
  exists items init', convert_concat node kw init = (Ret items, init').
Proof.
  destruct Ext as [fos alias cast binop toarr pyeval].
  intros Hv. unpack "Concat" Hv.
  destruct kw as [o_v i_t i_s ix pn il is_in ws in_sh out_sh]; simpl in *.
  unfold convert_concat; cbv zeta.
  rewrite Hget, lift_bind_Ret. subst. versions; run.
Qed.

Lemma returns_convert_transpose `{Ext : External} node kw init :
  minimal_valid "transpose" node kw init ->
  exists items init', convert_transpose node kw init = (Ret items, init').
Proof.
  destruct Ext as [fos alias cast binop toarr pyeval].
  intros Hv. unpack "transpose" Hv.
  destruct kw as [o_v i_t i_s ix pn il is_in ws in_sh out_sh]; simpl in *.
  unfold convert_transpose; cbv zeta.
  rewrite Hget, lift_bind_Ret. subst. versions; run.
Qed.

Lemma returns_convert_lrn `{Ext : External} node kw init :
  minimal_valid "LRN" node kw init ->
  exists items init', convert_lrn node kw init = (Ret items, init').
Proof.
  destruct Ext as [fos alias cast binop toarr pyeval].
  intros Hv. unpack "LRN" Hv.
  destruct kw as [o_v i_t i_s ix pn il is_in ws in_sh out_sh]; simpl in *.
  unfold convert_lrn; cbv zeta.
  rewrite Hget, lift_bind_Ret. subst. versions; run.
Qed.

Lemma returns_convert_l2normalization `{Ext : External} node kw init :
  minimal_valid "L2Normalization" node kw init ->
  exists items init',
    convert_l2normalization node kw init = (Ret items, init').
Proof.
  destruct Ext as [fos alias cast binop toarr pyeval].
  intros Hv. unpack "L2Normalization" Hv.
  destruct kw as [o_v i_t i_s ix pn il is_in ws in_sh out_sh]; simpl in *.
  unfold convert_l2normalization; cbv zeta.
  rewrite Hget, lift_bind_Ret. subst. versions; run.
Qed.

Lemma returns_convert_dropout `{Ext : External} node kw init :
  minimal_valid "Dropout" node kw init ->
  exists items init', convert_dropout node kw init = (Ret items, init').
Proof.
  destruct Ext as [fos alias cast binop toarr pyeval].
  intros Hv. unpack "Dropout" Hv. arity.
  destruct kw as [o_v i_t i_s ix pn il is_in ws in_sh out_sh]; simpl in *.
  unfold convert_dropout; cbv zeta.
  rewrite Hget, lift_bind_Ret. subst. versions; run.
Qed.

Lemma returns_convert_clip `{Ext : External} node kw init :
  minimal_valid "clip" node kw init ->
  exists items init', convert_clip node kw init = (Ret items, init').
Proof.
  destruct Ext as [fos alias cast binop toarr pyeval].
  intros Hv. unpack "clip" Hv. arity.
  destruct kw as [o_v i_t i_s ix pn il is_in ws in_sh out_sh]; simpl in *.
  unfold convert_clip; cbv zeta.
  rewrite Hget, lift_bind_Ret. subst. versions; run.
Qed.

Lemma returns_convert_mul_scalar `{Ext : External} node kw init :
  minimal_valid "_mul_scalar" node kw init ->
  exists v n init',
    convert_mul_scalar node kw init = (Ret [ItemValue v; ItemNode n], init').
Proof. apply (returns_scalar_op_helper "_mul_scalar"). reflexivity. Qed.

Lemma returns_convert_minus_scalar `{Ext : External} node kw init :
  minimal_valid "_minus_scalar" node kw init ->
  exists v n init',
    convert_minus_scalar node kw init = (Ret [ItemValue v; ItemNode n], init').
Proof. apply (returns_scalar_op_helper "_minus_scalar"). reflexivity. Qed.

Lemma returns_convert_rminus_scalar `{Ext : External} node kw init :
  minimal_valid "_rminus_scalar" node kw init ->
  exists v n init',
    convert_rminus_scalar node kw init = (Ret [ItemValue v; ItemNode n], init').
Proof. apply (returns_scalar_op_helper "_rminus_scalar"). reflexivity. Qed.

Lemma returns_convert_add_scalar `{Ext : External} node kw init :
  minimal_valid "_plus_scalar" node kw init ->
  exists v n init',
    convert_add_scalar node kw init = (Ret [ItemValue v; ItemNode n], init').
Proof. apply (returns_scalar_op_helper "_plus_scalar"). reflexivity. Qed.

Lemma returns_convert_div_scalar `{Ext : External} node kw init :
  minimal_valid "_div_scalar" node kw init ->
  exists v n init',
    convert_div_scalar node kw init = (Ret [ItemValue v; ItemNode n], init').
Proof. apply (returns_scalar_op_helper "_div_scalar"). reflexivity. Qed.

Lemma returns_convert_rdiv_scalar `{Ext : External} node kw init :
  minimal_valid "_rdiv_scalar" node kw init ->
  exists v n init',
    convert_rdiv_scalar node kw init = (Ret [ItemValue v; ItemNode n], init').
Proof. apply (returns_scalar_op_helper "_rdiv_scalar"). reflexivity. Qed.

Lemma returns_convert_pow_scalar `{Ext : External} node kw init :
  minimal_valid "_power_scalar" node kw init ->
  exists v n init',
    convert_pow_scalar node kw init = (Ret [ItemValue v; ItemNode n], init').
Proof. apply (returns_scalar_op_helper "_power_scalar"). reflexivity. Qed.

Lemma returns_convert_argmax `{Ext : External} node kw init :
  minimal_valid "argmax" node kw init ->
  exists items init', convert_argmax node kw init = (Ret items, init').
Proof.
  destruct Ext as [fos alias cast binop toarr pyeval].
  intros Hv. unpack "argmax" Hv.
  destruct kw as [o_v i_t i_s ix pn il is_in ws in_sh out_sh]; simpl in *.
  unfold convert_argmax, convert_arg; cbv zeta.
  rewrite Hget, lift_bind_Ret. subst. versions; run.
Qed.

Lemma returns_convert_argmin `{Ext : External} node kw init :
  minimal_valid "argmin" node kw init ->
  exists items init', convert_argmin node kw init = (Ret items, init').
Proof.
  destruct Ext as [fos alias cast binop toarr pyeval].
  intros Hv. unpack "argmin" Hv.
  destruct kw as [o_v i_t i_s ix pn il is_in ws in_sh out_sh]; simpl in *.
  unfold convert_argmin, convert_arg; cbv zeta.
  rewrite Hget, lift_bind_Ret. subst. versions; run.
Qed.

Lemma returns_convert_min `{Ext : External} node kw init :
  minimal_valid "min" node kw init ->
  exists items init', convert_min node kw init = (Ret items, init').
Proof.
  destruct Ext as [fos alias cast binop toarr pyeval].
  intros Hv. unpack "min" Hv.
  destruct kw as [o_v i_t i_s ix pn il is_in ws in_sh out_sh]; simpl in *.
  unfold convert_min, reduce_axes_not_none; cbv zeta.
  rewrite Hget, lift_bind_Ret. subst. versions; run.
Qed.

Lemma returns_convert_max `{Ext : External} node kw init :
  minimal_valid "max" node kw init ->
  exists items init', convert_max node kw init = (Ret items, init').
Proof.
  destruct Ext as [fos alias cast binop toarr pyeval].
  intros Hv. unpack "max" Hv.
  destruct kw as [o_v i_t i_s ix pn il is_in ws in_sh out_sh]; simpl in *.
  unfold convert_max, reduce_axes_not_none; cbv zeta.
  rewrite Hget, lift_bind_Ret. subst. versions; run.
Qed.

Lemma returns_convert_mean `{Ext : External} node kw init :
  minimal_valid "mean" node kw init ->
  exists items init', convert_mean node kw init = (Ret items, init').
Proof.
  destruct Ext as [fos alias cast binop toarr pyeval].
  intros Hv. unpack "mean" Hv.
  destruct kw as [o_v i_t i_s ix pn il is_in ws in_sh out_sh]; simpl in *.
  unfold convert_mean, reduce_axes_not_none; cbv zeta.
  rewrite Hget, lift_bind_Ret. subst. versions; run.
Qed.

Lemma returns_convert_prod `{Ext : External} node kw init :
  minimal_valid "prod" node kw init ->
  exists items init', convert_prod node kw init = (Ret items, init').
Proof.
  destruct Ext as [fos alias cast binop toarr pyeval].
  intros Hv. unpack "prod" Hv.
  destruct kw as [o_v i_t i_s ix pn il is_in ws in_sh out_sh]; simpl in *.
  unfold convert_prod, reduce_axes_not_none; cbv zeta.
  rewrite Hget, lift_bind_Ret. subst. versions; run.
Qed.

Lemma returns_convert_reshape `{Ext : External} node kw init :
  minimal_valid "Reshape" node kw init ->
  exists items init', convert_reshape node kw init = (Ret items, init').
Proof.
  destruct Ext as [fos alias cast binop toarr pyeval].
  intros Hv. unpack "Reshape" Hv. arity.
  destruct kw as [o_v i_t i_s ix pn il is_in ws in_sh out_sh]; simpl in *.
  unfold convert_reshape; cbv zeta.
  rewrite Hget, lift_bind_Ret. subst. versions; run.
Qed.

Lemma returns_convert_cast `{Ext : External} node kw init :
  minimal_valid "Cast" node kw init ->
  exists items init', convert_cast node kw init = (Ret items, init').
Proof.
  destruct Ext as [fos alias cast binop toarr pyeval].
  intros Hv. unpack "Cast" Hv.
  destruct kw as [o_v i_t i_s ix pn il is_in ws in_sh out_sh]; simpl in *.
  unfold convert_cast; cbv zeta.
  rewrite Hget, lift_bind_Ret. subst. versions; run.
Qed.

Lemma returns_convert_slice_axis `{Ext : External} node kw init :
  minimal_valid "slice_axis" node kw init ->
  exists items init', convert_slice_axis node kw init = (Ret items, init').
Proof.
  destruct Ext as [fos alias cast binop toarr pyeval].
  intros Hv. unpack "slice_axis" Hv. arity.
  destruct kw as [o_v i_t i_s ix pn il is_in ws in_sh out_sh]; simpl in *.
  unfold convert_slice_axis; cbv zeta.
  rewrite Hget, lift_bind_Ret. subst. versions; run.
Qed.

Lemma returns_convert_expand_dims `{Ext : External} node kw init :
  minimal_valid "expand_dims" node kw init ->
  exists items init', convert_expand_dims node kw init = (Ret items, init').
Proof.
  destruct Ext as [fos alias cast binop toarr pyeval].
  intros Hv. unpack "expand_dims" Hv.
  destruct kw as [o_v i_t i_s ix pn il is_in ws in_sh out_sh]; simpl in *.
  unfold convert_expand_dims; cbv zeta.
  rewrite Hget, lift_bind_Ret. subst. versions; run.
Qed.

Lemma returns_convert_squeeze `{Ext : External} node kw init :
  minimal_valid "squeeze" node kw init ->
  exists items init', convert_squeeze node kw init = (Ret items, init').
Proof.
  destruct Ext as [fos alias cast binop toarr pyeval].
  intros Hv. unpack "squeeze" Hv.
  destruct kw as [o_v i_t i_s ix pn il is_in ws in_sh out_sh]; simpl in *.
  unfold convert_squeeze; cbv zeta.
  rewrite Hget, lift_bind_Ret. subst. versions; run.
Qed.

Lemma returns_convert_depthtospace `{Ext : External} node kw init :
  minimal_valid "depth_to_space" node kw init ->
  exists items init', convert_depthtospace node kw init = (Ret items, init').
Proof.
  destruct Ext as [fos alias cast binop toarr pyeval].
  intros Hv. unpack "depth_to_space" Hv.
  destruct kw as [o_v i_t i_s ix pn il is_in ws in_sh out_sh]; simpl in *.
  unfold convert_depthtospace, convert_block; cbv zeta.
  rewrite Hget, lift_bind_Ret. subst. versions; run.
Qed.

Lemma returns_convert_spacetodepth `{Ext : External} node kw init :
  minimal_valid "space_to_depth" node kw init ->
  exists items init', convert_spacetodepth node kw init = (Ret items, init').
Proof.
  destruct Ext as [fos alias cast binop toarr pyeval].
  intros Hv. unpack "space_to_depth" Hv.
  destruct kw as [o_v i_t i_s ix pn il is_in ws in_sh out_sh]; simpl in *.
  unfold convert_spacetodepth, convert_block; cbv zeta.
  rewrite Hget, lift_bind_Ret. subst. versions; run.
Qed.

Lemma returns_convert_square `{Ext : External} node kw init :
  minimal_valid "square" node kw init ->
  exists items init', convert_square node kw init = (Ret items, init').
Proof.
  destruct Ext as [fos alias cast binop toarr pyeval].
  intros Hv. unpack "square" Hv.
  destruct kw as [o_v i_t i_s ix pn il is_in ws in_sh out_sh]; simpl in *.
  unfold convert_square; cbv zeta.
  rewrite Hget, lift_bind_Ret. subst. versions; run.
Qed.

Lemma returns_convert_sum `{Ext : External} node kw init :
  minimal_valid "sum" node kw init ->
  exists items init', convert_sum node kw init = (Ret items, init').
Proof.
  destruct Ext as [fos alias cast binop toarr pyeval].
  intros Hv. unpack "sum" Hv.
  destruct kw as [o_v i_t i_s ix pn il is_in ws in_sh out_sh]; simpl in *.
  unfold convert_sum; cbv zeta.
  rewrite Hget, lift_bind_Ret. subst. versions; run.
Qed.

Lemma returns_convert_hardsigmoid `{Ext : External} node kw init :
  minimal_valid "hard_sigmoid" node kw init ->
  exists items init', convert_hardsigmoid node kw init = (Ret items, init').
Proof.
  destruct Ext as [fos alias cast binop toarr pyeval].
  intros Hv. unpack "hard_sigmoid" Hv.
  destruct kw as [o_v i_t i_s ix pn il is_in ws in_sh out_sh]; simpl in *.
  unfold convert_hardsigmoid; cbv zeta.
  rewrite Hget, lift_bind_Ret. subst. versions; run.
Qed.

Lemma returns_convert_logsoftmax `{Ext : External} node kw init :
  minimal_valid "log_softmax" node kw init ->
  exists items init', convert_logsoftmax node kw init = (Ret items, init').
Proof.
  destruct Ext as [fos alias cast binop toarr pyeval].
  intros Hv. unpack "log_softmax" Hv.
  destruct kw as [o_v i_t i_s ix pn il is_in ws in_sh out_sh]; simpl in *.
  unfold convert_logsoftmax; cbv zeta.
  rewrite Hget, lift_bind_Ret. subst. versions; run.
Qed.

Lemma returns_convert_norm `{Ext : External} node kw init :
  minimal_valid "norm" node kw init ->
  exists items init', convert_norm node kw init = (Ret items, init').
Proof.
  destruct Ext as [fos alias cast binop toarr pyeval].
  intros Hv. unpack "norm" Hv.
  destruct kw as [o_v i_t i_s ix pn il is_in ws in_sh out_sh]; simpl in *.
  unfold convert_norm; cbv zeta.
  rewrite Hget, lift_bind_Ret. subst. versions; run.
Qed.

Lemma returns_convert_multinomial `{Ext : External} node kw init :
  minimal_valid "_sample_multinomial" node kw init ->
  exists items init', convert_multinomial node kw init = (Ret items, init').
Proof.
  destruct Ext as [fos alias cast binop toarr pyeval].
  intros Hv. unpack "_sample_multinomial" Hv.
  destruct kw as [o_v i_t i_s ix pn il is_in ws in_sh out_sh]; simpl in *.
  unfold convert_multinomial; cbv zeta.
  rewrite Hget, lift_bind_Ret. subst. versions; run.
Qed.

Lemma returns_convert_random_uniform `{Ext : External} node kw init :
  minimal_valid "_random_uniform" node kw init ->
  exists items init',
    convert_random_uniform node kw init = (Ret items, init').
Proof.
  destruct Ext as [fos alias cast binop toarr pyeval].
  intros Hv. unpack "_random_uniform" Hv.
  destruct kw as [o_v i_t i_s ix pn il is_in ws in_sh out_sh]; simpl in *.
  unfold convert_random_uniform; cbv zeta.
  rewrite Hget, lift_bind_Ret. subst. versions; run.
Qed.

Lemma returns_convert_random_normal `{Ext : External} node kw init :
  minimal_valid "_random_normal" node kw init ->
  exists items init', convert_random_normal node kw init = (Ret items, init').
Proof.
  destruct Ext as [fos alias cast binop toarr pyeval].
  intros Hv. unpack "_random_normal" Hv.
  destruct kw as [o_v i_t i_s ix pn il is_in ws in_sh out_sh]; simpl in *.
  unfold convert_random_normal; cbv zeta.
  rewrite Hget, lift_bind_Ret. subst. versions; run.
Qed.

Lemma returns_convert_roipooling `{Ext : External} node kw init :
  minimal_valid "ROIPooling" node kw init ->
  exists items init', convert_roipooling node kw init = (Ret items, init').
Proof.
  destruct Ext as [fos alias cast binop toarr pyeval].
  intros Hv. unpack "ROIPooling" Hv.
  destruct kw as [o_v i_t i_s ix pn il is_in ws in_sh out_sh]; simpl in *.
  unfold convert_roipooling; cbv zeta.
  rewrite Hget, lift_bind_Ret. subst. versions; run.
Qed.

Lemma returns_convert_tile `{Ext : External} node kw init :
  minimal_valid "tile" node kw init ->
  exists items init', convert_tile node kw init = (Ret items, init').
Proof.
  destruct Ext as [fos alias cast binop toarr pyeval].
  intros Hv. unpack "tile" Hv.
  destruct kw as [o_v i_t i_s ix pn il is_in ws in_sh out_sh]; simpl in *.
  unfold convert_tile, convert_with_shape_tensor; cbv zeta.
  rewrite Hget, lift_bind_Ret. subst. versions; run.
Qed.

Lemma returns_convert_broadcast_to `{Ext : External} node kw init :
  minimal_valid "broadcast_to" node kw init ->
  exists items init', convert_broadcast_to node kw init = (Ret items, init').
Proof.
  destruct Ext as [fos alias cast binop toarr pyeval].
  intros Hv. unpack "broadcast_to" Hv.
  destruct kw as [o_v i_t i_s ix pn il is_in ws in_sh out_sh]; simpl in *.
  unfold convert_broadcast_to, convert_with_shape_tensor; cbv zeta.
  rewrite Hget, lift_bind_Ret. subst. versions; run.
Qed.

Lemma returns_convert_topk `{Ext : External} node kw init :
  minimal_valid "topk" node kw init ->
  exists items init', convert_topk node kw init = (Ret items, init').
Proof.
  destruct Ext as [fos alias cast binop toarr pyeval].
  intros Hv. unpack "topk" Hv. arity.
  destruct kw as [o_v i_t i_s ix pn il is_in ws in_sh out_sh]; simpl in *.
  unfold convert_topk; cbv zeta.
  rewrite Hget, lift_bind_Ret. subst. versions; run.
Qed.

Lemma returns_convert_take `{Ext : External} node kw init :
  minimal_valid "take" node kw init ->
  exists items init', convert_take node kw init = (Ret items, init').
Proof.
  destruct Ext as [fos alias cast binop toarr pyeval].
  intros Hv. unpack "take" Hv.
  destruct kw as [o_v i_t i_s ix pn il is_in ws in_sh out_sh]; simpl in *.
  unfold convert_take; cbv zeta.
  rewrite Hget, lift_bind_Ret. subst. versions; run.
Qed.

Lemma returns_convert_layer_norm `{Ext : External} node kw init :
  minimal_valid "LayerNorm" node kw init ->
  exists items init', convert_layer_norm node kw init = (Ret items, init').
Proof.
  destruct Ext as [fos alias cast binop toarr pyeval].
  intros Hv. unpack "LayerNorm" Hv. arity.
  destruct kw as [o_v i_t i_s ix pn il is_in ws in_sh out_sh]; simpl in *.
  unfold convert_layer_norm; cbv zeta.
  rewrite Hget, lift_bind_Ret. subst. versions; run.
Qed.

Lemma returns_convert_matmul_selfatt_qk `{Ext : External} node kw init :
  minimal_valid "_contrib_interleaved_matmul_selfatt_qk" node kw init ->
  exists items init',
    convert_matmul_selfatt_qk node kw init = (Ret items, init').
Proof.
  destruct Ext as [fos alias cast binop toarr pyeval].
  intros Hv. unpack "_contrib_interleaved_matmul_selfatt_qk" Hv. arity.
  destruct kw as [o_v i_t i_s ix pn il is_in ws in_sh out_sh]; simpl in *.
  unfold convert_matmul_selfatt_qk; cbv zeta.
  rewrite Hget, lift_bind_Ret. subst. versions; run.
Qed.

Lemma returns_convert_contrib_interleaved_matmul_selfatt_valatt `{Ext : External}
    node kw init :
  minimal_valid "_contrib_interleaved_matmul_selfatt_valatt" node kw init ->
  exists items init',
    convert_contrib_interleaved_matmul_selfatt_valatt node kw init = (Ret items, init').
Proof.
  destruct Ext as [fos alias cast binop toarr pyeval].
  intros Hv. unpack "_contrib_interleaved_matmul_selfatt_valatt" Hv. arity.
  destruct kw as [o_v i_t i_s ix pn il is_in ws in_sh out_sh]; simpl in *.
  unfold convert_contrib_interleaved_matmul_selfatt_valatt; cbv zeta.
  rewrite Hget, lift_bind_Ret. subst. versions; run.
Qed.

Lemma returns_convert_broadcast_axis `{Ext : External} node kw init :
  minimal_valid "broadcast_axis" node kw init ->
  exists items init',
    convert_broadcast_axis node kw init = (Ret items, init').
Proof.
  destruct Ext as [fos alias cast binop toarr pyeval].
  intros Hv. unpack "broadcast_axis" Hv. arity.
  destruct kw as [o_v i_t i_s ix pn il is_in ws in_sh out_sh]; simpl in *.
  unfold convert_broadcast_axis; cbv zeta.
  rewrite Hget, lift_bind_Ret. subst. versions; run.
Qed.

Lemma returns_convert_sequencemask `{Ext : External} node kw init :
  minimal_valid "SequenceMask" node kw init ->
  exists items init', convert_sequencemask node kw init = (Ret items, init').
Proof.
  destruct Ext as [fos alias cast binop toarr pyeval].
  intros Hv. unpack "SequenceMask" Hv. arity.
  destruct kw as [o_v i_t i_s ix pn il is_in ws in_sh out_sh]; simpl in *.
  unfold convert_sequencemask; cbv zeta.
  rewrite Hget, lift_bind_Ret. subst. versions; run.
Qed.

Lemma returns_convert_embedding `{Ext : External} node kw init :
  minimal_valid "Embedding" node kw init ->
  exists items init', convert_embedding node kw init = (Ret items, init').
Proof.
  destruct Ext as [fos alias cast binop toarr pyeval].
  intros Hv. unpack "Embedding" Hv. arity.
  destruct kw as [o_v i_t i_s ix pn il is_in ws in_sh out_sh]; simpl in *.
  unfold convert_embedding; cbv zeta.
  rewrite Hget, lift_bind_Ret. subst. versions; run.
Qed.

Lemma returns_convert_slice `{Ext : External} node kw init :
  minimal_valid "slice" node kw init ->
  exists items init', convert_slice node kw init = (Ret items, init').
Proof.
  destruct Ext as [fos alias cast binop toarr pyeval].
  intros Hv. unpack "slice" Hv. arity.
  destruct kw as [o_v i_t i_s ix pn il is_in ws in_sh out_sh]; simpl in *.
  unfold convert_slice; cbv zeta.
  rewrite Hget, lift_bind_Ret. subst. versions; run.
Qed.

Lemma returns_convert_slice_like `{Ext : External} node kw init :
  minimal_valid "slice_like" node kw init ->
  exists items init', convert_slice_like node kw init = (Ret items, init').
Proof.
  destruct Ext as [fos alias cast binop toarr pyeval].
  intros Hv. unpack "slice_like" Hv. arity.
  destruct kw as [o_v i_t i_s ix pn il is_in ws in_sh out_sh]; simpl in *.
  unfold convert_slice_like; cbv zeta.
  rewrite Hget, lift_bind_Ret. subst. versions; run.
Qed.

Lemma returns_convert_zeros_like `{Ext : External} node kw init :
  minimal_valid "zeros_like" node kw init ->
  exists items init', convert_zeros_like node kw init = (Ret items, init').
Proof.
  destruct Ext as [fos alias cast binop toarr pyeval].
  intros Hv. unpack "zeros_like" Hv. arity.
  destruct kw as [o_v i_t i_s ix pn il is_in ws in_sh out_sh]; simpl in *.
  unfold convert_zeros_like, convert_like; cbv zeta.
  rewrite Hget, lift_bind_Ret. subst. versions; run.
Qed.

Lemma returns_convert_ones_like `{Ext : External} node kw init :
  minimal_valid "ones_like" node kw init ->
  exists items init', convert_ones_like node kw init = (Ret items, init').
Proof.
  destruct Ext as [fos alias cast binop toarr pyeval].
  intros Hv. unpack "ones_like" Hv. arity.
  destruct kw as [o_v i_t i_s ix pn il is_in ws in_sh out_sh]; simpl in *.
  unfold convert_ones_like, convert_like; cbv zeta.
  rewrite Hget, lift_bind_Ret. subst. versions; run.
Qed.

Lemma returns_convert_arange_like `{Ext : External} node kw init :
  minimal_valid "_contrib_arange_like" node kw init ->
  exists items init', convert_arange_like node kw init = (Ret items, init').
Proof.
  destruct Ext as [fos alias cast binop toarr pyeval].
  intros Hv. unpack "_contrib_arange_like" Hv. arity.
  destruct kw as [o_v i_t i_s ix pn il is_in ws in_sh out_sh]; simpl in *.
  unfold convert_arange_like; cbv zeta.
  rewrite Hget, lift_bind_Ret. subst. versions; run.
Qed.

Lemma returns_convert_contrib_BilinearResize2D `{Ext : External}
    node kw init :
  minimal_valid "_contrib_BilinearResize2D" node kw init ->
  exists items init',
    convert_contrib_BilinearResize2D node kw init = (Ret items, init').
Proof.
  destruct Ext as [fos alias cast binop toarr pyeval].
  intros Hv. unpack "_contrib_BilinearResize2D" Hv. arity.
  destruct kw as [o_v i_t i_s ix pn il is_in ws in_sh out_sh]; simpl in *.
  unfold convert_contrib_BilinearResize2D; cbv zeta.
  rewrite Hget, lift_bind_Ret. subst. versions; run.
Qed.

Lemma returns_convert_arange `{Ext : External} node kw init :
  minimal_valid "_arange" node kw init ->
  exists items init', convert_arange node kw init = (Ret items, init').
Proof.
  destruct Ext as [fos alias cast binop toarr pyeval].
  intros Hv. unpack "_arange" Hv.
  destruct kw as [o_v i_t i_s ix pn il is_in ws in_sh out_sh]; simpl in *.
  unfold convert_arange; cbv zeta.
  rewrite Hget, lift_bind_Ret. subst. versions; run.
Qed.

Lemma returns_convert_reverse `{Ext : External} node kw init :
  minimal_valid "reverse" node kw init ->
  exists items init', convert_reverse node kw init = (Ret items, init').
Proof.
  destruct Ext as [fos alias cast binop toarr pyeval].
  intros Hv. unpack "reverse" Hv. arity.
  destruct kw as [o_v i_t i_s ix pn il is_in ws in_sh out_sh]; simpl in *.
  unfold convert_reverse; cbv zeta.
  rewrite Hget, lift_bind_Ret. subst. versions; run.
Qed.

Lemma returns_convert_repeat `{Ext : External} node kw init :
  minimal_valid "repeat" node kw init ->
  exists items init', convert_repeat node kw init = (Ret items, init').
Proof.
  destruct Ext as [fos alias cast binop toarr pyeval].
  intros Hv. unpack "repeat" Hv. arity.
  destruct kw as [o_v i_t i_s ix pn il is_in ws in_sh out_sh]; simpl in *.
  unfold convert_repeat; cbv zeta.
  rewrite Hget, lift_bind_Ret. subst. versions; run.
Qed.

Lemma returns_convert_greater_scalar `{Ext : External} node kw init :
  minimal_valid "_greater_scalar" node kw init ->
  exists items init',
    convert_greater_scalar node kw init = (Ret items, init').
Proof.
  destruct Ext as [fos alias cast binop toarr pyeval].
  intros Hv. unpack "_greater_scalar" Hv. arity.
  destruct kw as [o_v i_t i_s ix pn il is_in ws in_sh out_sh]; simpl in *.
  unfold convert_greater_scalar; cbv zeta.
  rewrite Hget, lift_bind_Ret. subst. versions; run.
Qed.

Lemma returns_convert_where `{Ext : External} node kw init :
  minimal_valid "where" node kw init ->
  exists items init', convert_where node kw init = (Ret items, init').
Proof.
  destruct Ext as [fos alias cast binop toarr pyeval].
  intros Hv. unpack "where" Hv. arity.
  destruct kw as [o_v i_t i_s ix pn il is_in ws in_sh out_sh]; simpl in *.
  unfold convert_where; cbv zeta.
  rewrite Hget, lift_bind_Ret. subst. versions; run.
Qed.

Lemma returns_convert_maximum_scalar `{Ext : External} node kw init :
  minimal_valid "_maximum_scalar" node kw init ->
  exists items init',
    convert_maximum_scalar node kw init = (Ret items, init').
Proof.
  destruct Ext as [fos alias cast binop toarr pyeval].
  intros Hv. unpack "_maximum_scalar" Hv. arity.
  destruct kw as [o_v i_t i_s ix pn il is_in ws in_sh out_sh]; simpl in *.
  unfold convert_maximum_scalar; cbv zeta.
  rewrite Hget, lift_bind_Ret. subst. versions; run.
Qed.

Lemma returns_convert_contrib_AdaptiveAvgPooling2D `{Ext : External}
    node kw init :
  minimal_valid "_contrib_AdaptiveAvgPooling2D" node kw init ->
  exists items init',
    convert_contrib_AdaptiveAvgPooling2D node kw init = (Ret items, init').
Proof.
  destruct Ext as [fos alias cast binop toarr pyeval].
  intros Hv. unpack "_contrib_AdaptiveAvgPooling2D" Hv. arity.
  destruct kw as [o_v i_t i_s ix pn il is_in ws in_sh out_sh]; simpl in *.
  unfold convert_contrib_AdaptiveAvgPooling2D; cbv zeta.
  rewrite Hget, lift_bind_Ret. subst. versions; run.
Qed.

Lemma returns_convert_reshape_like `{Ext : External} node kw init :
  minimal_valid "reshape_like" node kw init ->
  exists items init', convert_reshape_like node kw init = (Ret items, init').
Proof.
  destruct Ext as [fos alias cast binop toarr pyeval].
  intros Hv. unpack "reshape_like" Hv. arity.
  destruct kw as [o_v i_t i_s ix pn il is_in ws in_sh out_sh]; simpl in *.
  unfold convert_reshape_like; cbv zeta.
  rewrite Hget, lift_bind_Ret. subst. versions; run.
Qed.

(** ** The contract, rule by rule *)

Ltac scalar_opcode :=
  unfold scalar_opcodes;
  repeat first [apply list_elem_of_here | apply list_elem_of_further].

Ltac not_scalar :=
  let Hin := fresh "Hin" in
  unfold scalar_opcodes; intros Hin;
  repeat (apply elem_of_cons in Hin as [Hin|Hin]; [discriminate Hin|]);
  inversion Hin.

Section ContractOfRules.
Context `{External}.

Lemma convert_weights_and_inputs_returns node kw init items init' :
  convert_weights_and_inputs node kw init = (Ret items, init') ->
  exists v, items = [ItemValue v] /\ vi_name v = node_name node.
Proof.
  unfold convert_weights_and_inputs. rewrite M_bind_unfold. cbn [lift].
  destruct (get_inputs node kw) as [[[nm inputs] attrs]|e] eqn:Hget;
    [|discriminate].
  apply get_inputs_name_attrs in Hget as [-> ->].
  destruct (negb (is_input kw)).
  - rewrite M_bind_unfold. cbn [lift].
    destruct (weights kw !! node_name node) as [a|]; [|discriminate].
    rewrite M_bind_unfold. cbn [lift].
    destruct (NP_TYPE_TO_TENSOR_TYPE (nd_dtype a)) as [t|e]; [|discriminate].
    intros [= <- _]. eexists. split; reflexivity.
  - intros [= <- _]. eexists. split; reflexivity.
Qed.

Lemma rule_contract_intro op (r : rule) node kw init :
  op <> "dot" -> op <> "topk" -> op <> "SliceChannel" -> op <> "null" ->
  (list_to_map direct_renames : gmap string string) !! op = None ->
  ends_with (named_after op (node_name node)) (r node kw) ->
  (minimal_valid op node kw init ->
   exists items init',
     r node kw init = (Ret items, init') /\
     forall v, last items <> Some (ItemValue v)) ->
  rule_contract op r node kw init.
Proof.
  intros Hdot Htopk Hslice Hnull Hrename Hends Hreturns.
  split; [|split; [|split]].
  - intros items init' Hrun.
    split; [exact (Hends _ _ _ Hrun)|]. repeat split; congruence.
  - intros onnx_op nm inputs attrs Hin _.
    apply direct_renames_lookup in Hin. congruence.
  - intros _ Hv. destruct (Hreturns Hv) as (items & init' & Hrun & Hnode).
    destruct (Hends _ _ _ Hrun) as (i & Hlast & _).
    exists items, init', i. split; [exact Hrun|]. split; [exact Hlast|].
    intros _. destruct i as [n|v]; [eauto|]. destruct (Hnode _ Hlast).
  - congruence.
Qed.

Lemma rule_contract_plain op (r : rule) node kw init :
  op <> "dot" -> op <> "topk" -> op <> "SliceChannel" -> op <> "null" ->
  op ∉ scalar_opcodes ->
  (list_to_map direct_renames : gmap string string) !! op = None ->
  ends_with (named_after op (node_name node)) (r node kw) ->
  (minimal_valid op node kw init ->
   exists items init', r node kw init = (Ret items, init')) ->
  rule_contract op r node kw init.
Proof.
  intros Hdot Htopk Hslice Hnull Hscalar Hrename Hends Hreturns.
  apply rule_contract_intro; try assumption.
  intros Hv. destruct (Hreturns Hv) as (items & init' & Hrun).
  exists items, init'. split; [exact Hrun|]. intros v Hlast.
  destruct (Hends _ _ _ Hrun) as (i & Hlast' & Hnamed).
  rewrite Hlast in Hlast'. injection Hlast' as <-.
  destruct Hnamed as [Hin|[Hop _]]; [exact (Hscalar Hin) | exact (Hnull Hop)].
Qed.

Lemma contract_create_basic_op_node op onnx_op node kw init :
  (op, onnx_op) ∈ direct_renames ->
  rule_contract op (fun node kw => create_basic_op_node onnx_op node kw)
    node kw init.
Proof.
  intros Hin. pose proof (direct_renames_lookup _ _ Hin) as Hop.
  assert (Hne : forall s,
            (list_to_map direct_renames : gmap string string) !! s = None ->
            op <> s) by (intros s Hs ->; congruence).
  split; [|split; [|split]].
  - intros items init' Hrun.
    split; [exact (ends_create_basic_op_node op onnx_op node kw _ _ _ Hrun)|].
    repeat split; intros ->; discriminate Hop.
  - intros onnx_op' nm inputs attrs Hin' Hget.
    apply direct_renames_lookup in Hin'.
    assert (onnx_op' = onnx_op) as -> by congruence.
    exact (create_basic_op_node_returns _ _ _ _ _ _ attrs Hget).
  - intros _ (attrs & arity & inputs & _ & _ & Hget & _).
    rewrite (create_basic_op_node_returns _ _ _ _ _ _ _ Hget).
    eexists _, _, _. split; [reflexivity|]. split; [reflexivity|]. eauto.
  - intros ->. discriminate Hop.
Qed.

Lemma contract_convert_dot node kw init :
  rule_contract "dot" convert_dot node kw init.
Proof.
  split; [|split; [|split]].
  - intros items init'. rewrite convert_dot_run.
    destruct (get_inputs node kw); discriminate.
  - intros onnx_op nm inputs attrs Hin _.
    apply direct_renames_lookup in Hin. discriminate Hin.
  - congruence.
  - intros _ items init'. rewrite convert_dot_run.
    destruct (get_inputs node kw); discriminate.
Qed.

Lemma contract_convert_topk node kw init :
  rule_contract "topk" convert_topk node kw init.
Proof.
  split; [|split; [|split]].
  - intros items init' Hrun.
    split; [exact (ends_convert_topk _ _ _ _ _ Hrun)|].
    split; [intros _; exact (convert_topk_outputs _ _ _ _ _ Hrun)|].
    split; discriminate.
  - intros onnx_op nm inputs attrs Hin _.
    apply direct_renames_lookup in Hin. discriminate Hin.
  - intros _ Hv. destruct (returns_convert_topk _ _ _ Hv)
      as (items & init' & Hrun).
    destruct (convert_topk_outputs _ _ _ _ _ Hrun) as (n & Hlast & _).
    eexists _, _, _. split; [exact Hrun|]. split; [exact Hlast|]. eauto.
  - discriminate.
Qed.

Lemma contract_convert_slice_channel node kw init :
  rule_contract "SliceChannel" convert_slice_channel node kw init.
Proof.
  split; [|split; [|split]].
  - intros items init' Hrun.
    split; [exact (ends_convert_slice_channel _ _ _ _ _ Hrun)|].
    split; [discriminate|]. split; [|discriminate]. intros _.
    destruct (convert_slice_channel_returns _ _ _ _ _ Hrun)
      as (n & -> & _ & Hout). eauto.
  - intros onnx_op nm inputs attrs Hin _.
    apply direct_renames_lookup in Hin. discriminate Hin.
  - intros _ Hv. destruct (returns_convert_slice_channel _ _ _ Hv)
      as (items & init' & Hrun).
    destruct (convert_slice_channel_returns _ _ _ _ _ Hrun)
      as (n & -> & _).
    eexists _, _, _. split; [exact Hrun|]. split; [reflexivity|]. eauto.
  - discriminate.
Qed.

Lemma contract_convert_weights_and_inputs node kw init :
  rule_contract "null" convert_weights_and_inputs node kw init.
Proof.
  split; [|split; [|split]].
  - intros items init' Hrun.
    split; [exact (ends_convert_weights_and_inputs _ _ _ _ _ Hrun)|].
    split; [discriminate|]. split; [discriminate|]. intros _.
    exact (convert_weights_and_inputs_returns _ _ _ _ _ Hrun).
  - intros onnx_op nm inputs attrs Hin _.
    apply direct_renames_lookup in Hin. discriminate Hin.
  - intros _ Hv. destruct (returns_convert_weights_and_inputs _ _ _ Hv)
      as (items & init' & Hrun).
    destruct (convert_weights_and_inputs_returns _ _ _ _ _ Hrun)
      as (v & -> & _).
    eexists _, _, _. split; [exact Hrun|]. split; [reflexivity|].
    intros Hnull. destruct (Hnull eq_refl).
  - discriminate.
Qed.


Lemma contract_convert_convolution node kw init :
  rule_contract "Convolution" convert_convolution node kw init.
Proof.
  apply rule_contract_plain; try discriminate;
    [not_scalar | reflexivity | |].
  - apply (ends_convert_convolution "Convolution").
  - apply returns_convert_convolution.
Qed.

Lemma contract_convert_deconvolution node kw init :
  rule_contract "Deconvolution" convert_deconvolution node kw init.
Proof.
  apply rule_contract_plain; try discriminate;
    [not_scalar | reflexivity | |].
  - apply (ends_convert_deconvolution "Deconvolution").
  - apply returns_convert_deconvolution.
Qed.

Lemma contract_convert_crop node kw init :
  rule_contract "Crop" convert_crop node kw init.
Proof.
  apply rule_contract_plain; try discriminate;
    [not_scalar | reflexivity | |].
  - apply (ends_convert_crop "Crop").
  - apply returns_convert_crop.
Qed.

Lemma contract_convert_fully_connected node kw init :
  rule_contract "FullyConnected" convert_fully_connected node kw init.
Proof.
  apply rule_contract_plain; try discriminate;
    [not_scalar | reflexivity | |].
  - apply (ends_convert_fully_connected "FullyConnected").
  - apply returns_convert_fully_connected.
Qed.

Lemma contract_convert_batchnorm node kw init :
  rule_contract "BatchNorm" convert_batchnorm node kw init.
Proof.
  apply rule_contract_plain; try discriminate;
    [not_scalar | reflexivity | |].
  - apply (ends_convert_batchnorm "BatchNorm").
  - apply returns_convert_batchnorm.
Qed.

Lemma contract_convert_activation node kw init :
  rule_contract "Activation" convert_activation node kw init.
Proof.
  apply rule_contract_plain; try discriminate;
    [not_scalar | reflexivity | |].
  - apply (ends_convert_activation "Activation").
  - apply returns_convert_activation.
Qed.

Lemma contract_convert_pad node kw init :
  rule_contract "Pad" convert_pad node kw init.
Proof.
  apply rule_contract_plain; try discriminate;
    [not_scalar | reflexivity | |].
  - apply ends_convert_pad.
  - apply returns_convert_pad.
Qed.

Lemma contract_convert_linalg_gemm2 node kw init :
  rule_contract "_linalg_gemm2" convert_linalg_gemm2 node kw init.
Proof.
  apply rule_contract_plain; try discriminate;
    [not_scalar | reflexivity | |].
  - apply (ends_convert_linalg_gemm2 "_linalg_gemm2").
  - apply returns_convert_linalg_gemm2.
Qed.

Lemma contract_convert_pooling node kw init :
  rule_contract "Pooling" convert_pooling node kw init.
Proof.
  apply rule_contract_plain; try discriminate;
    [not_scalar | reflexivity | |].
  - apply (ends_convert_pooling "Pooling").
  - apply returns_convert_pooling.
Qed.

Lemma contract_convert_instancenorm node kw init :
  rule_contract "InstanceNorm" convert_instancenorm node kw init.
Proof.
  apply rule_contract_plain; try discriminate;
    [not_scalar | reflexivity | |].
  - apply (ends_convert_instancenorm "InstanceNorm").
  - apply returns_convert_instancenorm.
Qed.

Lemma contract_convert_leakyrelu node kw init :
  rule_contract "LeakyReLU" convert_leakyrelu node kw init.
Proof.
  apply rule_contract_plain; try discriminate;
    [not_scalar | reflexivity | |].
  - apply (ends_convert_leakyrelu "LeakyReLU").
  - apply returns_convert_leakyrelu.
Qed.

Lemma contract_convert_softmax node kw init :
  rule_contract "softmax" convert_softmax node kw init.
Proof.
  apply rule_contract_plain; try discriminate;
    [not_scalar | reflexivity | |].
  - apply ends_convert_softmax.
  - apply returns_convert_softmax.
Qed.

Lemma contract_convert_softmax_output node kw init :
  rule_contract "SoftmaxOutput" convert_softmax_output node kw init.
Proof.
  apply rule_contract_plain; try discriminate;
    [not_scalar | reflexivity | |].
  - apply (ends_convert_softmax_output "SoftmaxOutput").
  - apply returns_convert_softmax_output.
Qed.

Lemma contract_convert_logistic_regression_output node kw init :
  rule_contract "LogisticRegressionOutput"
    convert_logistic_regression_output node kw init.
Proof.
  apply rule_contract_plain; try discriminate;
    [not_scalar | reflexivity | |].
  - apply (ends_convert_logistic_regression_output "LogisticRegressionOutput").
  - apply returns_convert_logistic_regression_output.
Qed.

Lemma contract_convert_concat node kw init :
  rule_contract "Concat" convert_concat node kw init.
Proof.
  apply rule_contract_plain; try discriminate;
    [not_scalar | reflexivity | |].
  - apply (ends_convert_concat "Concat").
  - apply returns_convert_concat.
Qed.

Lemma contract_convert_transpose node kw init :
  rule_contract "transpose" convert_transpose node kw init.
Proof.
  apply rule_contract_plain; try discriminate;
    [not_scalar | reflexivity | |].
  - apply (ends_convert_transpose "transpose").
  - apply returns_convert_transpose.
Qed.

Lemma contract_convert_lrn node kw init :
  rule_contract "LRN" convert_lrn node kw init.
Proof.
  apply rule_contract_plain; try discriminate;
    [not_scalar | reflexivity | |].
  - apply (ends_convert_lrn "LRN").
  - apply returns_convert_lrn.
Qed.

Lemma contract_convert_l2normalization node kw init :
  rule_contract "L2Normalization" convert_l2normalization node kw init.
Proof.
  apply rule_contract_plain; try discriminate;
    [not_scalar | reflexivity | |].
  - apply ends_convert_l2normalization.
  - apply returns_convert_l2normalization.
Qed.

Lemma contract_convert_dropout node kw init :
  rule_contract "Dropout" convert_dropout node kw init.
Proof.
  apply rule_contract_plain; try discriminate;
    [not_scalar | reflexivity | |].
  - apply ends_convert_dropout.
  - apply returns_convert_dropout.
Qed.

Lemma contract_convert_clip node kw init :
  rule_contract "clip" convert_clip node kw init.
Proof.
  apply rule_contract_plain; try discriminate;
    [not_scalar | reflexivity | |].
  - apply ends_convert_clip.
  - apply returns_convert_clip.
Qed.

Lemma contract_convert_mul_scalar node kw init :
  rule_contract "_mul_scalar" convert_mul_scalar node kw init.
Proof.
  apply rule_contract_intro; try discriminate; [reflexivity| |].
  - apply ends_scalar_op_helper. scalar_opcode.
  - intros Hv.
    destruct (returns_convert_mul_scalar _ _ _ Hv) as (v & n & init' & ->).
    eexists _, _. split; [reflexivity|]. discriminate.
Qed.

Lemma contract_convert_minus_scalar node kw init :
  rule_contract "_minus_scalar" convert_minus_scalar node kw init.
Proof.
  apply rule_contract_intro; try discriminate; [reflexivity| |].
  - apply ends_scalar_op_helper. scalar_opcode.
  - intros Hv.
    destruct (returns_convert_minus_scalar _ _ _ Hv) as (v & n & init' & ->).
    eexists _, _. split; [reflexivity|]. discriminate.
Qed.

Lemma contract_convert_rminus_scalar node kw init :
  rule_contract "_rminus_scalar" convert_rminus_scalar node kw init.
Proof.
  apply rule_contract_intro; try discriminate; [reflexivity| |].
  - apply ends_scalar_op_helper. scalar_opcode.
  - intros Hv.
    destruct (returns_convert_rminus_scalar _ _ _ Hv) as (v & n & init' & ->).
    eexists _, _. split; [reflexivity|]. discriminate.
Qed.

Lemma contract_convert_add_scalar node kw init :
  rule_contract "_plus_scalar" convert_add_scalar node kw init.
Proof.
  apply rule_contract_intro; try discriminate; [reflexivity| |].
  - apply ends_scalar_op_helper. scalar_opcode.
  - intros Hv.
    destruct (returns_convert_add_scalar _ _ _ Hv) as (v & n & init' & ->).
    eexists _, _. split; [reflexivity|]. discriminate.
Qed.

Lemma contract_convert_div_scalar node kw init :
  rule_contract "_div_scalar" convert_div_scalar node kw init.
Proof.
  apply rule_contract_intro; try discriminate; [reflexivity| |].
  - apply ends_scalar_op_helper. scalar_opcode.
  - intros Hv.
    destruct (returns_convert_div_scalar _ _ _ Hv) as (v & n & init' & ->).
    eexists _, _. split; [reflexivity|]. discriminate.
Qed.

Lemma contract_convert_rdiv_scalar node kw init :
  rule_contract "_rdiv_scalar" convert_rdiv_scalar node kw init.
Proof.
  apply rule_contract_intro; try discriminate; [reflexivity| |].
  - apply ends_scalar_op_helper. scalar_opcode.
  - intros Hv.
    destruct (returns_convert_rdiv_scalar _ _ _ Hv) as (v & n & init' & ->).
    eexists _, _. split; [reflexivity|]. discriminate.
Qed.

Lemma contract_convert_pow_scalar node kw init :
  rule_contract "_power_scalar" convert_pow_scalar node kw init.
Proof.
  apply rule_contract_intro; try discriminate; [reflexivity| |].
  - apply ends_scalar_op_helper. scalar_opcode.
  - intros Hv.
    destruct (returns_convert_pow_scalar _ _ _ Hv) as (v & n & init' & ->).
    eexists _, _. split; [reflexivity|]. discriminate.
Qed.

Lemma contract_convert_argmax node kw init :
  rule_contract "argmax" convert_argmax node kw init.
Proof.
  apply rule_contract_plain; try discriminate;
    [not_scalar | reflexivity | |].
  - apply (ends_convert_argmax "argmax").
  - apply returns_convert_argmax.
Qed.

Lemma contract_convert_argmin node kw init :
  rule_contract "argmin" convert_argmin node kw init.
Proof.
  apply rule_contract_plain; try discriminate;
    [not_scalar | reflexivity | |].
  - apply (ends_convert_argmin "argmin").
  - apply returns_convert_argmin.
Qed.

Lemma contract_convert_min node kw init :
  rule_contract "min" convert_min node kw init.
Proof.
  apply rule_contract_plain; try discriminate;
    [not_scalar | reflexivity | |].
  - apply (ends_convert_min "min").
  - apply returns_convert_min.
Qed.

Lemma contract_convert_max node kw init :
  rule_contract "max" convert_max node kw init.
Proof.
  apply rule_contract_plain; try discriminate;
    [not_scalar | reflexivity | |].
  - apply (ends_convert_max "max").
  - apply returns_convert_max.
Qed.

Lemma contract_convert_mean node kw init :
  rule_contract "mean" convert_mean node kw init.
Proof.
  apply rule_contract_plain; try discriminate;
    [not_scalar | reflexivity | |].
  - apply (ends_convert_mean "mean").
  - apply returns_convert_mean.
Qed.

Lemma contract_convert_prod node kw init :
  rule_contract "prod" convert_prod node kw init.
Proof.
  apply rule_contract_plain; try discriminate;
    [not_scalar | reflexivity | |].
  - apply (ends_convert_prod "prod").
  - apply returns_convert_prod.
Qed.

Lemma contract_convert_reshape node kw init :
  rule_contract "Reshape" convert_reshape node kw init.
Proof.
  apply rule_contract_plain; try discriminate;
    [not_scalar | reflexivity | |].
  - apply (ends_convert_reshape "Reshape").
  - apply returns_convert_reshape.
Qed.

Lemma contract_convert_cast node kw init :
  rule_contract "Cast" convert_cast node kw init.
Proof.
  apply rule_contract_plain; try discriminate;
    [not_scalar | reflexivity | |].
  - apply (ends_convert_cast "Cast").
  - apply returns_convert_cast.
Qed.

Lemma contract_convert_slice_axis node kw init :
  rule_contract "slice_axis" convert_slice_axis node kw init.
Proof.
  apply rule_contract_plain; try discriminate;
    [not_scalar | reflexivity | |].
  - apply (ends_convert_slice_axis "slice_axis").
  - apply returns_convert_slice_axis.
Qed.

Lemma contract_convert_expand_dims node kw init :
  rule_contract "expand_dims" convert_expand_dims node kw init.
Proof.
  apply rule_contract_plain; try discriminate;
    [not_scalar | reflexivity | |].
  - apply (ends_convert_expand_dims "expand_dims").
  - apply returns_convert_expand_dims.
Qed.

Lemma contract_convert_squeeze node kw init :
  rule_contract "squeeze" convert_squeeze node kw init.
Proof.
  apply rule_contract_plain; try discriminate;
    [not_scalar | reflexivity | |].
  - apply (ends_convert_squeeze "squeeze").
  - apply returns_convert_squeeze.
Qed.

Lemma contract_convert_depthtospace node kw init :
  rule_contract "depth_to_space" convert_depthtospace node kw init.
Proof.
  apply rule_contract_plain; try discriminate;
    [not_scalar | reflexivity | |].
  - apply (ends_convert_depthtospace "depth_to_space").
  - apply returns_convert_depthtospace.
Qed.

Lemma contract_convert_spacetodepth node kw init :
  rule_contract "space_to_depth" convert_spacetodepth node kw init.
Proof.
  apply rule_contract_plain; try discriminate;
    [not_scalar | reflexivity | |].
  - apply (ends_convert_spacetodepth "space_to_depth").
  - apply returns_convert_spacetodepth.
Qed.

Lemma contract_convert_square node kw init :
  rule_contract "square" convert_square node kw init.
Proof.
  apply rule_contract_plain; try discriminate;
    [not_scalar | reflexivity | |].
  - apply (ends_convert_square "square").
  - apply returns_convert_square.
Qed.

Lemma contract_convert_sum node kw init :
  rule_contract "sum" convert_sum node kw init.
Proof.
  apply rule_contract_plain; try discriminate;
    [not_scalar | reflexivity | |].
  - apply (ends_convert_sum "sum").
  - apply returns_convert_sum.
Qed.

Lemma contract_convert_hardsigmoid node kw init :
  rule_contract "hard_sigmoid" convert_hardsigmoid node kw init.
Proof.
  apply rule_contract_plain; try discriminate;
    [not_scalar | reflexivity | |].
  - apply (ends_convert_hardsigmoid "hard_sigmoid").
  - apply returns_convert_hardsigmoid.
Qed.

Lemma contract_convert_logsoftmax node kw init :
  rule_contract "log_softmax" convert_logsoftmax node kw init.
Proof.
  apply rule_contract_plain; try discriminate;
    [not_scalar | reflexivity | |].
  - apply (ends_convert_logsoftmax "log_softmax").
  - apply returns_convert_logsoftmax.
Qed.

Lemma contract_convert_norm node kw init :
  rule_contract "norm" convert_norm node kw init.
Proof.
  apply rule_contract_plain; try discriminate;
    [not_scalar | reflexivity | |].
  - apply (ends_convert_norm "norm").
  - apply returns_convert_norm.
Qed.

Lemma contract_convert_multinomial node kw init :
  rule_contract "_sample_multinomial" convert_multinomial node kw init.
Proof.
  apply rule_contract_plain; try discriminate;
    [not_scalar | reflexivity | |].
  - apply (ends_convert_multinomial "_sample_multinomial").
  - apply returns_convert_multinomial.
Qed.

Lemma contract_convert_random_uniform node kw init :
  rule_contract "_random_uniform" convert_random_uniform node kw init.
Proof.
  apply rule_contract_plain; try discriminate;
    [not_scalar | reflexivity | |].
  - apply (ends_convert_random_uniform "_random_uniform").
  - apply returns_convert_random_uniform.
Qed.

Lemma contract_convert_random_normal node kw init :
  rule_contract "_random_normal" convert_random_normal node kw init.
Proof.
  apply rule_contract_plain; try discriminate;
    [not_scalar | reflexivity | |].
  - apply (ends_convert_random_normal "_random_normal").
  - apply returns_convert_random_normal.
Qed.

Lemma contract_convert_roipooling node kw init :
  rule_contract "ROIPooling" convert_roipooling node kw init.
Proof.
  apply rule_contract_plain; try discriminate;
    [not_scalar | reflexivity | |].
  - apply (ends_convert_roipooling "ROIPooling").
  - apply returns_convert_roipooling.
Qed.

Lemma contract_convert_tile node kw init :
  rule_contract "tile" convert_tile node kw init.
Proof.
  apply rule_contract_plain; try discriminate;
    [not_scalar | reflexivity | |].
  - apply (ends_convert_tile "tile").
  - apply returns_convert_tile.
Qed.

Lemma contract_convert_broadcast_to node kw init :
  rule_contract "broadcast_to" convert_broadcast_to node kw init.
Proof.
  apply rule_contract_plain; try discriminate;
    [not_scalar | reflexivity | |].
  - apply (ends_convert_broadcast_to "broadcast_to").
  - apply returns_convert_broadcast_to.
Qed.

Lemma contract_convert_take node kw init :
  rule_contract "take" convert_take node kw init.
Proof.
  apply rule_contract_plain; try discriminate;
    [not_scalar | reflexivity | |].
  - apply (ends_convert_take "take").
  - apply returns_convert_take.
Qed.

Lemma contract_convert_layer_norm node kw init :
  rule_contract "LayerNorm" convert_layer_norm node kw init.
Proof.
  apply rule_contract_plain; try discriminate;
    [not_scalar | reflexivity | |].
  - apply (ends_convert_layer_norm "LayerNorm").
  - apply returns_convert_layer_norm.
Qed.

Lemma contract_convert_matmul_selfatt_qk node kw init :
  rule_contract "_contrib_interleaved_matmul_selfatt_qk"
    convert_matmul_selfatt_qk node kw init.
Proof.
  apply rule_contract_plain; try discriminate;
    [not_scalar | reflexivity | |].
  - apply ends_convert_matmul_selfatt_qk.
  - apply returns_convert_matmul_selfatt_qk.
Qed.

Lemma contract_convert_contrib_interleaved_matmul_selfatt_valatt node kw init :
  rule_contract "_contrib_interleaved_matmul_selfatt_valatt"
    convert_contrib_interleaved_matmul_selfatt_valatt node kw init.
Proof.
  apply rule_contract_plain; try discriminate;
    [not_scalar | reflexivity | |].
  - apply ends_convert_contrib_interleaved_matmul_selfatt_valatt.
  - apply returns_convert_contrib_interleaved_matmul_selfatt_valatt.
Qed.

Lemma contract_convert_broadcast_axis node kw init :
  rule_contract "broadcast_axis" convert_broadcast_axis node kw init.
Proof.
  apply rule_contract_plain; try discriminate;
    [not_scalar | reflexivity | |].
  - apply (ends_convert_broadcast_axis "broadcast_axis").
  - apply returns_convert_broadcast_axis.
Qed.

Lemma contract_convert_sequencemask node kw init :
  rule_contract "SequenceMask" convert_sequencemask node kw init.
Proof.
  apply rule_contract_plain; try discriminate;
    [not_scalar | reflexivity | |].
  - apply (ends_convert_sequencemask "SequenceMask").
  - apply returns_convert_sequencemask.
Qed.

Lemma contract_convert_embedding node kw init :
  rule_contract "Embedding" convert_embedding node kw init.
Proof.
  apply rule_contract_plain; try discriminate;
    [not_scalar | reflexivity | |].
  - apply (ends_convert_embedding "Embedding").
  - apply returns_convert_embedding.
Qed.

Lemma contract_convert_stack node kw init :
  rule_contract "stack" convert_stack node kw init.
Proof.
  apply rule_contract_plain; try discriminate;
    [not_scalar | reflexivity | |].
  - apply (ends_convert_stack "stack").
  - apply returns_convert_stack.
Qed.

Lemma contract_convert_slice node kw init :
  rule_contract "slice" convert_slice node kw init.
Proof.
  apply rule_contract_plain; try discriminate;
    [not_scalar | reflexivity | |].
  - apply ends_convert_slice.
  - apply returns_convert_slice.
Qed.

Lemma contract_convert_slice_like node kw init :
  rule_contract "slice_like" convert_slice_like node kw init.
Proof.
  apply rule_contract_plain; try discriminate;
    [not_scalar | reflexivity | |].
  - apply (ends_convert_slice_like "slice_like").
  - apply returns_convert_slice_like.
Qed.

Lemma contract_convert_zeros_like node kw init :
  rule_contract "zeros_like" convert_zeros_like node kw init.
Proof.
  apply rule_contract_plain; try discriminate;
    [not_scalar | reflexivity | |].
  - apply (ends_convert_zeros_like "zeros_like").
  - apply returns_convert_zeros_like.
Qed.

Lemma contract_convert_ones_like node kw init :
  rule_contract "ones_like" convert_ones_like node kw init.
Proof.
  apply rule_contract_plain; try discriminate;
    [not_scalar | reflexivity | |].
  - apply (ends_convert_ones_like "ones_like").
  - apply returns_convert_ones_like.
Qed.

Lemma contract_convert_arange_like node kw init :
  rule_contract "_contrib_arange_like" convert_arange_like node kw init.
Proof.
  apply rule_contract_plain; try discriminate;
    [not_scalar | reflexivity | |].
  - apply ends_convert_arange_like.
  - apply returns_convert_arange_like.
Qed.

Lemma contract_convert_contrib_BilinearResize2D node kw init :
  rule_contract "_contrib_BilinearResize2D"
    convert_contrib_BilinearResize2D node kw init.
Proof.
  apply rule_contract_plain; try discriminate;
    [not_scalar | reflexivity | |].
  - apply ends_convert_contrib_BilinearResize2D.
  - apply returns_convert_contrib_BilinearResize2D.
Qed.

Lemma contract_convert_arange node kw init :
  rule_contract "_arange" convert_arange node kw init.
Proof.
  apply rule_contract_plain; try discriminate;
    [not_scalar | reflexivity | |].
  - apply ends_convert_arange.
  - apply returns_convert_arange.
Qed.

Lemma contract_convert_reverse node kw init :
  rule_contract "reverse" convert_reverse node kw init.
Proof.
  apply rule_contract_plain; try discriminate;
    [not_scalar | reflexivity | |].
  - apply (ends_convert_reverse "reverse").
  - apply returns_convert_reverse.
Qed.

Lemma contract_convert_repeat node kw init :
  rule_contract "repeat" convert_repeat node kw init.
Proof.
  apply rule_contract_plain; try discriminate;
    [not_scalar | reflexivity | |].
  - apply ends_convert_repeat.
  - apply returns_convert_repeat.
Qed.

Lemma contract_convert_greater_scalar node kw init :
  rule_contract "_greater_scalar" convert_greater_scalar node kw init.
Proof.
  apply rule_contract_plain; try discriminate;
    [not_scalar | reflexivity | |].
  - apply ends_convert_greater_scalar.
  - apply returns_convert_greater_scalar.
Qed.

Lemma contract_convert_where node kw init :
  rule_contract "where" convert_where node kw init.
Proof.
  apply rule_contract_plain; try discriminate;
    [not_scalar | reflexivity | |].
  - apply (ends_convert_where "where").
  - apply returns_convert_where.
Qed.

Lemma contract_convert_maximum_scalar node kw init :
  rule_contract "_maximum_scalar" convert_maximum_scalar node kw init.
Proof.
  apply rule_contract_plain; try discriminate;
    [not_scalar | reflexivity | |].
  - apply (ends_convert_maximum_scalar "_maximum_scalar").
  - apply returns_convert_maximum_scalar.
Qed.

Lemma contract_convert_contrib_box_decode node kw init :
  rule_contract "_contrib_box_decode" convert_contrib_box_decode node kw init.
Proof.
  apply rule_contract_plain; try discriminate;
    [not_scalar | reflexivity | |].
  - apply (ends_convert_contrib_box_decode "_contrib_box_decode").
  - apply returns_convert_contrib_box_decode.
Qed.

Lemma contract_convert_contrib_AdaptiveAvgPooling2D node kw init :
  rule_contract "_contrib_AdaptiveAvgPooling2D"
    convert_contrib_AdaptiveAvgPooling2D node kw init.
Proof.
  apply rule_contract_plain; try discriminate;
    [not_scalar | reflexivity | |].
  - apply ends_convert_contrib_AdaptiveAvgPooling2D.
  - apply returns_convert_contrib_AdaptiveAvgPooling2D.
Qed.

Lemma contract_convert_reshape_like node kw init :
  rule_contract "reshape_like" convert_reshape_like node kw init.
Proof.
  apply rule_contract_plain; try discriminate;
    [not_scalar | reflexivity | |].
  - apply (ends_convert_reshape_like "reshape_like").
  - apply returns_convert_reshape_like.
Qed.

Create HintDb contract.

#[local] Hint Resolve
  contract_convert_weights_and_inputs contract_convert_convolution
  contract_convert_deconvolution contract_convert_crop
  contract_convert_fully_connected contract_convert_batchnorm
  contract_convert_activation contract_convert_pad contract_convert_dot
  contract_convert_linalg_gemm2 contract_convert_pooling
  contract_convert_instancenorm contract_convert_leakyrelu
  contract_convert_softmax contract_convert_softmax_output
  contract_convert_logistic_regression_output contract_convert_concat
  contract_convert_transpose contract_convert_lrn
  contract_convert_l2normalization contract_convert_dropout
  contract_convert_clip contract_convert_mul_scalar
  contract_convert_minus_scalar contract_convert_rminus_scalar
  contract_convert_add_scalar contract_convert_div_scalar
  contract_convert_rdiv_scalar contract_convert_pow_scalar
  contract_convert_argmax contract_convert_argmin contract_convert_min
  contract_convert_max contract_convert_mean contract_convert_prod
  contract_convert_reshape contract_convert_cast contract_convert_slice_axis
  contract_convert_slice_channel contract_convert_expand_dims
  contract_convert_squeeze contract_convert_depthtospace
  contract_convert_spacetodepth contract_convert_square contract_convert_sum
  contract_convert_hardsigmoid contract_convert_logsoftmax
  contract_convert_norm contract_convert_multinomial
  contract_convert_random_uniform contract_convert_random_normal
  contract_convert_roipooling contract_convert_tile
  contract_convert_broadcast_to contract_convert_topk contract_convert_take
  contract_convert_layer_norm contract_convert_matmul_selfatt_qk
  contract_convert_contrib_interleaved_matmul_selfatt_valatt
  contract_convert_broadcast_axis contract_convert_sequencemask
  contract_convert_embedding contract_convert_stack contract_convert_slice
  contract_convert_slice_like contract_convert_zeros_like
  contract_convert_ones_like contract_convert_arange_like
  contract_convert_contrib_BilinearResize2D contract_convert_arange
  contract_convert_reverse contract_convert_repeat
  contract_convert_greater_scalar contract_convert_where
  contract_convert_maximum_scalar contract_convert_contrib_box_decode
  contract_convert_contrib_AdaptiveAvgPooling2D
  contract_convert_reshape_like
  : contract.

Lemma registered_rules_contract op r node kw init :
  registry !! op = Some r -> rule_contract op r node kw init.
Proof.
  intros Hreg.
  assert (Hin : (op, r) ∈ registered_rules)
    by (apply elem_of_list_to_map_2; exact Hreg).
  unfold registered_rules in Hin. apply elem_of_app in Hin as [Hin|Hin].
  - apply list_elem_of_fmap in Hin as ([op' onnx_op] & [= -> ->] & Hin).
    exact (contract_create_basic_op_node _ _ _ _ _ Hin).
  - repeat (apply elem_of_cons in Hin as [[= -> ->]|Hin]);
      [..|inversion Hin]; auto with contract.
Qed.

(** C4, as the code has it, for all the 122 registered rules. Whenever the
    rule registered for an opcode returns a list for a node, the list is
    not empty and ends with a node that bears the name of the source node
    and whose first output is that name, with three exceptions: the Split
    node of SliceChannel, whose outputs are [<name>_output0],
    [<name>_output1], and so on; the scalar-arithmetic rules, whose list
    may end with the descriptor of the constant they folded; and the rule
    of [null], whose list is the one descriptor of the graph input or
    parameter, named after the node. The topk rule names its two outputs
    [<name>] and [<name>_output1]. A renaming rule returns its single node
    whenever the inputs of the node resolve. On a minimal valid node (the
    attributes of [minimal_nodes], inputs that resolve, a valid context)
    every rule but that of [dot] does return, and its list ends with a
    node unless the opcode is [null]; the rule of [dot] returns for no
    node at all. *)
Theorem naming_contract (op : string) (r : rule) (node : mx_node)
    (kw : kwargs) (init : list TensorProto) :
  registry !! op = Some r ->
  (forall items init',
     r node kw init = (Ret items, init') ->
     (exists i, last items = Some i /\ named_after op (node_name node) i) /\
     (op = "topk" ->
      exists n, last items = Some (ItemNode n) /\
        output n = [node_name node; node_name node +:+ "_output1"]) /\
     (op = "SliceChannel" ->
      exists n, items = [ItemNode n] /\
        (output n = [node_name node] \/
         exists k, 1 < k /\
           output n = slice_channel_outputs (node_name node) k)) /\
     (op = "null" ->
      exists v, items = [ItemValue v] /\ vi_name v = node_name node)) /\
  (forall onnx_op nm inputs attrs,
     (op, onnx_op) ∈ direct_renames ->
     get_inputs node kw = Ret (nm, inputs, attrs) ->
     r node kw init
     = (Ret [ItemNode (make_named_node onnx_op inputs [nm] nm [])], init)) /\
  (op <> "dot" ->
   minimal_valid op node kw init ->
   exists items init' i,
     r node kw init = (Ret items, init') /\
     last items = Some i /\
     (op <> "null" -> exists n, i = ItemNode n)) /\
  (op = "dot" ->
   forall items init', r node kw init <> (Ret items, init')).
Proof.
  intros Hreg. change (rule_contract op r node kw init).
  assert (Hin : (op, r) ∈ registered_rules)
    by (apply elem_of_list_to_map_2; exact Hreg).
  unfold registered_rules in Hin. apply elem_of_app in Hin as [Hin|Hin].
  - apply list_elem_of_fmap in Hin as ([op' onnx_op] & [= -> ->] & Hin).
    exact (contract_create_basic_op_node _ _ _ _ _ Hin).
  - repeat (apply elem_of_cons in Hin as [[= -> ->]|Hin]);
      [..|inversion Hin]; auto with contract.
Qed.

End ContractOfRules.

(** ** The naming contract on examples *)

#[local] Existing Instance reference_libraries.

(** The contract at the top-k rule: the node [tk] with the one attribute
    the rule requires is a minimal valid node; at version 12 the rule
    returns for it, and the list ends with a TopK node with the outputs
    [tk] and [tk_output1]. *)
Lemma naming_contract_witness :
  registry !! "topk" = Some convert_topk /\
  minimal_valid "topk" example_minimal_topk (example_kwargs 12 FLOAT) [] /\
  (exists items init' i,
     convert_topk example_minimal_topk (example_kwargs 12 FLOAT) []
     = (Ret items, init') /\
     last items = Some i /\
     ("topk" <> "null" -> exists n, i = ItemNode n)) /\
  (forall items init',
     convert_topk example_minimal_topk (example_kwargs 12 FLOAT) []
     = (Ret items, init') ->
     (exists i, last items = Some i /\ named_after "topk" "tk" i) /\
     ("topk" = "topk" ->
      exists n, last items = Some (ItemNode n) /\
        output n = ["tk"; "tk" +:+ "_output1"])).
Proof.
  assert (Hv : minimal_valid "topk" example_minimal_topk
                 (example_kwargs 12 FLOAT) []).
  { exists [("ret_typ", "both")], (Some 1%nat), ["x"].
    split; [reflexivity|]. split; [reflexivity|]. split; [reflexivity|].
    split; [intros n [= <-]; reflexivity|].
    split; [|split; [|split]].
    - split; [simpl; lia|]. split; [reflexivity|].
      split; [exists 2, 4, [], []; reflexivity|].
      simpl; lia.
    - split.
      + intros s Hs. unfold float_literals in Hs.
        repeat (apply elem_of_cons in Hs as [->|Hs];
                [eexists; vm_compute; reflexivity|]).
        inversion Hs.
      + eexists. vm_compute. reflexivity.
    - discriminate.
    - intros x _. apply Forall_nil_2. }
  destruct (naming_contract "topk" convert_topk example_minimal_topk
              (example_kwargs 12 FLOAT) [] eq_refl)
    as (Hnaming & _ & Hreturns & _).
  split; [reflexivity|]. split; [exact Hv|].
  split; [apply Hreturns; [discriminate | exact Hv]|].
  intros items init' Hrun.
  destruct (Hnaming items init' Hrun) as (Hlast & Hout & _).
  split; [exact Hlast | exact Hout].
Defined.

(** The minimal nodes of the table resolve their inputs. *)
Lemma get_inputs_minimal_node op attrs arity :
  get_inputs (minimal_node op attrs arity) minimal_kwargs
  = Ret ("n", replicate (default 1%nat arity) "x", list_to_map attrs).
Proof.
  unfold get_inputs. rewrite get_inputs_loop.
  unfold minimal_node, example_node. cbn [node_inputs node_name node_attrs].
  generalize (default 1%nat arity); intros n.
  assert (Hnames : mapM (input_name minimal_kwargs)
                     (map (fun i => (i, 0%nat, 0%nat)) (replicate n 0%nat))
                   = Some (replicate n "x")).
  { induction n as [|n IH]; [reflexivity|].
    cbn [replicate map mapM]. rewrite IH. reflexivity. }
  rewrite Hnames. reflexivity.
Qed.

(** Every entry of the table has a minimal valid node. *)
Lemma minimal_node_valid op attrs arity :
  (list_to_map minimal_nodes
     : gmap string (list (string * string) * option nat)) !! op
  = Some (attrs, arity) ->
  minimal_valid op (minimal_node op attrs arity) minimal_kwargs [].
Proof.
  intros Hop. exists attrs, arity, (replicate (default 1%nat arity) "x").
  split; [exact Hop|]. split; [reflexivity|].
  split; [apply get_inputs_minimal_node|].
  split; [intros n ->; apply length_replicate|].
  split; [|split; [|split]].
  - split; [simpl; lia|]. split; [reflexivity|].
    split; [exists 2, 4, [], []; reflexivity|]. simpl; lia.
  - split.
    + intros s Hs. unfold float_literals in Hs.
      repeat (apply elem_of_cons in Hs as [->|Hs];
              [eexists; vm_compute; reflexivity|]).
      inversion Hs.
    + eexists. vm_compute. reflexivity.
  - intros _. left. reflexivity.
  - intros x _. apply Forall_nil_2.
Qed.

(** Every registered opcode has an entry in the table, hence a minimal
    valid node; and its rule, unless it is that of [dot], returns for this
    node a list that is not empty. *)
Lemma registered_rules_return (op : string) (r : rule) :
  registry !! op = Some r ->
  exists attrs arity,
    minimal_valid op (minimal_node op attrs arity) minimal_kwargs [] /\
    (op <> "dot" ->
     exists items init' i,
       r (minimal_node op attrs arity) minimal_kwargs [] = (Ret items, init') /\
       last items = Some i).
Proof.
  intros Hreg.
  assert (Hkeys : registered_rules.*1 = minimal_nodes.*1)
    by (vm_compute; reflexivity).
  destruct ((list_to_map minimal_nodes
              : gmap string (list (string * string) * option nat)) !! op)
    as [[attrs arity]|] eqn:Hop.
  - exists attrs, arity. pose proof (minimal_node_valid _ _ _ Hop) as Hv.
    split; [exact Hv|]. intros Hdot.
    destruct (registered_rules_contract op r (minimal_node op attrs arity)
                minimal_kwargs [] Hreg) as (_ & _ & Hreturns & _).
    destruct (Hreturns Hdot Hv) as (items & init' & i & Hrun & Hlast & _).
    eauto.
  - exfalso. apply not_elem_of_list_to_map in Hop.
    apply elem_of_list_to_map_2 in Hreg.
    apply Hop. rewrite <- Hkeys. apply list_elem_of_fmap.
    exists (op, r). split; [reflexivity | exact Hreg].
Qed.

(** The rule registered for SliceChannel returns, for the node [sc] with two
    outputs, one Split node whose first output is [sc_output0], not [sc]:
    the outputs are numbered from 0 and none of them bears the name of the
    node. *)
Lemma slice_channel_outputs_are_numbered_from_0 :
  registry !! "SliceChannel" = Some convert_slice_channel /\
  exists n,
    convert_slice_channel example_slice_channel (example_kwargs 12 FLOAT) []
    = (Ret [ItemNode n], []) /\
    output n = ["sc_output0"; "sc_output1"] /\
    head (output n) <> Some (node_name example_slice_channel) /\
    node_name example_slice_channel +:+ "_output1" ∈ output n /\
    node_name example_slice_channel ∉ output n.
Proof.
  split; [reflexivity|].
  eexists. split; [vm_compute; reflexivity|].
  cbn [output make_named_node]. split; [reflexivity|].
  split; [discriminate|]. split.
  - apply list_elem_of_further, list_elem_of_here.
  - intros Hin. apply elem_of_cons in Hin as [[=]|Hin].
    apply elem_of_cons in Hin as [[=]|Hin]. inversion Hin.
Qed.

(** ** Constant folding on examples *)

(** The two outcomes for the node [_rminusscalar0], that is [10 - x]: with
    [x] the constant 5 the folded constant is 5; with [x] a graph input the
    rule returns a Sub node. *)
Lemma scalar_op_helper_outcomes_witness :
  "Sub" ∈ scalar_operators /\
  scalar_op_helper (example_rminus_scalar "_rminusscalar0") "Sub"
    (example_kwargs 12 FLOAT) [example_constant 5]
  = (Ret [ItemValue (make_tensor_value_info "x3" FLOAT [1])],
     [example_constant 5;
      make_tensor "x3" FLOAT [1] (PyNp (float32 float32_5))]) /\
  scalar_op_helper (example_rminus_scalar "_rminusscalar0") "Sub"
    (example_kwargs 12 FLOAT) []
  = (Ret [ItemValue (make_tensor_value_info "scalar_op3" FLOAT [1]);
          ItemNode (make_named_node "Sub" ["x"; "scalar_op3"]
                      ["_rminusscalar0"] "_rminusscalar0" [])],
     [make_tensor "scalar_op3" FLOAT [1] (PyNp (float32 float32_10))]).
Proof.
  assert (Hop : "Sub" ∈ scalar_operators)
    by (repeat first [apply list_elem_of_here | apply list_elem_of_further]).
  split; [exact Hop|]. split.
  - apply (proj1 (@scalar_op_helper_outcomes reference_libraries
                    (example_rminus_scalar "_rminusscalar0") "Sub"
                    (example_kwargs 12 FLOAT) [example_constant 5]
                    "_rminusscalar0" "x" []
                    (node_attrs (example_rminus_scalar "_rminusscalar0"))
                    Float32 (float32 float32_10)
                    Hop eq_refl eq_refl eq_refl)
             [] (example_constant 5) [] (float32 float32_5)
             (float32 float32_5) FLOAT).
    + reflexivity.
    + intros j Hj. inversion Hj.
    + reflexivity.
    + reflexivity.
    + reflexivity.
    + reflexivity.
  - apply (proj2 (@scalar_op_helper_outcomes reference_libraries
                    (example_rminus_scalar "_rminusscalar0") "Sub"
                    (example_kwargs 12 FLOAT) []
                    "_rminusscalar0" "x" []
                    (node_attrs (example_rminus_scalar "_rminusscalar0"))
                    Float32 (float32 float32_10)
                    Hop eq_refl eq_refl eq_refl)).
    intros i Hi. inversion Hi.
Defined.

(** The rule registered for [_rminus_scalar], on a node named [y] whose
    input is the constant 5 and whose scalar is 10, folds the constant to
    -5: the operands are in the order [constant - scalar]. *)
Lemma rminus_scalar_of_a_named_node_yields_minus_5 :
  registry !! "_rminus_scalar" = Some convert_rminus_scalar /\
  to_array (example_constant 5) = inr (float32 float32_5) /\
  np_array [attrs_get (node_attrs (example_rminus_scalar "y")) "scalar"
              (PyInt 1)] (DtObj Float32) = Ret (float32 float32_10) /\
  convert_rminus_scalar (example_rminus_scalar "y")
    (example_kwargs 12 FLOAT) [example_constant 5]
  = (Ret [ItemValue (make_tensor_value_info "x3" FLOAT [1])],
     [example_constant 5;
      make_tensor "x3" FLOAT [1]
        (PyNp (float32 (SFopp float32_5)))]).
Proof.
  split; [reflexivity|]. split; [reflexivity|]. split; [reflexivity|].
  vm_compute. reflexivity.
Qed.

(** ** Version branching on examples *)


(** ** The version requirement and the rejections on examples *)

(** The range node [arange0] is refused at version 10 with the
    initializers untouched, and lowered the same at versions 11 and 13. *)
Lemma version_requirement_fails_fast_witness :
  convert_arange example_arange (example_kwargs 10 FLOAT) [example_constant 5]
  = (Raise opset_11_required, [example_constant 5]) /\
  ((convert_arange example_arange (example_kwargs 11 FLOAT) []).1
   = Raise opset_11_required <-> 11 < 11) /\
  convert_arange example_arange (with_opset (example_kwargs 11 FLOAT) 13) []
  = convert_arange example_arange (example_kwargs 11 FLOAT) [].
Proof.
  pose proof (proj1 (@version_requirement_fails_fast reference_libraries))
    as Harange.
  split; [|split].
  - apply (proj1 (Harange example_arange (example_kwargs 10 FLOAT)
                    [example_constant 5])
             ("arange0", [], node_attrs example_arange) eq_refl).
    cbn. lia.
  - apply (proj1 (Harange example_arange (example_kwargs 11 FLOAT) [])
             ("arange0", [], node_attrs example_arange) eq_refl).
  - apply (proj2 (Harange example_arange (example_kwargs 11 FLOAT) []) 13);
      cbn; lia.
Defined.

(** The slice node [slice0] with the steps [(1, -1)] and the normalization
    node [l2norm0] in instance mode are refused; a null step is read as
    1. *)
Lemma unsupported_configurations_are_rejected_witness :
  convert_slice example_slice (example_kwargs 12 FLOAT) []
  = (Raise negative_steps_error, []) /\
  slice_steps [PyInt 0; PyInt 0] [PyInt 2; PyNone] = Ret [PyInt 2; PyInt 1] /\
  convert_l2normalization example_l2normalization (example_kwargs 12 FLOAT) []
  = (Raise channel_mode_error, []).
Proof.
  split; [|split].
  - apply (proj2 (proj1 (@unsupported_configurations_are_rejected
                           reference_libraries example_slice
                           (example_kwargs 12 FLOAT) [])
                    [PyInt 1; PyInt (-1)] (-1) eq_refl
                    ltac:(apply list_elem_of_further, list_elem_of_here)
                    ltac:(lia))
             ("slice0", ["x"], node_attrs example_slice)
             [PyInt 0; PyInt 0] [PyInt 1; PyInt 2]); reflexivity.
  - apply (proj2 (proj2 (proj1 (proj2
             (@unsupported_configurations_are_rejected
                reference_libraries example_slice (example_kwargs 12 FLOAT)
                [])) [PyInt 0; PyInt 0] [PyInt 2; PyNone])));
      [reflexivity | discriminate].
  - apply (proj2 (proj2 (proj2
             (@unsupported_configurations_are_rejected
                reference_libraries example_l2normalization
                (example_kwargs 12 FLOAT) [])) ltac:(discriminate))
             ("l2norm0", ["x"], node_attrs example_l2normalization)).
    reflexivity.
Defined.

(** ** The masked softmax on an example *)

(** The node [sm] at element type float: its lowering evaluates, under a
    semantics where every sum is zero, to a denominator of ones; and under
    every semantics the denominator holds no zero. *)
Lemma masked_softmax_guards_division_witness :
  exists items init',
    convert_softmax example_softmax (example_kwargs 12 FLOAT) []
    = (Ret items, init') /\
    match eval_nodes all_masked (graph_env example_inputs init')
            (nodes_of items) with
    | Some e' => [e' !! "sm_rsum1_out"; e' !! "sm_where_out"; e' !! "sm"]
    | None => []
    end
    = [Some (TFloat 24 128 [S754_zero false]);
       Some (TFloat 24 128 [cast_int 24 128 1]);
       Some (TFloat 24 128 [S754_zero false])] /\
    forall other inputs e',
      eval_nodes other (graph_env inputs init') (nodes_of items) = Some e' ->
      forall p q sums,
        e' !! "sm_rsum1_out" = Some (TFloat p q sums) ->
        e' !! "sm_where_out"
        = Some (TFloat 24 128 (map (guarded_sum 24 128) sums)) /\
        Forall (fun w => SFis_zero w = false)
          (map (guarded_sum 24 128) sums).
Proof.
  destruct (@masked_softmax_guards_division reference_libraries
              example_softmax (example_kwargs 12 FLOAT) [] "sm" "x" "len"
              (node_attrs example_softmax) (-1) SF_one Float32 24 128
              eq_refl eq_refl eq_refl ltac:(unfold in_int64; lia)
              eq_refl eq_refl eq_refl)
    as (items & init' & front & Hrun & _ & _ & Heval).
  exists items, init'. split; [exact Hrun|]. split.
  - eassert (Hc : convert_softmax example_softmax (example_kwargs 12 FLOAT)
                    [] = (Ret _, _)) by (vm_compute; reflexivity).
    rewrite Hc in Hrun. injection Hrun as <- <-.
    vm_compute. reflexivity.
  - intros other inputs e' He p q sums Hsums.
    destruct (Heval other inputs e' He p q sums Hsums) as (Hwhere & Hnz & _).
    split; [exact Hwhere | exact Hnz].
Defined.

(** ** Half-precision constants on examples *)

(** C9, at a failing input. [create_tensor] with the dtype [np.float16]
    stores the value 2 as its bit pattern 16384, and so does the rule of
    [_greater_scalar] for its scalar. The rule of [_mul_scalar], for the
    node [_mulscalar0] with the scalar 2 on a float16 graph input, appends
    an initializer of element type FLOAT16 whose value is the numpy float 2
    itself, not 16384; the rule of [_arange] with the dtype [float16] does
    the same for its three constants. Such an initializer is not a list of
    bit patterns: it cannot be read as a FLOAT16 tensor. *)
Theorem float16_scalar_constants_are_stored_natively :
  (create_tensor [PyFloat (float_of_Z 2)] "c" (DtObj Float16) []).2
  = [make_tensor "c" FLOAT16 [1] (PyList [PyInt 16384])] /\
  float16_bits float16_2 = 16384 /\
  (exists items,
     convert_greater_scalar example_greater_scalar
       (example_kwargs 12 FLOAT16) [] = (Ret items, []) /\
     (attribute <$> nodes_of items !! 1%nat)
     = Some [("value",
              ATensor (make_tensor "gt0_scalar" FLOAT16 [1]
                         (PyList [PyNp (mk_ndarray UInt16 []
                                          [NInt 16384])])))]) /\
  registry !! "_mul_scalar" = Some convert_mul_scalar /\
  (convert_mul_scalar example_mul_scalar (example_kwargs 12 FLOAT16) []).2
  = [make_tensor "scalar_op3" FLOAT16 [1]
       (PyNp (mk_ndarray Float16 [1] [NFloat float16_2]))] /\
  tensor_of_initializer
    (make_tensor "scalar_op3" FLOAT16 [1]
       (PyNp (mk_ndarray Float16 [1] [NFloat float16_2]))) = None /\
  tensor_of_initializer (make_tensor "c" FLOAT16 [1] (PyList [PyInt 16384]))
  = Some (TFloat 11 16 [float16_2]) /\
  (convert_arange example_arange_float16 (example_kwargs 12 FLOAT) []).2
  = [make_tensor "arange1_start" FLOAT16 []
       (PyTuple [PyNp (mk_ndarray Float16 [1] [NFloat (S754_zero false)])]);
     make_tensor "arange1_stop" FLOAT16 []
       (PyTuple [PyNp (mk_ndarray Float16 [1] [NFloat float16_2])]);
     make_tensor "arange1_step" FLOAT16 []
       (PyTuple [PyNp (mk_ndarray Float16 [1]
                         [NFloat (S754_finite false 1024 (-10))])])].
Proof.
  split; [vm_compute; reflexivity|]. split; [vm_compute; reflexivity|].
  split.
  { eexists. split; [vm_compute; reflexivity|]. vm_compute. reflexivity. }
  split; [reflexivity|].
  repeat split; vm_compute; reflexivity.
Qed.
(** ** The further rules on examples *)

(** The activation node [act0] of type [relu] becomes one Relu node. *)
Lemma convert_activation_outcomes_witness :
  convert_activation example_activation (example_kwargs 12 FLOAT) []
  = (Ret [ItemNode (make_named_node "Relu" ["x"] ["act0"] "act0" [])], []).
Proof.
  apply (proj1 (proj2 (convert_activation_outcomes
                         example_activation (example_kwargs 12 FLOAT) []
                         "act0" ["x"] (node_attrs example_activation)
                         eq_refl) "relu" eq_refl) "Relu").
  apply list_elem_of_further, list_elem_of_here.
Defined.

(** The LeakyReLU node [lrelu0] of type [elu] is lowered with the error
    function. *)
Lemma convert_leakyrelu_never_emits_elu_witness :
  exists items init',
    convert_leakyrelu example_elu (example_kwargs 12 FLOAT) []
    = (Ret items, init') /\
    map op_type (nodes_of items) = ["Div"; "Erf"; "Add"; "Mul"; "Mul"] /\
    map t_name (drop (length (@nil TensorProto)) init')
    = ["lrelu0" +:+ "_sqrt2"; "lrelu0" +:+ "_one"; "lrelu0" +:+ "_half"].
Proof.
  apply (proj2 (@convert_leakyrelu_never_emits_elu reference_libraries
                  example_elu (example_kwargs 12 FLOAT) [])
           "lrelu0" "x" [] (node_attrs example_elu) SF_quarter);
    reflexivity.
Defined.

(** The product [gemm0] with both operands transposed multiplies [x] and
    [len] as they are. *)
Lemma convert_linalg_gemm2_product_witness :
  exists items,
    convert_linalg_gemm2 example_gemm2 (example_kwargs 12 FLOAT) []
    = (Ret items, []) /\
    last items
    = Some (ItemNode (make_named_node "MatMul" ["x"; "len"] ["gemm0"]
                        "gemm0" [])).
Proof.
  destruct (@convert_linalg_gemm2_product reference_libraries example_gemm2
              (example_kwargs 12 FLOAT) [] "gemm0" "x" "len"
              (node_attrs example_gemm2) (float_of_Z 2) eq_refl eq_refl)
    as (items & Hrun & _ & Hlast & _).
  exists items. split; [exact Hrun|exact Hlast].
Defined.

(** The node [reshape1] asks for the special value -3 and is refused; the
    node [reshape0] gets its target shape [(2, -1)] as a constant. *)
Lemma convert_reshape_outcomes_witness :
  (exists z, z ∈ [-3; 4] /\ z ∈ not_supported_shape /\
     convert_reshape example_reshape_special (example_kwargs 12 FLOAT) []
     = (Raise (reshape_not_supported z), [])) /\
  convert_reshape example_reshape (example_kwargs 12 FLOAT) []
  = (Ret [ItemValue (make_tensor_value_info ("reshape0" +:+ "_targ_shape")
                       INT64 [Z.of_nat (length [2; -1])]);
          ItemNode (make_named_node "Reshape"
                      ["x"; "reshape0" +:+ "_targ_shape"] ["reshape0"]
                      "reshape0" [])],
     [] ++
     [make_tensor ("reshape0" +:+ "_targ_shape") INT64
        [Z.of_nat (length [2; -1])] (PyList (map PyInt [2; -1]))]).
Proof.
  split.
  - apply (proj1 (@convert_reshape_outcomes reference_libraries
                    example_reshape_special (example_kwargs 12 FLOAT) []
                    "reshape1" "x" [] (node_attrs example_reshape_special)
                    "(-3, 4)" [-3; 4] eq_refl eq_refl eq_refl)).
    exists (-3). split; [apply list_elem_of_here|].
    apply list_elem_of_further, list_elem_of_here.
  - apply (proj2 (@convert_reshape_outcomes reference_libraries
                    example_reshape (example_kwargs 12 FLOAT) []
                    "reshape0" "x" [] (node_attrs example_reshape)
                    "(2, -1)" [2; -1] eq_refl eq_refl eq_refl)).
    + intros z Hz Hbad.
      repeat (apply elem_of_cons in Hz as [->|Hz]);
        [| |inversion Hz];
        repeat (apply elem_of_cons in Hbad as [Hbad|Hbad]);
        try discriminate; inversion Hbad.
    + repeat constructor; unfold in_int64; lia.
    + reflexivity.
Defined.

(** The node [squeeze0] with the axes [(0,)] becomes a Squeeze node on
    axis 0. *)
Lemma convert_squeeze_requires_axis_witness :
  convert_squeeze example_squeeze (example_kwargs 12 FLOAT) []
  = (Ret [ItemNode (make_named_node "Squeeze" ["x"] ["squeeze0"] "squeeze0"
                      [("axes", AVal (PyList (map py_of_item [Some 0])))])],
     []).
Proof.
  apply (proj2 (convert_squeeze_requires_axis example_squeeze
                  (example_kwargs 12 FLOAT) [] "squeeze0" ["x"]
                  (node_attrs example_squeeze) eq_refl) [Some 0]).
  reflexivity.
Defined.

(** The node [stack0] stacks [x] and [len] along axis 1. *)
Lemma convert_stack_nodes_witness :
  convert_stack example_stack (example_kwargs 12 FLOAT) []
  = (Ret [ItemNode (make_node "Unsqueeze" ["x"] ["stack0_unsqueeze0"]
                      [("axes", ints [1])]);
          ItemNode (make_node "Unsqueeze" ["len"] ["stack0_unsqueeze1"]
                      [("axes", ints [1])]);
          ItemNode (make_named_node "Concat"
                      ["stack0_unsqueeze0"; "stack0_unsqueeze1"]
                      ["stack0"] "stack0" [("axis", int_attr 1)])], []).
Proof.
  exact (proj1 (convert_stack_nodes example_stack (example_kwargs 12 FLOAT)
                  [] "stack0" ["x"; "len"] (node_attrs example_stack) 1
                  eq_refl eq_refl)).
Defined.

(** The sampler [sample0] with the shape [(2, 3)] is refused. *)
Lemma convert_multinomial_sample_size_witness :
  convert_multinomial example_multinomial (example_kwargs 12 FLOAT) []
  = (Raise (AttributeError
              "ONNX currently supports integer sample_size only"), []).
Proof.
  exact (@convert_multinomial_sample_size reference_libraries
           example_multinomial (example_kwargs 12 FLOAT) [] "sample0" ["x"]
           (node_attrs example_multinomial) Int32 INT32 [PyInt 2; PyInt 3]
           eq_refl eq_refl eq_refl eq_refl).
Defined.

(** The node [lsm0] with the temperature 2.0 is refused. *)
Lemma convert_logsoftmax_temperature_witness :
  convert_logsoftmax example_logsoftmax (example_kwargs 12 FLOAT) []
  = (Raise (AttributeError
              "LogSoftMax: ONNX supports only temperature=None"), []).
Proof.
  apply (proj1 (convert_logsoftmax_temperature example_logsoftmax
                  (example_kwargs 12 FLOAT) [] "lsm0" ["x"]
                  (node_attrs example_logsoftmax) (-1) eq_refl eq_refl)
           "2.0"); [reflexivity|discriminate].
Defined.

(** The pooling node [pool0] with the output size [(2, 2)] is refused. *)
Lemma convert_contrib_AdaptiveAvgPooling2D_output_size_witness :
  convert_contrib_AdaptiveAvgPooling2D example_adaptive_pool
    (example_kwargs 12 FLOAT) []
  = (Raise adaptive_pool_not_implemented, []).
Proof.
  exact (convert_contrib_AdaptiveAvgPooling2D_output_size
           example_adaptive_pool (example_kwargs 12 FLOAT) [] "pool0" "x" []
           (node_attrs example_adaptive_pool) [PyInt 2; PyInt 2]
           eq_refl eq_refl).
Defined.

(** The node [sum0] with the empty tuple of axes: the rule of [sum] leaves
    the axes out, the rule of [min] passes an empty list. *)
Lemma reduce_rules_axes_witness :
  convert_min example_sum (example_kwargs 12 FLOAT) []
  = (Ret [ItemNode (make_named_node "ReduceMin" ["x"] ["sum0"] "sum0"
                      [("axes", AVal (PyList [])); ("keepdims", int_attr 0)])],
     []) /\
  convert_sum example_sum (example_kwargs 12 FLOAT) []
  = (Ret [ItemNode (make_named_node "ReduceSum" ["x"] ["sum0"] "sum0"
                      [("keepdims", int_attr 0)])], []).
Proof.
  destruct (proj2 (reduce_rules_axes example_sum (example_kwargs 12 FLOAT) []
                     "sum0" ["x"] (node_attrs example_sum) eq_refl)
              [] eq_refl) as (Hmin & _ & _ & _ & Hsum).
  split; [exact Hmin|exact Hsum].
Defined.

(** The node [transpose0] with the axes [(-1, 0)] gets the permutation
    [(1, 0)]. *)
Lemma convert_transpose_drops_signs_witness :
  convert_transpose example_transpose (example_kwargs 12 FLOAT) []
  = (Ret [ItemNode (make_named_node "Transpose" ["x"] ["transpose0"]
                      "transpose0"
                      [("perm", AVal (PyTuple [PyInt 1; PyInt 0]))])], []).
Proof.
  exact (proj1 (convert_transpose_drops_signs example_transpose
                  (example_kwargs 12 FLOAT) [] "transpose0" ["x"]
                  (node_attrs example_transpose) eq_refl) [-1; 0] eq_refl).
Defined.

(** The kernel [(3, 3)] is read back; the padding [(-1, 1)] gives the
    default. *)
Lemma parse_helper_reads_tuples_witness :
  parse_helper (node_attrs example_convolution) "kernel" PyNone
  = Ret (PyTuple [PyInt 3; PyInt 3]) /\
  parse_helper (node_attrs example_convolution) "pad"
    (PyList [PyInt 0; PyInt 0])
  = Ret (PyList [PyInt 0; PyInt 0]).
Proof.
  split.
  - apply (proj1 (parse_helper_reads_tuples (node_attrs example_convolution)
                    "kernel" PyNone [3; 3] eq_refl)).
    + discriminate.
    + repeat constructor; lia.
  - apply (proj2 (parse_helper_reads_tuples (node_attrs example_convolution)
                    "pad" (PyList [PyInt 0; PyInt 0]) [-1; 1] eq_refl)).
    right. apply Exists_cons_hd. lia.
Defined.

(** The convolution [conv0] with the padding [(-1, 1)] gets four zeros as
    pads. *)
Lemma convert_convolution_attributes_witness :
  convert_convolution example_convolution (example_kwargs 12 FLOAT) []
  = (Ret [ItemNode (make_named_node "Conv" ["x"; "len"] ["conv0"] "conv0"
                      [("kernel_shape", AVal (PyList [PyInt 3; PyInt 3]));
                       ("strides", AVal (PyList [PyInt 1; PyInt 1]));
                       ("dilations", AVal (PyList [PyInt 1; PyInt 1]));
                       ("pads",
                        AVal (PyList [PyInt 0; PyInt 0; PyInt 0; PyInt 0]));
                       ("group", int_attr 1)])], []).
Proof.
  apply (proj2 (proj2 (convert_convolution_attributes example_convolution
                         (example_kwargs 12 FLOAT) [] "conv0" ["x"; "len"]
                         (node_attrs example_convolution) eq_refl)
                  [3; 3] [-1; 1] eq_refl ltac:(discriminate)
                  ltac:(repeat constructor; lia)
                  eq_refl eq_refl eq_refl eq_refl)).
  apply Exists_cons_hd. lia.
Defined.

(** The node [sa0] without an end computes the end from the shape of the
    data. *)
Lemma convert_slice_axis_end_witness :
  exists items,
    convert_slice_axis example_slice_axis (example_kwargs 12 FLOAT) []
    = (Ret items,
       [make_tensor "sa0_axis" INT64 [1] (PyList [PyInt 1]);
        make_tensor "sa0_begin" INT64 [1] (PyList [PyInt 0]);
        make_tensor "sa0_axis_plus_1" INT64 [1] (PyList [PyInt 2])]) /\
    length items = 6%nat.
Proof.
  eexists. split.
  - apply (proj1 (proj2 (@convert_slice_axis_end reference_libraries
                           example_slice_axis (example_kwargs 12 FLOAT) []
                           "sa0" "x" [] (node_attrs example_slice_axis)
                           eq_refl) 1 0 eq_refl eq_refl
                    ltac:(unfold in_int64; lia)
                    ltac:(unfold in_int64; lia))).
    + right. right. reflexivity.
    + unfold in_int64; lia.
  - reflexivity.
Defined.

(** The node [sc] splits the axis of length 4 in two parts of 2. *)
Lemma convert_slice_channel_split_witness :
  convert_slice_channel example_slice_channel (example_kwargs 12 FLOAT) []
  = (Ret [ItemNode (make_named_node "Split" ["x"]
                      ["sc_output0"; "sc_output1"] "sc"
                      [("axis", int_attr 1); ("split", ints [2; 2])])], []) /\
  (fold_right Z.add 0 [2; 2] = 4 <-> 4 `mod` 2 = 0).
Proof.
  destruct (proj1 (convert_slice_channel_split example_slice_channel
                     (example_kwargs 12 FLOAT) [] "sc" ["x"]
                     (node_attrs example_slice_channel) 2 1
                     eq_refl eq_refl eq_refl eq_refl)
              [2; 4] [] 4 ltac:(lia) eq_refl eq_refl)
    as (Hrun & _ & Hsum).
  split; [exact Hrun|exact Hsum].
Defined.

(** Two integers that fit are appended as one tensor; 2^63 does not
    fit. *)
Lemma create_tensor_int64_outcomes_witness :
  create_tensor (map PyInt [1; 2]) "shape" (DtName "int64") []
  = (Ret (ItemValue (make_tensor_value_info "shape" INT64 [2])),
     [make_tensor "shape" INT64 [2] (PyList [PyInt 1; PyInt 2])]) /\
  create_tensor (map PyInt [2 ^ 63]) "shape" (DtName "int64") []
  = (Raise OverflowError, []).
Proof.
  split.
  - apply (proj1 (@create_tensor_int64_outcomes reference_libraries
                    [1; 2] "shape" [])).
    repeat constructor; unfold in_int64; lia.
  - apply (proj2 (@create_tensor_int64_outcomes reference_libraries
                    [2 ^ 63] "shape" [])).
    apply Exists_cons_hd. unfold in_int64. lia.
Defined.

(** The softmax node [sm1] with two inputs and no [use_length] is refused
    after its temperature constant was appended. *)
Lemma convert_softmax_without_length_witness :
  exists constant,
    convert_softmax example_softmax_no_length (example_kwargs 12 FLOAT) []
    = (Raise (NotImplementedError
                "use_length must be true when both data and length are paased in."),
       [constant]) /\
    t_name constant = "sm1_tmp".
Proof.
  destruct (@convert_softmax_without_length reference_libraries
              example_softmax_no_length (example_kwargs 12 FLOAT) []
              "sm1" "x" ["len"] (node_attrs example_softmax_no_length)
              (-1) Float32 24 128 eq_refl eq_refl eq_refl eq_refl eq_refl)
    as (ty & vals & _ & Hfail).
  eexists. split.
  - apply Hfail; discriminate.
  - reflexivity.
Defined.
